(* ===== verification/_CoqProject ===== *)
-Q . S2P
Prelude.v
Json.v
Queries.v
Settings.v
Executor.v
Aggregation.v
Selection.v
AppLoop.v
ArraySort.v
ViewReconciler.v
TableActions.v
TableColumns.v
Sidebar.v
AppView.v
TableCells.v
TableDialogs.v
TableView.v
AppShell.v
