(* ===== verification/Prelude.v ===== *)
(** * A verification development of MyWorkView, the multi-board data viewer

    The program (sources under [src/]) is a React application embedded in a
    work-management platform.  App.jsx ([src/unnamed/part_005]) loads the
    view settings from the host storage, lets the user pick boards and
    columns in a menu (App's handlers and components/Sidebar/Sidebar.jsx),
    fetches the columns and the items of the selected boards through
    [retry(() => queryMonday(q))] (hooks/useMondayAPI.jsx,
    [src/unnamed/part_001]; the documents of api/mondayQueries.js,
    [src/unnamed/part_000]), refreshes them every 20 seconds, and passes
    them to TaskTable.jsx ([src/unnamed/part_003]), which filters, sorts and
    renders the rows, fetches the persons' details and sends the rename and
    status mutations, after which App fetches everything again.

    ** Files, in dependency order, and what they model

    - [Prelude.v] (this file): the [js_scope] notations, the JavaScript
      string and array primitives the code calls ([includes], [trim],
      [join], [filter] by inequality), the [js] and [js_rw] hint databases,
      and shared lemmas on strings, lists and [fold_left].
    - [Json.v]: [JSON.parse] and [JSON.stringify] over byte strings, with
      numbers kept exact, property access, truthiness and [String(v)].
    - [Queries.v]: every document builder of api/mondayQueries.js.
    - [Settings.v]: [loadSettings] and [saveSettingsAutomatically] of App.jsx
      (lines 158-250) against a host storage record that can fail.
    - [Executor.v]: a state-and-error monad [M] recording the calls sent and
      the sleeps; [queryMonday] (part_001, lines 9-40), [retry] (App.jsx,
      lines 22-44) and their composition [fetch_with_retry]; the network is a
      function of the call index and the query.
    - [Aggregation.v]: [fetchBoardData] (App.jsx, lines 83-155) returning the
      data App writes.
    - [Selection.v]: the board and column toggles, the columns offered for
      the selected boards ([allAvailableColumnsForSelectedBoards], lines
      366-378, a [Map] keyed by [SameValueZero] as an ordered list of
      entries) and [columnsToDisplayInTable] (App.jsx, lines 317-423).
    - [AppLoop.v]: the effects of App.jsx that start fetches (settings load,
      selection change, the interval of lines 270-290, item updates,
      select-all) as an inductive step relation over the loading flags and
      the tasks in flight, and an executable interpreter whose runs are
      runs of the relation ([run_sound]), used to exhibit reachable states.
    - [ArraySort.v]: [Array.prototype.sort] as a stable insertion sort, the
      [Comparator] class and the proof that a comparator sorts stably.
    - [ViewReconciler.v]: [filteredAndSortedBoardItems] (TaskTable.jsx,
      lines 454-619) over an abstract engine class [JsEngine]
      ([localeCompare], [Date], [parseFloat]), [handleFilterChange],
      [handleClearFilter] and [onSort], with an equivalence of filter states
      and [Proper] instances for setoid rewriting.
    - [TableActions.v]: [fetchAndCacheUser] and the effect calling it,
      [handleSaveEdit] and [handleStatusChange] (TaskTable.jsx).
    - [TableColumns.v]: [getStatusColorStyle], [columnsForTable] with the
      order of [Object.entries], and [uniquePeopleInBoardItems] with the key
      equality of a [Map].
    - [Sidebar.v]: App's menu handlers ([Module Menu]: lines 293-363,
      389-402, 441-449) and Sidebar.jsx ([Module Panel]: its own fetch and
      its render).
    - [AppView.v]: App's render (lines 459-534), composed with [AppLoop],
      [Selection] and [TableColumns].
    - [TableCells.v]: [RowRenderer] (TaskTable.jsx, lines 622-960), the
      editing keys and the effects that read the host context.
    - [TableDialogs.v] ([Module Cell]): the dialog state a cell and an
      avatar share ([cellDialogState], the hover-timeout reference and its
      pending timers, TaskTable.jsx lines 84-98 and 354-385), the handlers
      as the events of [dialog_step], the [open] conditions (743, 834, 876)
      and [renderUserDetailsDialogContent] (388-451).
    - [TableView.v]: [renderFilterDialogContent] (999-1141) and the
      handlers of its rows ([Module FilterDialog]), [HeaderRenderer]
      (1144-1204, [Module Header]), and what [TaskTable] returns (1206-1241)
      with the My Tasks button and the hooks of a render ([Module Table]).
    - [AppShell.v]: the sidebar panel App renders with the props it passes
      to Sidebar (App.jsx lines 542-571), composed with the toggles of
      [Selection]; [sidebar_dispatch] sends each callback the Sidebar calls
      to App's handler of [Sidebar.Menu]; and the effect on the page body
      (451-458).

    ** The theorems

    - Executor: exact call and sleep logs of [queryMonday], [retry] and
      their composition when the server rate-limits, rejects or fails
      transiently ([queryMonday_rate_limited], [retry_exhausted],
      [fetch_with_retry_rate_limited]), and bounds on the number of calls
      ([fetch_with_retry_calls_within]).
    - Aggregation: the result of [fetchBoardData] on success, without
      columns, and when an item query fails (fail fast; the board map is
      already replaced).
    - Loop: invariants over all reachable states (no fetch while the
      settings load, no spinner once nothing is in flight), the conditions
      under which a poll starts, and runs showing overlapping polls, a poll
      and the table during a foreground fetch, and a stale response.
    - View: sortedness and stability for the comparators that are total
      preorders, counterexamples for date and person sorts, the [none] sort
      state, the status filter of the specification, the person filter on
      the API's cell values (kind and id of each reference), and the
      equivalence of filter states after the handlers.
    - Settings, queries, selection, columns, actions, menu and cells: round
      trips (settings, column ids, item names), error paths (corrupted
      settings, rejected mutations, failing menu fetches, the context),
      the first column of each id winning in the column list, the user
      queries sent once per reference, and the shape of a row.
    - Types and termination: every item [fetchBoardData] stores is an
      object tagged with a selected board ([fetchBoardData_items_typed]);
      the parser's fuel is enough ([parse_fuel_enough]).
    - Dialogs: the hover-timer invariant [timers_ok] and the one handler
      that breaks it, the user dialog staying open under it, the user
      dialog of a cached user never opening (string and numeric ids
      compared with [===]), the stale timer that closes a status dialog,
      and what the avatar and its dialog show for a person not yet cached.
    - Filter dialog, header, table and shell: a click on a filter row
      flips exactly the rows of its value, a click on a checkbox appends
      twice, Clear Filter unchecks all, one sort key at a time, My Tasks
      twice gives back the table, a mounted [TaskTable] always calls the
      same hooks, and a click on a field of the sidebar flips that field;
      Select All Fields checks every listed field, Deselect All none, and
      no sequence of Sidebar callbacks fetches or changes the board list
      of the menu ([run_sidebar_no_fetch]).

    ** Bounds and fuel

    [queryMonday] and [retry] recurse on their retry budgets (3 and 5 by
    default), which are [nat]s, so both terminate structurally.  [parse]
    gives [parse_value] the fuel [2 * length s + 1]: a value spends at most
    two units ([parse_value], then [parse_elements] or [parse_members]) per
    character it consumes, and every rest a parser returns is shorter than
    its input ([parse_rest_length]).  [parse_fuel_enough] proves that any
    larger fuel gives the same answer, so [parse] is the result of the
    unbounded recursive descent.  [digits_of_N] and [number_to_string] use
    the bit size of their argument as fuel, which bounds the number of
    decimal digits.  The timers of [TableDialogs] are numbered from 1, as
    browsers number them, so every timer id is truthy.

    ** What is not modelled

    Styles and the widgets of the UI kit (a rendered element is the data it
    shows and the handlers it calls), [console] logging, the ref of the
    menu button (it attaches a DOM node and changes no state), the unused
    [TableErrorState] of TaskTable.jsx, and the README files
    ([src/unnamed/part_002], [src/unnamed/part_004]), which hold no code.
    A click on a filter checkbox is modelled as its [onChange] followed by
    the [onClick] of its row, the order in which the click bubbles.  Strings are
    byte strings: [trim], [toLowerCase] and [toUpperCase] act on ASCII only,
    and [parse] refuses a [\u] escape above [0xFF], which [JSON.parse]
    accepts (the settings App writes never contain one).  The GraphQL
    errors [queryMonday] joins are taken to carry a [message] (the [map] of
    line 15 would print [undefined] for one that does not).  In
    [fetchAndCacheUser], a [users] value that is not an array but has a
    positive [length] (a string, an object with a numeric [length]) is
    treated as no user.
    Numbers are exact decimals, not doubles.  A fetch in flight is one task
    of [AppLoop] whose writes happen when it settles; the interleaving of
    its individual state writes with other events is not modelled.  The
    storage of [Settings] holds strings, so the branch of [loadSettings] for
    a stored value that is not a string is not reachable. *)

From stdpp Require Export base list strings gmap.
From Stdlib Require Export ZArith Lia.
From Stdlib Require Import Ascii.

Declare Scope js_scope.
Delimit Scope js_scope with js.
Open Scope js_scope.

(** ** JavaScript string primitives *)

(** [s.includes(pat)]: [pat] occurs in [s] at some position. *)
Fixpoint str_includes (s pat : string) : bool :=
  String.prefix pat s ||
  match s with
  | EmptyString => false
  | String _ s' => str_includes s' pat
  end.

(** [arr.includes(x)] on an array of strings. *)
Definition arr_includes (l : list string) (x : string) : bool :=
  existsb (String.eqb x) l.

Notation "l '∋?' x" := (arr_includes l x) (at level 70, no associativity) : js_scope.
Notation "s '⊒?' p" := (str_includes s p) (at level 70, no associativity) : js_scope.

(** JavaScript truthiness of a string: only the empty string is falsy. *)
Definition str_truthy (s : string) : bool := negb (String.eqb s "").

(** White space removed by [String.prototype.trim] (ASCII part). *)
Definition is_ws (c : Ascii.ascii) : bool :=
  match Ascii.nat_of_ascii c with
  | 9 | 10 | 11 | 12 | 13 | 32 => true
  | _ => false
  end.

Fixpoint trim_left (s : string) : string :=
  match s with
  | EmptyString => EmptyString
  | String c s' => if is_ws c then trim_left s' else s
  end.

Definition str_rev (s : string) : string :=
  String.string_of_list_ascii (rev (String.list_ascii_of_string s)).

(** [s.trim()]: white space removed at both ends. *)
Definition js_trim (s : string) : string := str_rev (trim_left (str_rev (trim_left s))).

(** [arr.join(sep)] on an array of strings. *)
Definition js_join (sep : string) (l : list string) : string := String.concat sep l.

(** [arr.filter(v => v !== x)] on an array of strings. *)
Definition arr_remove (l : list string) (x : string) : list string :=
  List.filter (fun v => negb (String.eqb v x)) l.

(** ** Automation *)

Create HintDb js.
Create Rewrite HintDb js_rw.

Ltac invc H := inversion H; subst; clear H.

(** Turn the boolean connectives of a hypothesis or goal into propositions. *)
Ltac bool_to_prop :=
  repeat match goal with
  | H : (_ && _)%bool = true |- _ => apply andb_true_iff in H as [? ?]
  | H : (_ || _)%bool = false |- _ => apply orb_false_iff in H as [? ?]
  | H : negb _ = true |- _ => apply negb_true_iff in H
  | H : negb _ = false |- _ => apply negb_false_iff in H
  | H : String.eqb _ _ = true |- _ => apply String.eqb_eq in H; subst
  end.

(** ** Lemmas on the primitives *)

Lemma arr_includes_spec (l : list string) (x : string) :
  arr_includes l x = true <-> x ∈ l.
Proof.
  unfold arr_includes. rewrite existsb_exists, list_elem_of_In.
  split.
  - intros (y & Hy & E). apply String.eqb_eq in E. by subst.
  - intros H. exists x. split; [done | apply String.eqb_refl].
Qed.

Lemma arr_includes_false (l : list string) (x : string) :
  arr_includes l x = false <-> x ∉ l.
Proof.
  rewrite <- arr_includes_spec. destruct (arr_includes l x); split; done.
Qed.

Lemma arr_includes_app (l1 l2 : list string) (x : string) :
  arr_includes (l1 ++ l2) x = arr_includes l1 x || arr_includes l2 x.
Proof. apply existsb_app. Qed.

Lemma arr_includes_nil (x : string) : arr_includes [] x = false.
Proof. done. Qed.

Lemma arr_remove_spec (l : list string) (x y : string) :
  y ∈ arr_remove l x <-> y ∈ l /\ y <> x.
Proof.
  unfold arr_remove. rewrite !list_elem_of_In, filter_In.
  rewrite negb_true_iff, String.eqb_neq. tauto.
Qed.

Lemma arr_remove_not_in (l : list string) (x : string) : x ∉ arr_remove l x.
Proof. rewrite arr_remove_spec. tauto. Qed.

Lemma arr_includes_singleton (v v' : string) : ([v] ∋? v') = String.eqb v' v.
Proof. cbn. by rewrite orb_false_r. Qed.

Lemma arr_includes_remove (l : list string) (x y : string) :
  (arr_remove l x ∋? y) = if String.eqb y x then false else l ∋? y.
Proof.
  destruct (String.eqb_spec y x) as [->|Hne].
  - apply arr_includes_false, arr_remove_not_in.
  - apply Bool.eq_iff_eq_true. rewrite !arr_includes_spec, arr_remove_spec. tauto.
Qed.

#[export] Hint Rewrite arr_includes_app arr_includes_nil : js_rw.
#[export] Hint Resolve arr_remove_not_in : js.

(** [String.append] is [simpl never] under stdpp: its two equations. *)
Lemma str_append_nil_l (b : string) : ("" +:+ b)%string = b.
Proof. done. Qed.

Lemma str_append_cons (x : Ascii.ascii) (a b : string) :
  (String x a +:+ b)%string = String x (a +:+ b).
Proof. done. Qed.

#[export] Hint Rewrite str_append_nil_l str_append_cons : js_rw.

Lemma str_append_assoc (a b c : string) :
  (a +:+ (b +:+ c))%string = ((a +:+ b) +:+ c)%string.
Proof. induction a as [|x a IH]; [done|]. by rewrite !str_append_cons, IH. Qed.

Lemma str_append_nil_r (a : string) : (a +:+ "")%string = a.
Proof. induction a as [|x a IH]; [done|]. by rewrite str_append_cons, IH. Qed.

(** [String.prefix] and [str_includes] in terms of concatenation. *)
Lemma prefix_spec (p s : string) :
  String.prefix p s = true <-> exists r, s = (p +:+ r)%string.
Proof.
  revert s. induction p as [|c p IH]; intros s; simpl.
  - split; [intros _; by exists s | intros _; by destruct s].
  - destruct s as [|d s]; simpl.
    + split; [discriminate | intros [r Hr]; discriminate].
    + destruct (Ascii.ascii_dec c d) as [->|Hne].
      * rewrite IH. split; intros [r Hr]; exists r; [by subst | by injection Hr].
      * split; [discriminate | intros [r Hr]; injection Hr; intros; congruence].
Qed.

Lemma str_includes_spec (s p : string) :
  str_includes s p = true <-> exists a b, s = (a +:+ p +:+ b)%string.
Proof.
  induction s as [|c s IH]; cbn [str_includes]; rewrite orb_true_iff, prefix_spec.
  - split.
    + intros [[r Hr] | ?]; [by exists ""%string, r | discriminate].
    + intros ([|? ?] & b & H); [left; by exists b | discriminate].
  - rewrite IH. split.
    + intros [[r Hr] | (a & b & H)].
      * by exists ""%string, r.
      * exists (String c a), b. by rewrite H, str_append_cons.
    + intros ([|d a] & b & H); autorewrite with js_rw in H.
      * left. by exists b.
      * injection H as -> ->. right. by exists a, b.
Qed.

Lemma str_includes_append_l (s t p : string) :
  str_includes s p = true -> str_includes (s +:+ t) p = true.
Proof.
  rewrite !str_includes_spec. intros (a & b & ->).
  exists a, (b +:+ t)%string. by rewrite <- !str_append_assoc.
Qed.

Lemma str_includes_empty (s : string) : str_includes s "" = true.
Proof. destruct s; done. Qed.

#[export] Hint Resolve str_includes_empty str_includes_append_l : js.

Lemma prefix_includes (p s : string) :
  String.prefix p s = true -> str_includes s p = true.
Proof. intros H. destruct s; cbn [str_includes]; by rewrite H. Qed.

Lemma str_includes_append_r (x b p : string) :
  str_includes b p = true -> str_includes (x +:+ b) p = true.
Proof.
  intros H. induction x as [|c x IH]; [done|].
  rewrite str_append_cons. cbn [str_includes]. by rewrite IH, orb_true_r.
Qed.

Lemma prefix_append_inv (p x y : string) :
  String.prefix p (x +:+ y) = true ->
  String.prefix p x = true \/ exists p', p = (x +:+ p')%string /\ String.prefix p' y = true.
Proof.
  revert p. induction x as [|c x IH]; intros p H.
  - right. by exists p.
  - destruct p as [|d p]; [by left|].
    rewrite str_append_cons in H. cbn in H.
    destruct (Ascii.ascii_dec d c) as [->|]; [|done].
    destruct (IH p H) as [Hp | (p' & -> & Hp')].
    + left. cbn. by destruct (Ascii.ascii_dec c c).
    + right. exists p'. by rewrite str_append_cons.
Qed.

Lemma prefix_head (c : Ascii.ascii) (q : string) :
  String.prefix (String c "") (String c q) = true.
Proof. destruct q; cbn; by destruct (Ascii.ascii_dec c c). Qed.

Lemma includes_head (c : Ascii.ascii) (q : string) :
  str_includes (String c q) (String c "") = true.
Proof. apply prefix_includes, prefix_head. Qed.

(** A pattern that contains no [';'] and does not start with a space cannot
    straddle the separator ["; "]: it occurs in a joined message exactly when
    it occurs in one of the parts. *)
Section JoinSeparator.

Variable p : string.
Hypothesis p_nonempty : p <> ""%string.
Hypothesis p_no_semicolon : str_includes p ";" = false.
Hypothesis p_no_leading_space : String.prefix " " p = false.

Lemma includes_sep_inv (a b : string) :
  str_includes (a +:+ "; " +:+ b) p = true ->
  str_includes a p = true \/ str_includes b p = true.
Proof.
  induction a as [|c a IH]; intros H.
  - right. destruct p as [|d q] eqn:Ep; [done|].
    autorewrite with js_rw in H. cbn in H.
    destruct (Ascii.ascii_dec d ";"%char) as [->|];
      [by rewrite includes_head in p_no_semicolon|].
    apply orb_true_iff in H as [H|H]; [done|].
    destruct (Ascii.ascii_dec d " "%char) as [->|];
      [by rewrite prefix_head in p_no_leading_space|].
    apply orb_true_iff in H as [H|H]; [done|exact H].
  - rewrite str_append_cons in H. cbn [str_includes] in H.
    apply orb_true_iff in H as [H|H].
    + rewrite <- str_append_cons in H.
      destruct (prefix_append_inv _ _ _ H) as [Hp | (p' & Ep & Hp')].
      * left. by apply prefix_includes.
      * destruct p' as [|d p'].
        -- left. apply prefix_includes. rewrite str_append_nil_r in Ep. subst p.
           clear. induction (String c a) as [|x s IHs]; cbn; [done|].
           destruct (Ascii.ascii_dec x x); [exact IHs | done].
        -- exfalso. autorewrite with js_rw in Hp'. cbn in Hp'.
           destruct (Ascii.ascii_dec d ";"%char) as [->|]; [|congruence].
           enough (Hc : str_includes p ";" = true) by congruence.
           rewrite Ep. apply str_includes_append_r, includes_head.
    + destruct (IH H) as [Ha|Hb]; [left|by right].
      cbn [str_includes]. by rewrite Ha, orb_true_r.
Qed.

Lemma str_includes_join (l : list string) :
  str_includes (js_join "; " l) p = existsb (fun m => str_includes m p) l.
Proof.
  induction l as [|m [|m' l] IH].
  - destruct p as [|d q]; [done|]. cbn. done.
  - cbn. by rewrite orb_false_r.
  - change (js_join "; " (m :: m' :: l)) with (m +:+ "; " +:+ js_join "; " (m' :: l))%string.
    change (existsb (fun m => str_includes m p) (m :: m' :: l))
      with (str_includes m p || existsb (fun m => str_includes m p) (m' :: l)).
    rewrite <- IH. apply Bool.eq_iff_eq_true. rewrite orb_true_iff. split.
    + apply includes_sep_inv.
    + intros [H|H]; [by apply str_includes_append_l|].
      by apply str_includes_append_r, (str_includes_append_r "; ").
Qed.

End JoinSeparator.

Lemma str_length_append (a b : string) :
  String.length (a +:+ b) = String.length a + String.length b.
Proof. induction a as [|c a IH]; [done|]. rewrite str_append_cons. cbn. by rewrite IH. Qed.

Lemma js_join_single (sep x : string) : js_join sep [x] = x.
Proof. done. Qed.

Lemma js_join_cons2 (sep x y : string) (l : list string) :
  js_join sep (x :: y :: l) = (x +:+ sep +:+ js_join sep (y :: l))%string.
Proof. done. Qed.

#[export] Hint Rewrite str_length_append js_join_single : js_rw.

(** ** Lists *)

Lemma list_filter_nil {A} (f : A -> bool) (l : list A) :
  (forall x, x ∈ l -> f x = false) -> List.filter f l = [].
Proof.
  induction l as [|y l IH]; intros H; [done|]. cbn.
  rewrite (H y (list_elem_of_here _ _)). apply IH. intros x Hx. apply H. by right.
Qed.

(** ** Byte-wise comparison of strings *)

Lemma string_compare_le_trans (a b c : string) :
  String.compare a b <> Gt -> String.compare b c <> Gt -> String.compare a c <> Gt.
Proof.
  revert b c. induction a as [|x a IH]; intros [|y b] [|z c]; cbn; try congruence.
  unfold Ascii.compare.
  destruct (N.compare_spec (Ascii.N_of_ascii x) (Ascii.N_of_ascii y)) as [Exy|Exy|Exy];
  destruct (N.compare_spec (Ascii.N_of_ascii y) (Ascii.N_of_ascii z)) as [Eyz|Eyz|Eyz];
  destruct (N.compare_spec (Ascii.N_of_ascii x) (Ascii.N_of_ascii z)) as [Exz|Exz|Exz];
  try congruence; try lia.
  apply IH.
Qed.

Lemma string_compare_antisym (a b : string) : String.compare b a = CompOpp (String.compare a b).
Proof. by rewrite String.compare_antisym. Qed.

Lemma existsb_ext {A} (f g : A -> bool) (l : list A) :
  (forall x, f x = g x) -> existsb f l = existsb g l.
Proof. intros H. induction l as [|x l IH]; cbn; [done|]. by rewrite H, IH. Qed.

Lemma forallb_ext {A} (f g : A -> bool) (l : list A) :
  (forall x, f x = g x) -> forallb f l = forallb g l.
Proof. intros H. induction l as [|x l IH]; cbn; [done|]. by rewrite H, IH. Qed.

Lemma Z_compare_mul_r (a b p : Z) : (0 < p -> Z.compare (a * p) (b * p) = Z.compare a b)%Z.
Proof.
  intros Hp. destruct (Z.compare_spec a b) as [->|Hlt|Hgt].
  - apply Z.compare_refl.
  - apply Z.compare_lt_iff. nia.
  - apply Z.compare_gt_iff. nia.
Qed.

Lemma NoDup_list_filter {A} (f : A -> bool) (l : list A) : NoDup l -> NoDup (List.filter f l).
Proof.
  induction 1 as [|x l Hx Hnd IH]; cbn; [constructor|]. destruct (f x); [|done].
  constructor; [|done]. intros Hin%list_elem_of_In. apply filter_In in Hin as [Hin _].
  apply Hx, list_elem_of_In, Hin.
Qed.

Lemma list_filter_all_true {A} (f : A -> bool) (l : list A) :
  (forall x, x ∈ l -> f x = true) -> List.filter f l = l.
Proof.
  induction l as [|x l IH]; intros H; cbn; [done|].
  rewrite (H x) by (by left). f_equal. apply IH. intros y Hy. apply H. by right.
Qed.

Lemma elem_of_concat_map {A B} (f : A -> list B) (l : list A) (x : B) :
  x ∈ concat (map f l) <-> exists y, y ∈ l /\ x ∈ f y.
Proof.
  rewrite list_elem_of_In, in_concat. split.
  - intros (xs & Hxs & Hx). apply in_map_iff in Hxs as (y & <- & Hy).
    exists y. by rewrite !list_elem_of_In.
  - intros (y & Hy & Hx). exists (f y). split; [|by apply list_elem_of_In].
    apply in_map. by apply list_elem_of_In.
Qed.

(** A property that every step of a [fold_left] keeps holds at its end. *)
Lemma fold_left_preserve {A B} (f : A -> B -> A) (P : A -> Prop) (l : list B) (a : A) :
  (forall a b, b ∈ l -> P a -> P (f a b)) -> P a -> P (fold_left f l a).
Proof.
  revert a. induction l as [|x l IH]; intros a Hf Ha; cbn; [done|].
  apply IH; [intros; apply Hf; [by right|done] | apply Hf; [left|done]].
Qed.

(** ... and so does one that some step establishes. *)
Lemma fold_left_establish {A B} (f : A -> B -> A) (P : A -> Prop) (l : list B) (a : A) (b : B) :
  (forall a b, b ∈ l -> P a -> P (f a b)) -> b ∈ l -> (forall a, P (f a b)) -> P (fold_left f l a).
Proof.
  revert a. induction l as [|x l IH]; intros a Hf Hb Hest; [by apply not_elem_of_nil in Hb|].
  cbn. apply elem_of_cons in Hb as [->|Hb].
  - apply fold_left_preserve; [intros; apply Hf; [by right|done] | apply Hest].
  - apply IH; [intros; apply Hf; [by right|done] | done | done].
Qed.
