(* ===== verification/Json.v ===== *)
(** * JSON values, [JSON.stringify] and [JSON.parse]

    The code parses JSON in four places (the person and link column values,
    the status column's [settings_str], the stored settings) and prints it in
    two (the stored settings, the mutation payloads of the query builder).
    This file models the platform's [JSON] object over byte strings:
    - [json]: the values; a number is kept exactly as [m * 10^e] (no rounding
      to a double), an object as the list of its members in source order;
    - [stringify]: [JSON.stringify] (QuoteJSONString for strings,
      Number::toString for numbers);
    - [parse]: [JSON.parse], a recursive-descent parser with fuel, and the
      proof that its fuel is enough ([parse_fuel_enough]);
    - [jget], [js_truthy], [js_to_string]: property access, truthiness and
      [String(v)] on parsed values.
    The round trip [parse (stringify v) = Some v] is proved for values
    without numbers (those the code prints: settings, strings). *)

From S2P Require Import Prelude.
From Stdlib Require Import Ascii.

Local Set Warnings "-register-all".

Inductive json :=
| JNull
| JBool (b : bool)
| JNum (m : Z) (e : Z)
| JStr (s : string)
| JArr (l : list json)
| JObj (fields : list (string * json)).

(** An induction principle that reaches the elements of arrays and the
    members of objects. *)
Section JsonInd.
Variable P : json -> Prop.
Hypothesis HNull : P JNull.
Hypothesis HBool : forall b, P (JBool b).
Hypothesis HNum : forall m e, P (JNum m e).
Hypothesis HStr : forall s, P (JStr s).
Hypothesis HArr : forall l, Forall P l -> P (JArr l).
Hypothesis HObj : forall fs, Forall (fun kv => P (snd kv)) fs -> P (JObj fs).

Fixpoint json_ind' (v : json) : P v :=
  match v with
  | JNull => HNull
  | JBool b => HBool b
  | JNum m e => HNum m e
  | JStr s => HStr s
  | JArr l => HArr l ((fix go (l : list json) : Forall P l :=
                         match l with
                         | [] => List.Forall_nil _
                         | x :: l' => List.Forall_cons _ x l' (json_ind' x) (go l')
                         end) l)
  | JObj fs => HObj fs ((fix go (fs : list (string * json)) : Forall (fun kv => P (snd kv)) fs :=
                           match fs with
                           | [] => List.Forall_nil _
                           | kv :: fs' => List.Forall_cons _ kv fs' (json_ind' (snd kv)) (go fs')
                           end) fs)
  end.
End JsonInd.

(** ** Characters *)

Definition ch (n : nat) : ascii := ascii_of_nat n.
Definition dq : ascii := ch 34.
Definition bslash : ascii := ch 92.
Definition str1 (c : ascii) : string := String c EmptyString.

Definition is_digit (c : ascii) : bool :=
  (48 <=? nat_of_ascii c) && (nat_of_ascii c <=? 57).

Definition hex_char (n : nat) : ascii :=
  if n <? 10 then ch (48 + n) else ch (87 + n).

(** ** [JSON.stringify] *)

(** One character of a string literal (QuoteJSONString). *)
Definition escape_char (c : ascii) : string :=
  let n := nat_of_ascii c in
  if n =? 34 then String bslash (str1 dq)
  else if n =? 92 then String bslash (str1 bslash)
  else if n =? 8 then String bslash "b"
  else if n =? 12 then String bslash "f"
  else if n =? 10 then String bslash "n"
  else if n =? 13 then String bslash "r"
  else if n =? 9 then String bslash "t"
  else if n <? 32 then String bslash (String "u" (String "0" (String "0"
         (String (hex_char (n / 16)) (str1 (hex_char (n mod 16)))))))
  else str1 c.

Fixpoint escape (s : string) : string :=
  match s with
  | EmptyString => EmptyString
  | String c s' => escape_char c +:+ escape s'
  end.

Definition quote (s : string) : string := String dq (escape s +:+ str1 dq).

(** Decimal digits of a natural number, most significant first. *)
Fixpoint digits_rev_fuel (fuel : nat) (n : N) : string :=
  match fuel with
  | O => EmptyString
  | S f => let d := N.to_nat (n mod 10) in
           let rest := (n / 10)%N in
           String (ch (48 + d)) (if N.eqb rest 0 then EmptyString else digits_rev_fuel f rest)
  end.

Definition digits_of_N (n : N) : string :=
  str_rev (digits_rev_fuel (S (N.size_nat n)) n).

Definition zeros (k : nat) : string := String.string_of_list_ascii (repeat "0"%char k).

(** Strip the trailing zeros of the mantissa: [m * 10^e] with [m] not a
    multiple of 10 (or [m = 0]). *)
Fixpoint normalize_fuel (fuel : nat) (m e : Z) : Z * Z :=
  match fuel with
  | O => (m, e)
  | S f => if (m =? 0)%Z then (0%Z, 0%Z)
           else if (m mod 10 =? 0)%Z then normalize_fuel f (m / 10) (e + 1)
           else (m, e)
  end.

Definition exponent_part (x : Z) : string :=
  String "e" ((if (x <? 0)%Z then "-" else "+") +:+ digits_of_N (Z.to_N (Z.abs x))).

(** Number::toString(10) applied to the exact value [m * 10^e]. *)
Definition number_to_string (m e : Z) : string :=
  let '(m', e') := normalize_fuel (S (Z.to_nat (Z.log2_up (Z.abs m)))) m e in
  if (m' =? 0)%Z then "0" else
  let s := digits_of_N (Z.to_N (Z.abs m')) in
  let k := Z.of_nat (String.length s) in
  let n := (k + e')%Z in
  let body :=
    if ((k <=? n) && (n <=? 21))%Z then s +:+ zeros (Z.to_nat (n - k))
    else if ((0 <? n) && (n <=? 21))%Z then
      String.substring 0 (Z.to_nat n) s +:+ "." +:+ String.substring (Z.to_nat n) (Z.to_nat (k - n)) s
    else if ((-6 <? n) && (n <=? 0))%Z then "0." +:+ zeros (Z.to_nat (- n)) +:+ s
    else if (k =? 1)%Z then s +:+ exponent_part (n - 1)
    else String.substring 0 1 s +:+ "." +:+ String.substring 1 (Z.to_nat (k - 1)) s
         +:+ exponent_part (n - 1) in
  if (m' <? 0)%Z then "-" +:+ body else body.

Fixpoint stringify (v : json) : string :=
  match v with
  | JNull => "null"
  | JBool true => "true"
  | JBool false => "false"
  | JNum m e => number_to_string m e
  | JStr s => quote s
  | JArr l => "[" +:+ js_join "," (map stringify l) +:+ "]"
  | JObj fs =>
      "{" +:+ js_join "," (map (fun kv => quote (fst kv) +:+ ":" +:+ stringify (snd kv)) fs)
      +:+ "}"
  end.

(** ** [JSON.parse] *)

Definition is_json_ws (c : ascii) : bool :=
  match nat_of_ascii c with
  | 9 | 10 | 13 | 32 => true
  | _ => false
  end.

Fixpoint skip_ws (s : string) : string :=
  match s with
  | EmptyString => EmptyString
  | String c s' => if is_json_ws c then skip_ws s' else s
  end.

(** [s] without its prefix [p], if [p] is one. *)
Fixpoint strip_prefix (p s : string) : option string :=
  match p, s with
  | EmptyString, _ => Some s
  | String a p', String b s' => if Ascii.eqb a b then strip_prefix p' s' else None
  | String _ _, EmptyString => None
  end.

Definition hex_val (c : ascii) : option nat :=
  let n := nat_of_ascii c in
  if (48 <=? n) && (n <=? 57) then Some (n - 48)
  else if (97 <=? n) && (n <=? 102) then Some (n - 87)
  else if (65 <=? n) && (n <=? 70) then Some (n - 55)
  else None.

(** The character a two-character escape [\c] stands for. *)
Definition unescape_simple (c : ascii) : option ascii :=
  match nat_of_ascii c with
  | 34 => Some dq
  | 92 => Some bslash
  | 47 => Some (ch 47)
  | 98 => Some (ch 8)
  | 102 => Some (ch 12)
  | 110 => Some (ch 10)
  | 114 => Some (ch 13)
  | 116 => Some (ch 9)
  | _ => None
  end.

Definition cons_res {A} (c : ascii) (o : option (string * A)) : option (string * A) :=
  match o with
  | Some (t, r) => Some (String c t, r)
  | None => None
  end.

(** The characters of a string literal after its opening quote: its
    content and what follows the closing quote.  A [\u] escape above [0xFF]
    has no byte and is refused. *)
Fixpoint parse_chars (s : string) : option (string * string) :=
  match s with
  | EmptyString => None
  | String c s' =>
      if Ascii.eqb c dq then Some (EmptyString, s')
      else if Ascii.eqb c bslash then
        match s' with
        | EmptyString => None
        | String e s'' =>
            if Ascii.eqb e "u"%char then
              match s'' with
              | String h1 (String h2 (String h3 (String h4 r))) =>
                  match hex_val h1, hex_val h2, hex_val h3, hex_val h4 with
                  | Some a, Some b, Some c3, Some d =>
                      let code := a * 4096 + b * 256 + c3 * 16 + d in
                      if code <? 256 then cons_res (ch code) (parse_chars r) else None
                  | _, _, _, _ => None
                  end
              | _ => None
              end
            else match unescape_simple e with
                 | Some u => cons_res u (parse_chars s'')
                 | None => None
                 end
        end
      else if nat_of_ascii c <? 32 then None
      else cons_res c (parse_chars s')
  end.

Fixpoint span_digits (s : string) : string * string :=
  match s with
  | String c s' => if is_digit c then let '(d, r) := span_digits s' in (String c d, r)
                   else (EmptyString, s)
  | EmptyString => (EmptyString, EmptyString)
  end.

Fixpoint Z_of_digits_acc (acc : Z) (d : string) : Z :=
  match d with
  | EmptyString => acc
  | String c d' => Z_of_digits_acc (acc * 10 + Z.of_nat (nat_of_ascii c - 48))%Z d'
  end.

(** The integer part: ["0"], or a non-zero digit followed by digits. *)
Definition parse_int_part (s : string) : option (string * string) :=
  match s with
  | String c s' =>
      if Ascii.eqb c "0"%char then Some ("0", s')
      else if is_digit c then Some (span_digits s)
      else None
  | EmptyString => None
  end.

(** A JSON number: [-? int (. digits)? ([eE] [+-]? digits)?]. *)
Definition parse_number (s : string) : option (json * string) :=
  let '(neg, s1) := match s with
                    | String c s' => if Ascii.eqb c "-"%char then (true, s') else (false, s)
                    | EmptyString => (false, s)
                    end in
  match parse_int_part s1 with
  | None => None
  | Some (ip, s2) =>
      let frac := match s2 with
                  | String c s' => if Ascii.eqb c "."%char then
                                     let '(fd, r) := span_digits s' in
                                     if String.eqb fd "" then None else Some (fd, r)
                                   else Some (EmptyString, s2)
                  | EmptyString => Some (EmptyString, s2)
                  end in
      match frac with
      | None => None
      | Some (fd, s3) =>
          let expo := match s3 with
                      | String c s' =>
                          if Ascii.eqb c "e"%char || Ascii.eqb c "E"%char then
                            let '(eneg, s4) := match s' with
                                               | String d s'' =>
                                                   if Ascii.eqb d "-"%char then (true, s'')
                                                   else if Ascii.eqb d "+"%char then (false, s'')
                                                   else (false, s')
                                               | EmptyString => (false, s')
                                               end in
                            let '(ed, r) := span_digits s4 in
                            if String.eqb ed "" then None
                            else Some ((if eneg then -1 else 1) * Z_of_digits_acc 0 ed, r)%Z
                          else Some (0%Z, s3)
                      | EmptyString => Some (0%Z, s3)
                      end in
          match expo with
          | None => None
          | Some (x, s5) =>
              let mant := Z_of_digits_acc 0 (ip +:+ fd) in
              Some (JNum (if neg then - mant else mant)%Z (x - Z.of_nat (String.length fd))%Z, s5)
          end
      end
  end.

Definition opt_map {A B} (f : A -> B) (o : option A) : option B :=
  match o with Some a => Some (f a) | None => None end.

(** A value, the elements of an array after its [[], the members of an
    object after its [{]; [fuel] bounds the nesting of the calls. *)
Fixpoint parse_value (fuel : nat) (s : string) {struct fuel} : option (json * string) :=
  match fuel with
  | O => None
  | S f =>
      match skip_ws s with
      | EmptyString => None
      | String c r as t =>
          if Ascii.eqb c "n"%char then opt_map (fun r' => (JNull, r')) (strip_prefix "null" t)
          else if Ascii.eqb c "t"%char then opt_map (fun r' => (JBool true, r')) (strip_prefix "true" t)
          else if Ascii.eqb c "f"%char then opt_map (fun r' => (JBool false, r')) (strip_prefix "false" t)
          else if Ascii.eqb c dq then opt_map (fun xr => (JStr (fst xr), snd xr)) (parse_chars r)
          else if Ascii.eqb c "["%char then
            match skip_ws r with
            | String d r' =>
                if Ascii.eqb d "]"%char then Some (JArr [], r')
                else opt_map (fun lr => (JArr (fst lr), snd lr)) (parse_elements f r)
            | EmptyString => None
            end
          else if Ascii.eqb c "{"%char then
            match skip_ws r with
            | String d r' =>
                if Ascii.eqb d "}"%char then Some (JObj [], r')
                else opt_map (fun mr => (JObj (fst mr), snd mr)) (parse_members f r)
            | EmptyString => None
            end
          else if Ascii.eqb c "-"%char || is_digit c then parse_number t
          else None
      end
  end
with parse_elements (fuel : nat) (s : string) {struct fuel} : option (list json * string) :=
  match fuel with
  | O => None
  | S f =>
      match parse_value f s with
      | None => None
      | Some (v, r) =>
          match skip_ws r with
          | String c r' =>
              if Ascii.eqb c ","%char then
                opt_map (fun lr => (v :: fst lr, snd lr)) (parse_elements f r')
              else if Ascii.eqb c "]"%char then Some ([v], r')
              else None
          | EmptyString => None
          end
      end
  end
with parse_members (fuel : nat) (s : string) {struct fuel}
    : option (list (string * json) * string) :=
  match fuel with
  | O => None
  | S f =>
      match skip_ws s with
      | String q r =>
          if Ascii.eqb q dq then
            match parse_chars r with
            | None => None
            | Some (k, r1) =>
                match skip_ws r1 with
                | String colon r2 =>
                    if Ascii.eqb colon ":"%char then
                      match parse_value f r2 with
                      | None => None
                      | Some (v, r3) =>
                          match skip_ws r3 with
                          | String c r4 =>
                              if Ascii.eqb c ","%char then
                                opt_map (fun mr => ((k, v) :: fst mr, snd mr)) (parse_members f r4)
                              else if Ascii.eqb c "}"%char then Some ([(k, v)], r4)
                              else None
                          | EmptyString => None
                          end
                      end
                    else None
                | EmptyString => None
                end
            end
          else None
      | EmptyString => None
      end
  end.

(** [JSON.parse(s)] run with [fuel]: [None] is the [SyntaxError] it
    throws (or, with too little fuel, the end of the fuel). *)
Definition parse_with (fuel : nat) (s : string) : option json :=
  match parse_value fuel s with
  | Some (v, r) => if String.eqb (skip_ws r) "" then Some v else None
  | None => None
  end.

(** [JSON.parse(s)]: the fuel [2 * length s + 1] is enough, since every
    value consumes a character before its parser calls itself twice
    ([parse_fuel_enough] below). *)
Definition parse (s : string) : option json := parse_with (S (2 * String.length s)) s.

(** ** Reading parsed values *)

(** [v[k]]: the member [k] of an object (the last one when a key repeats,
    as [JSON.parse] keeps the last); [None] is [undefined]. *)
Definition jget (v : json) (k : string) : option json :=
  match v with
  | JObj fs => fold_left (fun acc kv => if String.eqb (fst kv) k then Some (snd kv) else acc) fs None
  | _ => None
  end.

(** JavaScript truthiness of a value and of a possibly undefined value. *)
Definition js_truthy (v : json) : bool :=
  match v with
  | JNull => false
  | JBool b => b
  | JNum m _ => negb (m =? 0)%Z
  | JStr s => str_truthy s
  | JArr _ | JObj _ => true
  end.

Definition js_truthy_opt (o : option json) : bool :=
  match o with Some v => js_truthy v | None => false end.

(** [String(v)]. *)
Fixpoint js_to_string (v : json) : string :=
  match v with
  | JNull => "null"
  | JBool true => "true"
  | JBool false => "false"
  | JNum m e => number_to_string m e
  | JStr s => s
  | JArr l => js_join "," (map (fun x => match x with JNull => "" | _ => js_to_string x end) l)
  | JObj _ => "[object Object]"
  end.

(** [SameValueZero], the key equality of a [Map] and what [===] is on
    primitives: numbers by value, strings by contents; two arrays or
    objects are two references, never equal. *)
Definition num_eq (m1 e1 m2 e2 : Z) : bool :=
  if (e1 <=? e2)%Z then (m1 =? m2 * 10 ^ (e2 - e1))%Z else (m1 * 10 ^ (e1 - e2) =? m2)%Z.

Definition same_value_zero (a b : json) : bool :=
  match a, b with
  | JNull, JNull => true
  | JBool x, JBool y => Bool.eqb x y
  | JNum m1 e1, JNum m2 e2 => num_eq m1 e1 m2 e2
  | JStr s, JStr t => String.eqb s t
  | _, _ => false
  end.

(** A [Map] key that may be [undefined] ([None]). *)
Definition svz_opt (a b : option json) : bool :=
  match a, b with
  | Some x, Some y => same_value_zero x y
  | None, None => true
  | _, _ => false
  end.

(** ** The round trip [parse (stringify v) = Some v] *)

Fixpoint no_numbers (v : json) : bool :=
  match v with
  | JNum _ _ => false
  | JArr l => forallb no_numbers l
  | JObj fs => forallb (fun kv => no_numbers (snd kv)) fs
  | _ => true
  end.

(** What the induction carries: a value is read back from its printed form
    with any fuel above the printed length. *)
Definition reads_back (v : json) : Prop :=
  no_numbers v = true ->
  forall f rest, String.length (stringify v) < f ->
  parse_value f (stringify v +:+ rest) = Some (v, rest).

Definition member_text (kv : string * json) : string :=
  quote (fst kv) +:+ ":" +:+ stringify (snd kv).

(** Each of the 256 characters is read back from its escaped form. *)
Lemma parse_chars_escape_char (c : ascii) (t : string) :
  parse_chars (escape_char c +:+ t) = cons_res c (parse_chars t).
Proof. destruct c as [[] [] [] [] [] [] [] []]; reflexivity. Qed.

Lemma parse_chars_quote (s rest : string) :
  parse_chars (escape s +:+ str1 dq +:+ rest) = Some (s, rest).
Proof.
  induction s as [|c s IH]; [done|].
  cbn [escape]. rewrite <- str_append_assoc, parse_chars_escape_char, IH. done.
Qed.

Lemma skip_ws_nonws (c : ascii) (t : string) :
  is_json_ws c = false -> skip_ws (String c t) = String c t.
Proof. intros H. cbn. by rewrite H. Qed.

(** The printed form of a value without numbers starts with [n], [t], [f],
    a quote, [[] or [{]. *)
Lemma stringify_head (v : json) :
  no_numbers v = true ->
  exists c t, stringify v = String c t /\ is_json_ws c = false /\
    Ascii.eqb c "]"%char = false /\ Ascii.eqb c "}"%char = false /\ Ascii.eqb c ","%char = false.
Proof.
  destruct v as [| [] | | | |]; cbn; intros H; try discriminate;
    do 2 eexists; (split; [reflexivity | repeat split; reflexivity]).
Qed.

Lemma skip_ws_stringify (v : json) (rest : string) :
  no_numbers v = true -> skip_ws (stringify v +:+ rest) = (stringify v +:+ rest)%string.
Proof.
  intros H. destruct (stringify_head v H) as (c & t & -> & Hc & _).
  rewrite str_append_cons. by apply skip_ws_nonws.
Qed.

Lemma parse_elements_stringify (l : list json) :
  l <> [] -> Forall reads_back l -> forallb no_numbers l = true ->
  forall g rest, String.length (js_join "," (map stringify l) +:+ "]") < g ->
  parse_elements g (js_join "," (map stringify l) +:+ "]" +:+ rest) = Some (l, rest).
Proof.
  induction l as [|v [|w l] IH]; intros Hne Hall Hnn g rest Hg; [done| |].
  all: destruct g as [|g]; [lia|].
  all: apply Forall_cons in Hall as [Hv Hall]; cbn [forallb] in Hnn;
    apply andb_true_iff in Hnn as [Hnv Hnn]; cbn [parse_elements].
  - cbn [map] in *. rewrite js_join_single in *. rewrite str_length_append in Hg.
    rewrite (Hv Hnv g) by (cbn in Hg; lia). by rewrite str_append_cons.
  - cbn [map] in *. rewrite js_join_cons2 in *. rewrite !str_length_append in Hg.
    rewrite <- !str_append_assoc. rewrite (Hv Hnv g) by (cbn in Hg; lia).
    rewrite str_append_cons, str_append_nil_l, skip_ws_nonws by reflexivity.
    cbn -[parse_elements js_join map].
    rewrite IH; [done|done|done|done|].
    rewrite str_length_append. cbn in Hg |- *. lia.
Qed.

Lemma js_join_cons (sep x : string) (l : list string) :
  js_join sep (x :: l) = (x +:+ match l with [] => "" | _ => sep +:+ js_join sep l end)%string.
Proof. destruct l; [by rewrite str_append_nil_r | done]. Qed.

(** The text of a non-empty list of printed values, or members, starts
    with the first character of its first item. *)
Lemma items_text_head {A} (pr : A -> string) (l : list A) (rest : string) :
  l <> [] ->
  (forall x, x ∈ l -> exists c t, pr x = String c t /\ is_json_ws c = false /\
                                 Ascii.eqb c "]"%char = false /\ Ascii.eqb c "}"%char = false) ->
  exists c t, (js_join "," (map pr l) +:+ rest)%string = String c t /\ is_json_ws c = false /\
    Ascii.eqb c "]"%char = false /\ Ascii.eqb c "}"%char = false.
Proof.
  destruct l as [|x l]; [done|]. intros _ Hh.
  destruct (Hh x (list_elem_of_here _ _)) as (c & t & Hx & Hc).
  cbn [map]. rewrite js_join_cons, Hx, <- str_append_assoc, str_append_cons.
  by do 2 eexists.
Qed.

Lemma member_text_pair (k : string) (v : json) :
  member_text (k, v) = String dq (escape k +:+ str1 dq +:+ ":" +:+ stringify v).
Proof. unfold member_text, quote. cbn [fst snd]. by rewrite str_append_cons, <- str_append_assoc. Qed.

Lemma js_join_cons_ne (sep x : string) (l : list string) :
  l <> [] -> js_join sep (x :: l) = (x +:+ sep +:+ js_join sep l)%string.
Proof. destruct l; [done|]. intros _. done. Qed.

(** One member [key:value] followed by [T] is read, then the parser looks
    at what follows it. *)
Lemma parse_members_step (k : string) (v : json) (g : nat) (T : string) :
  parse_value g (stringify v +:+ T) = Some (v, T) ->
  parse_members (S g) (String dq (escape k +:+ str1 dq +:+ ":" +:+ stringify v +:+ T)) =
  match skip_ws T with
  | String c r4 =>
      if Ascii.eqb c ","%char then opt_map (fun mr => ((k, v) :: fst mr, snd mr)) (parse_members g r4)
      else if Ascii.eqb c "}"%char then Some ([(k, v)], r4) else None
  | EmptyString => None
  end.
Proof.
  intros Hv. cbn [parse_members]. rewrite skip_ws_nonws by reflexivity.
  cbn -[parse_chars parse_value parse_members].
  rewrite parse_chars_quote, str_append_cons, str_append_nil_l, skip_ws_nonws by reflexivity.
  cbn -[parse_value parse_members]. by rewrite Hv.
Qed.

Lemma parse_members_stringify (fs : list (string * json)) :
  fs <> [] -> Forall (fun kv => reads_back (snd kv)) fs ->
  forallb (fun kv => no_numbers (snd kv)) fs = true ->
  forall g rest, String.length (js_join "," (map member_text fs) +:+ "}") < g ->
  parse_members g (js_join "," (map member_text fs) +:+ "}" +:+ rest) = Some (fs, rest).
Proof.
  induction fs as [|[k v] [|kv' fs] IH]; intros Hne Hall Hnn g rest Hg; [done| |].
  all: destruct g as [|g]; [lia|].
  all: apply Forall_cons in Hall as [Hv Hall]; cbn [forallb snd] in Hnn, Hv;
    apply andb_true_iff in Hnn as [Hnv Hnn].
  - change (map member_text [(k, v)]) with [member_text (k, v)] in Hg |- *.
    rewrite js_join_single, member_text_pair in Hg |- *. rewrite !str_length_append in Hg.
    rewrite (str_append_cons dq), <- !str_append_assoc, parse_members_step.
    + by rewrite str_append_cons, str_append_nil_l, skip_ws_nonws by reflexivity.
    + apply Hv; [done|]. cbn in Hg. rewrite !str_length_append in Hg. cbn in Hg. lia.
  - change (map member_text ((k, v) :: kv' :: fs))
      with (member_text (k, v) :: map member_text (kv' :: fs)) in Hg |- *.
    rewrite js_join_cons_ne, member_text_pair in Hg |- * by done.
    rewrite !str_length_append in Hg.
    rewrite <- !str_append_assoc, (str_append_cons dq), <- !str_append_assoc, parse_members_step.
    + rewrite str_append_cons, str_append_nil_l, skip_ws_nonws by reflexivity.
      cbn -[parse_members js_join map]. rewrite IH; [done|done|done|done|].
      rewrite str_length_append. cbn in Hg |- *. lia.
    + apply Hv; [done|]. cbn in Hg. rewrite !str_length_append in Hg. cbn in Hg. lia.
Qed.

Lemma stringify_head_all (l : list json) :
  forallb no_numbers l = true ->
  forall x, x ∈ l -> exists c t, stringify x = String c t /\ is_json_ws c = false /\
    Ascii.eqb c "]"%char = false /\ Ascii.eqb c "}"%char = false.
Proof.
  intros Hl x Hx. rewrite forallb_forall in Hl. rewrite list_elem_of_In in Hx.
  destruct (stringify_head x (Hl x Hx)) as (c & t & H & Hc). exists c, t. tauto.
Qed.

Lemma member_text_head_all (fs : list (string * json)) :
  forall kv, kv ∈ fs -> exists c t, member_text kv = String c t /\ is_json_ws c = false /\
    Ascii.eqb c "]"%char = false /\ Ascii.eqb c "}"%char = false.
Proof. intros [k v] _. rewrite member_text_pair. by do 2 eexists. Qed.

Lemma parse_value_stringify (v : json) : reads_back v.
Proof.
  induction v as [| b | m e | s | l IH | fs IH] using json_ind'; intros Hn f rest Hf;
    destruct f as [|f]; try lia.
  - reflexivity.
  - destruct b; reflexivity.
  - discriminate.
  - cbn [stringify]. unfold quote. rewrite str_append_cons, <- str_append_assoc.
    cbn [parse_value]. rewrite skip_ws_nonws by reflexivity.
    cbn -[parse_chars]. by rewrite parse_chars_quote.
  - destruct l as [|v l]; [reflexivity|].
    cbn [stringify] in Hf |- *. rewrite !str_length_append in Hf.
    rewrite str_append_cons, str_append_nil_l, str_append_cons, <- !str_append_assoc.
    cbn [parse_value]. rewrite skip_ws_nonws by reflexivity.
    cbn -[parse_elements js_join map].
    destruct (items_text_head stringify (v :: l) ("]" +:+ rest) ltac:(done)
                (stringify_head_all _ Hn)) as (c & t & Ht & Hws & Hb & _).
    rewrite Ht, skip_ws_nonws by done. cbn -[parse_elements js_join map]. rewrite Hb, <- Ht.
    rewrite parse_elements_stringify; [done|done|done|done|].
    rewrite str_length_append. cbn in Hf |- *. lia.
  - destruct fs as [|kv fs]; [reflexivity|].
    change (stringify (JObj (kv :: fs)))
      with ("{" +:+ js_join "," (map member_text (kv :: fs)) +:+ "}")%string in Hf |- *.
    rewrite !str_length_append in Hf.
    rewrite str_append_cons, str_append_nil_l, str_append_cons, <- !str_append_assoc.
    cbn [parse_value]. rewrite skip_ws_nonws by reflexivity.
    cbn -[parse_members js_join map].
    destruct (items_text_head member_text (kv :: fs) ("}" +:+ rest) ltac:(done)
                (member_text_head_all _)) as (c & t & Ht & Hws & _ & Hb).
    rewrite Ht, skip_ws_nonws by done. cbn -[parse_members js_join map]. rewrite Hb, <- Ht.
    rewrite parse_members_stringify; [done|done|done|done|].
    rewrite str_length_append. cbn in Hf |- *. lia.
Qed.

(** [JSON.parse(JSON.stringify(v))] gives back [v] for every value
    without numbers. *)
Theorem parse_stringify (v : json) :
  no_numbers v = true -> parse (stringify v) = Some v.
Proof.
  intros Hn. unfold parse, parse_with.
  rewrite <- (str_append_nil_r (stringify v)) at 2.
  rewrite (parse_value_stringify v Hn (S (2 * String.length (stringify v))) "") by lia.
  done.
Qed.

(** ** Fuel: every rest is shorter, and [2 * length s + 1] is enough *)

Lemma skip_ws_length (s : string) : String.length (skip_ws s) <= String.length s.
Proof. induction s as [|c s IH]; cbn; [lia|]. destruct (is_json_ws c); cbn; lia. Qed.

Lemma strip_prefix_length (p s r : string) :
  strip_prefix p s = Some r -> String.length r <= String.length s.
Proof.
  revert s. induction p as [|a p IH]; intros [|b s] H; cbn in H; simplify_eq; cbn; try lia.
  destruct (Ascii.eqb a b); [apply IH in H; lia | done].
Qed.

Lemma span_digits_length (s d r : string) :
  span_digits s = (d, r) -> String.length r <= String.length s.
Proof.
  revert d. induction s as [|c s IH]; intros d H; cbn in H; [by simplify_eq|].
  destruct (is_digit c); [|simplify_eq; cbn; lia].
  destruct (span_digits s) as [d' r'] eqn:E. simplify_eq. specialize (IH _ eq_refl). cbn; lia.
Qed.

Lemma cons_res_length {A} (c : ascii) (o : option (string * A)) (x : string) (r : A) (P : A -> Prop) :
  cons_res c o = Some (x, r) -> (forall x', o = Some (x', r) -> P r) -> P r.
Proof. destruct o as [[x' r']|]; cbn; intros H HP; simplify_eq; by eapply HP. Qed.

Lemma parse_chars_length (s x r : string) :
  parse_chars s = Some (x, r) -> String.length r < String.length s.
Proof.
  remember (String.length s) as n eqn:En. revert s x r En.
  induction n as [n IH] using lt_wf_ind; intros [|c s] x r -> H; cbn in H; [done|].
  repeat case_match; simplify_eq; cbn; try lia.
  all: eapply (cons_res_length _ _ _ _ (fun r => String.length r < _)); [done|].
  all: intros x' Hr; apply (fun Hlt => IH _ Hlt _ _ _ eq_refl) in Hr; cbn in *; lia.
Qed.

Lemma parse_int_part_length (s d r : string) :
  parse_int_part s = Some (d, r) -> String.length r < String.length s.
Proof.
  destruct s as [|c s]; cbn; [done|]. intros H. repeat case_match; simplify_eq; cbn; [lia|].
  destruct (span_digits s) as [d' r'] eqn:E. simplify_eq. apply span_digits_length in E. lia.
Qed.

Lemma parse_number_length (s r : string) (v : json) :
  parse_number s = Some (v, r) -> String.length r < String.length s.
Proof.
  unfold parse_number. intros H. destruct s as [|c s0]; cbn in H; [done|].
  repeat (case_match; simplify_eq/=);
    repeat match goal with
           | E : span_digits _ = _ |- _ => apply span_digits_length in E
           | E : parse_int_part _ = _ |- _ => apply parse_int_part_length in E
           end; simplify_eq/=; lia.
Qed.

(** Turns every "this helper returned that rest" hypothesis into a length
    fact, with [IH] for the recursive calls. *)
Local Ltac rest_facts IH :=
  repeat match goal with
  | p : (_ * _)%type |- _ => destruct p
  | E : strip_prefix _ _ = Some _ |- _ => apply strip_prefix_length in E
  | E : parse_chars _ = Some (_, _) |- _ => apply parse_chars_length in E
  | E : parse_number _ = Some (_, _) |- _ => apply parse_number_length in E
  | E : skip_ws ?x = _ |- _ =>
      let L := fresh "L" in pose proof (skip_ws_length x) as L; rewrite E in L; clear E
  | E : parse_value _ _ = Some (_, _) |- _ => apply (proj1 IH) in E
  | E : parse_elements _ _ = Some (_, _) |- _ => apply (proj1 (proj2 IH)) in E
  | E : parse_members _ _ = Some (_, _) |- _ => apply (proj2 (proj2 IH)) in E
  end; cbn in *.

(** What each parser leaves is shorter than what it was given. *)
Lemma parse_rest_length (n : nat) :
  (forall s v r, parse_value n s = Some (v, r) -> String.length r < String.length s) /\
  (forall s l r, parse_elements n s = Some (l, r) -> String.length r < String.length s) /\
  (forall s l r, parse_members n s = Some (l, r) -> String.length r < String.length s).
Proof.
  induction n as [|f IH]; [done|].
  split_and!; intros s x r H; cbn [parse_value parse_elements parse_members] in H; unfold opt_map in H;
    repeat (case_match; simplify_eq/=); rest_facts IH; lia.
Qed.

(** One more unit of fuel changes nothing once the fuel exceeds twice the
    length of the text: a value spends two units ([parse_value], then
    [parse_elements] or [parse_members]) per character it consumes. *)
Lemma parse_fuel_step (n : nat) :
  (forall s, 2 * String.length s < n -> parse_value (S n) s = parse_value n s) /\
  (forall s, S (2 * String.length s) < n -> parse_elements (S n) s = parse_elements n s) /\
  (forall s, S (2 * String.length s) < n -> parse_members (S n) s = parse_members n s).
Proof.
  induction n as [|f (IHv & IHe & IHm)]; [split_and!; intros; lia|].
  split_and!; intros s Hs;
    (* unfold both sides once, the left one at an opaque [g = S f] *)
    destruct (ex_intro (fun g => g = S f) (S f) eq_refl) as [g Hg]; rewrite <- Hg at 1;
    cbn [parse_value parse_elements parse_members]; subst g;
    repeat first [ rewrite IHv by (rest_facts (parse_rest_length f); lia)
                 | rewrite IHe by (rest_facts (parse_rest_length f); lia)
                 | rewrite IHm by (rest_facts (parse_rest_length f); lia)
                 | case_match ]; done.
Qed.

Lemma parse_value_fuel_stable (s : string) (n : nat) :
  2 * String.length s < n -> parse_value n s = parse_value (S (2 * String.length s)) s.
Proof.
  induction 1 as [|n Hn IH]; [done|].
  rewrite (proj1 (parse_fuel_step n)) by lia. exact IH.
Qed.

(** The fuel [parse] gives the parser is enough: for every text, running
    it with any larger fuel gives the same answer, so [parse] is the result
    of the unbounded recursive descent. *)
Theorem parse_fuel_enough (s : string) (n : nat) :
  2 * String.length s < n -> parse_with n s = parse s.
Proof. intros Hn. unfold parse, parse_with. by rewrite parse_value_fuel_stable. Qed.

Lemma same_value_zero_num_refl (m e : Z) : same_value_zero (JNum m e) (JNum m e) = true.
Proof. cbn. unfold num_eq. rewrite Z.leb_refl, Z.sub_diag, Z.pow_0_r, Z.mul_1_r. apply Z.eqb_refl. Qed.

Lemma same_value_zero_sym (a b : json) : same_value_zero a b = same_value_zero b a.
Proof.
  destruct a, b; cbn; try done.
  - by destruct b, b0.
  - unfold num_eq. destruct (Z.leb_spec e e0), (Z.leb_spec e0 e); try apply Z.eqb_sym; [|lia].
    assert (e = e0) as -> by lia. rewrite Z.sub_diag, Z.pow_0_r, !Z.mul_1_r. apply Z.eqb_sym.
  - apply String.eqb_sym.
Qed.

Lemma svz_opt_sym (a b : option json) : svz_opt a b = svz_opt b a.
Proof. destruct a, b; cbn; [apply same_value_zero_sym | done..]. Qed.
