(* ===== verification/Queries.v ===== *)
(** * The query builder

    The GraphQL documents of api/mondayQueries.js ([src/unnamed/part_000]),
    character for character: the template literals are the string literals
    below, an interpolation [${x}] is a concatenation, and the [JSON.stringify]
    calls of the mutations are [stringify] of [Json].

    A GraphQL string literal has the syntax of a JSON string (the same
    escapes), so the value an argument [value: "..."] carries is what
    [parse] reads from it.  The theorems show what the API receives: the
    column ids of the items query, and the payloads of the two mutations,
    which are JSON texts inside GraphQL strings and are decoded twice. *)

From S2P Require Import Prelude Json.
From Stdlib Require Import Ascii.

(** ** The documents *)

(** [GET_BOARDS_QUERY] (lines 7-14). *)
Definition GET_BOARDS_QUERY : string :=
  "
  query {
    boards {
      id
      name
    }
  }
".

(** [GET_BOARD_COLUMNS_QUERY] (lines 21-34). *)
Definition GET_BOARD_COLUMNS_QUERY : string :=
  "
  query {
    boards {
      id
      name
      columns {
        id
        title
        type
        settings_str
      }
    }
  }
".

(** [`"${id}"`]: a column id between double quotes, not escaped. *)
Definition column_id_literal (id : string) : string := str1 dq +:+ id +:+ str1 dq.

(** [[${columnIds.map(id => `"${id}"`).join(',')}]] (line 62). *)
Definition column_ids_list (columnIds : list string) : string :=
  "[" +:+ js_join "," (map column_id_literal columnIds) +:+ "]".

(** [GET_BOARD_ITEMS_WITH_COLUMNS_QUERY(boardId, columnIds)] (lines 44-73). *)
Definition GET_BOARD_ITEMS_WITH_COLUMNS_QUERY (boardId : string) (columnIds : list string) : string :=
  "
    query {
      boards(ids: [" +:+
  (boardId) +:+
  "]) {
        id
        name
        items_page(limit: 500) {
          items {
            id
            name
            board {
              id
              name
            }
            group {
              id
              title
            }
            column_values(ids: " +:+
  (column_ids_list columnIds) +:+
  ") {
              id
              text
              value
              # Removed display_value as it caused an API error
            }
          }
        }
      }
    }
  ".

(** [JSON.stringify(newName)] (line 85). *)
Definition item_name_payload (newName : string) : string := stringify (JStr newName).

(** [UPDATE_ITEM_NAME_QUERY(boardId, itemId, newName)] (lines 84-104). *)
Definition UPDATE_ITEM_NAME_QUERY (boardId itemId newName : string) : string :=
  let valuePayload := item_name_payload newName in
  "
    mutation {
      change_column_value(
        board_id: " +:+
  (boardId) +:+
  ",
        item_id: " +:+
  (itemId) +:+
  ",
        column_id: " +:+
  str1 dq +:+
  "name" +:+
  str1 dq +:+
  ",
        value: " +:+
  (stringify (JStr valuePayload)) +:+
  "
      ) {
        id
        name
        column_values {
          id
          text
        }
      }
    }
  ".

(** [UPDATE_COLUMN_VALUE_QUERY(boardId, itemId, columnId, valuePayloadString)]
    (lines 120-139). *)
Definition UPDATE_COLUMN_VALUE_QUERY (boardId itemId columnId valuePayloadString : string) : string :=
  "
    mutation {
      change_column_value(
        board_id: " +:+
  (boardId) +:+
  ",
        item_id: " +:+
  (itemId) +:+
  ",
        column_id: " +:+
  str1 dq +:+
  (columnId) +:+
  str1 dq +:+
  ",
        value: " +:+
  (stringify (JStr valuePayloadString)) +:+
  "
      ) {
        id
        name
        column_values {
          id
          text
          value
        }
      }
    }
  ".

(** [GET_USER_DETAILS_QUERY(userId)] (lines 148-157). *)
Definition GET_USER_DETAILS_QUERY (userId : string) : string :=
  "
  query {
    users(ids: [" +:+
  (userId) +:+
  "]) {
      id
      name
      photo_original
      email
    }
  }
".

(** ** Reading the arguments back *)

(** A character a JSON string literal holds as itself. *)
Definition plain_char (c : ascii) : bool :=
  negb (Ascii.eqb c dq) && negb (Ascii.eqb c bslash) && (32 <=? nat_of_ascii c).

Fixpoint plain (s : string) : bool :=
  match s with
  | EmptyString => true
  | String c s' => plain_char c && plain s'
  end.

(** What the API makes of [value: <literal>]: the GraphQL string, then the
    JSON text it holds. *)
Definition decode_twice (lit : string) : option json :=
  match parse lit with
  | Some (JStr t) => parse t
  | _ => None
  end.

Lemma escape_char_plain (c : ascii) : plain_char c = true -> escape_char c = str1 c.
Proof. destruct c as [[] [] [] [] [] [] [] []]; vm_compute; congruence. Qed.

Lemma escape_plain (s : string) : plain s = true -> escape s = s.
Proof.
  induction s as [|c s IH]; cbn; [done|]. intros [Hc Hs]%andb_prop.
  rewrite escape_char_plain, IH by done. unfold str1. by rewrite str_append_cons, str_append_nil_l.
Qed.

Lemma column_id_literal_quote (id : string) :
  plain id = true -> column_id_literal id = stringify (JStr id).
Proof.
  intros H. unfold column_id_literal, str1. cbn. unfold quote, str1.
  by rewrite str_append_cons, str_append_nil_l, escape_plain.
Qed.

Lemma no_numbers_strings (l : list string) : no_numbers (JArr (map JStr l)) = true.
Proof. induction l; cbn in *; auto. Qed.

(** C29: the column ids the items query asks for read back as the selected
    ids, in order, when no id holds a double quote, a backslash or a control
    character (the builder does not escape them). *)
Theorem column_ids_list_roundtrip (columnIds : list string) :
  Forall (fun id => plain id = true) columnIds ->
  parse (column_ids_list columnIds) = Some (JArr (map JStr columnIds)).
Proof.
  intros Hp. rewrite <- (parse_stringify (JArr (map JStr columnIds))) by apply no_numbers_strings.
  f_equal. unfold column_ids_list. cbn [stringify]. rewrite map_map. do 3 f_equal.
  apply map_ext_in. intros id Hid. apply column_id_literal_quote.
  rewrite Forall_forall in Hp. apply Hp. by apply list_elem_of_In.
Qed.

Lemma column_ids_list_roundtrip_witness :
  Forall (fun id => plain id = true) ["status"; "person"] /\
  parse (column_ids_list ["status"; "person"]) = Some (JArr [JStr "status"; JStr "person"]).
Proof.
  split; [repeat constructor|]. apply (column_ids_list_roundtrip ["status"; "person"]).
  repeat constructor.
Defined.

(** The [value] argument of a mutation built from the JSON text of [v]
    decodes to [v]. *)
Lemma mutation_value_decodes (v : json) :
  no_numbers v = true -> decode_twice (stringify (JStr (stringify v))) = Some v.
Proof. intros Hv. unfold decode_twice. rewrite parse_stringify by done. by apply parse_stringify. Qed.

(** the rename mutation sends the JSON text of the bare name: the API
    decodes its [value] to the string [newName], not to the object
    [{"text": newName}] the comment of the builder describes. *)
Theorem UPDATE_ITEM_NAME_value (newName : string) :
  decode_twice (stringify (JStr (item_name_payload newName))) = Some (JStr newName).
Proof. by apply mutation_value_decodes. Qed.
