(* ===== verification/Settings.v ===== *)
(** * The settings store

    The two effects of App.jsx ([src/unnamed/part_005]) that read and write
    the view settings in the host's key-value storage
    ([monday.storage.instance]) under the key ['appSettings']:
    - [loadSettings] (lines 158-226), run once on mount;
    - [saveSettingsAutomatically] (lines 229-250), run whenever the
      selection, the sidebar state or [isAppLoading] changes.

    The host is the record [host]: the stored strings, whether [removeItem]
    and [toast] exist, and the error each storage call rejects with, if any.
    The settings part of App's state is [settings_state]; the selections hold
    whatever [JSON.parse] gave (normally arrays of board and column ids), so
    they are [json] values.  The storage only holds strings here, so the
    branch of [loadSettings] for a value that is not a string is not
    reachable in the model. *)

From S2P Require Import Prelude Json.

(** ** The host storage *)

Record host := {
  h_items : gmap string string;
  h_can_remove : bool;
  h_can_toast : bool;
  h_get_error : option string;
  h_set_error : option string;
  h_remove_error : option string;
  h_toasts : list string;
}.

Definition with_items (h : host) (m : gmap string string) : host :=
  {| h_items := m; h_can_remove := h_can_remove h; h_can_toast := h_can_toast h;
     h_get_error := h_get_error h; h_set_error := h_set_error h;
     h_remove_error := h_remove_error h; h_toasts := h_toasts h |}.

Definition with_toast (h : host) (msg : string) : host :=
  {| h_items := h_items h; h_can_remove := h_can_remove h; h_can_toast := h_can_toast h;
     h_get_error := h_get_error h; h_set_error := h_set_error h;
     h_remove_error := h_remove_error h; h_toasts := h_toasts h ++ [msg] |}.

Definition settings_key : string := "appSettings".

(** [await getItem(key)]: the error message it rejects with, or
    [response.data.value] ([None] is [null]). *)
Definition storage_get (h : host) (k : string) : string + option string :=
  match h_get_error h with
  | Some m => inl m
  | None => inr (h_items h !! k)
  end.

(** [await setItem(key, value)]. *)
Definition storage_set (h : host) (k v : string) : string + host :=
  match h_set_error h with
  | Some m => inl m
  | None => inr (with_items h (<[k := v]> (h_items h)))
  end.

(** [await removeItem(key)]. *)
Definition storage_remove (h : host) (k : string) : string + host :=
  match h_remove_error h with
  | Some m => inl m
  | None => inr (with_items h (delete k (h_items h)))
  end.

(** ** App's settings state *)

Record settings_state := {
  selectedBoardIds : json;
  selectedColumnIds : json;
  isSidebarOpen : json;
  isAppLoading : bool;
  appError : option string;
}.

(** The initial [useState] values (lines 51-71). *)
Definition initial_settings : settings_state := {|
  selectedBoardIds := JArr []; selectedColumnIds := JArr []; isSidebarOpen := JBool false;
  isAppLoading := true; appError := None |}.

Definition set_selection (s : settings_state) (b c o : json) : settings_state :=
  {| selectedBoardIds := b; selectedColumnIds := c; isSidebarOpen := o;
     isAppLoading := isAppLoading s; appError := appError s |}.

Definition set_status (s : settings_state) (loading : bool) (err : option string) : settings_state :=
  {| selectedBoardIds := selectedBoardIds s; selectedColumnIds := selectedColumnIds s;
     isSidebarOpen := isSidebarOpen s; isAppLoading := loading; appError := err |}.

(** ** [loadSettings] *)

(** The [typeof x !== 'undefined'] chain of lines 180-186: the first of
    [isDialogOpen], [isPopoverOpen], [isSidebarOpen] present. *)
Definition stored_sidebar (v : json) : option json :=
  match jget v "isDialogOpen" with
  | Some o => Some o
  | None => match jget v "isPopoverOpen" with
            | Some o => Some o
            | None => jget v "isSidebarOpen"
            end
  end.

(** The body of the inner [try] once [JSON.parse] succeeded (lines 172-186):
    reading a property of [null] throws a [TypeError] ([None]). *)
Definition apply_settings (v : json) (s : settings_state) : option settings_state :=
  match v with
  | JNull => None
  | _ =>
      let b := match jget v "selectedBoardIds" with
               | Some x => if js_truthy x then x else selectedBoardIds s
               | None => selectedBoardIds s
               end in
      let c := match jget v "selectedColumnIds" with
               | Some x => if js_truthy x then x else selectedColumnIds s
               | None => selectedColumnIds s
               end in
      let o := match stored_sidebar v with Some x => x | None => isSidebarOpen s end in
      Some (set_selection s b c o)
  end.

(** The outer [catch] (lines 208-220): the error is shown, then [removeItem]
    is tried once more, its own failure being swallowed. *)
Definition load_failed (msg : string) (s : settings_state) (h : host) : settings_state * host :=
  (set_status s (isAppLoading s) (Some ("Error loading settings: " +:+ msg)),
   if h_can_remove h then
     match storage_remove h settings_key with inl _ => h | inr h' => h' end
   else h).

(** [loadSettings()] from its first line to its [finally]. *)
Definition loadSettings (s : settings_state) (h : host) : settings_state * host :=
  let s1 := set_status s true None in
  let '(s2, h2) :=
    match storage_get h settings_key with
    | inl m => load_failed m s1 h
    | inr None => (s1, h)
    | inr (Some str) =>
        if str_truthy str then
          match option_bind _ _ (fun v => apply_settings v s1) (parse str) with
          | Some s' => (s', h)
          | None =>
              if h_can_remove h then
                match storage_remove h settings_key with
                | inl m => load_failed m s1 h
                | inr h' => (s1, h')
                end
              else (s1, h)
          end
        else (s1, h)
    end in
  (set_status s2 false (appError s2), h2).

(** ** [saveSettingsAutomatically] *)

(** [JSON.stringify({ selectedBoardIds, selectedColumnIds, isSidebarOpen })]. *)
Definition settings_payload (s : settings_state) : string :=
  stringify (JObj [("selectedBoardIds", selectedBoardIds s);
                   ("selectedColumnIds", selectedColumnIds s);
                   ("isSidebarOpen", isSidebarOpen s)]).

(** The effect of lines 229-250: nothing while the app is loading. *)
Definition saveSettingsAutomatically (s : settings_state) (h : host) : host :=
  if isAppLoading s then h
  else match storage_set h settings_key (settings_payload s) with
       | inr h' => h'
       | inl m => if h_can_toast h then with_toast h ("Auto-save error: " +:+ m) else h
       end.

Definition ex_host : host := {|
  h_items := ∅; h_can_remove := true; h_can_toast := true; h_get_error := None;
  h_set_error := None; h_remove_error := None; h_toasts := [] |}.

Definition ex_settings : settings_state := {|
  selectedBoardIds := JArr [JStr "1001"; JStr "1002"]; selectedColumnIds := JArr [JStr "status"];
  isSidebarOpen := JBool true; isAppLoading := false; appError := None |}.

Definition ex_failing_host : host := {|
  h_items := ∅; h_can_remove := true; h_can_toast := true; h_get_error := Some "offline";
  h_set_error := Some "quota"; h_remove_error := None; h_toasts := [] |}.

(** ** Lemmas *)

Lemma str_truthy_stringify (v : json) : no_numbers v = true -> str_truthy (stringify v) = true.
Proof. intros Hv. destruct (stringify_head v Hv) as (c & t & -> & _). done. Qed.

(** A stored string that parses to a value the inner [try] accepts. *)
Lemma loadSettings_parsed (s s' : settings_state) (h : host) (str : string) (v : json) :
  storage_get h settings_key = inr (Some str) -> str_truthy str = true -> parse str = Some v ->
  apply_settings v (set_status s true None) = Some s' ->
  loadSettings s h = (set_status s' false (appError s'), h).
Proof. intros Hg Ht Hp Ha. unfold loadSettings. rewrite Hg, Ht, Hp. cbn. by rewrite Ha. Qed.

Lemma settings_payload_parse (s : settings_state) :
  no_numbers (selectedBoardIds s) = true -> no_numbers (selectedColumnIds s) = true ->
  no_numbers (isSidebarOpen s) = true ->
  parse (settings_payload s) =
  Some (JObj [("selectedBoardIds", selectedBoardIds s); ("selectedColumnIds", selectedColumnIds s);
              ("isSidebarOpen", isSidebarOpen s)]).
Proof. intros Hb Hc Ho. apply parse_stringify. cbn. by rewrite Hb, Hc, Ho. Qed.

(** ** Theorems *)

(** C5: the settings saved once loading is over are what the next
    [loadSettings] restores: the selections, when they are truthy (arrays
    always are), and the sidebar state, with no error shown and the storage
    left as saved. *)
Theorem settings_roundtrip (s : settings_state) (h : host) :
  isAppLoading s = false -> h_set_error h = None -> h_get_error h = None ->
  js_truthy (selectedBoardIds s) = true -> js_truthy (selectedColumnIds s) = true ->
  no_numbers (selectedBoardIds s) = true -> no_numbers (selectedColumnIds s) = true ->
  no_numbers (isSidebarOpen s) = true ->
  loadSettings initial_settings (saveSettingsAutomatically s h) =
  ({| selectedBoardIds := selectedBoardIds s; selectedColumnIds := selectedColumnIds s;
      isSidebarOpen := isSidebarOpen s; isAppLoading := false; appError := None |},
   saveSettingsAutomatically s h).
Proof.
  intros Hl Hs Hg Htb Htc Hb Hc Ho.
  erewrite (loadSettings_parsed initial_settings
    (set_selection (set_status initial_settings true None)
       (selectedBoardIds s) (selectedColumnIds s) (isSidebarOpen s)));
    [reflexivity | | | by apply settings_payload_parse |].
  - unfold saveSettingsAutomatically, storage_set, storage_get. rewrite Hl, Hs. cbn.
    rewrite Hg. by rewrite lookup_insert_eq.
  - apply str_truthy_stringify. cbn. by rewrite Hb, Hc, Ho.
  - cbn. by rewrite Htb, Htc.
Qed.

Lemma settings_roundtrip_witness :
  loadSettings initial_settings (saveSettingsAutomatically ex_settings ex_host) =
  (ex_settings, saveSettingsAutomatically ex_settings ex_host).
Proof. apply (settings_roundtrip ex_settings ex_host); reflexivity. Defined.

(** C13: a stored value that is not JSON, or is [null], is discarded: the
    state keeps its defaults, no error is shown, loading ends, and the
    value is removed from the storage. *)
Theorem loadSettings_corrupted (s : settings_state) (h : host) (str : string) :
  h_get_error h = None -> h_items h !! settings_key = Some str -> str_truthy str = true ->
  (parse str = None \/ parse str = Some JNull) ->
  h_can_remove h = true -> h_remove_error h = None ->
  loadSettings s h =
  (set_status s false None, with_items h (delete settings_key (h_items h))).
Proof.
  intros Hg Hk Ht Hp Hc Hr. unfold loadSettings, storage_get, storage_remove.
  rewrite Hg, Hk, Ht, Hc, Hr. by destruct Hp as [-> | ->].
Qed.

Lemma loadSettings_corrupted_witness :
  loadSettings initial_settings (with_items ex_host {[settings_key := "{oops"]}) =
  (set_status initial_settings false None,
   with_items (with_items ex_host {[settings_key := "{oops"]})
     (delete settings_key (h_items (with_items ex_host {[settings_key := "{oops"]})))).
Proof.
  apply (loadSettings_corrupted initial_settings (with_items ex_host {[settings_key := "{oops"]}) "{oops");
    try reflexivity.
  left. reflexivity.
Defined.

(** C36: while [isAppLoading] holds, the save effect writes nothing: the
    defaults cannot overwrite settings not loaded yet. *)
Theorem save_while_loading (s : settings_state) (h : host) :
  isAppLoading s = true -> saveSettingsAutomatically s h = h.
Proof. intros Hl. unfold saveSettingsAutomatically. by rewrite Hl. Qed.

Lemma save_while_loading_witness :
  isAppLoading initial_settings = true /\ saveSettingsAutomatically initial_settings ex_host = ex_host.
Proof. split; [reflexivity | by apply save_while_loading]. Defined.

(** A failed save leaves the storage as it was and reports the error
    in a toast, without touching the app state. *)
Theorem save_failure (s : settings_state) (h : host) (m : string) :
  isAppLoading s = false -> h_set_error h = Some m -> h_can_toast h = true ->
  saveSettingsAutomatically s h = with_toast h ("Auto-save error: " +:+ m).
Proof. intros Hl He Ht. unfold saveSettingsAutomatically, storage_set. by rewrite Hl, He, Ht. Qed.

(** When reading the storage fails, the error is shown (the full-panel
    error of App), loading ends, and the key is removed when possible. *)
Theorem loadSettings_get_failure (s : settings_state) (h : host) (m : string) :
  h_get_error h = Some m -> h_can_remove h = true -> h_remove_error h = None ->
  loadSettings s h =
  (set_status s false (Some ("Error loading settings: " +:+ m)),
   with_items h (delete settings_key (h_items h))).
Proof.
  intros Hg Hc Hr. unfold loadSettings, storage_get, load_failed, storage_remove.
  by rewrite Hg, Hc, Hr.
Qed.

Lemma save_failure_witness :
  saveSettingsAutomatically ex_settings ex_failing_host =
  with_toast ex_failing_host ("Auto-save error: " +:+ "quota").
Proof. apply (save_failure ex_settings ex_failing_host "quota"); reflexivity. Defined.

Lemma loadSettings_get_failure_witness :
  loadSettings initial_settings ex_failing_host =
  (set_status initial_settings false (Some ("Error loading settings: " +:+ "offline")),
   with_items ex_failing_host (delete settings_key (h_items ex_failing_host))).
Proof. apply (loadSettings_get_failure initial_settings ex_failing_host "offline"); reflexivity. Defined.
