(* ===== verification/Executor.v ===== *)
(** * The retrying request executor

    [queryMonday] of hooks/useMondayAPI.jsx ([src/unnamed/part_001]) and the
    [retry] helper of App.jsx ([src/unnamed/part_005], lines 22-44).

    An asynchronous computation is modelled as state passing over
    [exec_state]: the documents sent so far to [monday.api] and the
    delays awaited with [setTimeout], each in order.  The network is the
    section variable [net]: [net n q] is how the [n]-th call of the session
    to [monday.api] with document [q] settles (a response, possibly carrying
    a GraphQL [errors] list, or a rejection).  A rejected promise is the
    [Thrown] result.  The [try]/[catch] blocks are [try_catch]; a [return]
    of a not-awaited promise inside a [try] leaves the [try] first, which is
    modelled by the attempt returning the computation to run next. *)

From S2P Require Import Prelude.

(** ** Errors and responses *)

(** [error.response] as App.jsx's [retry] inspects it: the HTTP status and
    [error.response.errors[0].extensions.code]. *)
Record http_response := {
  resp_status : option Z;
  resp_first_ext_code : option string;
}.

(** A thrown JavaScript error: its [message] and its [response]. *)
Record js_error := {
  err_message : option string;
  err_response : option http_response;
}.

Inductive result (A : Type) :=
| Ok (a : A)
| Thrown (e : js_error).
Arguments Ok {A} a.
Arguments Thrown {A} e.

(** A resolved [monday.api] response: [response.errors] (absent, or a list
    of GraphQL error messages; GraphQL requires every error to carry a
    message) and [response.data]. *)
Record api_response (D : Type) := {
  r_errors : option (list string);
  r_data : D;
}.
Arguments r_errors {D} _.
Arguments r_data {D} _.

Record exec_state := {
  sent : list string;
  sleeps : list Z;
}.

(** The number of calls made so far. *)
Definition calls (st : exec_state) : nat := length (sent st).
Arguments calls : simpl never.

(** ** The monad of asynchronous computations *)

Definition M (A : Type) := exec_state -> result A * exec_state.

Definition ret {A} (a : A) : M A := fun st => (Ok a, st).
Definition throw {A} (e : js_error) : M A := fun st => (Thrown e, st).
Definition bind {A B} (c : M A) (k : A -> M B) : M B :=
  fun st => match c st with
            | (Ok a, st') => k a st'
            | (Thrown e, st') => (Thrown e, st')
            end.
Definition try_catch {A} (c : M A) (h : js_error -> M A) : M A :=
  fun st => match c st with
            | (Ok a, st') => (Ok a, st')
            | (Thrown e, st') => h e st'
            end.

(** [try { ... } catch (e) { ... }] where the handler needs the outcome:
    the settled result as a value. *)
Definition attempt {A} (c : M A) : M (result A) :=
  fun st => match c st with
            | (r, st') => (Ok r, st')
            end.

(** [await new Promise(res => setTimeout(res, delay))]. *)
Definition sleep (delay : Z) : M unit :=
  fun st => (Ok tt, {| sent := sent st; sleeps := sleeps st ++ [delay] |}).

Declare Scope exec_scope.
Delimit Scope exec_scope with exec.
Notation "x <- c ;; k" := (bind c (fun x => k))
  (at level 100, c at next level, right associativity) : exec_scope.
Notation "c ;;; k" := (bind c (fun _ => k))
  (at level 100, right associativity) : exec_scope.
Local Open Scope exec_scope.

(** [error.message.includes(...)] on an error without a message. *)
Definition type_error_includes : js_error :=
  {| err_message := Some "TypeError: Cannot read properties of undefined (reading 'includes')";
     err_response := None |}.

(** A [TypeError] the engine throws, with its message. *)
Definition type_error (msg : string) : js_error :=
  {| err_message := Some ("TypeError: " +:+ msg); err_response := None |}.

(** [new Error(response.errors.map(e => e.message).join('; '))]. *)
Definition query_error_of (errs : list string) : js_error :=
  {| err_message := Some (js_join "; " errs); err_response := None |}.

(** The classifier of useMondayAPI.jsx, line 15. *)
Definition rate_limit_msg (m : string) : bool :=
  str_includes m "Rate limit passed" || str_includes m "Rate limit exceeded".

(** The classifier of App.jsx's [retry], lines 30-36. *)
Definition is_transient (e : js_error) : bool :=
  match err_message e with
  | Some m => str_includes m "Concurrency limit exceeded"
              || str_includes m "Graphql validation errors"
  | None => false
  end
  || match err_response e with
     | Some r => match resp_status r with Some s => Z.eqb s 429 | None => false end
                 || match resp_first_ext_code r with
                    | Some c => String.eqb c "FIELD_LIMIT_EXCEEDED"
                    | None => false
                    end
     | None => false
     end.

Section Network.

Context {D : Type}.
Variable net : nat -> string -> result (api_response D).

(** [await monday.api(query, { variables })]. *)
Definition call_api (q : string) : M (api_response D) :=
  fun st => (net (calls st) q, {| sent := sent st ++ [q]; sleeps := sleeps st |}).

(** One pass through the body of [queryMonday]; [again] is the recursive
    call with [retries - 1] and [delay * 2], present when [retries > 0]. *)
Definition qm_attempt (query : string) (delay : Z) (again : option (M D)) : M (M D) :=
  try_catch
    (response <- call_api query ;;
     match r_errors response with
     | Some errs =>
         match existsb rate_limit_msg errs, again with
         | true, Some k => sleep delay ;;; ret k
         | _, _ => throw (query_error_of errs)
         end
     | None => ret (ret (r_data response))
     end)
    (fun error =>
       match err_message error with
       | None => throw type_error_includes
       | Some m =>
           match str_includes m "Rate limit passed", again with
           | true, Some k => sleep delay ;;; ret k
           | _, _ => throw error
           end
       end).

(** [queryMonday(query, variables, retries, delay)]. *)
Fixpoint queryMonday (query : string) (retries : nat) (delay : Z) : M D :=
  k <- qm_attempt query delay
         match retries with
         | O => None
         | S r => Some (queryMonday query r (delay * 2))
         end ;;
  k.

End Network.

(** [retry(fn, retries, delay, factor)] of App.jsx. *)
Fixpoint retry {A} (fn : M A) (retries : nat) (delay factor : Z) : M A :=
  k <- try_catch (a <- fn ;; ret (ret a))
         (fun error =>
            match retries with
            | S r => if is_transient error
                     then sleep delay ;;; ret (retry fn r (delay * factor) factor)
                     else throw error
            | O => throw error
            end) ;;
  k.

(** The defaults the code uses: [queryMonday(q)] is [queryMonday(q, {}, 3,
    500)] and App.jsx calls [retry(() => queryMonday(q))] with [retry]'s
    defaults [5, 2000, 2]. *)
Definition query_default {D} (net : nat -> string -> result (api_response D)) (q : string) : M D :=
  queryMonday net q 3 500.

Definition fetch_with_retry {D} (net : nat -> string -> result (api_response D)) (q : string) : M D :=
  retry (query_default net q) 5 2000 2.

(** ** Helpers: the state after a call and after a sleep *)

Definition tick (q : string) (st : exec_state) : exec_state :=
  {| sent := sent st ++ [q]; sleeps := sleeps st |}.
Definition slept (d : Z) (st : exec_state) : exec_state :=
  {| sent := sent st; sleeps := sleeps st ++ [d] |}.

(** The back-off schedule [delay, delay*factor, delay*factor^2, ...] of its
    first [n] waits. *)
Fixpoint backoff (delay factor : Z) (n : nat) : list Z :=
  match n with
  | O => []
  | S n' => delay :: backoff (delay * factor) factor n'
  end.

(** A computation makes between [lo] and [hi] calls to [monday.api]. *)
Definition calls_within {A} (c : M A) (lo hi : nat) : Prop :=
  forall st, calls st + lo <= calls (snd (c st)) <= calls st + hi.

(** ** Networks for the witnesses *)

Definition st0 : exec_state := {| sent := []; sleeps := [] |}.

(** Every call answers with a rate-limit error. *)
Definition net_rate_limited : nat -> string -> result (api_response nat) :=
  fun n _ => Ok {| r_errors := Some ["Rate limit exceeded"]; r_data := n |}.

(** Every call answers with a concurrency-limit error. *)
Definition net_concurrency : nat -> string -> result (api_response nat) :=
  fun n _ => Ok {| r_errors := Some ["Concurrency limit exceeded"]; r_data := n |}.

(** The first call is rejected at the transport level. *)
Definition net_rejecting (e : js_error) : nat -> string -> result (api_response nat) :=
  fun _ _ => Thrown e.

Definition http429 : js_error :=
  {| err_message := None; err_response := Some {| resp_status := Some 429%Z; resp_first_ext_code := None |} |}.

Definition exceeded_rejection : js_error :=
  {| err_message := Some "Rate limit exceeded"; err_response := None |}.

Definition fail_429 : M nat := fun st => (Thrown http429, tick "q" st).

Lemma backoff_length (delay factor : Z) (n : nat) : length (backoff delay factor n) = n.
Proof. revert delay. induction n; intros; cbn; auto. Qed.

Lemma calls_tick (q : string) (st : exec_state) : calls (tick q st) = S (calls st).
Proof. unfold calls, tick. cbn. rewrite length_app. cbn. lia. Qed.

Lemma calls_slept (d : Z) (st : exec_state) : calls (slept d st) = calls st.
Proof. done. Qed.

Lemma calls_sent (l : list string) (ds : list Z) : calls {| sent := l; sleeps := ds |} = length l.
Proof. done. Qed.

#[export] Hint Rewrite calls_tick calls_slept calls_sent (@length_app string) (@length_replicate string) : js_rw.

(** [n] more calls sending [q], then the waits [ds]. *)
Lemma tick_then_wait (q : string) (n : nat) (st : exec_state) (ds : list Z) (d : Z) :
  {| sent := sent (slept d (tick q st)) ++ replicate n q; sleeps := sleeps (slept d (tick q st)) ++ ds |} =
  {| sent := sent st ++ replicate (S n) q; sleeps := sleeps st ++ d :: ds |}.
Proof. cbn. by rewrite <- !app_assoc. Qed.

Lemma retry_unfold {A} (fn : M A) (retries : nat) (delay factor : Z) (st : exec_state) :
  retry fn retries delay factor st =
  match fn st with
  | (Ok a, st') => (Ok a, st')
  | (Thrown e, st') =>
      match retries with
      | S r => if is_transient e then retry fn r (delay * factor) factor (slept delay st')
               else (Thrown e, st')
      | O => (Thrown e, st')
      end
  end.
Proof.
  destruct retries; cbn; unfold bind, try_catch, ret, throw, sleep, slept;
    destruct (fn st) as [[a|e] st']; try done.
  by destruct (is_transient e).
Qed.

Section NetworkFacts.

Context {D : Type}.
Variable net : nat -> string -> result (api_response D).

Definition again_of (q : string) (retries : nat) (delay : Z) : option (M D) :=
  match retries with
  | O => None
  | S r => Some (queryMonday net q r (delay * 2))
  end.

Lemma queryMonday_unfold (q : string) (retries : nat) (delay : Z) (st : exec_state) :
  queryMonday net q retries delay st =
  match qm_attempt net q delay (again_of q retries delay) st with
  | (Ok k, st') => k st'
  | (Thrown e, st') => (Thrown e, st')
  end.
Proof. by destruct retries. Qed.

(** Every pass of [queryMonday]'s body makes exactly one call, and either
    hands over to the retry after one sleep, or settles. *)
Lemma qm_attempt_cases (q : string) (d : Z) (again : option (M D)) (st : exec_state) :
  (exists k, again = Some k /\ qm_attempt net q d again st = (Ok k, slept d (tick q st))) \/
  (exists x, qm_attempt net q d again st = (Ok (ret x), tick q st)) \/
  (exists e, qm_attempt net q d again st = (Thrown e, tick q st)).
Proof.
  unfold qm_attempt, try_catch, bind, call_api, sleep, ret, throw.
  destruct (net (calls st) q) as [[[errs|] x]|e]; cbn; repeat case_match; simplify_eq;
    first [by left; eexists | by right; left; eexists | by right; right; eexists].
Qed.

(** A response that reports a rate limit in its GraphQL [errors]. *)
Definition rate_limited (r : result (api_response D)) : Prop :=
  exists errs x, r = Ok {| r_errors := Some errs; r_data := x |} /\
                 existsb rate_limit_msg errs = true.

Lemma no_rate_limit_no_passed (errs : list string) :
  existsb rate_limit_msg errs = false ->
  str_includes (js_join "; " errs) "Rate limit passed" = false.
Proof.
  intros H. rewrite str_includes_join by done.
  induction errs as [|m errs IH]; [done|]. cbn in *.
  apply orb_false_iff in H as [Hm Hr]. unfold rate_limit_msg in Hm.
  apply orb_false_iff in Hm as [Hm _]. by rewrite Hm, IH.
Qed.

(** The calls and waits of [queryMonday]. *)
Lemma queryMonday_calls_and_waits_gen (q : string) (retries : nat) (delay : Z) (st : exec_state) :
  exists k, k <= retries /\
    snd (queryMonday net q retries delay st) =
    {| sent := sent st ++ replicate (S k) q; sleeps := sleeps st ++ backoff delay 2 k |}.
Proof.
  revert delay st. induction retries as [|r IH]; intros delay st;
    rewrite queryMonday_unfold;
    match goal with
    | |- context [qm_attempt net q delay ?a st] =>
        destruct (qm_attempt_cases q delay a st) as [(k & Hk & ->) | [(x & ->) | (e & ->)]]
    end;
    try (exists 0; split; [lia | cbn; by rewrite app_nil_r]).
  injection Hk as <-. destruct (IH (delay * 2)%Z (slept delay (tick q st))) as (k & Hk & Hs).
  exists (S k). split; [lia|]. rewrite Hs. apply tick_then_wait.
Qed.

(** [queryMonday] sends its document [k + 1] times for some
    [k <= retries], and between the calls it waits the first [k] delays of
    the doubling schedule. *)
Theorem queryMonday_calls_and_waits (q : string) (retries : nat) (delay : Z) (st : exec_state) :
  exists k, k <= retries /\
    snd (queryMonday net q retries delay st) =
    {| sent := sent st ++ replicate (S k) q; sleeps := sleeps st ++ backoff delay 2 k |}.
Proof. apply queryMonday_calls_and_waits_gen. Qed.

Corollary queryMonday_calls_within (q : string) (retries : nat) (delay : Z) :
  calls_within (queryMonday net q retries delay) 1 (S retries).
Proof.
  intros st. destruct (queryMonday_calls_and_waits_gen q retries delay st) as (k & Hk & ->).
  unfold calls. cbn. rewrite length_app. cbn. rewrite length_replicate. lia.
Qed.

(** The trace of [queryMonday] on a query whose every response reports a rate limit. *)
Lemma queryMonday_rate_limited_gen (q : string) (retries : nat) (delay : Z) (st : exec_state) :
  (forall n, calls st <= n -> rate_limited (net n q)) ->
  exists errs x,
    net (calls st + retries) q = Ok {| r_errors := Some errs; r_data := x |} /\
    queryMonday net q retries delay st =
    (Thrown (query_error_of errs),
     {| sent := sent st ++ replicate (S retries) q; sleeps := sleeps st ++ backoff delay 2 retries |}).
Proof.
  revert delay st. induction retries as [|r IH]; intros delay st Hnet;
    destruct (Hnet (calls st) (le_n _)) as (errs & x & Hq & Hrl);
    rewrite queryMonday_unfold; unfold qm_attempt, try_catch, bind, call_api;
    rewrite Hq; cbn; rewrite Hrl.
  - exists errs, x. rewrite Nat.add_0_r. split; [done|].
    cbn. destruct (js_join "; " errs ⊒? "Rate limit passed"); cbn; by rewrite app_nil_r.
  - destruct (IH (delay * 2)%Z (slept delay (tick q st))) as (errs' & x' & Hlast & Herr).
    { intros n Hn. apply Hnet. rewrite calls_slept, calls_tick in Hn. lia. }
    rewrite calls_slept, calls_tick in Hlast.
    exists errs', x'. split; [by rewrite Nat.add_succ_r|].
    unfold sleep, ret. etransitivity; [apply Herr|]. cbn. by rewrite <- !app_assoc.
Qed.

(** C10: a query whose every response reports a rate limit is attempted
    exactly [retries + 1] times, waits [delay, 2 delay, 4 delay, ...]
    between the attempts, and then rejects with the joined messages of its
    last response. *)
Theorem queryMonday_rate_limited (q : string) (retries : nat) (delay : Z) (st : exec_state) :
  (forall n, calls st <= n -> rate_limited (net n q)) ->
  exists errs x,
    net (calls st + retries) q = Ok {| r_errors := Some errs; r_data := x |} /\
    queryMonday net q retries delay st =
    (Thrown (query_error_of errs),
     {| sent := sent st ++ replicate (S retries) q; sleeps := sleeps st ++ backoff delay 2 retries |}).
Proof. apply queryMonday_rate_limited_gen. Qed.

(** A response with errors that report no rate limit settles [queryMonday] at once. *)
Lemma queryMonday_fatal_response_gen (q : string) (retries : nat) (delay : Z) (st : exec_state)
    (errs : list string) (x : D) :
  net (calls st) q = Ok {| r_errors := Some errs; r_data := x |} ->
  existsb rate_limit_msg errs = false ->
  queryMonday net q retries delay st = (Thrown (query_error_of errs), tick q st).
Proof.
  intros Hq Hrl. destruct retries; cbn [queryMonday]; unfold qm_attempt, try_catch, bind, call_api;
    rewrite Hq; cbn; rewrite Hrl; cbn; by rewrite (no_rate_limit_no_passed errs Hrl).
Qed.

(** A response whose GraphQL errors report no rate limit is not retried:
    one call, no wait, and the rejection carries the joined messages.  The
    rate-limit test of the [catch] block cannot fire on it. *)
Theorem queryMonday_fatal_response (q : string) (retries : nat) (delay : Z) (st : exec_state)
    (errs : list string) (x : D) :
  net (calls st) q = Ok {| r_errors := Some errs; r_data := x |} ->
  existsb rate_limit_msg errs = false ->
  queryMonday net q retries delay st = (Thrown (query_error_of errs), tick q st).
Proof. apply queryMonday_fatal_response_gen. Qed.

(** A response without [errors] resolves with its [data] after one call. *)
Lemma queryMonday_success (q : string) (retries : nat) (delay : Z) (st : exec_state) (x : D) :
  net (calls st) q = Ok {| r_errors := None; r_data := x |} ->
  queryMonday net q retries delay st = (Ok x, tick q st).
Proof.
  intros Hq. destruct retries; cbn [queryMonday]; unfold qm_attempt, try_catch, bind, call_api;
    by rewrite Hq.
Qed.

(** A rejected call is retried only when its message contains
    ["Rate limit passed"]; otherwise it is rethrown unchanged after one
    call (a rejection saying ["Rate limit exceeded"] included). *)
Theorem queryMonday_rejection (q : string) (retries : nat) (delay : Z) (st : exec_state)
    (e : js_error) (m : string) :
  net (calls st) q = Thrown e ->
  err_message e = Some m ->
  str_includes m "Rate limit passed" = false ->
  queryMonday net q retries delay st = (Thrown e, tick q st).
Proof.
  intros Hq Hm Hp. destruct retries; cbn [queryMonday]; unfold qm_attempt, try_catch, bind, call_api;
    rewrite Hq; cbn; by rewrite Hm, Hp.
Qed.

(** A rejection without a message is replaced by the [TypeError] of
    [error.message.includes], which drops the original [response]. *)
Theorem queryMonday_rejection_no_message (q : string) (retries : nat) (delay : Z)
    (st : exec_state) (e : js_error) :
  net (calls st) q = Thrown e ->
  err_message e = None ->
  queryMonday net q retries delay st = (Thrown type_error_includes, tick q st).
Proof.
  intros Hq Hm. rewrite queryMonday_unfold. unfold qm_attempt, try_catch, bind, call_api.
  rewrite Hq. cbn. by rewrite Hm.
Qed.

End NetworkFacts.

(** ** The retry helper of App.jsx *)

Section Retry.

Context {A : Type}.

(** From the call index [n0] on, every run of [fn] makes one call and
    throws an error the classifier of [retry] deems transient. *)
Definition fails_transiently_from (n0 : nat) (q : string) (fn : M A) : Prop :=
  forall st, n0 <= calls st ->
  exists e, fn st = (Thrown e, tick q st) /\ is_transient e = true.

(** The calls of [retry] from those of one run. *)
Lemma retry_calls_within_gen (fn : M A) (lo hi retries : nat) (delay factor : Z) :
  calls_within fn lo hi -> calls_within (retry fn retries delay factor) lo (S retries * hi).
Proof.
  intros Hfn. revert delay. induction retries as [|r IH]; intros delay st;
    rewrite retry_unfold; specialize (Hfn st);
    destruct (fn st) as [[a|e] st'] eqn:E; cbn in *; try lia.
  destruct (is_transient e); cbn; [|lia].
  specialize (IH (delay * factor)%Z (slept delay st')). rewrite calls_slept in IH. lia.
Qed.

(** [retry] makes at most [retries + 1] runs of [fn]: if one run makes
    between [lo] and [hi] calls, the whole makes between [lo] and
    [(retries + 1) * hi]. *)
Theorem retry_calls_within (fn : M A) (lo hi retries : nat) (delay factor : Z) :
  calls_within fn lo hi -> calls_within (retry fn retries delay factor) lo (S retries * hi).
Proof. apply retry_calls_within_gen. Qed.

(** The trace of [retry] when every run fails transiently. *)
Lemma retry_exhausted_gen (fn : M A) (q : string) (retries : nat) (delay factor : Z) (st : exec_state) :
  fails_transiently_from (calls st) q fn ->
  exists st_last e,
    calls st_last = calls st + retries /\ fn st_last = (Thrown e, tick q st_last) /\
    retry fn retries delay factor st =
    (Thrown e, {| sent := sent st ++ replicate (S retries) q;
                  sleeps := sleeps st ++ backoff delay factor retries |}).
Proof.
  revert delay st. induction retries as [|r IH]; intros delay st Hf;
    rewrite retry_unfold; destruct (Hf st (le_n _)) as (e & He & Ht); rewrite He.
  - exists st, e. split; [lia|]. split; [done|]. cbn. by rewrite app_nil_r.
  - rewrite Ht. destruct (IH (delay * factor)%Z (slept delay (tick q st))) as (stl & el & Hc & Hl & Hr).
    { intros st' Hst'. apply Hf. rewrite calls_slept, calls_tick in Hst'. lia. }
    exists stl, el. split; [rewrite Hc, calls_slept, calls_tick; lia|]. split; [done|].
    rewrite Hr. cbn. by rewrite <- !app_assoc.
Qed.

(** C9: when every run fails transiently, [retry] runs [fn] exactly
    [retries + 1] times, waits [delay, delay*factor, ...] in between, and
    rejects with the error of the last run, unchanged (no error of its own
    marks the exhausted budget). *)
Theorem retry_exhausted (fn : M A) (q : string) (retries : nat) (delay factor : Z) (st : exec_state) :
  fails_transiently_from (calls st) q fn ->
  exists st_last e,
    calls st_last = calls st + retries /\ fn st_last = (Thrown e, tick q st_last) /\
    retry fn retries delay factor st =
    (Thrown e, {| sent := sent st ++ replicate (S retries) q;
                  sleeps := sleeps st ++ backoff delay factor retries |}).
Proof. apply retry_exhausted_gen. Qed.

(** [retry] rethrows a fatal error at once. *)
Lemma retry_not_transient_gen (fn : M A) (retries : nat) (delay factor : Z) (st st' : exec_state)
    (e : js_error) :
  fn st = (Thrown e, st') -> is_transient e = false ->
  retry fn retries delay factor st = (Thrown e, st').
Proof.
  intros He Ht. destruct retries; cbn [retry]; unfold bind, try_catch, ret, throw; rewrite He; [done|].
  by rewrite Ht.
Qed.

Lemma retry_ok_gen (fn : M A) (retries : nat) (delay factor : Z) (st st' : exec_state) (a : A) :
  fn st = (Ok a, st') -> retry fn retries delay factor st = (Ok a, st').
Proof. intros He. destruct retries; cbn [retry]; unfold bind, try_catch, ret; by rewrite He. Qed.

(** An error the classifier deems fatal is rethrown after one run. *)
Theorem retry_not_transient (fn : M A) (retries : nat) (delay factor : Z) (st st' : exec_state)
    (e : js_error) :
  fn st = (Thrown e, st') -> is_transient e = false ->
  retry fn retries delay factor st = (Thrown e, st').
Proof. apply retry_not_transient_gen. Qed.

End Retry.

(** An error built by [queryMonday] from a response's GraphQL [errors]
    carries no [response]: [retry] deems it transient exactly when one of the
    messages mentions a concurrency limit or a validation error, so the HTTP
    429 and [FIELD_LIMIT_EXCEEDED] tests of [retry] never apply to it. *)
Theorem is_transient_query_error (errs : list string) :
  is_transient (query_error_of errs) =
  existsb (fun m => str_includes m "Concurrency limit exceeded") errs
  || existsb (fun m => str_includes m "Graphql validation errors") errs.
Proof. unfold is_transient. cbn. rewrite !str_includes_join by done. apply orb_false_r. Qed.

(** ** The composition used by App.jsx: [retry(() => queryMonday(q))] *)

Section Composite.

Context {D : Type}.
Variable net : nat -> string -> result (api_response D).

(** C37: the composed fetch makes at most 24 calls to [monday.api]: at most 6
    runs of [queryMonday], each of at most 4 calls. *)
Theorem fetch_with_retry_calls_within (q : string) :
  calls_within (fetch_with_retry net q) 1 24.
Proof. apply (retry_calls_within_gen _ 1 4), queryMonday_calls_within. Qed.

(** A response that reports a rate limit and nothing [retry] deems
    transient. *)
Definition rate_limited_only (r : result (api_response D)) : Prop :=
  exists errs x, r = Ok {| r_errors := Some errs; r_data := x |} /\
    existsb rate_limit_msg errs = true /\ is_transient (query_error_of errs) = false.

(** C2: a query whose every response reports a rate limit is attempted
    exactly 4 times by the composed fetch (the outer [retry] does not retry
    rate limits), with waits of 500, 1000 and 2000 ms, then rejects. *)
Theorem fetch_with_retry_rate_limited (q : string) (st : exec_state) :
  (forall n, calls st <= n -> rate_limited_only (net n q)) ->
  exists errs,
    fetch_with_retry net q st =
    (Thrown (query_error_of errs),
     {| sent := sent st ++ replicate 4 q; sleeps := sleeps st ++ [500; 1000; 2000]%Z |}).
Proof.
  intros Hnet.
  destruct (queryMonday_rate_limited_gen net q 3 500 st) as (errs & x & Hlast & Hq).
  { intros n Hn. destruct (Hnet n Hn) as (errs & x & Hr & Hrl & _). by exists errs, x. }
  exists errs. unfold fetch_with_retry, query_default.
  rewrite (retry_not_transient_gen _ _ _ _ _ _ _ Hq); [done|].
  destruct (Hnet (calls st + 3) ltac:(lia)) as (errs' & x' & Hr & _ & Ht).
  rewrite Hlast in Hr. by injection Hr as -> _.
Qed.

(** A response whose errors the hook does not retry but [retry] does. *)
Definition concurrency_limited (r : result (api_response D)) : Prop :=
  exists errs x, r = Ok {| r_errors := Some errs; r_data := x |} /\
    existsb rate_limit_msg errs = false /\ is_transient (query_error_of errs) = true.

(** A query whose every response reports a concurrency limit is
    attempted 6 times by the composed fetch, one call per run of
    [queryMonday], with waits of 2, 4, 8, 16 and 32 seconds. *)
Theorem fetch_with_retry_concurrency_limited (q : string) (st : exec_state) :
  (forall n, calls st <= n -> concurrency_limited (net n q)) ->
  exists e,
    fetch_with_retry net q st =
    (Thrown e, {| sent := sent st ++ replicate 6 q;
                  sleeps := sleeps st ++ [2000; 4000; 8000; 16000; 32000]%Z |}).
Proof.
  intros Hnet. unfold fetch_with_retry.
  destruct (retry_exhausted_gen (query_default net q) q 5 2000 2 st) as (stl & e & _ & _ & Hr).
  { intros st' Hst'. destruct (Hnet (calls st') Hst') as (errs & x & Hq & Hrl & Ht).
    exists (query_error_of errs). split; [|done].
    by apply queryMonday_fatal_response_gen with (x := x). }
  by exists e.
Qed.

End Composite.

(** ** The composed fetch against a server that answers at once *)

Section Settled.

Context {D : Type}.
Variable net : nat -> string -> result (api_response D).

(** A response without [errors] resolves the composed fetch after one call. *)
Lemma fetch_with_retry_ok (q : string) (st : exec_state) (x : D) :
  net (calls st) q = Ok {| r_errors := None; r_data := x |} ->
  fetch_with_retry net q st = (Ok x, tick q st).
Proof.
  intros Hq. unfold fetch_with_retry, query_default.
  apply retry_ok_gen, (queryMonday_success net q _ 500 st x Hq).
Qed.

(** A response with errors that neither [queryMonday] nor [retry] retries
    rejects the composed fetch after one call. *)
Lemma fetch_with_retry_fatal (q : string) (st : exec_state) (errs : list string) (x : D) :
  net (calls st) q = Ok {| r_errors := Some errs; r_data := x |} ->
  existsb rate_limit_msg errs = false -> is_transient (query_error_of errs) = false ->
  fetch_with_retry net q st = (Thrown (query_error_of errs), tick q st).
Proof.
  intros Hq Hrl Ht. unfold fetch_with_retry, query_default.
  apply retry_not_transient_gen; [|done]. by apply queryMonday_fatal_response_gen with (x := x).
Qed.

End Settled.

(** ** Witnesses on concrete networks *)

Lemma queryMonday_rate_limited_witness :
  exists errs x,
    net_rate_limited 3 "q" = Ok {| r_errors := Some errs; r_data := x |} /\
    queryMonday net_rate_limited "q" 3 500 st0 =
    (Thrown (query_error_of errs), {| sent := replicate 4 "q"; sleeps := [500; 1000; 2000]%Z |}).
Proof.
  apply (queryMonday_rate_limited net_rate_limited "q" 3 500 st0).
  intros n _. exists ["Rate limit exceeded"], n. split; reflexivity.
Defined.

Lemma queryMonday_fatal_response_witness :
  queryMonday net_concurrency "q" 3 500 st0 =
  (Thrown (query_error_of ["Concurrency limit exceeded"]), tick "q" st0).
Proof. apply (queryMonday_fatal_response net_concurrency "q" 3 500 st0 _ 0); reflexivity. Defined.

Lemma queryMonday_rejection_witness :
  queryMonday (net_rejecting exceeded_rejection) "q" 3 500 st0 = (Thrown exceeded_rejection, tick "q" st0).
Proof.
  apply (queryMonday_rejection (net_rejecting exceeded_rejection) "q" 3 500 st0
           exceeded_rejection "Rate limit exceeded"); reflexivity.
Defined.

Lemma queryMonday_rejection_no_message_witness :
  queryMonday (net_rejecting http429) "q" 3 500 st0 = (Thrown type_error_includes, tick "q" st0).
Proof. apply (queryMonday_rejection_no_message (net_rejecting http429) "q" 3 500 st0 http429); reflexivity. Defined.

Lemma retry_calls_within_witness : calls_within (retry fail_429 5 2000 2) 1 6.
Proof. apply (retry_calls_within fail_429 1 1 5 2000 2). intros st. cbn [snd fail_429]. rewrite calls_tick. lia. Defined.

Lemma retry_exhausted_witness :
  exists st_last e,
    calls st_last = 5 /\ fail_429 st_last = (Thrown e, tick "q" st_last) /\
    retry fail_429 5 2000 2 st0 =
    (Thrown e, {| sent := replicate 6 "q"; sleeps := [2000; 4000; 8000; 16000; 32000]%Z |}).
Proof.
  apply (retry_exhausted fail_429 "q" 5 2000 2 st0).
  intros st _. exists http429. split; reflexivity.
Defined.

Lemma retry_not_transient_witness :
  retry (fun st => (Thrown exceeded_rejection, tick "q" st) : result nat * exec_state) 5 2000 2 st0 =
  (Thrown exceeded_rejection, tick "q" st0).
Proof. apply (retry_not_transient _ 5 2000 2 st0 (tick "q" st0) exceeded_rejection); reflexivity. Defined.

Lemma fetch_with_retry_rate_limited_witness :
  exists errs,
    fetch_with_retry net_rate_limited "q" st0 =
    (Thrown (query_error_of errs), {| sent := replicate 4 "q"; sleeps := [500; 1000; 2000]%Z |}).
Proof.
  apply (fetch_with_retry_rate_limited net_rate_limited "q" st0).
  intros n _. exists ["Rate limit exceeded"], n. split; [reflexivity | split; reflexivity].
Defined.

Lemma fetch_with_retry_concurrency_limited_witness :
  exists e,
    fetch_with_retry net_concurrency "q" st0 =
    (Thrown e, {| sent := replicate 6 "q"; sleeps := [2000; 4000; 8000; 16000; 32000]%Z |}).
Proof.
  apply (fetch_with_retry_concurrency_limited net_concurrency "q" st0).
  intros n _. exists ["Concurrency limit exceeded"], n. split; [reflexivity | split; reflexivity].
Defined.
