(* ===== verification/Aggregation.v ===== *)
(** * The aggregation fetcher

    [fetchBoardData] of App.jsx ([src/unnamed/part_005], lines 83-155): the
    columns of every board are fetched with one query, then the
    items of each selected board, one board after the other, each through
    [retry(() => queryMonday(...))] ([Executor.fetch_with_retry]).

    The React state the function writes is [app_data]; a [setX] call is the
    corresponding field update, in the order the code makes them, so a
    failure between two of them leaves the first one done.  The function is
    a computation of [Executor.M] (the network, the documents sent, the
    waits); its value is the state after the [finally] block and the error
    the returned promise rejects with, if the [catch] block throws.  API
    responses are [json] values.  Messages of the [TypeError]s the engine
    throws are V8's.  [item_tagged] is the shape of the items it stores:
    objects tagged with a selected board and a truthy board name. *)

From S2P Require Import Prelude Json Queries Executor.

Local Set Warnings "-clear-no-such-hyp".
From stdpp Require Import pretty.

Local Open Scope exec_scope.

(** ** Data *)

(** [newAllBoardsData[board.id]]: [{ id, name, columns }]; [name] is
    [undefined] when the board has none. *)
Record board_entry := {
  be_id : string;
  be_name : option json;
  be_columns : json;
}.

(** The state [fetchBoardData] writes. *)
Record app_data := {
  allBoardsData : gmap string board_entry;
  boardItems : list json;
  columnsError : option string;
  itemsError : option string;
  isPolling : bool;
}.

Definition set_boards_data (d : app_data) (m : gmap string board_entry) : app_data :=
  {| allBoardsData := m; boardItems := boardItems d; columnsError := columnsError d;
     itemsError := itemsError d; isPolling := isPolling d |}.

Definition set_items (d : app_data) (l : list json) : app_data :=
  {| allBoardsData := allBoardsData d; boardItems := l; columnsError := columnsError d;
     itemsError := itemsError d; isPolling := isPolling d |}.

Definition set_errors (d : app_data) (ce ie : option string) : app_data :=
  {| allBoardsData := allBoardsData d; boardItems := boardItems d; columnsError := ce;
     itemsError := ie; isPolling := isPolling d |}.

Definition set_polling (d : app_data) (b : bool) : app_data :=
  {| allBoardsData := allBoardsData d; boardItems := boardItems d; columnsError := columnsError d;
     itemsError := itemsError d; isPolling := b |}.

(** ** Reading the responses *)

(** [x && x.k], as a condition: the member when the whole chain is truthy. *)
Definition truthy_member (v : json) (k : string) : option json :=
  if js_truthy v then
    match jget v k with Some x => if js_truthy x then Some x else None | None => None end
  else None.

(** [boards[0]] of a truthy value. *)
Definition index0 (v : json) : option json :=
  match v with
  | JArr (x :: _) => Some x
  | JObj _ => jget v "0"
  | JStr (String c _) => Some (JStr (String c EmptyString))
  | _ => None
  end.

(** The body of [columnsData.boards.forEach] (lines 107-115) on one board:
    reading [board.id] of [null] throws. *)
Definition add_board (sel : list string) (m : gmap string board_entry) (board : json)
    : option (gmap string board_entry) :=
  match board with
  | JNull => None
  | _ =>
      match jget board "id" with
      | Some (JStr id) =>
          if arr_includes sel id then
            Some (<[id := {| be_id := id; be_name := jget board "name";
                             be_columns := match jget board "columns" with
                                           | Some c => if js_truthy c then c else JArr []
                                           | None => JArr []
                                           end |}]> m)
          else Some m
      | _ => Some m
      end
  end.

Fixpoint add_boards (sel : list string) (m : gmap string board_entry) (boards : list json)
    : option (gmap string board_entry) :=
  match boards with
  | [] => Some m
  | b :: bs => match add_board sel m b with
               | Some m' => add_boards sel m' bs
               | None => None
               end
  end.

(** Lines 106-116: [newAllBoardsData] from the columns response; [inr] is
    the [TypeError] thrown. *)
Definition boards_data_of (sel : list string) (columnsData : json)
    : js_error + gmap string board_entry :=
  match truthy_member columnsData "boards" with
  | None => inr ∅
  | Some (JArr l) =>
      match add_boards sel ∅ l with
      | Some m => inr m
      | None => inl (type_error "Cannot read properties of null (reading 'id')")
      end
  | Some _ => inl (type_error "columnsData.boards.forEach is not a function")
  end.

(** [{ ...item }]: the own enumerable members of a value. *)
Definition spread (v : json) : list (string * json) :=
  match v with
  | JObj fs => fs
  | JArr l => imap (fun i x => (pretty (N.of_nat i), x)) l
  | JStr s => imap (fun i c => (pretty (N.of_nat i), JStr (String c EmptyString)))
                   (String.list_ascii_of_string s)
  | _ => []
  end.

(** [{ ...fs, k: v }]: an existing member keeps its place. *)
Definition set_member (fs : list (string * json)) (k : string) (v : json) : list (string * json) :=
  if existsb (fun kv => String.eqb (fst kv) k) fs
  then map (fun kv => if String.eqb (fst kv) k then (k, v) else kv) fs
  else fs ++ [(k, v)].

(** [{ ...item, boardId, boardName }] (lines 130-134). *)
Definition tag_item (boardId : string) (boardName : json) (item : json) : json :=
  JObj (set_member (set_member (spread item) "boardId" (JStr boardId)) "boardName" boardName).

(** [newAllBoardsData[boardId]?.name || `Board ${boardId}`]. *)
Definition board_name (m : gmap string board_entry) (boardId : string) : json :=
  match m !! boardId with
  | Some e => match be_name e with
              | Some n => if js_truthy n then n else JStr ("Board " +:+ boardId)
              | None => JStr ("Board " +:+ boardId)
              end
  | None => JStr ("Board " +:+ boardId)
  end.

(** Lines 129-138 on one response: the tagged items ([[]] when the chain
    [itemsData.boards[0].items_page.items] is not truthy), or the
    [TypeError] of [.map] on a value that is not an array. *)
Definition board_items_of (m : gmap string board_entry) (boardId : string) (itemsData : json)
    : js_error + list json :=
  match option_bind _ _ (fun b => option_bind _ _ (fun b0 =>
          if js_truthy b0 then option_bind _ _ (fun p => truthy_member p "items")
                                 (truthy_member b0 "items_page")
          else None) (index0 b))
        (truthy_member itemsData "boards") with
  | None => inr []
  | Some (JArr l) => inr (map (tag_item boardId (board_name m boardId)) l)
  | Some _ => inl (type_error "itemsData.boards[0].items_page.items.map is not a function")
  end.

(** ** [fetchBoardData] *)

Section Fetch.

Variable net : nat -> string -> result (api_response json).

(** The [for (const boardId of selectedBoardIds)] loop (lines 120-139),
    [acc] being [fetchedItems]. *)
Fixpoint fetch_items (m : gmap string board_entry) (columnIds : list string)
    (boards : list string) (acc : list json) : M (list json) :=
  match boards with
  | [] => ret acc
  | boardId :: rest =>
      match columnIds with
      | [] => fetch_items m columnIds rest acc
      | _ :: _ =>
          itemsData <- fetch_with_retry net (GET_BOARD_ITEMS_WITH_COLUMNS_QUERY boardId columnIds) ;;
          match board_items_of m boardId itemsData with
          | inl e => throw e
          | inr l => fetch_items m columnIds rest (acc ++ l)
          end
      end
  end.

(** The [catch] block (lines 142-148) and the [finally] (lines 149-151): a
    message mentioning ["columns"] goes to the columns error; an error
    without a message makes [error.message.includes] throw, after the
    [finally]. *)
Definition fetch_failed (e : js_error) (d : app_data) : app_data * option js_error :=
  match err_message e with
  | Some msg =>
      let d' := if str_includes msg "columns"
                then set_errors d (Some ("Error loading columns: " +:+ msg +:+ ". Please check selected boards."))
                       (itemsError d)
                else set_errors d (columnsError d) (Some ("Error loading items: " +:+ msg +:+ ".")) in
      (set_polling d' false, None)
  | None => (set_polling d false, Some type_error_includes)
  end.

Definition fetchBoardData (selectedBoardIds selectedColumnIds : list string) (d : app_data)
    : M (app_data * option js_error) :=
  match selectedBoardIds with
  | [] => ret ({| allBoardsData := ∅; boardItems := []; columnsError := None; itemsError := None;
                  isPolling := isPolling d |}, None)
  | _ :: _ =>
      let d1 := set_errors (set_polling d true) None None in
      rc <- attempt (fetch_with_retry net GET_BOARD_COLUMNS_QUERY) ;;
      match rc with
      | Thrown e => ret (fetch_failed e d1)
      | Ok columnsData =>
          match boards_data_of selectedBoardIds columnsData with
          | inl e => ret (fetch_failed e d1)
          | inr m =>
              let d2 := set_boards_data d1 m in
              ri <- attempt (fetch_items m selectedColumnIds selectedBoardIds []) ;;
              match ri with
              | Thrown e => ret (fetch_failed e d2)
              | Ok items => ret (set_polling (set_items d2 items) false, None)
              end
          end
      end
  end.

End Fetch.

(** ** Column keys *)

(** [String(col.id)], the key the selection lists hold (the API's ids
    are strings); the column list itself is in [Selection]. *)
Definition column_key (col : json) : string :=
  match jget col "id" with Some i => js_to_string i | None => "undefined" end.

(** ** Answers of the network *)

(** The item query of a board. *)
Definition items_query (columnIds : list string) (boardId : string) : string :=
  GET_BOARD_ITEMS_WITH_COLUMNS_QUERY boardId columnIds.

(** The boards of [pre] answer their item query with [data b], read as
    the items [its b]. *)
Definition boards_answer (net : nat -> string -> result (api_response json))
    (m : gmap string board_entry) (columnIds : list string)
    (pre : list string) (data : string -> json) (its : string -> list json) : Prop :=
  forall b, b ∈ pre ->
    (forall n, net n (items_query columnIds b) = Ok {| r_errors := None; r_data := data b |}) /\
    board_items_of m b (data b) = inr (its b).

(** The state once [fetchBoardData] has started on a selection. *)
Definition fetch_started (d : app_data) : app_data := set_errors (set_polling d true) None None.

(** The columns query is answered with [columnsData], read as the boards [m]. *)
Definition columns_answer (net : nat -> string -> result (api_response json))
    (sel : list string) (columnsData : json) (m : gmap string board_entry) : Prop :=
  (forall n, net n GET_BOARD_COLUMNS_QUERY = Ok {| r_errors := None; r_data := columnsData |}) /\
  boards_data_of sel columnsData = inr m.

(** A board of the columns response. *)
Definition ex_board (id : string) : json := JObj [("id", JStr id); ("name", JStr ("Board " +:+ id))].

Definition ex_columns_response : json := JObj [("boards", JArr [ex_board "b1"; ex_board "b2"])].

(** The items response of a board: one item. *)
Definition ex_items_response (b : string) : json :=
  JObj [("boards", JArr [JObj [("items_page", JObj [("items",
    JArr [JObj [("id", JStr ("i" +:+ b)); ("name", JStr "Task")]])])]])].

(** The server: the items query of [b2] fails when [fail_b2] holds. *)
Definition ex_server (fail_b2 : bool) : nat -> string -> result (api_response json) :=
  fun _ q =>
    if String.eqb q GET_BOARD_COLUMNS_QUERY
    then Ok {| r_errors := None; r_data := ex_columns_response |}
    else if fail_b2 && String.eqb q (items_query ["c1"] "b2")
    then Ok {| r_errors := Some ["Internal server error"]; r_data := JNull |}
    else if String.eqb q (items_query ["c1"] "b1") then Ok {| r_errors := None; r_data := ex_items_response "b1" |}
    else Ok {| r_errors := None; r_data := ex_items_response "b2" |}.

Definition ex_boards_map : gmap string board_entry :=
  match boards_data_of ["b1"; "b2"] ex_columns_response with inr m => m | inl _ => ∅ end.

Definition ex_board_items (b : string) : list json :=
  match board_items_of ex_boards_map b (ex_items_response b) with inr l => l | inl _ => [] end.

Definition ex_st0 : exec_state := {| sent := []; sleeps := [] |}.

(** The data before any fetch: App's initial states. *)
Definition ex_d0 : app_data :=
  {| allBoardsData := ∅; boardItems := []; columnsError := None; itemsError := None; isPolling := false |}.

(** The shape every fetched item has in [boardItems]: an object (the
    spread [{ ...item, boardId, boardName }]) whose [boardId] is a string
    naming a selected board and whose [boardName] is truthy, which the
    table's row renderer and the [boardId] link rely on. *)
Definition item_tagged (sel : list string) (it : json) : Prop :=
  (exists fs, it = JObj fs) /\
  (exists b, jget it "boardId" = Some (JStr b) /\ b ∈ sel) /\
  (exists n, jget it "boardName" = Some n /\ js_truthy n = true).

(** ** Lemmas *)

(** *** Member access after [set_member] *)

Definition member_step (k : string) (acc : option json) (kv : string * json) : option json :=
  if String.eqb (fst kv) k then Some (snd kv) else acc.

Definition replace_member (k : string) (v : json) (kv : string * json) : string * json :=
  if String.eqb (fst kv) k then (k, v) else kv.

Lemma jget_obj (fs : list (string * json)) (k : string) :
  jget (JObj fs) k = fold_left (member_step k) fs None.
Proof. done. Qed.

Lemma fold_member_absent (k : string) (l : list (string * json)) (acc : option json) :
  existsb (fun kv => String.eqb (fst kv) k) l = false -> fold_left (member_step k) l acc = acc.
Proof.
  revert acc. induction l as [|[k' v'] l IH]; intros acc; cbn; [done|].
  intros [Hk Hl]%orb_false_iff. unfold member_step at 2. cbn. rewrite Hk. by apply IH.
Qed.

Lemma replace_member_key (k : string) (v : json) (kv : string * json) :
  fst (replace_member k v kv) = fst kv.
Proof.
  destruct kv as [k' v']. unfold replace_member. cbn.
  destruct (String.eqb_spec k' k); by subst.
Qed.

Lemma existsb_replace_member (k : string) (v : json) (l : list (string * json)) :
  existsb (fun kv => String.eqb (fst kv) k) (map (replace_member k v) l) =
  existsb (fun kv => String.eqb (fst kv) k) l.
Proof. induction l as [|kv l IH]; cbn; [done|]. by rewrite replace_member_key, IH. Qed.

Lemma fold_replace_same (k : string) (v : json) (l : list (string * json)) (acc : option json) :
  existsb (fun kv => String.eqb (fst kv) k) l = true ->
  fold_left (member_step k) (map (replace_member k v) l) acc = Some v.
Proof.
  revert acc. induction l as [|[k' v'] l IH]; intros acc Hl; [done|].
  cbn [map fold_left existsb fst] in *.
  destruct (String.eqb_spec k' k) as [->|Hne].
  - assert (Hkv : member_step k acc (replace_member k v (k, v')) = Some v).
    { unfold member_step, replace_member. cbn. rewrite String.eqb_refl. cbn. by rewrite String.eqb_refl. }
    rewrite Hkv. destruct (existsb (fun kv => String.eqb (fst kv) k) l) eqn:E; [by apply IH|].
    rewrite fold_member_absent; [done|].
    by rewrite existsb_replace_member.
  - assert (Hkv : replace_member k v (k', v') = (k', v')).
    { unfold replace_member. cbn. by rewrite (proj2 (String.eqb_neq _ _) Hne). }
    rewrite Hkv. by apply IH.
Qed.

Lemma fold_replace_other (k k' : string) (v : json) (l : list (string * json)) (acc : option json) :
  k <> k' -> fold_left (member_step k') (map (replace_member k v) l) acc = fold_left (member_step k') l acc.
Proof.
  intros Hne. revert acc. induction l as [|[k1 v1] l IH]; intros acc; cbn; [done|].
  rewrite IH. f_equal. unfold replace_member, member_step. cbn.
  destruct (String.eqb_spec k1 k) as [->|]; [|done].
  cbn. by rewrite !(proj2 (String.eqb_neq _ _) Hne).
Qed.

Lemma jget_set_member_eq (fs : list (string * json)) (k : string) (v : json) :
  jget (JObj (set_member fs k v)) k = Some v.
Proof.
  rewrite jget_obj. unfold set_member.
  destruct (existsb _ fs) eqn:E; [by apply fold_replace_same|].
  rewrite fold_left_app. cbn. unfold member_step. cbn. by rewrite String.eqb_refl.
Qed.

Lemma jget_set_member_ne (fs : list (string * json)) (k k' : string) (v : json) :
  k <> k' -> jget (JObj (set_member fs k v)) k' = jget (JObj fs) k'.
Proof.
  intros Hne. rewrite !jget_obj. unfold set_member.
  destruct (existsb _ fs); [by apply fold_replace_other|].
  rewrite fold_left_app. cbn. unfold member_step at 1. cbn.
  by rewrite (proj2 (String.eqb_neq _ _) Hne).
Qed.

Lemma board_name_truthy (m : gmap string board_entry) (b : string) :
  js_truthy (board_name m b) = true.
Proof.
  unfold board_name. by repeat case_match.
Qed.

Lemma tag_item_tagged (sel : list string) (m : gmap string board_entry) (b : string) (it : json) :
  b ∈ sel -> item_tagged sel (tag_item b (board_name m b) it).
Proof.
  intros Hb. unfold tag_item. split_and!; [by eexists| |].
  - exists b. split; [|done]. rewrite jget_set_member_ne by done. apply jget_set_member_eq.
  - exists (board_name m b). split; [apply jget_set_member_eq | apply board_name_truthy].
Qed.

Section FetchFacts.

Variable net : nat -> string -> result (api_response json).
Variables (m : gmap string board_entry) (columnIds : list string).

Lemma fetch_items_answered (pre rest : list string) (data : string -> json) (its : string -> list json)
    (acc : list json) (st : exec_state) :
  columnIds <> [] -> boards_answer net m columnIds pre data its ->
  fetch_items net m columnIds (pre ++ rest) acc st =
  fetch_items net m columnIds rest (acc ++ concat (map its pre))
    {| sent := sent st ++ map (items_query columnIds) pre; sleeps := sleeps st |}.
Proof.
  intros Hc. revert acc st. induction pre as [|b pre IH]; intros acc st Hans.
  - cbn. rewrite !app_nil_r. by destruct st.
  - destruct (Hans b (list_elem_of_here _ _)) as [Hq Hi].
    assert (exists c cs, columnIds = c :: cs) as (c & cs & Ec) by (destruct columnIds; [done | by eexists _, _]).
    cbn [app fetch_items]. rewrite Ec. cbn iota. unfold bind. rewrite <- Ec.
    rewrite (fetch_with_retry_ok net (GET_BOARD_ITEMS_WITH_COLUMNS_QUERY b columnIds) st (data b) (Hq _)).
    rewrite Hi.
    rewrite IH by (intros b' Hb'; apply Hans; by apply list_elem_of_further).
    cbn. rewrite <- !app_assoc. done.
Qed.

Lemma fetch_items_all (bs : list string) (data : string -> json) (its : string -> list json)
    (acc : list json) (st : exec_state) :
  columnIds <> [] -> boards_answer net m columnIds bs data its ->
  fetch_items net m columnIds bs acc st =
  (Ok (acc ++ concat (map its bs)), {| sent := sent st ++ map (items_query columnIds) bs; sleeps := sleeps st |}).
Proof.
  intros Hc Hans. pose proof (fetch_items_answered bs [] data its acc st Hc Hans) as E.
  by rewrite app_nil_r in E.
Qed.

Lemma board_items_of_tagged (sel : list string) (b : string) (x : json) (l : list json) :
  b ∈ sel -> board_items_of m b x = inr l -> Forall (item_tagged sel) l.
Proof.
  intros Hb. unfold board_items_of. repeat case_match; intros; simplify_eq; [|done].
  apply Forall_map, Forall_forall. intros raw _. by apply tag_item_tagged.
Qed.

(** Every item the board loop collects is tagged with a selected board. *)
Lemma fetch_items_tagged (sel bs : list string) (acc items : list json) (st st' : exec_state) :
  (forall b, b ∈ bs -> b ∈ sel) -> Forall (item_tagged sel) acc ->
  fetch_items net m columnIds bs acc st = (Ok items, st') -> Forall (item_tagged sel) items.
Proof.
  revert acc st. induction bs as [|b bs IH]; intros acc st Hbs Hacc; cbn [fetch_items].
  { unfold ret. by intros [= <- _]. }
  assert (Hbs' : forall b', b' ∈ bs -> b' ∈ sel) by (intros; apply Hbs; by right).
  destruct columnIds as [|c cs]; [by apply IH|].
  unfold bind. destruct (fetch_with_retry net _ st) as [[x|e] st1]; [|done].
  destruct (board_items_of m b x) as [e|l] eqn:E; [done|].
  apply IH; [done|]. apply Forall_app; split; [done|].
  apply (board_items_of_tagged sel b x); [apply Hbs; left|]; done.
Qed.

End FetchFacts.

Lemma fetchBoardData_columns (net : nat -> string -> result (api_response json))
    (sel columnIds : list string) (d : app_data) (st : exec_state)
    (columnsData : json) (m : gmap string board_entry) :
  sel <> [] -> columns_answer net sel columnsData m ->
  fetchBoardData net sel columnIds d st =
  (let d2 := set_boards_data (fetch_started d) m in
   match fetch_items net m columnIds sel [] (tick GET_BOARD_COLUMNS_QUERY st) with
   | (Thrown e, st') => (Ok (fetch_failed e d2), st')
   | (Ok items, st') => (Ok (set_polling (set_items d2 items) false, None), st')
   end).
Proof.
  intros Hs [Hq Hb]. unfold fetchBoardData. destruct sel as [|b sel]; [done|].
  unfold attempt, bind. rewrite (fetch_with_retry_ok net _ st columnsData (Hq _)).
  cbv beta iota zeta. rewrite Hb. unfold ret. cbv beta iota zeta.
  by destruct (fetch_items net m columnIds (b :: sel) [] (tick GET_BOARD_COLUMNS_QUERY st))
    as [[items|e] st'].
Qed.

Lemma fetch_failed_items (e : js_error) (d : app_data) :
  boardItems (fetch_failed e d).1 = boardItems d.
Proof. unfold fetch_failed. by repeat case_match. Qed.

(** ** Theorems *)

Section Refresh.

Variable net : nat -> string -> result (api_response json).
Variables (sel columnIds : list string) (d : app_data) (st : exec_state).
Variables (columnsData : json) (m : gmap string board_entry).

(** C6: when every query is answered, [fetchBoardData] sends the columns
    query first and then the item query of each selected board in
    selection order, each once; it stores the selected boards and the
    items of all of them, tagged with their board, in selection order, and
    clears the errors and the polling flag. *)
Theorem fetchBoardData_success (data : string -> json) (its : string -> list json) :
  sel <> [] -> columnIds <> [] -> columns_answer net sel columnsData m ->
  boards_answer net m columnIds sel data its ->
  fetchBoardData net sel columnIds d st =
  (Ok (set_polling (set_items (set_boards_data (fetch_started d) m) (concat (map its sel))) false, None),
   {| sent := sent st ++ GET_BOARD_COLUMNS_QUERY :: map (items_query columnIds) sel;
      sleeps := sleeps st |}).
Proof.
  intros Hs Hc Hcols Hans. rewrite (fetchBoardData_columns net sel columnIds d st columnsData m Hs Hcols).
  rewrite (fetch_items_all net m columnIds sel data its [] _ Hc Hans). cbn. by rewrite <- app_assoc.
Qed.

(** With no column selected, no item query is sent: the boards are
    stored and the item list is emptied. *)
Theorem fetchBoardData_no_columns :
  sel <> [] -> columns_answer net sel columnsData m ->
  fetchBoardData net sel [] d st =
  (Ok (set_polling (set_items (set_boards_data (fetch_started d) m) []) false, None),
   tick GET_BOARD_COLUMNS_QUERY st).
Proof.
  intros Hs Hcols. rewrite (fetchBoardData_columns net sel [] d st columnsData m Hs Hcols).
  assert (forall bs acc st', fetch_items net m [] bs acc st' = (Ok acc, st')) as ->; [|done].
  induction bs; intros; cbn; auto.
Qed.

(** C1: fail-fast aggregation: when the item query of a board fails with
    an error no layer retries, the boards after it are not queried, the
    items fetched before are discarded and the displayed items are those of
    before; the error goes to [itemsError].  The board data of the new
    selection is already stored: the update is not atomic. *)
Theorem fetchBoardData_fail_fast (pre post : list string) (b : string) (data : string -> json)
    (its : string -> list json) (errs : list string) (x : json) :
  sel = pre ++ b :: post -> columnIds <> [] -> columns_answer net sel columnsData m ->
  boards_answer net m columnIds pre data its ->
  (forall n, net n (items_query columnIds b) = Ok {| r_errors := Some errs; r_data := x |}) ->
  existsb rate_limit_msg errs = false -> is_transient (query_error_of errs) = false ->
  str_includes (js_join "; " errs) "columns" = false ->
  fetchBoardData net sel columnIds d st =
  (Ok (set_polling (set_errors (set_boards_data (fetch_started d) m) None
                     (Some ("Error loading items: " +:+ js_join "; " errs +:+ "."))) false, None),
   {| sent := sent st ++ GET_BOARD_COLUMNS_QUERY :: map (items_query columnIds) pre ++ [items_query columnIds b];
      sleeps := sleeps st |}).
Proof.
  intros -> Hc Hcols Hans Hb Hrl Ht Hmsg.
  rewrite (fetchBoardData_columns net _ columnIds d st columnsData m) by (by destruct pre).
  rewrite (fetch_items_answered net m columnIds pre (b :: post) data its [] _ Hc Hans).
  assert (exists c cs, columnIds = c :: cs) as (c & cs & Ec) by (destruct columnIds; [done | by eexists _, _]).
  cbn [fetch_items]. rewrite Ec. cbn iota. unfold bind. rewrite <- Ec.
  rewrite (fetch_with_retry_fatal net (GET_BOARD_ITEMS_WITH_COLUMNS_QUERY b columnIds) _ errs x (Hb _) Hrl Ht).
  unfold throw. cbv beta iota zeta. unfold fetch_failed. cbn [err_message query_error_of].
  rewrite Hmsg. unfold tick. cbn [sent sleeps]. by rewrite <- !app_assoc.
Qed.

(** C11: typing of the stored items: whatever the network answers,
    [fetchBoardData] settles (it never rejects with an unhandled error of
    the item loop), and every item it leaves in [boardItems] is either one
    that was there before (a failed refresh keeps them) or an object tagged
    with the id of a selected board and a truthy board name. *)
Theorem fetchBoardData_items_typed :
  exists d' e st', fetchBoardData net sel columnIds d st = (Ok (d', e), st') /\
    Forall (fun it => it ∈ boardItems d \/ item_tagged sel it) (boardItems d').
Proof.
  assert (Hold : forall e d0, boardItems d0 = boardItems d ->
            Forall (fun it => it ∈ boardItems d \/ item_tagged sel it) (boardItems (fetch_failed e d0).1)).
  { intros e d0 Hd. rewrite fetch_failed_items, Hd. apply Forall_forall. by left. }
  unfold fetchBoardData. destruct sel as [|b bs] eqn:Es.
  { by do 3 eexists. }
  unfold attempt, bind, ret. destruct (fetch_with_retry net _ st) as [[cd|e] st1].
  2: { eexists (fetch_failed _ _).1, (fetch_failed _ _).2, _.
    split; [by rewrite <- surjective_pairing | by apply Hold]. }
  destruct (boards_data_of _ cd) as [e|m'].
  { eexists (fetch_failed _ _).1, (fetch_failed _ _).2, _.
    split; [by rewrite <- surjective_pairing | by apply Hold]. }
  destruct (fetch_items net m' columnIds (b :: bs) [] st1) as [[items|e] st2] eqn:Ei.
  - do 3 eexists. split; [done|]. cbn. apply Forall_forall. intros it Hit. right.
    rewrite <- Es in Ei |- *. refine (proj1 (Forall_forall _ _) (fetch_items_tagged net m' columnIds sel sel [] items st1 st2 (fun b H => H) (List.Forall_nil _) Ei) it Hit).
  - eexists (fetch_failed _ _).1, (fetch_failed _ _).2, _.
    split; [by rewrite <- surjective_pairing | by apply Hold].
Qed.

End Refresh.

(** With no board selected nothing is sent and the boards, the items and
    the errors are cleared. *)
Theorem fetchBoardData_no_boards (net : nat -> string -> result (api_response json))
    (columnIds : list string) (d : app_data) (st : exec_state) :
  fetchBoardData net [] columnIds d st =
  (Ok ({| allBoardsData := ∅; boardItems := []; columnsError := None; itemsError := None;
          isPolling := isPolling d |}, None), st).
Proof. done. Qed.

(** ** Witnesses *)

Lemma ex_columns_answer (fail_b2 : bool) :
  columns_answer (ex_server fail_b2) ["b1"; "b2"] ex_columns_response ex_boards_map.
Proof. split; [intros n; destruct fail_b2; reflexivity | vm_compute; reflexivity]. Qed.

Lemma ex_boards_answer (fail_b2 : bool) (pre : list string) :
  (forall b, b ∈ pre -> b = "b1" \/ (b = "b2" /\ fail_b2 = false)) ->
  boards_answer (ex_server fail_b2) ex_boards_map ["c1"] pre ex_items_response ex_board_items.
Proof.
  intros Hpre b Hb. destruct (Hpre b Hb) as [-> | [-> ->]];
    (split; [intros n; try destruct fail_b2; vm_compute; reflexivity | vm_compute; reflexivity]).
Qed.

Lemma fetchBoardData_success_witness :
  fetchBoardData (ex_server false) ["b1"; "b2"] ["c1"] ex_d0 ex_st0 =
  (Ok (set_polling (set_items (set_boards_data (fetch_started ex_d0) ex_boards_map)
                      (concat (map ex_board_items ["b1"; "b2"]))) false, None),
   {| sent := sent ex_st0 ++ GET_BOARD_COLUMNS_QUERY :: map (items_query ["c1"]) ["b1"; "b2"];
      sleeps := sleeps ex_st0 |}).
Proof.
  apply (fetchBoardData_success (ex_server false) ["b1"; "b2"] ["c1"] ex_d0 ex_st0
           ex_columns_response ex_boards_map ex_items_response ex_board_items).
  - done.
  - done.
  - apply ex_columns_answer.
  - apply ex_boards_answer. intros b [-> | ->%list_elem_of_singleton]%elem_of_cons; [by left | by right].
Defined.

Lemma fetchBoardData_no_columns_witness :
  fetchBoardData (ex_server true) ["b1"; "b2"] [] ex_d0 ex_st0 =
  (Ok (set_polling (set_items (set_boards_data (fetch_started ex_d0) ex_boards_map) []) false, None),
   tick GET_BOARD_COLUMNS_QUERY ex_st0).
Proof.
  apply (fetchBoardData_no_columns (ex_server true) ["b1"; "b2"] ex_d0 ex_st0
           ex_columns_response ex_boards_map); [done | apply ex_columns_answer].
Defined.

Lemma fetchBoardData_fail_fast_witness :
  fetchBoardData (ex_server true) ["b1"; "b2"] ["c1"] ex_d0 ex_st0 =
  (Ok (set_polling (set_errors (set_boards_data (fetch_started ex_d0) ex_boards_map) None
                     (Some ("Error loading items: " +:+ js_join "; " ["Internal server error"] +:+ "."))) false,
       None),
   {| sent := sent ex_st0 ++ GET_BOARD_COLUMNS_QUERY :: map (items_query ["c1"]) ["b1"] ++ [items_query ["c1"] "b2"];
      sleeps := sleeps ex_st0 |}).
Proof.
  apply (fetchBoardData_fail_fast (ex_server true) ["b1"; "b2"] ["c1"] ex_d0 ex_st0
           ex_columns_response ex_boards_map ["b1"] [] "b2" ex_items_response ex_board_items
           ["Internal server error"] JNull); [done | done | apply ex_columns_answer | | | done | done | done].
  - apply ex_boards_answer. intros b ->%list_elem_of_singleton. by left.
  - intros n. vm_compute. reflexivity.
Defined.
