(* ===== verification/Selection.v ===== *)
(** * Board and column selection

    The selection handlers of App.jsx ([src/unnamed/part_005], lines
    317-423) that the sidebar calls, the columns offered for the selected
    boards ([allAvailableColumnsForSelectedBoards], lines 366-378, with the
    theorem that the first column of each id wins) and the column list App
    passes to the table ([columnsToDisplayInTable]).  A handler given to a React state
    setter as [prev => ...] is a function of the previous value.  The ids
    are the strings the API returns for boards and columns (GraphQL [ID]s are
    serialized as strings). *)

From S2P Require Import Prelude Json Aggregation.

Local Set Warnings "-clear-no-such-hyp".

(** ** Handlers *)

(** [prev.includes(x) ? prev.filter(id => id !== x) : [...prev, x]], the
    body of [handleBoardToggle] (lines 317-323) and of [handleColumnToggle]
    (lines 381-387). *)
Definition toggle_id (prev : list string) (x : string) : list string :=
  if arr_includes prev x then arr_remove prev x else prev ++ [x].

Definition handleBoardToggle (prev : list string) (boardId : string) : list string :=
  toggle_id prev boardId.

Definition handleColumnToggle (prev : list string) (columnId : string) : list string :=
  toggle_id prev columnId.

(** ** The columns offered for the selected boards *)

(** [allAvailableColumnsForSelectedBoards] (lines 366-378): the columns of
    the selected boards in selection order, the first column of each id
    kept ([Map] insertion order, [has] before [set]); [None] is the
    [TypeError] of [forEach] on columns that are not an array, or of
    [col.id] on a [null] column.  The [Map] is the list of its entries in
    insertion order, its keys compared by [SameValueZero] ([svz_opt]). *)

(** [col.id]: [None] is the [TypeError] of reading it on [null]; a
    column that is not an object has none ([Some None], [undefined]). *)
Definition column_id (col : json) : option (option json) :=
  match col with JNull => None | _ => Some (jget col "id") end.

(** [if (!columnsMap.has(col.id)) columnsMap.set(col.id, col)]. *)
Definition dedup_columns_step (acc : option (list (option json * json))) (col : json)
    : option (list (option json * json)) :=
  match acc, column_id col with
  | Some a, Some id => Some (if existsb (fun kv => svz_opt (fst kv) id) a then a else a ++ [(id, col)])
  | _, _ => None
  end.

(** The body of [selectedBoardIds.forEach(boardId => ...)]. *)
Definition add_board_columns (m : gmap string board_entry) (acc : option (list (option json * json)))
    (boardId : string) : option (list (option json * json)) :=
  match acc, m !! boardId with
  | Some _, Some e =>
      if js_truthy (be_columns e)
      then match be_columns e with
           | JArr cols => fold_left dedup_columns_step cols acc
           | _ => None
           end
      else acc
  | _, _ => acc
  end.

(** [Array.from(columnsMap.values())]. *)
Definition allAvailableColumnsForSelectedBoards (sel : list string) (m : gmap string board_entry)
    : option (list json) :=
  option_map (map snd) (fold_left (add_board_columns m) sel (Some [])).

(** ** Handlers of the selection of columns *)

(** [allAvailableColumnsForSelectedBoards.map(col => col.id)] (line
    390). *)
Definition all_column_ids (available : list json) : list string :=
  map column_key available.

(** [board => board.id] of [handleSelectAllBoards] (lines 327 and 340):
    [None] is the [TypeError] of reading [id] on a [null] board. *)
Definition board_id (board : json) : option string :=
  match board with JNull => None | _ => Some (column_key board) end.

(** [boards.map(board => board.id)] on an array of boards. *)
Definition board_ids (boards : list json) : option (list string) := mapM board_id boards.

(** The two fixed columns and the selected available ones (lines 405-423). *)
Definition boardNameColumn : json :=
  JObj [("id", JStr "board_name_column"); ("title", JStr "Board"); ("type", JStr "board_name")].

Definition itemNameColumn : json :=
  JObj [("id", JStr "item_name_column"); ("title", JStr "Task Name"); ("type", JStr "item_name")].

Definition columnsToDisplayInTable (available : list json) (selectedColumnIds : list string)
    : list json :=
  [boardNameColumn; itemNameColumn] ++
  List.filter (fun col => arr_includes selectedColumnIds (column_key col)) available.

(** Two boards of the columns response, both with a column [status]
    (titled differently) and one other column each. *)
Definition ex_boards_data : gmap string board_entry :=
  {[ "b1" := {| be_id := "b1"; be_name := Some (JStr "B1");
                be_columns := JArr [JObj [("id", JStr "status"); ("title", JStr "Status")];
                                    JObj [("id", JStr "person")]] |};
     "b2" := {| be_id := "b2"; be_name := Some (JStr "B2");
                be_columns := JArr [JObj [("id", JStr "status"); ("title", JStr "State")];
                                    JObj [("id", JStr "date")]] |} ]}.

Definition ex_status1 : json := JObj [("id", JStr "status"); ("title", JStr "Status")].

(** The columns the two [forEach] loops of
    [allAvailableColumnsForSelectedBoards] visit, in order. *)
Definition scanned_columns (sel : list string) (m : gmap string board_entry) : list json :=
  concat (map (fun b =>
    match m !! b with
    | Some e => if js_truthy (be_columns e)
                then match be_columns e with JArr cols => cols | _ => [] end else []
    | None => []
    end) sel).

(** Two columns whose ids are the same key of the [Map]. *)
Definition same_column_id (x y : json) : bool :=
  match column_id x, column_id y with Some a, Some b => svz_opt a b | _, _ => false end.

(** ** Lemmas *)

Lemma toggle_id_elem (prev : list string) (x y : string) :
  y ∈ toggle_id prev x <-> (y ∈ prev /\ y <> x) \/ (y = x /\ x ∉ prev).
Proof.
  unfold toggle_id. destruct (arr_includes prev x) eqn:E.
  - apply arr_includes_spec in E. rewrite arr_remove_spec. naive_solver.
  - apply arr_includes_false in E. rewrite elem_of_app, list_elem_of_singleton. naive_solver.
Qed.

Lemma dedup_fold_none (cols : list json) : fold_left dedup_columns_step cols None = None.
Proof. apply (fold_left_preserve _ (fun a => a = None)); [by intros ? ? _ -> | done]. Qed.

Lemma add_board_fold_none (m : gmap string board_entry) (sel : list string) :
  fold_left (add_board_columns m) sel None = None.
Proof. apply (fold_left_preserve _ (fun a => a = None)); [by intros ? ? _ -> | done]. Qed.

(** What a property of the [Map] needs to hold after the inner loop: that
    each [has]/[set] step keeps it. *)
Lemma dedup_fold_ind (P : list (option json * json) -> Prop) (l : list json)
    (acc a : list (option json * json)) :
  (forall acc col id, col ∈ l -> column_id col = Some id -> P acc ->
     P (if existsb (fun kv => svz_opt (fst kv) id) acc then acc else acc ++ [(id, col)])) ->
  fold_left dedup_columns_step l (Some acc) = Some a -> P acc -> P a.
Proof.
  intros Hstep. revert acc. induction l as [|col l IH]; intros acc Hf Hacc; cbn [fold_left] in Hf; [by simplify_eq|].
  unfold dedup_columns_step at 2 in Hf. destruct (column_id col) as [id|] eqn:Hid;
    [|by rewrite dedup_fold_none in Hf].
  apply (IH (fun acc col id H => Hstep acc col id (proj2 (elem_of_cons _ _ _) (or_intror H))) _ Hf).
  by apply Hstep; [left | |].
Qed.

Lemma allAvailable_scanned (m : gmap string board_entry) (sel : list string)
    (acc a : list (option json * json)) :
  fold_left (add_board_columns m) sel (Some acc) = Some a ->
  fold_left dedup_columns_step (scanned_columns sel m) (Some acc) = Some a.
Proof.
  revert acc. induction sel as [|b sel IH]; intros acc H; [done|].
  cbn [fold_left scanned_columns map concat] in H |- *. rewrite fold_left_app. unfold add_board_columns at 2 in H.
  destruct (m !! b) as [e|]; [|by apply IH].
  destruct (js_truthy (be_columns e)); [|by apply IH].
  destruct (be_columns e) as [|b'|mm ee|str|l|fs]; try by rewrite add_board_fold_none in H.
  destruct (fold_left dedup_columns_step l (Some acc)) as [acc'|];
    [by apply IH | by rewrite add_board_fold_none in H].
Qed.

Lemma arr_remove_absent (l : list string) (x : string) : x ∉ l -> arr_remove l x = l.
Proof.
  induction l as [|y l IH]; intros Hx; [done|]. unfold arr_remove in *. cbn.
  rewrite not_elem_of_cons in Hx. destruct Hx as [Hxy Hx].
  rewrite (proj2 (String.eqb_neq y x)) by congruence. cbn. by rewrite IH.
Qed.

(** The entries of the [Map] after the columns [l] from [acc]: each
    keyed by the id of its column, and each an entry of [acc] or a column
    of [l]. *)
Lemma dedup_fold_entries (l : list json) (acc a : list (option json * json)) :
  fold_left dedup_columns_step l (Some acc) = Some a ->
  Forall (fun kv => column_id (snd kv) = Some (fst kv) /\ (kv ∈ acc \/ snd kv ∈ l)) acc ->
  Forall (fun kv => column_id (snd kv) = Some (fst kv) /\ (kv ∈ acc \/ snd kv ∈ l)) a.
Proof.
  intros Hf Hacc. apply (dedup_fold_ind _ l acc a); [|done|done].
  intros acc' col id Hcol Hid H. case_match; [done|].
  apply Forall_app. split; [done|]. by constructor; [split; [|right] |].
Qed.

Lemma existsb_svz_false (a : list (option json * json)) (id : option json) :
  Forall (fun kv => svz_opt (fst kv) id = false) a ->
  existsb (fun kv => svz_opt (fst kv) id) a = false.
Proof.
  intros H. apply not_true_iff_false. intros (kv & Hin & Hkv)%existsb_exists.
  rewrite Forall_forall in H. specialize (H kv). rewrite list_elem_of_In in H. by rewrite H in Hkv.
Qed.

(** The [Map] after a column [y] whose id no earlier column had: [y] is
    the entry of its key, and stays so whatever columns follow. *)
Lemma dedup_first_entry (l2 : list json) (y : json) (ky : option json) (a2 a : list (option json * json)) :
  fold_left dedup_columns_step l2 (Some a2) = Some a ->
  (ky, y) ∈ a2 -> Forall (fun kv => column_id (snd kv) = Some (fst kv)) a2 ->
  Forall (fun kv => svz_opt ky (fst kv) = true -> snd kv = y) a2 ->
  (ky, y) ∈ a /\ Forall (fun kv => column_id (snd kv) = Some (fst kv)) a /\
  Forall (fun kv => svz_opt ky (fst kv) = true -> snd kv = y) a.
Proof.
  intros Hf H1 H2 H3.
  apply (dedup_fold_ind (fun a => (ky, y) ∈ a /\ Forall (fun kv => column_id (snd kv) = Some (fst kv)) a /\
                                  Forall (fun kv => svz_opt ky (fst kv) = true -> snd kv = y) a) l2 a2 a);
    [|done|done].
  intros acc col id _ Hid (Hy & Hk & Hv). destruct (existsb _ acc) eqn:E; [done|].
  assert (Hn : svz_opt ky id = false).
  { apply not_true_iff_false. intros Ht. enough (existsb (fun kv => svz_opt (fst kv) id) acc = true)
      by congruence. apply existsb_exists. exists (ky, y). by rewrite <- list_elem_of_In. }
  split_and!; [set_solver | apply Forall_app; split; [done|]; by constructor |].
  apply Forall_app. split; [done|]. constructor; [|done]. cbn. by rewrite Hn.
Qed.

(** ** Theorems *)

(** Toggling a board that is not selected and toggling it again gives
    back the selection of before, in its order. *)
Theorem handleBoardToggle_twice (prev : list string) (boardId : string) :
  boardId ∉ prev -> handleBoardToggle (handleBoardToggle prev boardId) boardId = prev.
Proof.
  intros Hx. unfold handleBoardToggle, toggle_id.
  rewrite (proj2 (arr_includes_false prev boardId) Hx), arr_includes_app.
  replace (arr_includes [boardId] boardId) with true by (cbn; by rewrite String.eqb_refl).
  rewrite orb_true_r. unfold arr_remove. rewrite List.filter_app. cbn. rewrite String.eqb_refl. cbn.
  rewrite app_nil_r. by apply arr_remove_absent.
Qed.

Lemma handleBoardToggle_twice_witness :
  ("b2" ∉ ["b1"]) /\ handleBoardToggle (handleBoardToggle ["b1"] "b2") "b2" = ["b1"].
Proof. split; [set_solver | by apply handleBoardToggle_twice; set_solver]. Defined.

(** A selection of columns without repetitions keeps none after a
    toggle, and the toggle adds the column exactly when it was absent. *)
Theorem handleColumnToggle_nodup (prev : list string) (columnId : string) :
  NoDup prev ->
  NoDup (handleColumnToggle prev columnId) /\
  (columnId ∈ handleColumnToggle prev columnId <-> columnId ∉ prev).
Proof.
  intros Hnd. unfold handleColumnToggle. split; [|rewrite toggle_id_elem; naive_solver].
  unfold toggle_id. destruct (arr_includes prev columnId) eqn:E.
  - unfold arr_remove. by apply NoDup_list_filter.
  - apply arr_includes_false in E. apply NoDup_app. split; [done|].
    split; [|apply NoDup_singleton]. by intros y Hy ->%list_elem_of_singleton.
Qed.

Lemma handleColumnToggle_nodup_witness :
  NoDup ["status"; "person"] /\
  NoDup (handleColumnToggle ["status"; "person"] "status") /\
  ("status" ∈ handleColumnToggle ["status"; "person"] "status" <-> "status" ∉ ["status"; "person"]).
Proof.
  assert (Hnd : NoDup ["status"; "person"]) by (repeat constructor; set_solver).
  split; [exact Hnd | apply (handleColumnToggle_nodup ["status"; "person"] "status" Hnd)].
Defined.

(** C30: a column of the selected boards whose id no earlier column
    had is the column offered for that id, whatever columns with the same
    id ([SameValueZero]) later boards have: the [has] test keeps the first,
    where a bare [set] would overwrite it with the last. *)
Theorem allAvailableColumns_first_wins (sel : list string) (m : gmap string board_entry)
    (cols l1 l2 : list json) (y : json) :
  allAvailableColumnsForSelectedBoards sel m = Some cols ->
  scanned_columns sel m = l1 ++ y :: l2 ->
  Forall (fun z => same_column_id z y = false) l1 ->
  y ∈ cols /\ Forall (fun x => same_column_id y x = true -> x = y) cols.
Proof.
  unfold allAvailableColumnsForSelectedBoards.
  destruct (fold_left _ sel (Some [])) as [a|] eqn:E; [|done]. intros [= <-] Hs Hl1.
  apply allAvailable_scanned in E. rewrite Hs, fold_left_app in E.
  destruct (fold_left dedup_columns_step l1 (Some [])) as [a1|] eqn:E1; [|by rewrite dedup_fold_none in E].
  cbn [fold_left] in E. unfold dedup_columns_step at 2 in E.
  destruct (column_id y) as [ky|] eqn:Hy; [|by rewrite dedup_fold_none in E].
  pose proof (dedup_fold_entries l1 [] a1 E1 (List.Forall_nil _)) as Ha1.
  assert (Hk1 : Forall (fun kv => svz_opt (fst kv) ky = false) a1).
  { eapply Forall_impl; [exact Ha1|]. intros [k x] [Hx [Hin|Hin]]; [by apply not_elem_of_nil in Hin|].
    rewrite Forall_forall in Hl1. specialize (Hl1 x Hin). unfold same_column_id in Hl1.
    cbn in Hx |- *. by rewrite Hx, Hy in Hl1. }
  rewrite existsb_svz_false in E by done.
  destruct (dedup_first_entry l2 y ky (a1 ++ [(ky, y)]) a E) as (Hin & Hkeys & Hfirst).
  - set_solver.
  - apply Forall_app. split; [|by constructor]. eapply Forall_impl; [exact Ha1|]. by intros kv [? _].
  - apply Forall_app. split; [|by constructor]. eapply Forall_impl; [exact Hk1|].
    intros kv Hkv. by rewrite svz_opt_sym, Hkv.
  - split; [apply list_elem_of_In, in_map_iff; exists (ky, y); by rewrite <- list_elem_of_In|].
    apply Forall_map. eapply Forall_impl; [exact (proj2 (Forall_and _ _) (conj Hkeys Hfirst))|].
    intros [k x] [Hx Hf]. unfold same_column_id. cbn in *. by rewrite Hy, Hx.
Qed.

Lemma allAvailableColumns_first_wins_witness :
  allAvailableColumnsForSelectedBoards ["b1"; "b2"] ex_boards_data =
    Some [ex_status1; JObj [("id", JStr "person")]; JObj [("id", JStr "date")]] /\
  scanned_columns ["b1"; "b2"] ex_boards_data =
    [] ++ ex_status1 :: [JObj [("id", JStr "person")]; JObj [("id", JStr "status"); ("title", JStr "State")];
                         JObj [("id", JStr "date")]] /\
  Forall (fun z => same_column_id z ex_status1 = false) [] /\
  ex_status1 ∈ [ex_status1; JObj [("id", JStr "person")]; JObj [("id", JStr "date")]] /\
  Forall (fun x => same_column_id ex_status1 x = true -> x = ex_status1)
    [ex_status1; JObj [("id", JStr "person")]; JObj [("id", JStr "date")]].
Proof.
  assert (E : allAvailableColumnsForSelectedBoards ["b1"; "b2"] ex_boards_data =
    Some [ex_status1; JObj [("id", JStr "person")]; JObj [("id", JStr "date")]]) by (vm_compute; reflexivity).
  assert (S : scanned_columns ["b1"; "b2"] ex_boards_data =
    [] ++ ex_status1 :: [JObj [("id", JStr "person")]; JObj [("id", JStr "status"); ("title", JStr "State")];
                         JObj [("id", JStr "date")]]) by (vm_compute; reflexivity).
  assert (F : Forall (fun z => same_column_id z ex_status1 = false) []) by constructor.
  destruct (allAvailableColumns_first_wins _ _ _ _ _ _ E S F) as [H1 H2].
  split_and!; [exact E | exact S | exact F | exact H1 | exact H2].
Defined.

(** After selecting all columns ([all_column_ids]) the table shows the two fixed columns
    and every offered column, in the offered order. *)
Theorem columnsToDisplay_select_all (available : list json) :
  columnsToDisplayInTable available (all_column_ids available) =
  [boardNameColumn; itemNameColumn] ++ available.
Proof.
  unfold columnsToDisplayInTable, all_column_ids. f_equal.
  rewrite list_filter_all_true; [done|].
  intros col Hcol. apply arr_includes_spec, list_elem_of_In, in_map. by apply list_elem_of_In.
Qed.
