(* ===== verification/AppLoop.v ===== *)
(** * Loading and polling: App's effects as a step relation

    The effects of App.jsx ([src/unnamed/part_005]) that start and finish
    the board-data fetches, as one transition system over [loop_state]:
    - the end of [loadSettings] (line 222) and every change of the
      selection re-run the effect of lines 254-268 ([loadContentData]),
      which raises the two loading flags, runs [fetchBoardData] and lowers
      them when it settles;
    - the 20 s interval of lines 270-291 starts [fetchBoardData] when the app
      and the content are not loading and something is selected;
    - [handleItemUpdated] (lines 434-438) starts it after an edit;
    - [handleSelectAllBoards] (lines 325-356), when the sidebar has no
      boards yet, raises [isLoadingColumns], fetches the boards, selects
      them all and lowers the flag.
    Every asynchronous task in flight is an element of [pending]; the steps
    that finish one may happen in any order, which is the interleaving the
    event loop allows.  A fetch captures the selection it was started with
    (the [useCallback] closure) and, when it finishes, writes the state
    [Aggregation.fetchBoardData] computes from it on some network; the
    writes of a fetch are applied when it finishes. *)

From S2P Require Import Prelude Json Queries Executor Aggregation Selection.

Local Set Warnings "-clear-no-such-hyp".

(** ** States *)

(** Who started a fetch: [loadContentData], the interval, or
    [handleItemUpdated]. *)
Inductive fetch_kind := Foreground | Poll | AfterUpdate.

#[export] Instance fetch_kind_eq_dec : EqDecision fetch_kind.
Proof. solve_decision. Defined.

(** An asynchronous task in flight: a [fetchBoardData] with the selection it
    captured, or the boards query of [handleSelectAllBoards]. *)
Inductive task :=
| TFetch (k : fetch_kind) (boards cols : list string)
| TSelectAll.

Record loop_state := {
  isAppLoading : bool;
  isLoadingColumns : bool;
  isLoadingItems : bool;
  selectedBoardIds : list string;
  selectedColumnIds : list string;
  pending : list task;
  data : app_data;
}.

Definition initial_data : app_data := {|
  allBoardsData := ∅; boardItems := []; columnsError := None; itemsError := None;
  isPolling := false |}.

(** The [useState] initial values (lines 51-78). *)
Definition initial_loop : loop_state := {|
  isAppLoading := true; isLoadingColumns := false; isLoadingItems := false;
  selectedBoardIds := []; selectedColumnIds := []; pending := []; data := initial_data |}.

Definition mk_loop (app lc li : bool) (b c : list string) (p : list task) (d : app_data) : loop_state :=
  {| isAppLoading := app; isLoadingColumns := lc; isLoadingItems := li;
     selectedBoardIds := b; selectedColumnIds := c; pending := p; data := d |}.

(** ** Operations *)

(** Calling [fetchBoardData()]: its synchronous part (lines 84-97) runs at
    once, the rest is a task. *)
Definition start_fetch (k : fetch_kind) (s : loop_state) : loop_state :=
  mk_loop (isAppLoading s) (isLoadingColumns s) (isLoadingItems s)
    (selectedBoardIds s) (selectedColumnIds s)
    (pending s ++ [TFetch k (selectedBoardIds s) (selectedColumnIds s)])
    (match selectedBoardIds s with [] => data s | _ :: _ => fetch_started (data s) end).

(** [loadContentData] (lines 255-266) up to its [await]. *)
Definition loadContentData (s : loop_state) : loop_state :=
  if isAppLoading s then s
  else start_fetch Foreground
         (mk_loop (isAppLoading s) true true (selectedBoardIds s) (selectedColumnIds s)
            (pending s) (data s)).

(** The guard of the interval callback (line 277). *)
Definition poll_guard (s : loop_state) : bool :=
  negb (isAppLoading s) && negb (isLoadingColumns s) && negb (isLoadingItems s)
  && bool_decide (selectedBoardIds s <> []) && bool_decide (selectedColumnIds s <> []).

(** The interval callback (lines 273-284). *)
Definition poll_tick (s : loop_state) : loop_state :=
  if poll_guard s then start_fetch Poll s else s.

(** The end of a fetch: lines 263-264 run after a foreground fetch. *)
Definition finish_fetch (k : fetch_kind) (pre post : list task) (d : app_data) (s : loop_state)
    : loop_state :=
  match k with
  | Foreground => mk_loop (isAppLoading s) false false (selectedBoardIds s) (selectedColumnIds s)
                    (pre ++ post) d
  | _ => mk_loop (isAppLoading s) (isLoadingColumns s) (isLoadingItems s)
           (selectedBoardIds s) (selectedColumnIds s) (pre ++ post) d
  end.

(** The selection changes to [b], [c]; the content effect re-runs. *)
Definition select (b c : list string) (s : loop_state) : loop_state :=
  loadContentData (mk_loop (isAppLoading s) (isLoadingColumns s) (isLoadingItems s) b c
                     (pending s) (data s)).

(** ** Steps *)

Inductive step : loop_state -> loop_state -> Prop :=
(** [loadSettings] settles, with the selection it restored. *)
| step_settings_loaded s b c :
    isAppLoading s = true ->
    step s (select b c (mk_loop false (isLoadingColumns s) (isLoadingItems s)
                          (selectedBoardIds s) (selectedColumnIds s) (pending s) (data s)))
(** The user changes the selection in the sidebar. *)
| step_select s b c :
    isAppLoading s = false -> step s (select b c s)
(** The 20 s interval fires. *)
| step_poll s :
    step s (poll_tick s)
(** An edit in the table settled and calls [handleItemUpdated]. *)
| step_item_updated s :
    isAppLoading s = false -> step s (start_fetch AfterUpdate s)
(** [handleSelectAllBoards] with no board known yet (lines 335-338). *)
| step_select_all s :
    isAppLoading s = false ->
    step s (mk_loop (isAppLoading s) true (isLoadingItems s) (selectedBoardIds s) (selectedColumnIds s)
              (pending s ++ [TSelectAll]) (data s))
(** Its query settles: on success the boards are selected (line 341) and
    the flag lowered (line 354), then the content effect runs. *)
| step_select_all_ok s pre post ids :
    pending s = pre ++ TSelectAll :: post ->
    step s (select ids (selectedColumnIds s)
              (mk_loop (isAppLoading s) false (isLoadingItems s) (selectedBoardIds s)
                 (selectedColumnIds s) (pre ++ post) (data s)))
| step_select_all_failed s pre post :
    pending s = pre ++ TSelectAll :: post ->
    step s (mk_loop (isAppLoading s) false (isLoadingItems s) (selectedBoardIds s)
              (selectedColumnIds s) (pre ++ post) (data s))
(** A fetch settles with what [fetchBoardData] computes on some network. *)
| step_fetch_done s pre post k b c net st d' e st' :
    pending s = pre ++ TFetch k b c :: post ->
    fetchBoardData net b c (data s) st = (Ok (d', e), st') ->
    step s (finish_fetch k pre post d' s).

Inductive reachable : loop_state -> Prop :=
| reach_init : reachable initial_loop
| reach_step s s' : reachable s -> step s s' -> reachable s'.

(** ** An executable interpreter of the steps

    [exec_event] runs one event from a state, choosing the task that
    settles by its position in [pending]; [None] when the event cannot
    happen there.  Every run it accepts is a run of [step]. *)

Inductive event :=
| EvSettingsLoaded (b c : list string)
| EvSelect (b c : list string)
| EvPoll
| EvItemUpdated
| EvSelectAll
| EvSelectAllOk (i : nat) (ids : list string)
| EvSelectAllFailed (i : nat)
| EvFetchDone (i : nat) (net : nat -> string -> result (api_response json)) (st : exec_state).

Definition without (i : nat) (p : list task) : list task := take i p ++ drop (S i) p.

Definition exec_event (s : loop_state) (ev : event) : option loop_state :=
  match ev with
  | EvSettingsLoaded b c =>
      if isAppLoading s
      then Some (select b c (mk_loop false (isLoadingColumns s) (isLoadingItems s)
                               (selectedBoardIds s) (selectedColumnIds s) (pending s) (data s)))
      else None
  | EvSelect b c => if isAppLoading s then None else Some (select b c s)
  | EvPoll => Some (poll_tick s)
  | EvItemUpdated => if isAppLoading s then None else Some (start_fetch AfterUpdate s)
  | EvSelectAll =>
      if isAppLoading s then None
      else Some (mk_loop (isAppLoading s) true (isLoadingItems s) (selectedBoardIds s)
                   (selectedColumnIds s) (pending s ++ [TSelectAll]) (data s))
  | EvSelectAllOk i ids =>
      match pending s !! i with
      | Some TSelectAll =>
          Some (select ids (selectedColumnIds s)
                  (mk_loop (isAppLoading s) false (isLoadingItems s) (selectedBoardIds s)
                     (selectedColumnIds s) (without i (pending s)) (data s)))
      | _ => None
      end
  | EvSelectAllFailed i =>
      match pending s !! i with
      | Some TSelectAll =>
          Some (mk_loop (isAppLoading s) false (isLoadingItems s) (selectedBoardIds s)
                  (selectedColumnIds s) (without i (pending s)) (data s))
      | _ => None
      end
  | EvFetchDone i net st =>
      match pending s !! i with
      | Some (TFetch k b c) =>
          match fetchBoardData net b c (data s) st with
          | (Ok (d', _), _) =>
              Some (finish_fetch k (take i (pending s)) (drop (S i) (pending s)) d' s)
          | _ => None
          end
      | _ => None
      end
  end.

Fixpoint run (evs : list event) (s : loop_state) : option loop_state :=
  match evs with
  | [] => Some s
  | ev :: evs' => match exec_event s ev with Some s' => run evs' s' | None => None end
  end.

(** The state a run of events reaches from the start. *)
Definition run_from_start (evs : list event) : loop_state :=
  match run evs initial_loop with Some s => s | None => initial_loop end.

(** The number of interval fetches in flight. *)
Definition polls_in_flight (p : list task) : nat :=
  length (List.filter (fun t => match t with TFetch Poll _ _ => true | _ => false end) p).
Arguments polls_in_flight : simpl never.

(** ** A network for the examples

    The columns query lists boards [b1] and [b2]; the items query of a
    board returns one item. *)

Definition ex_columns_data : json :=
  JObj [("boards", JArr [JObj [("id", JStr "b1"); ("name", JStr "B1")];
                         JObj [("id", JStr "b2"); ("name", JStr "B2")]])].

Definition ex_items_data (itemId : string) : json :=
  JObj [("boards", JArr [JObj [("items_page", JObj [("items",
    JArr [JObj [("id", JStr itemId); ("name", JStr "Task")]])])]])].

Definition ex_net : nat -> string -> result (api_response json) :=
  fun _ q => Ok {| r_errors := None;
                   r_data := if String.eqb q (GET_BOARD_ITEMS_WITH_COLUMNS_QUERY "b1" ["c1"])
                             then ex_items_data "i1"
                             else if String.eqb q (GET_BOARD_ITEMS_WITH_COLUMNS_QUERY "b2" ["c1"])
                             then ex_items_data "i2"
                             else ex_columns_data |}.

Definition ex_st : exec_state := {| sent := []; sleeps := [] |}.

(** ** The invariant of the loading flags *)

(** A [loadContentData] fetch is in flight. *)
Definition has_foreground (p : list task) : Prop := exists b c, TFetch Foreground b c ∈ p.

(** A raised flag is owned by a task in flight, and nothing starts before
    the settings are loaded. *)
Definition loop_inv (s : loop_state) : Prop :=
  (isLoadingItems s = true -> has_foreground (pending s)) /\
  (isLoadingColumns s = true -> has_foreground (pending s) \/ TSelectAll ∈ pending s) /\
  (isAppLoading s = true -> pending s = [] /\ data s = initial_data).

Lemma has_foreground_app (p q : list task) : has_foreground p -> has_foreground (p ++ q).
Proof. intros (b & c & H). exists b, c. set_solver. Qed.

Lemma elem_of_remove {A} (x t : A) (pre post : list A) :
  x ∈ pre ++ t :: post -> x <> t -> x ∈ pre ++ post.
Proof. rewrite !elem_of_app, elem_of_cons. naive_solver. Qed.

Lemma start_fetch_inv (k : fetch_kind) (s : loop_state) :
  isAppLoading s = false -> loop_inv s -> loop_inv (start_fetch k s).
Proof.
  intros Happ (Hi & Hc & _). unfold start_fetch, loop_inv. cbn. rewrite ?Happ.
  split; [|split; [|done]].
  - intros H. by apply has_foreground_app, Hi.
  - intros H. destruct (Hc H) as [Hf|Hs]; [left; by apply has_foreground_app | right; set_solver].
Qed.

Lemma loadContentData_inv (s : loop_state) :
  isAppLoading s = false -> loop_inv s -> loop_inv (loadContentData s).
Proof.
  intros Happ Hinv. unfold loadContentData. rewrite Happ. unfold start_fetch, loop_inv. cbn.
  rewrite ?Happ. assert (Hf : has_foreground (pending s ++
    [TFetch Foreground (selectedBoardIds s) (selectedColumnIds s)])) by (exists (selectedBoardIds s), (selectedColumnIds s); set_solver).
  naive_solver.
Qed.

Lemma select_inv (b c : list string) (s : loop_state) :
  isAppLoading s = false -> loop_inv s -> loop_inv (select b c s).
Proof.
  intros Happ (Hi & Hc & _). unfold select. apply loadContentData_inv; [exact Happ|].
  unfold loop_inv. cbn. rewrite ?Happ. repeat split; done.
Qed.

(** Removing a task that is not a foreground fetch keeps the witnesses. *)
Lemma has_foreground_remove (pre post : list task) (t : task) :
  has_foreground (pre ++ t :: post) -> (forall b c, t <> TFetch Foreground b c) ->
  has_foreground (pre ++ post).
Proof.
  intros (b & c & H) Ht. exists b, c. apply (elem_of_remove _ t); [done|]. intros Heq. by apply (Ht b c).
Qed.

Lemma has_foreground_remove_fetch (k : fetch_kind) (b c : list string) (pre post : list task) :
  k <> Foreground -> has_foreground (pre ++ TFetch k b c :: post) -> has_foreground (pre ++ post).
Proof. intros Hk H. apply (has_foreground_remove _ _ (TFetch k b c) H). intros ?? [= ->]. done. Qed.

Lemma step_inv (s s' : loop_state) : step s s' -> loop_inv s -> loop_inv s'.
Proof.
  intros Hstep Hinv. destruct Hstep as
    [s b c Happ | s b c Happ | s | s Happ | s Happ | s pre post ids Hp | s pre post Hp
    | s pre post k b c net st d' e st' Hp Hf].
  - apply select_inv; [done|]. destruct Hinv as (Hi & Hc & Ha).
    unfold loop_inv. cbn. split; [exact Hi|]. split; [exact Hc|done].
  - by apply select_inv.
  - unfold poll_tick. destruct (poll_guard s) eqn:G; [|done].
    apply start_fetch_inv; [|done]. unfold poll_guard in G. destruct (isAppLoading s); [done|].
    reflexivity.
  - by apply start_fetch_inv.
  - destruct Hinv as (Hi & Hc & Ha). unfold loop_inv. cbn. rewrite ?Happ. repeat split; try done.
    + intros Hl. by apply has_foreground_app, Hi.
    + intros _. right. set_solver.
  - destruct Hinv as (Hi & Hc & Ha). destruct (isAppLoading s) eqn:Happ.
    { destruct (Ha eq_refl) as [Hnil _]. rewrite Hp in Hnil. by destruct pre. }
    apply select_inv; [done|]. unfold loop_inv. cbn. rewrite ?Happ. repeat split; try done.
    intros Hl. rewrite Hp in Hi.
    apply (has_foreground_remove _ _ TSelectAll); [by apply Hi | intros ??; discriminate].
  - destruct Hinv as (Hi & Hc & Ha). destruct (isAppLoading s) eqn:Happ.
    { destruct (Ha eq_refl) as [Hnil _]. rewrite Hp in Hnil. by destruct pre. }
    unfold loop_inv. cbn. rewrite ?Happ. repeat split; try done.
    intros Hl. rewrite Hp in Hi.
    apply (has_foreground_remove _ _ TSelectAll); [by apply Hi | intros ??; discriminate].
  - destruct Hinv as (Hi & Hc & Ha). destruct (isAppLoading s) eqn:Happ.
    { destruct (Ha eq_refl) as [Hnil _]. rewrite Hp in Hnil. by destruct pre. }
    rewrite Hp in Hi, Hc. destruct k; unfold finish_fetch, loop_inv; cbn; rewrite ?Happ;
      (repeat split; try done).
    + intros Hl. apply (has_foreground_remove_fetch Poll b c); [done | by apply Hi].
    + intros Hl. destruct (Hc Hl) as [Hx|Hx];
        [left; by apply (has_foreground_remove_fetch Poll b c)
        | right; apply (elem_of_remove _ (TFetch Poll b c)); [done | discriminate]].
    + intros Hl. apply (has_foreground_remove_fetch AfterUpdate b c); [done | by apply Hi].
    + intros Hl. destruct (Hc Hl) as [Hx|Hx];
        [left; by apply (has_foreground_remove_fetch AfterUpdate b c)
        | right; apply (elem_of_remove _ (TFetch AfterUpdate b c)); [done | discriminate]].
Qed.

Lemma reachable_inv (s : loop_state) : reachable s -> loop_inv s.
Proof.
  induction 1 as [|s s' _ IH Hstep]; [|by apply (step_inv s)].
  unfold loop_inv. cbn. repeat split; done.
Qed.

(** ** The interpreter and the step relation *)

Lemma without_split (i : nat) (p : list task) (t : task) :
  p !! i = Some t -> p = take i p ++ t :: drop (S i) p.
Proof. intros H. symmetry. by apply take_drop_middle. Qed.

Lemma exec_event_step (s s' : loop_state) (ev : event) :
  exec_event s ev = Some s' -> step s s'.
Proof.
  destruct ev as [b c|b c| | | |i ids|i|i net st]; cbn; intros H.
  - destruct (isAppLoading s) eqn:E; [|done]. injection H as <-. by constructor.
  - destruct (isAppLoading s) eqn:E; [done|]. injection H as <-. by constructor.
  - injection H as <-. constructor.
  - destruct (isAppLoading s) eqn:E; [done|]. injection H as <-. by constructor.
  - destruct (isAppLoading s) eqn:E; [done|]. injection H as <-.
    pose proof (step_select_all s E) as Hs. by rewrite E in Hs.
  - destruct (pending s !! i) as [[]|] eqn:E; try done. injection H as <-.
    apply step_select_all_ok. by apply without_split.
  - destruct (pending s !! i) as [[]|] eqn:E; try done. injection H as <-.
    apply step_select_all_failed. by apply without_split.
  - destruct (pending s !! i) as [[k b c|]|] eqn:E; try done.
    destruct (fetchBoardData net b c (data s) st) as [[[d' e]|] st'] eqn:F; [|done].
    injection H as <-. eapply step_fetch_done; [by apply without_split | exact F].
Qed.

(** Runs of the interpreter are runs of [step]. *)
Lemma run_sound (evs : list event) (s s' : loop_state) :
  reachable s -> run evs s = Some s' -> reachable s'.
Proof.
  revert s. induction evs as [|ev evs IH]; intros s Hs; cbn; [by intros [= <-]|].
  destruct (exec_event s ev) as [s1|] eqn:E; [|done].
  intros Hr. apply (IH s1); [|done]. econstructor; [exact Hs|]. by apply (exec_event_step s s1 ev).
Qed.

(** ** Theorems on the loop *)



(** C22: once every task in flight has settled, the loading indicator of the
    content ([isLoadingColumns || isLoadingItems]) is off: a spinner never
    outlives the fetches. *)
Theorem spinner_clears (s : loop_state) :
  reachable s -> pending s = [] -> isLoadingColumns s = false /\ isLoadingItems s = false.
Proof.
  intros Hr Hp. destruct (reachable_inv s Hr) as (Hi & Hc & _). rewrite Hp in Hi, Hc.
  split; [destruct (isLoadingColumns s); [|done] | destruct (isLoadingItems s); [|done]].
  - destruct (Hc eq_refl) as [(? & ? & ?%not_elem_of_nil)|?%not_elem_of_nil]; done.
  - by destruct (Hi eq_refl) as (? & ? & ?%not_elem_of_nil).
Qed.

Lemma spinner_clears_witness :
  reachable initial_loop /\ pending initial_loop = [] /\
  isLoadingColumns initial_loop = false /\ isLoadingItems initial_loop = false.
Proof. split; [constructor|]. split; [reflexivity|]. apply spinner_clears; [constructor | reflexivity]. Defined.

Lemma polls_in_flight_app (p q : list task) :
  polls_in_flight (p ++ q) = polls_in_flight p + polls_in_flight q.
Proof. unfold polls_in_flight. by rewrite List.filter_app, length_app. Qed.

Lemma polls_in_flight_single (t : task) :
  polls_in_flight [t] = match t with TFetch Poll _ _ => 1 | _ => 0 end.
Proof. unfold polls_in_flight. by destruct t as [[] ? ?|]. Qed.

Lemma polls_in_flight_remove (pre post : list task) (t : task) :
  polls_in_flight (pre ++ post) <= polls_in_flight (pre ++ t :: post).
Proof. rewrite !polls_in_flight_app. unfold polls_in_flight. cbn. case_match; cbn; lia. Qed.

Lemma start_fetch_polls (k : fetch_kind) (s : loop_state) :
  k <> Poll -> polls_in_flight (pending (start_fetch k s)) = polls_in_flight (pending s).
Proof. intros Hk. cbn. rewrite polls_in_flight_app, polls_in_flight_single. destruct k; [lia|done|lia]. Qed.

Lemma select_polls (b c : list string) (s : loop_state) :
  polls_in_flight (pending (select b c s)) = polls_in_flight (pending s).
Proof.
  unfold select, loadContentData. cbn. destruct (isAppLoading s); [done|].
  by rewrite start_fetch_polls.
Qed.

(** C12: only the interval starts interval fetches (polls), and only from
    a state where neither the app nor the content is loading and some
    boards and columns are selected. *)
Theorem poll_needs_idle (s s' : loop_state) :
  step s s' -> polls_in_flight (pending s) < polls_in_flight (pending s') ->
  isAppLoading s = false /\ isLoadingColumns s = false /\ isLoadingItems s = false /\
  selectedBoardIds s <> [] /\ selectedColumnIds s <> [].
Proof.
  destruct 1 as [s b c Happ | s b c Happ | s | s Happ | s Happ | s pre post ids Hp | s pre post Hp
    | s pre post k b c net st d' e st' Hp Hf]; intros Hlt.
  - rewrite select_polls in Hlt. cbn in Hlt. lia.
  - rewrite select_polls in Hlt. lia.
  - unfold poll_tick in *. destruct (poll_guard s) eqn:G; [|lia].
    unfold poll_guard in G. repeat (apply andb_prop in G as [G ?]). rewrite !negb_true_iff in *.
    rewrite !bool_decide_eq_true in *. repeat split; done.
  - rewrite start_fetch_polls in Hlt by done. lia.
  - cbn in Hlt. rewrite polls_in_flight_app, polls_in_flight_single in Hlt. lia.
  - rewrite select_polls in Hlt. cbn in Hlt. rewrite Hp in Hlt.
    pose proof (polls_in_flight_remove pre post TSelectAll). lia.
  - cbn in Hlt. rewrite Hp in Hlt. pose proof (polls_in_flight_remove pre post TSelectAll). lia.
  - rewrite Hp in Hlt. pose proof (polls_in_flight_remove pre post (TFetch k b c)).
    destruct k; cbn in Hlt; lia.
Qed.

Lemma poll_needs_idle_witness :
  let s := select ["b1"] ["c1"] (mk_loop false false false [] [] [] initial_data) in
  let s1 := finish_fetch Foreground [] [] (data s) s in
  step s1 (poll_tick s1) /\
  polls_in_flight (pending s1) < polls_in_flight (pending (poll_tick s1)) /\
  (isAppLoading s1 = false /\ isLoadingColumns s1 = false /\ isLoadingItems s1 = false /\
   selectedBoardIds s1 <> [] /\ selectedColumnIds s1 <> []).
Proof.
  cbv zeta. assert (Hs : step (finish_fetch Foreground [] []
    (data (select ["b1"] ["c1"] (mk_loop false false false [] [] [] initial_data)))
    (select ["b1"] ["c1"] (mk_loop false false false [] [] [] initial_data)))
    (poll_tick (finish_fetch Foreground [] []
      (data (select ["b1"] ["c1"] (mk_loop false false false [] [] [] initial_data)))
      (select ["b1"] ["c1"] (mk_loop false false false [] [] [] initial_data))))) by constructor.
  assert (Hlt : polls_in_flight (pending (finish_fetch Foreground [] []
    (data (select ["b1"] ["c1"] (mk_loop false false false [] [] [] initial_data)))
    (select ["b1"] ["c1"] (mk_loop false false false [] [] [] initial_data)))) <
    polls_in_flight (pending (poll_tick (finish_fetch Foreground [] []
      (data (select ["b1"] ["c1"] (mk_loop false false false [] [] [] initial_data)))
      (select ["b1"] ["c1"] (mk_loop false false false [] [] [] initial_data))))))
    by (vm_compute; lia).
  split; [exact Hs|]. split; [exact Hlt|]. exact (poll_needs_idle _ _ Hs Hlt).
Defined.

Lemma run_from_start_reachable (evs : list event) :
  run evs initial_loop = Some (run_from_start evs) -> reachable (run_from_start evs).
Proof. intros H. apply (run_sound evs initial_loop); [constructor | exact H]. Qed.

(** C8: two interval fetches can be in flight at once: the interval does
    not test [isPolling], so a tick while a slow poll is running starts
    another one, although the design says a refresh in flight suppresses
    the tick. *)
Example overlapping_polls :
  exists s, reachable s /\ polls_in_flight (pending s) = 2.
Proof.
  exists (run_from_start [EvSettingsLoaded ["b1"] ["c1"]; EvFetchDone 0 ex_net ex_st; EvPoll; EvPoll]).
  split; [apply run_from_start_reachable; vm_compute; reflexivity | vm_compute; reflexivity].
Qed.

(** C7: an interval fetch can start while a fetch of [loadContentData] is
    still in flight: the loading flags are booleans that the first of two
    overlapping content fetches lowers when it settles. *)
Example poll_during_foreground :
  exists s, reachable s /\ has_foreground (pending s) /\ polls_in_flight (pending s) = 1.
Proof.
  exists (run_from_start [EvSettingsLoaded ["b1"] ["c1"]; EvSelect ["b2"] ["c1"];
                          EvFetchDone 0 ex_net ex_st; EvPoll]).
  split; [apply run_from_start_reachable; vm_compute; reflexivity|].
  split; [exists ["b2"], ["c1"]; vm_compute; set_solver | vm_compute; reflexivity].
Qed.

(** A late response overwrites a newer selection: after selecting [b1]
    and then [b2], if the fetch for [b2] settles first, the table ends up
    showing the items of [b1] with [b2] selected and nothing in flight. *)
Example stale_overwrite :
  exists s, reachable s /\ pending s = [] /\ selectedBoardIds s = ["b2"] /\
    map (fun it => jget it "boardId") (boardItems (data s)) = [Some (JStr "b1")].
Proof.
  exists (run_from_start [EvSettingsLoaded ["b1"] ["c1"]; EvSelect ["b2"] ["c1"];
                          EvFetchDone 1 ex_net ex_st; EvFetchDone 0 ex_net ex_st]).
  split; [apply run_from_start_reachable; vm_compute; reflexivity|].
  vm_compute. repeat split; reflexivity.
Qed.
