(* ===== verification/ArraySort.v ===== *)
(** * [Array.prototype.sort] with a comparator

    The language fixes what [arr.sort(cmp)] returns when [cmp] is a
    consistent comparator (a permutation of [arr], ordered by [cmp], equal
    elements in their original order) and leaves the algorithm to the
    engine.  [sort_by] is a stable insertion sort; a comparator's result
    [< 0] is [Lt], [> 0] is [Gt], [0] and [NaN] are [Eq].

    The section [Laws] proves, for a comparator that is a total preorder,
    that [sort_by] returns a sorted permutation and is stable. *)

From S2P Require Import Prelude.
From Stdlib Require Import Sorting.Permutation Sorting.Sorted.

Section InsertionSort.

Context {A : Type} (cmp : A -> A -> comparison).

(** Place [x] before the first element it is strictly less than. *)
Fixpoint insert_by (x : A) (l : list A) : list A :=
  match l with
  | [] => [x]
  | y :: l' => match cmp x y with
               | Lt => x :: l
               | _ => y :: insert_by x l'
               end
  end.

(** Insert the elements in array order, so that a later element goes after
    the earlier ones it is equal to. *)
Definition sort_by (l : list A) : list A :=
  fold_left (fun acc x => insert_by x acc) l [].

Lemma insert_by_perm (x : A) (l : list A) : Permutation (insert_by x l) (x :: l).
Proof.
  induction l as [|y l IH]; cbn; [done|].
  destruct (cmp x y); [| done |];
    (etransitivity; [apply perm_skip, IH | apply perm_swap]).
Qed.

Lemma sort_by_perm (l : list A) : Permutation (sort_by l) l.
Proof.
  unfold sort_by. enough (forall acc, Permutation (fold_left (fun acc x => insert_by x acc) l acc) (acc ++ l))
    by (rewrite H; done).
  induction l as [|x l IH]; intros acc; cbn; [by rewrite app_nil_r|].
  rewrite IH, insert_by_perm. cbn. apply Permutation_middle.
Qed.

End InsertionSort.

Lemma insert_by_ext {A} (f g : A -> A -> comparison) (x : A) (l : list A) :
  (forall a b, f a b = g a b) -> insert_by f x l = insert_by g x l.
Proof. intros Hfg. induction l as [|y l IH]; cbn; [done|]. by rewrite Hfg, IH. Qed.

Lemma sort_by_ext {A} (f g : A -> A -> comparison) (l : list A) :
  (forall a b, f a b = g a b) -> sort_by f l = sort_by g l.
Proof.
  intros Hfg. unfold sort_by. generalize (@nil A). induction l as [|x l IH]; intros acc; cbn; [done|].
  by rewrite IH, (insert_by_ext f g).
Qed.

Section Laws.

Context {A : Type} (cmp : A -> A -> comparison).
Hypothesis cmp_antisym : forall a b, cmp b a = CompOpp (cmp a b).
Hypothesis cmp_le_trans : forall a b c, cmp a b <> Gt -> cmp b c <> Gt -> cmp a c <> Gt.

(** [a] may come before [b]. *)
Definition cmp_le (a b : A) : Prop := cmp a b <> Gt.

Lemma cmp_le_total (a b : A) : cmp_le a b \/ cmp_le b a.
Proof.
  unfold cmp_le. rewrite (cmp_antisym a b). destruct (cmp a b); cbn; auto; by left.
Qed.

Lemma cmp_lt_le (a b : A) : cmp a b = Lt -> cmp_le a b.
Proof. unfold cmp_le. congruence. Qed.

Lemma cmp_not_lt_le (a b : A) : cmp a b <> Lt -> cmp_le b a.
Proof. unfold cmp_le. intros H. rewrite (cmp_antisym a b). destruct (cmp a b); cbn; congruence. Qed.

Lemma insert_by_hdrel (y x : A) (l : list A) :
  cmp_le y x -> HdRel cmp_le y l -> HdRel cmp_le y (insert_by cmp x l).
Proof.
  destruct l as [|z l]; cbn; intros Hyx Hyz; [by constructor|].
  inversion Hyz; subst. destruct (cmp x z); by constructor.
Qed.

Lemma insert_by_sorted (x : A) (l : list A) :
  Sorted cmp_le l -> Sorted cmp_le (insert_by cmp x l).
Proof.
  induction 1 as [|y l Hl IH Hhd]; cbn; [by repeat constructor|].
  destruct (cmp x y) eqn:E.
  - constructor; [done|]. apply insert_by_hdrel; [apply cmp_not_lt_le; congruence | done].
  - constructor; [by constructor|]. constructor. by apply cmp_lt_le.
  - constructor; [done|]. apply insert_by_hdrel; [apply cmp_not_lt_le; congruence | done].
Qed.

(** The result of [sort] is ordered by the comparator. *)
Theorem sort_by_sorted (l : list A) : Sorted cmp_le (sort_by cmp l).
Proof.
  unfold sort_by. enough (forall acc, Sorted cmp_le acc ->
    Sorted cmp_le (fold_left (fun acc x => insert_by cmp x acc) l acc)) by auto.
  induction l as [|x l IH]; intros acc Hacc; cbn; [done|].
  by apply IH, insert_by_sorted.
Qed.

(** [cmp x y] is [Eq]. *)
Definition cmp_eqb (x y : A) : bool := match cmp x y with Eq => true | _ => false end.

Lemma cmp_eq_trans (a b c : A) : cmp a b = Eq -> cmp b c = Eq -> cmp a c = Eq.
Proof.
  intros Hab Hbc.
  assert (Hac : cmp a c <> Gt) by (apply (cmp_le_trans a b c); congruence).
  assert (Hca : cmp c a <> Gt).
  { apply (cmp_le_trans c b a); rewrite cmp_antisym; [rewrite Hbc | rewrite Hab]; done. }
  rewrite (cmp_antisym a c) in Hca. destruct (cmp a c); cbn in *; congruence.
Qed.

Lemma cmp_le_refl (a : A) : cmp_le a a.
Proof. unfold cmp_le. intros H. pose proof (cmp_antisym a a) as E. rewrite H in E. discriminate. Qed.

Lemma cmp_le_transitive : Transitive cmp_le.
Proof. intros a b c. apply cmp_le_trans. Qed.

(** No element of a sorted list starting above [x'] is equal to [x'].*)
Lemma sorted_above_not_eq (x' y z : A) (l : list A) :
  Sorted cmp_le (y :: l) -> cmp x' y = Lt -> z ∈ y :: l -> cmp x' z <> Eq.
Proof.
  intros Hs Hlt Hz Heq.
  apply Sorted_StronglySorted in Hs; [|apply cmp_le_transitive].
  assert (Hyz : cmp_le y z).
  { apply elem_of_cons in Hz as [->|Hz].
    - apply cmp_le_refl.
    - inversion Hs as [|? ? _ Hall]; subst. rewrite Forall_forall in Hall.
      by apply Hall. }
  assert (Hyx : cmp_le y x').
  { apply (cmp_le_trans y z x'); [done|]. rewrite (cmp_antisym x' z), Heq. cbn. congruence. }
  unfold cmp_le in Hyx. rewrite (cmp_antisym x' y), Hlt in Hyx. by apply Hyx.
Qed.

Lemma filter_insert_by (x x' : A) (acc : list A) :
  Sorted cmp_le acc ->
  List.filter (cmp_eqb x) (insert_by cmp x' acc) =
  List.filter (cmp_eqb x) acc ++ List.filter (cmp_eqb x) [x'].
Proof.
  induction 1 as [|y acc Hacc IH Hhd]; [done|]. cbn [insert_by].
  destruct (cmp x' y) eqn:E.
  - cbn [List.filter]. rewrite IH. by destruct (cmp_eqb x y).
  - assert (Hnone : List.filter (cmp_eqb x) (y :: acc) = [] \/ cmp_eqb x x' = false).
    { destruct (cmp_eqb x x') eqn:Ex; [left|by right].
      apply list_filter_nil. intros z Hz. unfold cmp_eqb in *.
      destruct (cmp x z) eqn:Exz; try done. exfalso.
      destruct (cmp x x') eqn:Exx'; try done.
      apply (sorted_above_not_eq x' y z acc); [by constructor|done|done|].
      apply (cmp_eq_trans x' x z); [rewrite cmp_antisym, Exx'|]; done. }
    cbn [List.filter]. destruct Hnone as [Hn|Hn].
    + cbn [List.filter] in Hn. rewrite Hn. cbn. by destruct (cmp_eqb x x').
    + rewrite Hn. cbn. by rewrite app_nil_r.
  - cbn [List.filter]. rewrite IH. by destruct (cmp_eqb x y).
Qed.

(** [sort] is stable: the elements equal to any [x] keep their order. *)
Theorem sort_by_stable (x : A) (l : list A) :
  List.filter (cmp_eqb x) (sort_by cmp l) = List.filter (cmp_eqb x) l.
Proof.
  unfold sort_by.
  enough (forall acc, Sorted cmp_le acc ->
    List.filter (cmp_eqb x) (fold_left (fun acc y => insert_by cmp y acc) l acc) =
    List.filter (cmp_eqb x) acc ++ List.filter (cmp_eqb x) l) by (rewrite H; done).
  induction l as [|y l IH]; intros acc Hacc; cbn; [by rewrite app_nil_r|].
  rewrite IH by (by apply insert_by_sorted). rewrite filter_insert_by by done.
  rewrite <- app_assoc. cbn. by destruct (cmp_eqb x y).
Qed.

End Laws.

(** ** Comparators

    A comparator that is a total preorder, the condition under which the
    language specifies the result of [sort]. *)

Class Comparator {A : Type} (cmp : A -> A -> comparison) : Prop := {
  comparator_antisym : forall a b, cmp b a = CompOpp (cmp a b);
  comparator_le_trans : forall a b c, cmp a b <> Gt -> cmp b c <> Gt -> cmp a c <> Gt;
}.

Lemma comparator_ext {A} (f g : A -> A -> comparison) :
  (forall a b, f a b = g a b) -> Comparator f -> Comparator g.
Proof.
  intros Hfg [Ha Ht]. split.
  - intros a b. rewrite <- !Hfg. apply Ha.
  - intros a b c. rewrite <- !Hfg. apply Ht.
Qed.

(** Comparing the images by [f]. *)
Lemma comparator_on {A B} (cmp : A -> A -> comparison) (f : B -> A) :
  Comparator cmp -> Comparator (fun a b => cmp (f a) (f b)).
Proof. intros [Ha Ht]. split; intros *; [apply Ha | apply Ht]. Qed.

(** The reversed comparator [-cmp]. *)
Lemma comparator_rev {A} (cmp : A -> A -> comparison) :
  Comparator cmp -> Comparator (fun a b => CompOpp (cmp a b)).
Proof.
  intros [Ha Ht]. split.
  - intros a b. by rewrite Ha, CompOpp_involutive.
  - intros a b c Hab Hbc. rewrite <- Ha. rewrite <- Ha in Hab, Hbc. by apply (Ht c b a).
Qed.

#[export] Instance Z_compare_comparator : Comparator Z.compare.
Proof.
  split.
  - intros a b. apply Z.compare_antisym.
  - intros a b c. rewrite !Z.compare_le_iff. lia.
Qed.

(** The laws of [Laws] for a comparator. *)
Lemma sort_by_sorted_stable {A} (cmp : A -> A -> comparison) `{!Comparator cmp} (l : list A) :
  Sorted (cmp_le cmp) (sort_by cmp l) /\
  forall x, List.filter (cmp_eqb cmp x) (sort_by cmp l) = List.filter (cmp_eqb cmp x) l.
Proof.
  split; [apply sort_by_sorted | intros x; apply sort_by_stable];
    first [exact comparator_antisym | exact comparator_le_trans].
Qed.
