(* ===== verification/ViewReconciler.v ===== *)
(** * The view reconciler: filtering and sorting the table rows

    TaskTable.jsx ([src/unnamed/part_003]).  The component keeps, as React
    state, the per-column filters [activeFilters] (a JavaScript object from
    column id to the array of selected values, modelled as a [gmap]), the sort
    state [sorting] (an object with at most one key) and the user cache
    [cachedUsers].  The derived row list [filteredAndSortedBoardItems]
    (lines 454-619) is [compute_view]; the handlers [handleFilterChange],
    [handleClearFilter] and [onSort] are the state updates of the same name.

    The comparisons the code delegates to the platform
    ([String.prototype.localeCompare] with numeric collation, [new Date],
    [parseFloat]) are the class [JsEngine]; the theorems about sorting hold
    for every engine whose collation is a total preorder.  [Array.prototype.
    sort] is modelled as a stable insertion sort: the language requires a
    stable sort and leaves the algorithm open. *)

From S2P Require Import Prelude Json ArraySort.
From Stdlib Require Import Ascii Sorting.Permutation Sorting.Sorted.

Local Set Warnings "-clear-no-such-hyp".

(** ** Data, as the API returns it and App.jsx tags it *)

(** [column_values[i] = { id, text, value }]; [text] and [value] may be
    [null] ([None]); [value] is a JSON document in a string. *)
Record column_value := {
  cv_id : string;
  cv_text : option string;
  cv_value : option string;
}.

Record item := {
  it_id : string;
  it_name : string;
  it_boardId : string;
  it_boardName : string;
  it_column_values : list column_value;
}.

(** A column of [allBoardColumns]: [{ id, title, type, settings_str }]. *)
Record board_column := {
  col_id : string;
  col_title : string;
  col_type : string;
  col_settings_str : option string;
}.

(** An entry of [cachedUsers]: the fields of [GET_USER_DETAILS_QUERY]
    the table reads ([id], [name], [email], [photo_original]).  The [id] is
    the value the entry was written with, [None] when undefined: a string
    for a user the API returned, the person's own (numeric) id for the
    placeholder [{ id: userId, name: 'Unknown' }]; any other field that is
    absent or not a string is [None]. *)
Record cached_user := {
  user_id : option json;
  user_name : option string;
  user_email : option string;
  user_photo : option string;
}.

(** [String(user.id)] (and [`${user.id}`]). *)
Definition user_id_text (u : cached_user) : string :=
  match user_id u with Some i => js_to_string i | None => "undefined" end.

(** ** The platform's comparisons *)

(** [a.localeCompare(b, undefined, { numeric: true, sensitivity: 'base' })],
    [new Date(s).getTime()] ([None] is [NaN]) and [parseFloat(s)] as the
    exact decimal [m * 10^e] of the prefix it reads ([None] is [NaN]); the
    collation is a total preorder. *)
Class JsEngine := {
  locale_compare : string -> string -> comparison;
  locale_compare_comparator :: Comparator locale_compare;
  date_time : string -> option Z;
  parse_float : string -> option (Z * Z);
}.

(** ** Reading cells *)

(** [Array.prototype.find] by id. *)
Definition find_cv (cvs : list column_value) (id : string) : option column_value :=
  List.find (fun cv => String.eqb (cv_id cv) id) cvs.

Definition find_column (cols : list board_column) (id : string) : option board_column :=
  List.find (fun c => String.eqb (col_id c) id) cols.

(** [String(x)] of a [text] that may be [null]. *)
Definition text_string (t : option string) : string :=
  match t with Some s => s | None => "null" end.

(** [x || ''] of a [text] that may be [null]. *)
Definition text_or_empty (t : option string) : string :=
  match t with Some s => s | None => "" end.

Definition is_person_type (ty : string) : bool :=
  String.eqb ty "person" || String.eqb ty "people".

(** The status text normalisation of lines 507-508 (and 326-328). *)
Definition normalize_status (t : string) : string :=
  if String.eqb t "-" || String.eqb t "undefined" || String.eqb t "null" || String.eqb t ""
  then "No status" else t.

(** [String(itemColumnValue ? itemColumnValue.text : '').trim()]. *)
Definition status_text (cv : option column_value) : string :=
  js_trim (match cv with Some c => text_string (cv_text c) | None => "" end).

(** [cv.value && String(cv.value).trim() !== '']. *)
Definition has_value (v : option string) : bool :=
  match v with Some s => str_truthy s && negb (String.eqb (js_trim s) "") | None => false end.

(** [p.kind === 'person'] on an element of an array; reading a property of
    [null] throws ([None]). *)
Definition kind_is_person (p : json) : option bool :=
  match p with
  | JNull => None
  | _ => Some (match jget p "kind" with Some (JStr k) => String.eqb k "person" | _ => false end)
  end.

Fixpoint filter_persons (l : list json) : option (list json) :=
  match l with
  | [] => Some []
  | p :: l' =>
      match kind_is_person p, filter_persons l' with
      | Some b, Some ps => Some (if b then p :: ps else ps)
      | _, _ => None
      end
  end.

(** The shape sniffing of lines 473-477 (and 519-523, 971-977): the
    persons of [{ personsAndTeams: [...] }] or of a bare array; [None] is an
    exception thrown inside the [try]. *)
Definition persons_of_json (v : json) : option (list json) :=
  match jget v "personsAndTeams" with
  | Some (JArr l) => if js_truthy v then filter_persons l else Some []
  | _ => match v with JArr l => filter_persons l | _ => Some [] end
  end.

(** [JSON.parse(cv.value)] followed by the shape sniffing. *)
Definition persons_of_cell (value : string) : option (list json) :=
  match parse value with
  | Some v => persons_of_json v
  | None => None
  end.

(** [p.id && String(p.id) === x]. *)
Definition person_id_is (x : string) (p : json) : bool :=
  match jget p "id" with
  | Some i => js_truthy i && String.eqb (js_to_string i) x
  | None => false
  end.

(** [p.id && selectedValues.includes(String(p.id))]. *)
Definition person_id_in (sel : list string) (p : json) : bool :=
  match jget p "id" with
  | Some i => js_truthy i && arr_includes sel (js_to_string i)
  | None => false
  end.

(** ** Table columns and state *)

(** An option of a status column's dialog: [{ id, label, value, color }]. *)
Record status_option := {
  so_id : string;
  so_label : json;
  so_value : json;
  so_color : json;
}.

(** An entry of [columnsForTable]: [{ id, title, type, statusOptions }]. *)
Record table_column := {
  tc_id : string;
  tc_title : string;
  tc_type : string;
  tc_statusOptions : option (list status_option);
}.

Definition find_table_column (cols : list table_column) (id : string) : option table_column :=
  List.find (fun c => String.eqb (tc_id c) id) cols.

(** [activeFilters]: column id to the selected values. *)
Abbreviation filters := (gmap string (list string)).

(** [sorting]: [{}] or [{ [columnId]: sortState }], the state [undefined]
    when the table reports none. *)
Abbreviation sort_state := (option (string * option string)).

Definition current_user_key : string := "current_user_filter".

(** ** Filtering (lines 461-534) *)

(** One entry [[columnId, selectedValues]] of [activeFilters] against one
    item (lines 491-532). *)
Definition column_filter_passes (cols : list table_column) (it : item)
    (columnId : string) (selected : list string) : bool :=
  if String.eqb columnId current_user_key then true
  else if bool_decide (selected = []) then true
  else match find_table_column cols columnId with
       | None => true
       | Some meta =>
           let cv := find_cv (it_column_values it) columnId in
           if String.eqb (tc_type meta) "status" then
             arr_includes selected (normalize_status (status_text cv))
           else if is_person_type (tc_type meta) then
             match cv with
             | Some c =>
                 match cv_value c with
                 | Some v =>
                     if has_value (Some v) then
                       match persons_of_cell v with
                       | Some ps => existsb (person_id_in selected) ps
                       | None => false
                       end
                     else arr_includes selected "No user"
                 | None => arr_includes selected "No user"
                 end
             | None => arr_includes selected "No user"
             end
           else
             let t := js_trim (match cv with Some c => text_or_empty (cv_text c) | None => "" end) in
             existsb (fun v => str_includes t v) selected
       end.

(** [Object.entries(activeFilters).every(...)]. *)
Definition item_passes (cols : list table_column) (af : filters) (it : item) : bool :=
  forallb (fun kv => column_filter_passes cols it (fst kv) (snd kv)) (map_to_list af).

(** The current user appears in a person column of the item (lines
    465-486); [allBoardColumns] gives the column types. *)
Definition mentions_user (allcols : list board_column) (uid : string) (it : item) : bool :=
  existsb (fun cv =>
    match find_column allcols (cv_id cv) with
    | Some meta =>
        if is_person_type (col_type meta) then
          match cv_value cv with
          | Some v =>
              if has_value (Some v) then
                match persons_of_cell v with
                | Some ps => existsb (person_id_is uid) ps
                | None => false
                end
              else false
          | None => false
          end
        else false
    | None => false
    end) (it_column_values it).

Definition current_user_filter_on (af : filters) : bool :=
  match af !! current_user_key with
  | Some vs => arr_includes vs "true"
  | None => false
  end.

(** [finalFilteredItems]. *)
Definition filter_items (allcols : list board_column) (cols : list table_column)
    (af : filters) (currentUserId : option string) (items : list item) : list item :=
  let l1 := match currentUserId with
            | Some uid => if current_user_filter_on af
                          then List.filter (mentions_user allcols uid) items else items
            | None => items
            end in
  List.filter (item_passes cols af) l1.

(** ** Sorting (lines 537-618) *)

Section Sorting.

Context `{JsEngine}.

(** What [valueA] holds when the comparison starts: a string, a number
    ([m * 10^e]), a [Date] ([None] is an invalid date) or another value,
    compared through [String(value)]. *)
Inductive sort_key :=
| KStr (s : string)
| KNum (m e : Z)
| KDate (t : option Z)
| KOther (s : string).

Definition key_string (k : sort_key) : string :=
  match k with
  | KStr s | KOther s => s
  | KNum m e => number_to_string m e
  | KDate _ => ""
  end.

(** [m1 * 10^e1] against [m2 * 10^e2], exactly. *)
Definition dec_compare (m1 e1 m2 e2 : Z) : comparison :=
  let e := Z.min e1 e2 in
  Z.compare (m1 * 10 ^ (e1 - e)) (m2 * 10 ^ (e2 - e)).

(** [valueA - valueB] or [localeCompare] (lines 604-613); a [NaN]
    difference counts as equal, as [Array.prototype.sort] does. *)
Definition compare_keys (is_date : bool) (a b : sort_key) : comparison :=
  if is_date then
    match a, b with
    | KDate (Some x), KDate (Some y) => Z.compare x y
    | _, _ => Eq
    end
  else match a, b with
       | KStr x, KStr y => locale_compare x y
       | KNum m1 e1, KNum m2 e2 => dec_compare m1 e1 m2 e2
       | _, _ => locale_compare (key_string a) (key_string b)
       end.

(** [parseFloat(v) || 0]. *)
Definition number_key (v : string) : sort_key :=
  match parse_float v with
  | Some (m, e) => if (m =? 0)%Z then KNum 0 0 else KNum m e
  | None => KNum 0 0
  end.

(** [new Date(text)] or [new Date(0)]. *)
Definition date_key (cv : option column_value) : sort_key :=
  match cv with
  | Some c => match cv_text c with
              | Some t => if str_truthy t then KDate (date_time t) else KDate (Some 0%Z)
              | None => KDate (Some 0%Z)
              end
  | None => KDate (Some 0%Z)
  end.

(** [cv && cv.value ? JSON.parse(cv.value) : null]; [None] is the
    [SyntaxError]. *)
Definition parse_cell (cv : option column_value) : option json :=
  match cv with
  | Some c => match cv_value c with
              | Some v => if str_truthy v then parse v else Some JNull
              | None => Some JNull
              end
  | None => Some JNull
  end.

Definition key_of_json (v : json) : sort_key :=
  match v with
  | JStr s => KStr s
  | JNum m e => KNum m e
  | _ => KOther (js_to_string v)
  end.

(** [parsed?.url || parsed?.text || '']. *)
Definition link_key (parsed : json) : sort_key :=
  match jget parsed "url" with
  | Some u => if js_truthy u then key_of_json u else
               match jget parsed "text" with
               | Some t => if js_truthy t then key_of_json t else KStr ""
               | None => KStr ""
               end
  | None => match jget parsed "text" with
            | Some t => if js_truthy t then key_of_json t else KStr ""
            | None => KStr ""
            end
  end.

(** [parsed && parsed.personsAndTeams ? parsed.personsAndTeams.filter(...)
    : []]; [.filter] of a value that is not an array throws. *)
Definition sort_persons (parsed : json) : option (list json) :=
  if js_truthy parsed then
    match jget parsed "personsAndTeams" with
    | Some (JArr l) => filter_persons l
    | Some v => if js_truthy v then None else Some []
    | None => Some []
    end
  else Some [].

(** [persons.length > 0 ? (cachedUsers[persons[0].id]?.name || '') : '']. *)
Definition person_key (cache : gmap string cached_user) (persons : list json) : sort_key :=
  match persons with
  | p :: _ =>
      let key := match jget p "id" with Some i => js_to_string i | None => "undefined" end in
      match cache !! key with
      | Some u => KStr (match user_name u with Some n => n | None => "" end)
      | None => KStr ""
      end
  | [] => KStr ""
  end.

(** [cv?.text || ''], the fallback of the [catch] blocks. *)
Definition text_key (cv : option column_value) : sort_key :=
  KStr (match cv with Some c => text_or_empty (cv_text c) | None => "" end).

(** The keys of both items (lines 550-602): one [try] covers both items of
    the link and person cases, so a failure on either side makes both fall
    back to the text. *)
Definition sort_keys (cache : gmap string cached_user) (sortColumnId ty : string)
    (a b : item) : sort_key * sort_key :=
  if String.eqb sortColumnId "item_name_column" then (KStr (it_name a), KStr (it_name b))
  else if String.eqb sortColumnId "board_name_column" then (KStr (it_boardName a), KStr (it_boardName b))
  else
    let ca := find_cv (it_column_values a) sortColumnId in
    let cb := find_cv (it_column_values b) sortColumnId in
    let ta := match ca with Some c => text_or_empty (cv_text c) | None => "" end in
    let tb := match cb with Some c => text_or_empty (cv_text c) | None => "" end in
    if String.eqb ty "numbers" then (number_key ta, number_key tb)
    else if String.eqb ty "date" then (date_key ca, date_key cb)
    else if String.eqb ty "link" then
      match parse_cell ca, parse_cell cb with
      | Some pa, Some pb => (link_key pa, link_key pb)
      | _, _ => (text_key ca, text_key cb)
      end
    else if is_person_type ty then
      match parse_cell ca, parse_cell cb with
      | Some pa, Some pb =>
          match sort_persons pa, sort_persons pb with
          | Some xa, Some xb => (person_key cache xa, person_key cache xb)
          | _, _ => (text_key ca, text_key cb)
          end
      | _, _ => (text_key ca, text_key cb)
      end
    else (KStr ta, KStr tb).

(** The comparator passed to [sort], its direction applied. *)
Definition item_compare (cache : gmap string cached_user) (sortColumnId ty order : string)
    (a b : item) : comparison :=
  let '(ka, kb) := sort_keys cache sortColumnId ty a b in
  let c := compare_keys (String.eqb ty "date") ka kb in
  if String.eqb order "asc" then c else CompOpp c.

End Sorting.

(** ** The derived rows and the state updates *)

(** [filteredAndSortedBoardItems] (lines 454-619). *)
Definition compute_view `{JsEngine} (boardItems : list item) (allcols : list board_column)
    (cols : list table_column) (af : filters) (sorting : sort_state)
    (cache : gmap string cached_user) (currentUserId : option string) : list item :=
  match boardItems with
  | [] => []
  | _ :: _ =>
      let filtered := filter_items allcols cols af currentUserId boardItems in
      match sorting with
      | Some (sid, Some order) =>
          if str_truthy sid && str_truthy order then
            match find_table_column cols sid with
            | Some meta => sort_by (item_compare cache sid (tc_type meta) order) filtered
            | None => filtered
            end
          else filtered
      | _ => filtered
      end
  end.

(** [handleFilterChange(columnId, value, isChecked)] (lines 235-250). *)
Definition handleFilterChange (af : filters) (columnId value : string) (isChecked : bool) : filters :=
  let current := default [] (af !! columnId) in
  if isChecked then <[columnId := current ++ [value]]> af
  else <[columnId := arr_remove current value]> af.

(** [handleClearFilter(columnId)] (lines 252-258). *)
Definition handleClearFilter (af : filters) (columnId : string) : filters :=
  delete columnId af.

(** [onSort(columnId, sortState)] (lines 229-233): the new state replaces
    the old one. *)
Definition onSort (columnId : string) (sortState : option string) : sort_state :=
  Some (columnId, sortState).

(** Unchecking the values [vs] of column [c] one after the other. *)
Definition uncheck_all (af : filters) (c : string) (vs : list string) : filters :=
  fold_left (fun f v => handleFilterChange f c v false) vs af.

(** [parseFloat(v) || 0] is always a number. *)
Definition number_val `{JsEngine} (v : string) : Z * Z :=
  match number_key v with KNum m e => (m, e) | _ => (0, 0)%Z end.

(** Two filter states select, column by column, the same values; an absent
    column selects nothing, like an empty array. *)
Definition filters_equiv (f g : filters) : Prop :=
  forall k v, v ∈ default [] (f !! k) <-> v ∈ default [] (g !! k).

(** ** A concrete engine for the examples

    Byte-wise collation ([String.compare]), [parseFloat] of
    [-?digits(.digits)?] after leading white space, and [Date] of an ISO
    calendar date [YYYY-MM-DD] at UTC midnight. *)

Definition simple_parse_float (s : string) : option (Z * Z) :=
  let t := trim_left s in
  let '(neg, t1) := match t with
                    | String c r => if Ascii.eqb c "-"%char then (true, r) else (false, t)
                    | EmptyString => (false, t)
                    end in
  let '(ip, r) := span_digits t1 in
  let fp := match r with
            | String c r' => if Ascii.eqb c "."%char then fst (span_digits r') else ""
            | EmptyString => ""
            end in
  if String.eqb ip "" && String.eqb fp "" then None
  else let m := Z_of_digits_acc 0 (ip +:+ fp) in
       Some (if neg then (- m)%Z else m, (- Z.of_nat (String.length fp))%Z).

(** Days from 1970-01-01 to a proleptic Gregorian date. *)
Definition days_from_civil (y m d : Z) : Z :=
  let y' := if (m <=? 2)%Z then (y - 1)%Z else y in
  let era := (y' / 400)%Z in
  let yoe := (y' - era * 400)%Z in
  let mp := ((m + 9) mod 12)%Z in
  let doy := ((153 * mp + 2) / 5 + d - 1)%Z in
  let doe := (yoe * 365 + yoe / 4 - yoe / 100 + doy)%Z in
  (era * 146097 + doe - 719468)%Z.

Definition iso_date_time (s : string) : option Z :=
  match s with
  | String y1 (String y2 (String y3 (String y4 (String dash1
      (String m1 (String m2 (String dash2 (String d1 (String d2 EmptyString))))))))) =>
      if forallb is_digit [y1; y2; y3; y4; m1; m2; d1; d2]
         && Ascii.eqb dash1 "-"%char && Ascii.eqb dash2 "-"%char then
        let y := Z_of_digits_acc 0 (String y1 (String y2 (String y3 (String y4 EmptyString)))) in
        let m := Z_of_digits_acc 0 (String m1 (String m2 EmptyString)) in
        let d := Z_of_digits_acc 0 (String d1 (String d2 EmptyString)) in
        if ((1 <=? m) && (m <=? 12) && (1 <=? d) && (d <=? 31))%Z
        then Some (days_from_civil y m d * 86400000)%Z else None
      else None
  | _ => None
  end.

#[export] Instance string_compare_comparator : Comparator String.compare.
Proof. split; [apply string_compare_antisym | apply string_compare_le_trans]. Qed.

#[export] Instance byte_engine : JsEngine := {|
  locale_compare := String.compare;
  locale_compare_comparator := string_compare_comparator;
  date_time := iso_date_time;
  parse_float := simple_parse_float;
|}.

(** ** Example rows

    Three items of board [b1] with a status column [status] and a numbers
    column [n]: their statuses are [Working on it], empty and [Done], their
    numbers [3], [abc] and [1] (the scenario of the specification). *)

Definition ex_item (id status num : string) : item := {|
  it_id := id; it_name := "Item " +:+ id; it_boardId := "b1"; it_boardName := "B1";
  it_column_values := [ {| cv_id := "status"; cv_text := Some status; cv_value := None |};
                        {| cv_id := "n"; cv_text := Some num; cv_value := None |} ] |}.

Definition ex_items : list item :=
  [ex_item "a" "Working on it" "3"; ex_item "b" "" "abc"; ex_item "c" "Done" "1"].

Definition ex_status_col : table_column :=
  {| tc_id := "status"; tc_title := "Status"; tc_type := "status"; tc_statusOptions := None |}.

Definition ex_cols : list table_column :=
  [ ex_status_col;
    {| tc_id := "n"; tc_title := "N"; tc_type := "numbers"; tc_statusOptions := None |} ].

(** An item with one cell [col]. *)
Definition ex_cell_item (id col text : string) (value : option string) : item := {|
  it_id := id; it_name := id; it_boardId := "b1"; it_boardName := "B1";
  it_column_values := [ {| cv_id := col; cv_text := Some text; cv_value := value |} ] |}.

Definition ex_date_col : table_column :=
  {| tc_id := "d"; tc_title := "Due"; tc_type := "date"; tc_statusOptions := None |}.

(** The value of a person cell assigned to the user [id]. *)
Definition ex_person_value (id : Z) : string :=
  stringify (JObj [("personsAndTeams", JArr [JObj [("id", JNum id 0); ("kind", JStr "person")]])]).

Definition ex_cache : gmap string cached_user :=
  {[ "7" := {| user_id := Some (JStr "7"); user_name := Some "z"; user_email := None; user_photo := None |};
     "8" := {| user_id := Some (JStr "8"); user_name := Some "b"; user_email := None; user_photo := None |} ]}.

(** A person cell as the API writes it: [{"personsAndTeams": [{"id": ..,
    "kind": ..}, ...]}], with string ids. *)
Definition person_ref (p : string * string) : json := JObj [("id", JStr p.1); ("kind", JStr p.2)].

Definition people_value (ps : list (string * string)) : string :=
  stringify (JObj [("personsAndTeams", JArr (map person_ref ps))]).

Definition ex_owner_col : table_column :=
  {| tc_id := "owner"; tc_title := "Owner"; tc_type := "people"; tc_statusOptions := None |}.

(** Three items assigned: to the person [7]; to the team [7] and the
    person [8]; to a person with an empty id. *)
Definition ex_people_cells (it : item) : list (string * string) :=
  if String.eqb (it_id it) "a" then [("7", "person")]
  else if String.eqb (it_id it) "b" then [("7", "team"); ("8", "person")]
  else [("", "person")].

Definition ex_people_items : list item :=
  map (fun id => ex_cell_item id "owner" ""
                   (Some (people_value (ex_people_cells (ex_cell_item id "owner" "" None)))))
    ["a"; "b"; "c"].

(** ** Filter states that select the same values *)

#[export] Instance filters_equiv_equivalence : Equivalence filters_equiv.
Proof.
  split.
  - intros f k v. done.
  - intros f g H k v. symmetry. apply H.
  - intros f g h H1 H2 k v. by rewrite (H1 k v), (H2 k v).
Qed.

Lemma existsb_same_members {A} (p : A -> bool) (l1 l2 : list A) :
  (forall v, v ∈ l1 <-> v ∈ l2) -> existsb p l1 = existsb p l2.
Proof.
  intros H. apply Bool.eq_iff_eq_true. rewrite !existsb_exists.
  split; intros (x & Hx & Hp); exists x; split; try done;
    apply list_elem_of_In; apply H; by apply list_elem_of_In.
Qed.

Lemma arr_includes_same_members (l1 l2 : list string) (x : string) :
  (forall v, v ∈ l1 <-> v ∈ l2) -> arr_includes l1 x = arr_includes l2 x.
Proof. apply existsb_same_members. Qed.

(** Two arrays with the same members are empty together. *)
Lemma nil_same_members {A} (l1 l2 : list A) :
  (forall v, v ∈ l1 <-> v ∈ l2) -> bool_decide (l1 = []) = bool_decide (l2 = []).
Proof.
  intros H. apply bool_decide_ext. split; intros ->; [destruct l2 as [|w l2]|destruct l1 as [|w l1]];
    try done; exfalso; eapply not_elem_of_nil, H; by left.
Qed.

(** One column's test depends on the selected values as a set. *)
Lemma column_filter_passes_same_members (cols : list table_column) (it : item) (k : string)
    (vs ws : list string) :
  (forall v, v ∈ vs <-> v ∈ ws) ->
  column_filter_passes cols it k vs = column_filter_passes cols it k ws.
Proof.
  intros H. unfold column_filter_passes.
  assert (Hnil : bool_decide (vs = []) = bool_decide (ws = [])) by by apply nil_same_members.
  assert (Hp : forall p, person_id_in vs p = person_id_in ws p).
  { intros p. unfold person_id_in. destruct (jget p "id"); [|done].
    by rewrite (arr_includes_same_members vs ws). }
  rewrite Hnil. destruct (String.eqb k current_user_key), (bool_decide (ws = [])); try done.
  destruct (find_table_column cols k) as [meta|]; [|done].
  destruct (String.eqb (tc_type meta) "status"); [by apply arr_includes_same_members|].
  destruct (is_person_type (tc_type meta)); [|by apply existsb_same_members].
  repeat case_match; try done; try by apply arr_includes_same_members.
  apply existsb_ext. intros p. apply Hp.
Qed.

Lemma column_filter_passes_nil (cols : list table_column) (it : item) (k : string) :
  column_filter_passes cols it k [] = true.
Proof. unfold column_filter_passes. by destruct (String.eqb k current_user_key). Qed.

Lemma item_passes_spec (cols : list table_column) (af : filters) (it : item) :
  item_passes cols af it = true <->
  forall k vs, af !! k = Some vs -> column_filter_passes cols it k vs = true.
Proof.
  unfold item_passes. rewrite forallb_forall. split.
  - intros H k vs Hk. apply (H (k, vs)), list_elem_of_In. by apply elem_of_map_to_list.
  - intros H [k vs] Hin. apply H. apply elem_of_map_to_list. by apply list_elem_of_In.
Qed.

Lemma item_passes_equiv_impl (cols : list table_column) (f g : filters) (it : item) :
  filters_equiv f g -> item_passes cols f it = true -> item_passes cols g it = true.
Proof.
  rewrite !item_passes_spec. intros Hfg H k vs Hk.
  destruct (f !! k) as [ws|] eqn:Hf.
  - rewrite <- (column_filter_passes_same_members _ _ _ ws vs); [by apply H|].
    intros v. specialize (Hfg k v). by rewrite Hf, Hk in Hfg.
  - destruct vs as [|w vs]; [apply column_filter_passes_nil|]. exfalso.
    specialize (Hfg k w). rewrite Hf, Hk in Hfg. cbn in Hfg.
    apply (not_elem_of_nil w), Hfg. by left.
Qed.

#[export] Instance item_passes_proper (cols : list table_column) :
  Proper (filters_equiv ==> eq ==> eq) (item_passes cols).
Proof.
  intros f g Hfg it ? <-. apply Bool.eq_iff_eq_true.
  split; apply item_passes_equiv_impl; [done | by symmetry].
Qed.

Lemma current_user_filter_on_members (af : filters) :
  current_user_filter_on af = arr_includes (default [] (af !! current_user_key)) "true".
Proof. unfold current_user_filter_on. by destruct (af !! current_user_key). Qed.

#[export] Instance current_user_filter_on_proper : Proper (filters_equiv ==> eq) current_user_filter_on.
Proof.
  intros f g Hfg. rewrite !current_user_filter_on_members.
  apply arr_includes_same_members, Hfg.
Qed.

#[export] Instance filter_items_proper (allcols : list board_column) (cols : list table_column) :
  Proper (filters_equiv ==> eq ==> eq ==> eq) (filter_items allcols cols).
Proof.
  intros f g Hfg uid ? <- items ? <-. unfold filter_items.
  rewrite (current_user_filter_on_proper f g Hfg).
  apply filter_ext. intros it. by apply item_passes_proper.
Qed.

#[export] Instance compute_view_proper `{JsEngine} (items : list item)
    (allcols : list board_column) (cols : list table_column) :
  Proper (filters_equiv ==> eq ==> eq ==> eq ==> eq) (compute_view items allcols cols).
Proof.
  intros f g Hfg s ? <- cache ? <- uid ? <-. unfold compute_view.
  by rewrite (filter_items_proper allcols cols f g Hfg uid uid eq_refl items items eq_refl).
Qed.

(** *** What the handlers do to the selected values *)

Lemma handleFilterChange_check_members (af : filters) (c v k v' : string) :
  v' ∈ default [] (handleFilterChange af c v true !! k) <->
  v' ∈ default [] (af !! k) \/ (k = c /\ v' = v).
Proof.
  unfold handleFilterChange. destruct (decide (k = c)) as [->|Hne].
  - rewrite lookup_insert_eq. cbn. rewrite elem_of_app, list_elem_of_singleton. naive_solver.
  - rewrite lookup_insert_ne by congruence. naive_solver.
Qed.

Lemma handleFilterChange_uncheck_members (af : filters) (c v k v' : string) :
  v' ∈ default [] (handleFilterChange af c v false !! k) <->
  v' ∈ default [] (af !! k) /\ (k = c -> v' <> v).
Proof.
  unfold handleFilterChange. destruct (decide (k = c)) as [->|Hne].
  - rewrite lookup_insert_eq. cbn. rewrite arr_remove_spec. naive_solver.
  - rewrite lookup_insert_ne by congruence. naive_solver.
Qed.

Lemma handleClearFilter_members (af : filters) (c k v' : string) :
  v' ∈ default [] (handleClearFilter af c !! k) <-> v' ∈ default [] (af !! k) /\ k <> c.
Proof.
  unfold handleClearFilter. destruct (decide (k = c)) as [->|Hne].
  - rewrite lookup_delete_eq. cbn. split; [by intros ?%not_elem_of_nil | naive_solver].
  - rewrite lookup_delete_ne by congruence. naive_solver.
Qed.

Lemma uncheck_all_members (vs : list string) (af : filters) (c k v' : string) :
  v' ∈ default [] (uncheck_all af c vs !! k) <->
  v' ∈ default [] (af !! k) /\ (k = c -> v' ∉ vs).
Proof.
  unfold uncheck_all. revert af. induction vs as [|v vs IH]; intros af; cbn [fold_left].
  - split; [|naive_solver]. intros H. split; [done|]. intros _. apply not_elem_of_nil.
  - rewrite IH, handleFilterChange_uncheck_members, elem_of_cons.
    naive_solver.
Qed.

Section Handlers.

Context `{JsEngine} (items : list item) (allcols : list board_column) (cols : list table_column)
  (sorting : sort_state) (cache : gmap string cached_user) (uid : option string).

(** Checking a value that is already selected appends a duplicate to
    the column's filter array and leaves the table unchanged. *)
Theorem handleFilterChange_recheck (af : filters) (c v : string) :
  v ∈ default [] (af !! c) ->
  compute_view items allcols cols (handleFilterChange af c v true) sorting cache uid =
  compute_view items allcols cols af sorting cache uid.
Proof.
  intros Hv. apply compute_view_proper; [|done..].
  intros k v'. rewrite handleFilterChange_check_members. naive_solver.
Qed.

(** checking a value that was not selected and unchecking it again
    gives back the table of before. *)
Theorem handleFilterChange_toggle (af : filters) (c v : string) :
  v ∉ default [] (af !! c) ->
  compute_view items allcols cols
    (handleFilterChange (handleFilterChange af c v true) c v false) sorting cache uid =
  compute_view items allcols cols af sorting cache uid.
Proof.
  intros Hv. apply compute_view_proper; [|done..].
  intros k v'. rewrite handleFilterChange_uncheck_members, handleFilterChange_check_members.
  naive_solver.
Qed.

(** The clear button of a column gives the table that unchecking each
    of its selected values gives. *)
Theorem handleClearFilter_unchecks_all (af : filters) (c : string) :
  compute_view items allcols cols (handleClearFilter af c) sorting cache uid =
  compute_view items allcols cols (uncheck_all af c (default [] (af !! c))) sorting cache uid.
Proof.
  apply compute_view_proper; [|done..].
  intros k v'. rewrite handleClearFilter_members, uncheck_all_members. naive_solver.
Qed.

End Handlers.

(** *** The rows of the table *)

Lemma filter_items_elem (allcols : list board_column) (cols : list table_column) (af : filters)
    (uid : option string) (items : list item) (it : item) :
  it ∈ filter_items allcols cols af uid items <->
  it ∈ items /\ item_passes cols af it = true /\
  (forall u, uid = Some u -> current_user_filter_on af = true -> mentions_user allcols u it = true).
Proof.
  unfold filter_items. rewrite !list_elem_of_In, filter_In.
  destruct uid as [u|]; [destruct (current_user_filter_on af) eqn:Hon|];
    rewrite ?filter_In; naive_solver.
Qed.

Lemma filter_items_nil (allcols : list board_column) (cols : list table_column) (af : filters)
    (uid : option string) : filter_items allcols cols af uid [] = [].
Proof. unfold filter_items. by repeat case_match. Qed.

Section View.

Context `{JsEngine} (items : list item) (allcols : list board_column) (cols : list table_column)
  (af : filters) (cache : gmap string cached_user) (uid : option string).

(** Whatever the sort, the table shows a permutation of the filtered
    items: sorting neither drops nor duplicates a row. *)
Theorem compute_view_perm (sorting : sort_state) :
  Permutation (compute_view items allcols cols af sorting cache uid)
              (filter_items allcols cols af uid items).
Proof.
  unfold compute_view. destruct items; [by rewrite filter_items_nil|].
  repeat case_match; try done; apply sort_by_perm.
Qed.

(** Without an active sort the table keeps the input order. *)
Theorem compute_view_unsorted :
  compute_view items allcols cols af None cache uid = filter_items allcols cols af uid items.
Proof. unfold compute_view. destruct items; [by rewrite filter_items_nil | done]. Qed.

(** C26: the header's third click reports the sort state ["none"]; the table
    is then sorted in descending order, exactly as for ["desc"], instead of
    going back to the input order. *)
Theorem compute_view_none_is_desc (c : string) :
  compute_view items allcols cols af (onSort c (Some "none")) cache uid =
  compute_view items allcols cols af (onSort c (Some "desc")) cache uid.
Proof.
  unfold compute_view, onSort. destruct items; [done|]. cbn -[filter_items].
  destruct (str_truthy c), (find_table_column cols c); cbn; try done.
Qed.

End View.

(** *** Person cells *)

Lemma trim_left_snoc (l : list Ascii.ascii) (c : Ascii.ascii) :
  is_ws c = false -> trim_left (String.string_of_list_ascii (l ++ [c])) <> "".
Proof.
  intros Hc. induction l as [|a l IH]; cbn; [by rewrite Hc|]. by destruct (is_ws a).
Qed.

Lemma js_trim_head (c : Ascii.ascii) (s : string) : is_ws c = false -> js_trim (String c s) <> "".
Proof.
  intros Hc. unfold js_trim. cbn [trim_left]. rewrite Hc. unfold str_rev at 2.
  cbn [String.list_ascii_of_string rev].
  pose proof (trim_left_snoc (rev (String.list_ascii_of_string s)) c Hc) as Hne.
  destruct (trim_left _) as [|a t]; [done|]. unfold str_rev. cbn.
  by destruct (rev (String.list_ascii_of_string t)).
Qed.

Lemma has_value_head (c : Ascii.ascii) (t : string) : is_ws c = false -> has_value (Some (String c t)) = true.
Proof.
  intros Hc. unfold has_value. cbn [str_truthy String.eqb negb andb].
  destruct (String.eqb_spec (js_trim (String c t)) ""); [|done]. by destruct (js_trim_head c t Hc).
Qed.

Lemma has_value_object (fs : list (string * json)) : has_value (Some (stringify (JObj fs))) = true.
Proof. cbn [stringify]. rewrite str_append_cons. by apply has_value_head. Qed.

Lemma filter_persons_refs (ps : list (string * string)) :
  filter_persons (map person_ref ps) = Some (map person_ref (List.filter (fun p => String.eqb p.2 "person") ps)).
Proof.
  induction ps as [|[i k] ps IH]; [done|]. cbn [map filter_persons]. rewrite IH.
  cbn. by destruct (String.eqb k "person").
Qed.

Lemma persons_of_people_value (ps : list (string * string)) :
  persons_of_cell (people_value ps) = Some (map person_ref (List.filter (fun p => String.eqb p.2 "person") ps)).
Proof.
  unfold persons_of_cell, people_value. rewrite parse_stringify.
  - unfold persons_of_json. cbn [jget fold_left fst snd String.eqb]. cbn -[filter_persons].
    apply filter_persons_refs.
  - cbn [no_numbers forallb snd]. rewrite andb_true_r.
    induction ps as [|p ps IH]; [done|]. exact IH.
Qed.

Lemma person_id_in_ref (x : string) (p : string * string) :
  person_id_in [x] (person_ref p) = str_truthy p.1 && String.eqb p.1 x.
Proof. unfold person_id_in. cbn. by rewrite orb_false_r. Qed.

Lemma existsb_person_refs (x : string) (ps : list (string * string)) :
  existsb (person_id_in [x]) (map person_ref (List.filter (fun p => String.eqb p.2 "person") ps)) =
  existsb (fun p => String.eqb p.2 "person" && str_truthy p.1 && String.eqb p.1 x) ps.
Proof.
  induction ps as [|[i k] ps IH]; [done|]. cbn [List.filter existsb fst snd].
  destruct (String.eqb k "person"); cbn [map existsb]; rewrite ?person_id_in_ref, IH; cbn [fst];
    by rewrite ?andb_true_l, ?andb_false_l.
Qed.

(** C14: the scenario of the specification: a single filter on a status
    column keeps, in input order, exactly the items whose normalized status
    text is the selected label. *)
Theorem compute_view_status_filter `{JsEngine} (items : list item) (allcols : list board_column)
    (cols : list table_column) (cache : gmap string cached_user) (uid : option string)
    (c label : string) (meta : table_column) :
  c <> current_user_key -> find_table_column cols c = Some meta -> tc_type meta = "status" ->
  compute_view items allcols cols {[c := [label]]} None cache uid =
  List.filter (fun it => String.eqb (normalize_status (status_text (find_cv (it_column_values it) c))) label)
    items.
Proof.
  intros Hc Hmeta Hty. rewrite compute_view_unsorted. unfold filter_items, current_user_filter_on.
  rewrite lookup_singleton_ne by congruence. destruct uid; apply filter_ext; intros it;
    unfold item_passes; rewrite map_to_list_singleton; cbn;
    unfold column_filter_passes; rewrite Hmeta, Hty, (proj2 (String.eqb_neq _ _) Hc); cbn;
    rewrite andb_true_r, orb_false_r; reflexivity.
Qed.

(** C4: a filter on a person column with the selected value [x] keeps, in
    input order, exactly the items whose cell of that column lists a
    reference of kind [person] with the non-empty id [x]: references to
    teams, empty ids and other people do not count. *)
Theorem compute_view_person_filter `{JsEngine} (items : list item) (allcols : list board_column)
    (cols : list table_column) (cache : gmap string cached_user) (uid : option string)
    (c x : string) (meta : table_column) (cell : item -> list (string * string)) :
  c <> current_user_key -> find_table_column cols c = Some meta -> is_person_type (tc_type meta) = true ->
  Forall (fun it => exists cv, find_cv (it_column_values it) c = Some cv /\
                               cv_value cv = Some (people_value (cell it))) items ->
  compute_view items allcols cols {[c := [x]]} None cache uid =
  List.filter (fun it => existsb (fun p => String.eqb p.2 "person" && str_truthy p.1 && String.eqb p.1 x)
                           (cell it)) items.
Proof.
  intros Hc Hmeta Hty Hcells. rewrite compute_view_unsorted. unfold filter_items, current_user_filter_on.
  rewrite lookup_singleton_ne by congruence.
  assert (Hst : String.eqb (tc_type meta) "status" = false).
  { destruct (String.eqb_spec (tc_type meta) "status") as [E|E]; [by rewrite E in Hty | done]. }
  destruct uid; apply filter_ext_in; intros it Hit; rewrite Forall_forall in Hcells;
    destruct (Hcells it (proj2 (list_elem_of_In _ _) Hit)) as (cv & Hcv & Hv);
    unfold item_passes; rewrite map_to_list_singleton; cbn [forallb fst snd];
    unfold column_filter_passes; rewrite (proj2 (String.eqb_neq _ _) Hc), Hmeta, Hst, Hty, Hcv, Hv;
    unfold people_value at 1; rewrite has_value_object; fold (people_value (cell it));
    rewrite persons_of_people_value, andb_true_r, (bool_decide_eq_false_2 ([x] = [])) by done;
    apply existsb_person_refs.
Qed.

Lemma compute_view_person_filter_witness :
  "owner" <> current_user_key /\ find_table_column [ex_owner_col] "owner" = Some ex_owner_col /\
  is_person_type (tc_type ex_owner_col) = true /\
  Forall (fun it => exists cv, find_cv (it_column_values it) "owner" = Some cv /\
                               cv_value cv = Some (people_value (ex_people_cells it))) ex_people_items /\
  compute_view ex_people_items [] [ex_owner_col] {[ "owner" := ["7"] ]} None ∅ None =
  [ex_cell_item "a" "owner" "" (Some (people_value [("7", "person")]))].
Proof.
  assert (H1 : "owner" <> current_user_key) by done.
  assert (H2 : find_table_column [ex_owner_col] "owner" = Some ex_owner_col) by reflexivity.
  assert (H3 : is_person_type (tc_type ex_owner_col) = true) by reflexivity.
  assert (H4 : Forall (fun it => exists cv, find_cv (it_column_values it) "owner" = Some cv /\
                 cv_value cv = Some (people_value (ex_people_cells it))) ex_people_items)
    by (repeat constructor; eexists; split; reflexivity).
  split_and!; [exact H1 | exact H2 | exact H3 | exact H4 |].
  rewrite (compute_view_person_filter ex_people_items [] [ex_owner_col] ∅ None "owner" "7" ex_owner_col
    ex_people_cells H1 H2 H3 H4). vm_compute. reflexivity.
Defined.

Lemma compute_view_status_filter_witness :
  "status" <> current_user_key /\ find_table_column ex_cols "status" = Some ex_status_col /\
  compute_view ex_items [] ex_cols {[ "status" := ["Working on it"] ]} None ∅ None =
  [ex_item "a" "Working on it" "3"].
Proof.
  split; [done|]. split; [done|].
  rewrite (compute_view_status_filter ex_items [] ex_cols ∅ None "status" "Working on it"
    ex_status_col); [| done | done | done]. vm_compute. reflexivity.
Defined.

Lemma handleFilterChange_toggle_witness :
  ("Done" ∉ default [] (({[ "status" := ["Working on it"] ]} : filters) !! "status")) /\
  compute_view ex_items [] ex_cols
    (handleFilterChange (handleFilterChange {[ "status" := ["Working on it"] ]} "status" "Done" true)
       "status" "Done" false) None ∅ None =
  compute_view ex_items [] ex_cols {[ "status" := ["Working on it"] ]} None ∅ None.
Proof.
  assert (Hv : "Done" ∉ default [] (({[ "status" := ["Working on it"] ]} : filters) !! "status"))
    by (vm_compute; set_solver).
  split; [exact Hv | exact (handleFilterChange_toggle ex_items [] ex_cols None ∅ None _ "status" "Done" Hv)].
Defined.

(** *** The comparator of the sort *)

Lemma dec_compare_at (m1 e1 m2 e2 E : Z) :
  (E <= e1 -> E <= e2 ->
   dec_compare m1 e1 m2 e2 = Z.compare (m1 * 10 ^ (e1 - E)) (m2 * 10 ^ (e2 - E)))%Z.
Proof.
  intros H1 H2. unfold dec_compare. set (e := Z.min e1 e2).
  assert (Hs : forall m e', (e <= e' -> m * 10 ^ (e' - E) = m * 10 ^ (e' - e) * 10 ^ (e - E))%Z).
  { intros m e' He'. rewrite <- Z.mul_assoc, <- Z.pow_add_r by lia. do 2 f_equal. lia. }
  rewrite (Hs m1 e1), (Hs m2 e2) by lia.
  rewrite Z_compare_mul_r; [done|]. apply Z.pow_pos_nonneg; lia.
Qed.

(** Exact decimal comparison is a total preorder. *)
#[export] Instance dec_compare_comparator :
  Comparator (fun x y : Z * Z => dec_compare x.1 x.2 y.1 y.2).
Proof.
  split.
  - intros [m1 e1] [m2 e2]. cbn.
    rewrite !(dec_compare_at _ _ _ _ (Z.min e1 e2)) by lia. apply Z.compare_antisym.
  - intros [m1 e1] [m2 e2] [m3 e3]. cbn.
    rewrite !(dec_compare_at _ _ _ _ (Z.min e1 (Z.min e2 e3))) by lia.
    apply comparator_le_trans.
Qed.

Lemma number_key_val `{JsEngine} (v : string) : number_key v = KNum (number_val v).1 (number_val v).2.
Proof. unfold number_val, number_key. by repeat case_match. Qed.

(** A comparator read off one key per item. *)
Ltac comparator_of cmp f :=
  eapply comparator_ext; cycle 1; [apply (comparator_on cmp f); exact _ | intros; cbn].

(** Outside the date, link and person columns, the comparator of the sort
    is a total preorder whatever the order requested. *)
Lemma item_compare_comparator `{JsEngine} (cache : gmap string cached_user) (sid ty order : string) :
  ty <> "date" -> ty <> "link" -> is_person_type ty = false ->
  Comparator (item_compare cache sid ty order).
Proof.
  intros Hd Hl Hp.
  assert (Comparator (fun a b => compare_keys false (sort_keys cache sid ty a b).1
                                                    (sort_keys cache sid ty a b).2)) as Hc.
  { unfold sort_keys. destruct (String.eqb sid "item_name_column");
      [comparator_of locale_compare it_name; done|].
    destruct (String.eqb sid "board_name_column");
      [comparator_of locale_compare it_boardName; done|].
    rewrite (proj2 (String.eqb_neq _ _) Hd), (proj2 (String.eqb_neq _ _) Hl), Hp.
    destruct (String.eqb ty "numbers").
    - comparator_of (fun x y : Z * Z => dec_compare x.1 x.2 y.1 y.2)
        (fun a => number_val match find_cv (it_column_values a) sid with
                             | Some c => text_or_empty (cv_text c) | None => "" end).
      by rewrite !number_key_val.
    - comparator_of locale_compare
        (fun a => match find_cv (it_column_values a) sid with
                  | Some c => text_or_empty (cv_text c) | None => "" end).
      done. }
  unfold item_compare. rewrite (proj2 (String.eqb_neq _ _) Hd).
  destruct (String.eqb order "asc"); [|apply comparator_rev in Hc];
    (eapply comparator_ext; [|exact Hc]); intros a b; cbn; by destruct sort_keys.
Qed.

(** C3: sorting on a text, status, numbers or name column returns the
    filtered rows ordered by the comparator of the column and direction,
    rows that compare equal keeping their input order. *)
Theorem compute_view_sorted `{JsEngine} (items : list item) (allcols : list board_column)
    (cols : list table_column) (af : filters) (cache : gmap string cached_user)
    (uid : option string) (sid order : string) (meta : table_column) :
  str_truthy sid = true -> str_truthy order = true -> find_table_column cols sid = Some meta ->
  tc_type meta <> "date" -> tc_type meta <> "link" -> is_person_type (tc_type meta) = false ->
  let cmp := item_compare cache sid (tc_type meta) order in
  let view := compute_view items allcols cols af (Some (sid, Some order)) cache uid in
  Sorted (cmp_le cmp) view /\
  forall x, List.filter (cmp_eqb cmp x) view =
            List.filter (cmp_eqb cmp x) (filter_items allcols cols af uid items).
Proof.
  intros Hs Ho Hf Hd Hl Hp cmp view. subst cmp view. unfold compute_view.
  destruct items as [|it items]; [rewrite filter_items_nil; split; [constructor | done]|].
  rewrite Hs, Ho, Hf. cbn [andb]. by apply sort_by_sorted_stable, item_compare_comparator.
Qed.

Lemma compute_view_sorted_witness :
  let cmp := item_compare ∅ "n" "numbers" "asc" in
  let view := compute_view ex_items [] ex_cols ∅ (Some ("n", Some "asc")) ∅ None in
  Sorted (cmp_le cmp) view /\
  forall x, List.filter (cmp_eqb cmp x) view =
            List.filter (cmp_eqb cmp x) (filter_items [] ex_cols ∅ None ex_items).
Proof.
  apply (compute_view_sorted ex_items [] ex_cols ∅ ∅ None "n" "asc"
    {| tc_id := "n"; tc_title := "N"; tc_type := "numbers"; tc_statusOptions := None |});
    vm_compute; congruence.
Defined.

(** the numbers example of the specification: sorting [3], [abc] and
    [1] ascending gives [abc] (read as [0]), then [1], then [3]. *)
Example compute_view_numbers_example :
  compute_view ex_items [] ex_cols ∅ (Some ("n", Some "asc")) ∅ None =
  [ex_item "b" "" "abc"; ex_item "c" "Done" "1"; ex_item "a" "Working on it" "3"].
Proof. vm_compute. reflexivity. Qed.

(** The filter example of the specification: an item whose status text
    is empty passes a filter selecting [No status] and fails one selecting
    [Done]. *)
Example compute_view_no_status_example :
  compute_view ex_items [] ex_cols {[ "status" := ["No status"] ]} None ∅ None =
    [ex_item "b" "" "abc"] /\
  ex_item "b" "" "abc" ∉
    compute_view ex_items [] ex_cols {[ "status" := ["Done"] ]} None ∅ None.
Proof. split; [vm_compute; reflexivity | vm_compute; set_solver]. Qed.

(** C27: a cell whose text is not a date is an invalid [Date]; the difference
    with it is [NaN], which [sort] reads as equal, so the comparator of a
    date column is not transitive and the order of its rows is left to the
    engine. *)
Theorem date_compare_not_comparator :
  ~ Comparator (item_compare (H := byte_engine) ∅ "d" "date" "asc").
Proof.
  intros [_ Ht].
  apply (Ht (ex_cell_item "p" "d" "2024-01-05" None) (ex_cell_item "q" "d" "soon" None)
            (ex_cell_item "r" "d" "2023-01-01" None)); vm_compute; congruence.
Qed.

(** an empty date cell sorts as 1970-01-01, not as the lowest value:
    ascending, a row dated 1969-12-31 comes before it. *)
Example compute_view_missing_date_example :
  compute_view [ex_cell_item "e" "d" "" None; ex_cell_item "o" "d" "1969-12-31" None] []
    [ex_date_col] ∅ (Some ("d", Some "asc")) ∅ None =
  [ex_cell_item "o" "d" "1969-12-31" None; ex_cell_item "e" "d" "" None].
Proof. vm_compute. reflexivity. Qed.

(** C28: the person sort reads both cells in one [try], so a pair with an
    unparsable cell is compared by text and the other pairs by user name:
    the comparator is not transitive. *)
Theorem person_compare_not_comparator :
  ~ Comparator (item_compare (H := byte_engine) ex_cache "p" "person" "asc").
Proof.
  intros [_ Ht].
  apply (Ht (ex_cell_item "A" "p" "a" (Some (ex_person_value 7)))
            (ex_cell_item "B" "p" "m" (Some "x"))
            (ex_cell_item "C" "p" "z" (Some (ex_person_value 8)))); vm_compute; congruence.
Qed.
