(* ===== verification/TableActions.v ===== *)
(** * The actions of the table

    The asynchronous handlers of components/TaskTable/TaskTable.jsx
    ([src/unnamed/part_003]) that call the API:
    - [fetchAndCacheUser] (lines 141-163) and the effect that calls it for
      the persons of the items (lines 165-193), which fill [cachedUsers];
    - [handleSaveEdit] (lines 201-218), the rename of an item;
    - [handleStatusChange] (lines 312-352), the change of a status cell.
    They call [queryMonday] directly (no [retry] around it), and after a
    successful mutation they call the [onItemUpdated] prop, which App binds to
    [handleItemUpdated], a new [fetchBoardData].  The prop is the section
    variable [onItemUpdated]: the theorems hold for any callback. *)

From S2P Require Import Prelude Json Queries Executor ViewReconciler.

Local Open Scope exec_scope.

(** ** Users *)

(** The persons a cell of a person column refers to, as the effect reads
    them (lines 168-180); a cell it cannot parse gives none. *)
Definition cell_persons (allcols : list board_column) (cv : column_value) : list json :=
  match find_column allcols (cv_id cv) with
  | Some meta =>
      if is_person_type (col_type meta) then
        match cv_value cv with
        | Some v => if has_value (Some v)
                    then match persons_of_cell v with Some ps => ps | None => [] end
                    else []
        | None => []
        end
      else []
  | None => []
  end.

(** [p.id] when it is truthy. *)
Definition person_id_of (p : json) : option json :=
  match jget p "id" with
  | Some i => if js_truthy i then Some i else None
  | None => None
  end.

(** The ids the effect passes to [fetchAndCacheUser], in call order: the
    [p.id] of every person reference that the snapshot [cachedUsers] of the
    render lacks under the key [String(p.id)] (lines 181-184). *)
Definition users_to_fetch (allcols : list board_column) (items : list item)
    (cache : gmap string cached_user) : list json :=
  concat (map (fun it =>
    concat (map (fun cv =>
      concat (map (fun p =>
        match person_id_of p with
        | Some i => match cache !! js_to_string i with Some _ => [] | None => [i] end
        | None => []
        end) (cell_persons allcols cv)))
      (it_column_values it)))
    items).

(** [{ id: userId, name: 'Unknown', photo_original: null }]. *)
Definition unknown_user (userId : json) : cached_user :=
  {| user_id := Some userId; user_name := Some "Unknown"; user_email := None; user_photo := None |}.

Definition user_of_json (u : json) : cached_user :=
  {| user_id := jget u "id";
     user_name := match jget u "name" with Some (JStr n) => Some n | _ => None end;
     user_email := match jget u "email" with Some (JStr e) => Some e | _ => None end;
     user_photo := match jget u "photo_original" with Some (JStr ph) => Some ph | _ => None end |}.

(** [data && data.users && data.users.length > 0 ? data.users[0] : none]. *)
Definition first_user (data : json) : option json :=
  if js_truthy data then
    match jget data "users" with
    | Some (JArr (u :: _)) => Some u
    | _ => None
    end
  else None.

Section Table.

Variable net : nat -> string -> result (api_response json).
Variable onItemUpdated : string -> string -> M unit.

(** [fetchAndCacheUser(userId)] against the snapshot [cache]: its value is
    the entry it writes with [setCachedUsers], if any, under the key
    [String(userId)]; the query embeds [`${userId}`]. *)
Definition fetchAndCacheUser (cache : gmap string cached_user) (userId : json)
    : M (option (string * cached_user)) :=
  if negb (js_truthy userId) then ret None
  else let key := js_to_string userId in
       match cache !! key with
       | Some _ => ret None
       | None =>
           r <- attempt (queryMonday net (GET_USER_DETAILS_QUERY key) 3 500) ;;
           match r with
           | Ok data => match first_user data with
                        | Some u => ret (Some (key, user_of_json u))
                        | None => ret (Some (key, unknown_user userId))
                        end
           | Thrown _ => ret (Some (key, unknown_user userId))
           end
       end.

(** The calls of the effect, one after the other, with the writes they make. *)
Fixpoint fetch_users (cache : gmap string cached_user) (ids : list json)
    : M (list (string * cached_user)) :=
  match ids with
  | [] => ret []
  | id :: ids' =>
      w <- fetchAndCacheUser cache id ;;
      ws <- fetch_users cache ids' ;;
      ret (match w with Some kv => kv :: ws | None => ws end)
  end.

(** The effect of lines 165-193. *)
Definition user_fetch_effect (allcols : list board_column) (items : list item)
    (cache : gmap string cached_user) : M (list (string * cached_user)) :=
  fetch_users cache (users_to_fetch allcols items cache).

(** ** Renaming an item *)

Record edit_state := {
  editingItemId : option string;
  editedItemName : string;
}.

Definition rename_alert : string :=
  "An error occurred while updating the item name. Please try again.".

Definition status_alert : string := "An error occurred while updating the status. Please try again.".

(** [handleSaveEdit(itemId, boardId, currentName)]: the new edit state and
    the alerts shown. *)
Definition handleSaveEdit (es : edit_state) (boardItems : list item)
    (itemId boardId currentName : string) : M (edit_state * list string) :=
  match editingItemId es with
  | Some id =>
      if String.eqb id itemId then
        let newName := js_trim (editedItemName es) in
        alerts <-
          (if negb (String.eqb newName "") && negb (String.eqb newName currentName) then
             r <- attempt
                    (_ <- queryMonday net (UPDATE_ITEM_NAME_QUERY boardId itemId newName) 3 500 ;;
                     match List.find (fun it => String.eqb (it_id it) itemId
                                                && String.eqb (it_boardId it) boardId) boardItems with
                     | Some it => onItemUpdated (it_boardId it) (it_id it)
                     | None => ret tt
                     end) ;;
             match r with Ok _ => ret [] | Thrown _ => ret [rename_alert] end
           else ret []) ;;
        ret ({| editingItemId := None; editedItemName := "" |}, alerts)
      else ret (es, [])
  | None => ret (es, [])
  end.

(** ** Changing a status *)

(** [JSON.stringify({ label })] of lines 316-323. *)
Definition status_payload (selectedOption : option status_option) : string :=
  match selectedOption with
  | Some o => if String.eqb (so_id o) "clear" then stringify (JObj [("label", JStr "")])
              else stringify (JObj [("label", so_label o)])
  | None => stringify (JObj [("label", JStr "")])
  end.

(** [needsUpdate] (lines 326-339); [None] is the [TypeError] of [.trim()] on
    a label that is not a string. *)
Definition status_needs_update (selectedOption : option status_option) (it : item)
    (columnMeta : table_column) : option bool :=
  let current := normalize_status (status_text (find_cv (it_column_values it) (tc_id columnMeta))) in
  match selectedOption with
  | Some o =>
      if String.eqb (so_id o) "clear" then Some (negb (String.eqb current "No status"))
      else match so_label o with
           | JStr t => Some (negb (String.eqb (js_trim t) current))
           | _ => None
           end
  | None => Some (negb (String.eqb "" current))
  end.

(** [handleStatusChange(selectedOption, item, columnMeta)]: the alerts shown;
    a rejection of the handler is [Thrown]. *)
Definition handleStatusChange (selectedOption : option status_option) (it : item)
    (columnMeta : table_column) : M (list string) :=
  match status_needs_update selectedOption it columnMeta with
  | None => throw (type_error "selectedStatusText.trim is not a function")
  | Some false => ret []
  | Some true =>
      r <- attempt
             (_ <- queryMonday net (UPDATE_COLUMN_VALUE_QUERY (it_boardId it) (it_id it) (tc_id columnMeta)
                                     (status_payload selectedOption)) 3 500 ;;
              onItemUpdated (it_boardId it) (it_id it)) ;;
      match r with Ok _ => ret [] | Thrown _ => ret [status_alert] end
  end.

End Table.

(** ** Examples *)

Definition ex_person_col : board_column :=
  {| col_id := "p"; col_title := "Owner"; col_type := "person"; col_settings_str := None |}.

Definition ex_assigned (id : string) (user : Z) : item := {|
  it_id := id; it_name := id; it_boardId := "b1"; it_boardName := "B1";
  it_column_values := [ {| cv_id := "p"; cv_text := Some "Ann";
    cv_value := Some (stringify (JObj [("personsAndTeams",
                        JArr [JObj [("id", JNum user 0); ("kind", JStr "person")]])])) |} ] |}.

(** A network on which every call succeeds with [{ users: [] }]. *)
Definition ex_answering_net : nat -> string -> result (api_response json) :=
  fun _ _ => Ok {| r_errors := None; r_data := JObj [("users", JArr [])] |}.

(** A network that rejects every call with a validation error. *)
Definition ex_rejecting_net : nat -> string -> result (api_response json) :=
  fun _ _ => Thrown {| err_message := Some "Invalid name"; err_response := None |}.

Definition ex_editing : edit_state := {| editingItemId := Some "a"; editedItemName := " New name " |}.

Definition ex_no_update : string -> string -> M unit := fun _ _ => ret tt.

Definition ex_status_meta : table_column :=
  {| tc_id := "status"; tc_title := "Status"; tc_type := "status"; tc_statusOptions := None |}.

Definition ex_done_option : status_option :=
  {| so_id := "1"; so_label := JStr "Done"; so_value := JStr "Done"; so_color := JStr "#00c875" |}.

Definition ex_done_item : item := {|
  it_id := "a"; it_name := "a"; it_boardId := "b1"; it_boardName := "B1";
  it_column_values := [ {| cv_id := "status"; cv_text := Some "Done"; cv_value := None |} ] |}.


(** ** Theorems *)

(** The effect never asks for a user the cache of the render already
    holds. *)
Theorem users_to_fetch_uncached (allcols : list board_column) (items : list item)
    (cache : gmap string cached_user) (id : json) :
  id ∈ users_to_fetch allcols items cache -> cache !! js_to_string id = None.
Proof.
  unfold users_to_fetch. intros H.
  apply elem_of_concat_map in H as (it & _ & H). apply elem_of_concat_map in H as (cv & _ & H).
  apply elem_of_concat_map in H as (p & _ & Hp). destruct (person_id_of p) as [k|]; [|set_solver].
  destruct (cache !! js_to_string k) eqn:E; [set_solver|]. by apply list_elem_of_singleton in Hp as ->.
Qed.

Lemma users_to_fetch_app (allcols : list board_column) (l1 l2 : list item) (cache : gmap string cached_user) :
  users_to_fetch allcols (l1 ++ l2) cache = users_to_fetch allcols l1 cache ++ users_to_fetch allcols l2 cache.
Proof. unfold users_to_fetch. by rewrite map_app, concat_app. Qed.

Lemma users_to_fetch_elem (allcols : list board_column) (it : item) (cv : column_value) (p i : json)
    (cache : gmap string cached_user) :
  cv ∈ it_column_values it -> p ∈ cell_persons allcols cv -> person_id_of p = Some i ->
  cache !! js_to_string i = None -> i ∈ users_to_fetch allcols [it] cache.
Proof.
  intros Hcv Hp Hi Hc. unfold users_to_fetch. apply elem_of_concat_map. exists it. split; [by left|].
  apply elem_of_concat_map. exists cv. split; [done|]. apply elem_of_concat_map. exists p.
  split; [done|]. rewrite Hi, Hc. by left.
Qed.

Lemma person_id_of_truthy (p i : json) : person_id_of p = Some i -> js_truthy i = true.
Proof. unfold person_id_of. destruct (jget p "id"); [|done]. by destruct (js_truthy j) eqn:E; intros [= <-]. Qed.

Lemma user_query_count (l : list json) (i : json) :
  i ∈ l -> js_truthy i = true ->
  1 <= count_occ String.string_dec (map (fun i => GET_USER_DETAILS_QUERY (js_to_string i)) (List.filter js_truthy l))
         (GET_USER_DETAILS_QUERY (js_to_string i)).
Proof.
  intros Hi Ht. apply (count_occ_In String.string_dec), (in_map (fun i => GET_USER_DETAILS_QUERY (js_to_string i))).
  apply filter_In. by rewrite <- list_elem_of_In.
Qed.

Lemma users_to_fetch_uncached_witness :
  JNum 7 0 ∈ users_to_fetch [ex_person_col] [ex_assigned "a" 7] ∅ /\
  (∅ : gmap string cached_user) !! js_to_string (JNum 7 0) = None.
Proof.
  assert (H : JNum 7 0 ∈ users_to_fetch [ex_person_col] [ex_assigned "a" 7] ∅)
    by (vm_compute; left).
  split; [exact H | exact (users_to_fetch_uncached _ _ _ _ H)].
Defined.

Section Effects.

Variable net : nat -> string -> result (api_response json).
Hypothesis net_answers : forall n q, exists x, net n q = Ok {| r_errors := None; r_data := x |}.

Lemma fetchAndCacheUser_sent (cache : gmap string cached_user) (id : json) (st : exec_state) :
  cache !! js_to_string id = None ->
  snd (fetchAndCacheUser net cache id st) =
  if js_truthy id then tick (GET_USER_DETAILS_QUERY (js_to_string id)) st else st.
Proof.
  intros Hc. unfold fetchAndCacheUser. destruct (js_truthy id); cbn [negb]; [|done]. cbv zeta. rewrite Hc.
  destruct (net_answers (calls st) (GET_USER_DETAILS_QUERY (js_to_string id))) as [x Hx].
  unfold attempt, bind. rewrite (queryMonday_success net _ 3 500 st x Hx).
  cbv beta iota. by destruct (first_user x).
Qed.

Lemma fetchAndCacheUser_total (cache : gmap string cached_user) (id : json) (st : exec_state) :
  exists w, fst (fetchAndCacheUser net cache id st) = Ok w.
Proof.
  unfold fetchAndCacheUser, attempt, bind, ret.
  destruct (negb (js_truthy id)); [by eexists|]. cbv zeta. destruct (cache !! js_to_string id); [by eexists|].
  destruct (queryMonday net _ 3 500 st) as [[x|e] st']; cbv beta iota;
    [destruct (first_user x)|]; by eexists.
Qed.

Lemma fetch_users_sent (cache : gmap string cached_user) (ids : list json) (st : exec_state) :
  (forall id, id ∈ ids -> cache !! js_to_string id = None) ->
  snd (fetch_users net cache ids st) =
  {| sent := sent st ++ map (fun i => GET_USER_DETAILS_QUERY (js_to_string i)) (List.filter js_truthy ids);
     sleeps := sleeps st |}.
Proof.
  revert st. induction ids as [|id ids IH]; intros st Hc; cbn [fetch_users].
  - cbn. rewrite app_nil_r. by destruct st.
  - unfold bind at 1. pose proof (fetchAndCacheUser_sent cache id st (Hc id (list_elem_of_here _ _))) as E.
    destruct (fetchAndCacheUser_total cache id st) as [w Hw].
    destruct (fetchAndCacheUser net cache id st) as [r st1]. cbn in E, Hw. subst r st1.
    unfold bind. specialize (IH (if js_truthy id then tick (GET_USER_DETAILS_QUERY (js_to_string id)) st else st)).
    destruct (fetch_users net cache ids _) as [r2 st2].
    cbn in IH. rewrite IH by (intros i Hi; apply Hc; by right).
    destruct r2; cbn; destruct (js_truthy id); cbn; by rewrite <- ?app_assoc.
Qed.

(** on a network that answers, the user effect sends one user-details
    query per person reference missing from the cache of the render, in the
    order of the items: references to the same user are not merged. *)
Theorem user_fetch_effect_sent (allcols : list board_column) (items : list item)
    (cache : gmap string cached_user) (st : exec_state) :
  sent (snd (user_fetch_effect net allcols items cache st)) =
  sent st ++ map (fun i => GET_USER_DETAILS_QUERY (js_to_string i))
    (List.filter js_truthy (users_to_fetch allcols items cache)).
Proof. unfold user_fetch_effect. rewrite fetch_users_sent; [done|]. apply users_to_fetch_uncached. Qed.

(** C24: two items that refer to the same person, missing from the cache
    of the render, make the effect send the user-details query for that
    person at least twice, whatever items lie around them: the ids are
    collected in a [Set] that nothing reads, and every call of
    [fetchAndCacheUser] reads the same snapshot of [cachedUsers]. *)
Theorem user_fetch_duplicates (allcols : list board_column) (l1 l2 l3 : list item) (it1 it2 : item)
    (cache : gmap string cached_user) (st : exec_state) (cv1 cv2 : column_value) (p1 p2 i : json) :
  cv1 ∈ it_column_values it1 -> p1 ∈ cell_persons allcols cv1 -> person_id_of p1 = Some i ->
  cv2 ∈ it_column_values it2 -> p2 ∈ cell_persons allcols cv2 -> person_id_of p2 = Some i ->
  cache !! js_to_string i = None ->
  2 <= count_occ String.string_dec
         (sent (snd (user_fetch_effect net allcols (l1 ++ it1 :: l2 ++ it2 :: l3) cache st)))
         (GET_USER_DETAILS_QUERY (js_to_string i)).
Proof.
  intros Hcv1 Hp1 Hi1 Hcv2 Hp2 Hi2 Hc. rewrite user_fetch_effect_sent, count_occ_app.
  change (it1 :: l2 ++ it2 :: l3) with ([it1] ++ l2 ++ [it2] ++ l3).
  rewrite !users_to_fetch_app, !List.filter_app, !map_app, !count_occ_app.
  pose proof (person_id_of_truthy _ _ Hi1) as Ht.
  pose proof (user_query_count _ _ (users_to_fetch_elem allcols it1 cv1 p1 i cache Hcv1 Hp1 Hi1 Hc) Ht).
  pose proof (user_query_count _ _ (users_to_fetch_elem allcols it2 cv2 p2 i cache Hcv2 Hp2 Hi2 Hc) Ht).
  lia.
Qed.

End Effects.

Lemma user_fetch_duplicates_witness :
  let cv := hd {| cv_id := ""; cv_text := None; cv_value := None |} (it_column_values (ex_assigned "a" 7)) in
  let p := JObj [("id", JNum 7 0); ("kind", JStr "person")] in
  (forall n q, exists x, ex_answering_net n q = Ok {| r_errors := None; r_data := x |}) /\
  cv ∈ it_column_values (ex_assigned "a" 7) /\ p ∈ cell_persons [ex_person_col] cv /\
  person_id_of p = Some (JNum 7 0) /\ (∅ : gmap string cached_user) !! js_to_string (JNum 7 0) = None /\
  2 <= count_occ String.string_dec
         (sent (snd (user_fetch_effect ex_answering_net [ex_person_col]
                       ([] ++ ex_assigned "a" 7 :: [] ++ ex_assigned "a" 7 :: []) ∅ st0)))
         (GET_USER_DETAILS_QUERY (js_to_string (JNum 7 0))).
Proof.
  cbv zeta.
  assert (Hn : forall n q, exists x, ex_answering_net n q = Ok {| r_errors := None; r_data := x |})
    by (intros; eexists; reflexivity).
  assert (Hcv : hd {| cv_id := ""; cv_text := None; cv_value := None |} (it_column_values (ex_assigned "a" 7))
                ∈ it_column_values (ex_assigned "a" 7)) by left.
  assert (Hp : JObj [("id", JNum 7 0); ("kind", JStr "person")] ∈
               cell_persons [ex_person_col] (hd {| cv_id := ""; cv_text := None; cv_value := None |}
                                                (it_column_values (ex_assigned "a" 7))))
    by (vm_compute; left).
  assert (Hi : person_id_of (JObj [("id", JNum 7 0); ("kind", JStr "person")]) = Some (JNum 7 0)) by reflexivity.
  assert (Hc : (∅ : gmap string cached_user) !! js_to_string (JNum 7 0) = None) by reflexivity.
  split_and!; [exact Hn | exact Hcv | exact Hp | exact Hi | exact Hc |].
  exact (user_fetch_duplicates ex_answering_net Hn [ex_person_col] [] [] [] _ _ ∅ st0 _ _ _ _ _
           Hcv Hp Hi Hcv Hp Hi Hc).
Defined.


Section Edits.

Variable net : nat -> string -> result (api_response json).
Variable onItemUpdated : string -> string -> M unit.

(** Saving a name that, trimmed, is empty or the current name sends no
    mutation and closes the editor. *)
Theorem handleSaveEdit_unchanged (es : edit_state) (boardItems : list item)
    (itemId boardId currentName : string) (st : exec_state) :
  editingItemId es = Some itemId ->
  (js_trim (editedItemName es) = "" \/ js_trim (editedItemName es) = currentName) ->
  handleSaveEdit net onItemUpdated es boardItems itemId boardId currentName st =
  (Ok ({| editingItemId := None; editedItemName := "" |}, []), st).
Proof.
  intros He Hn. unfold handleSaveEdit. rewrite He, String.eqb_refl.
  destruct Hn as [-> | ->]; [done|]. by rewrite String.eqb_refl, andb_false_r.
Qed.

(** C25: a rename the API rejects shows the alert and closes the editor; the
    table is not refreshed ([onItemUpdated] does not run) and the mutation
    was sent once. *)
Theorem handleSaveEdit_rejected (es : edit_state) (boardItems : list item)
    (itemId boardId currentName : string) (st : exec_state) (e : js_error) (m : string) :
  editingItemId es = Some itemId ->
  js_trim (editedItemName es) <> "" -> js_trim (editedItemName es) <> currentName ->
  net (calls st) (UPDATE_ITEM_NAME_QUERY boardId itemId (js_trim (editedItemName es))) = Thrown e ->
  err_message e = Some m -> str_includes m "Rate limit passed" = false ->
  handleSaveEdit net onItemUpdated es boardItems itemId boardId currentName st =
  (Ok ({| editingItemId := None; editedItemName := "" |}, [rename_alert]),
   tick (UPDATE_ITEM_NAME_QUERY boardId itemId (js_trim (editedItemName es))) st).
Proof.
  intros He H1 H2 Hq Hm Hp. unfold handleSaveEdit. rewrite He, String.eqb_refl.
  rewrite (proj2 (String.eqb_neq _ _) H1), (proj2 (String.eqb_neq _ _) H2). cbn [negb andb].
  unfold bind, attempt.
  rewrite (queryMonday_rejection net _ 3 500 st e m Hq Hm Hp). done.
Qed.

(** Picking the label a status cell already shows sends nothing. *)
Theorem handleStatusChange_same_label (o : status_option) (it : item) (columnMeta : table_column)
    (t : string) (st : exec_state) :
  so_id o <> "clear" -> so_label o = JStr t ->
  js_trim t = normalize_status (status_text (find_cv (it_column_values it) (tc_id columnMeta))) ->
  handleStatusChange net onItemUpdated (Some o) it columnMeta st = (Ok [], st).
Proof.
  intros Hid Hl Ht. unfold handleStatusChange, status_needs_update.
  rewrite (proj2 (String.eqb_neq _ _) Hid), Hl, Ht, String.eqb_refl. done.
Qed.

End Edits.

(** The value a status change sends decodes, through the GraphQL string
    and the JSON text, to [{"label": label}] of the picked option. *)
Theorem status_payload_decodes (o : status_option) :
  so_id o <> "clear" -> no_numbers (so_label o) = true ->
  decode_twice (stringify (JStr (status_payload (Some o)))) = Some (JObj [("label", so_label o)]).
Proof.
  intros Hid Hn. unfold status_payload. rewrite (proj2 (String.eqb_neq _ _) Hid).
  apply mutation_value_decodes. cbn. by rewrite Hn.
Qed.

(** ** Witnesses *)

Lemma user_fetch_effect_sent_witness :
  sent (snd (user_fetch_effect ex_answering_net [ex_person_col]
               [ex_assigned "a" 7; ex_assigned "b" 7] ∅ {| sent := []; sleeps := [] |})) =
  [GET_USER_DETAILS_QUERY "7"; GET_USER_DETAILS_QUERY "7"].
Proof.
  rewrite (user_fetch_effect_sent ex_answering_net ltac:(intros; eexists; reflexivity)).
  vm_compute. reflexivity.
Defined.

Lemma handleSaveEdit_unchanged_witness :
  handleSaveEdit ex_rejecting_net ex_no_update
    {| editingItemId := Some "a"; editedItemName := " a " |} [] "a" "b1" "a" {| sent := []; sleeps := [] |} =
  (Ok ({| editingItemId := None; editedItemName := "" |}, []), {| sent := []; sleeps := [] |}).
Proof. apply handleSaveEdit_unchanged; [reflexivity | right; vm_compute; reflexivity]. Defined.

Lemma handleSaveEdit_rejected_witness :
  handleSaveEdit ex_rejecting_net ex_no_update ex_editing [] "a" "b1" "Old" {| sent := []; sleeps := [] |} =
  (Ok ({| editingItemId := None; editedItemName := "" |}, [rename_alert]),
   tick (UPDATE_ITEM_NAME_QUERY "b1" "a" (js_trim " New name ")) {| sent := []; sleeps := [] |}).
Proof.
  apply (handleSaveEdit_rejected ex_rejecting_net ex_no_update ex_editing [] "a" "b1" "Old" _
           {| err_message := Some "Invalid name"; err_response := None |} "Invalid name");
    vm_compute; congruence.
Defined.

Lemma handleStatusChange_same_label_witness :
  handleStatusChange ex_rejecting_net ex_no_update (Some ex_done_option) ex_done_item ex_status_meta
    {| sent := []; sleeps := [] |} = (Ok [], {| sent := []; sleeps := [] |}).
Proof. apply (handleStatusChange_same_label _ _ _ _ _ "Done"); vm_compute; congruence. Defined.

Lemma status_payload_decodes_witness :
  decode_twice (stringify (JStr (status_payload (Some ex_done_option)))) =
  Some (JObj [("label", JStr "Done")]).
Proof. apply (status_payload_decodes ex_done_option); vm_compute; congruence. Defined.
