(* ===== verification/TableColumns.v ===== *)
(** * The columns of the table and the people of the filter dialog

    Three derivations of components/TaskTable/TaskTable.jsx
    ([src/unnamed/part_003]):
    - [getStatusColorStyle] (lines 38-64), the colour of a status label;
    - [columnsForTable] (lines 260-300), the column metadata of the table:
      the ids App passes, looked up first among the two virtual columns and
      then among [allBoardColumns], with the options of a status column read
      from its [settings_str] by [Object.entries];
    - [uniquePeopleInBoardItems] (lines 963-995), the persons the filter
      dialog of a person column offers, keyed in a [Map].
    [Object.entries] is modelled with the order the language fixes for an
    object built by [JSON.parse]: array indices ascending, then the other
    keys in creation order, a repeated key keeping its first position and
    its last value. *)

From S2P Require Import Prelude Json ArraySort ViewReconciler Executor TableActions.
From Stdlib Require Import Ascii.

(** ** Status colours (lines 38-64) *)

(** [toLowerCase] on the byte strings of the model (ASCII letters). *)
Definition lower_char (c : ascii) : ascii :=
  let n := nat_of_ascii c in
  if (65 <=? n) && (n <=? 90) then ascii_of_nat (n + 32) else c.

Fixpoint js_lower (s : string) : string :=
  match s with
  | EmptyString => EmptyString
  | String c s' => String (lower_char c) (js_lower s')
  end.

(** [{ backgroundColor, color, border }]. *)
Record color_style := {
  cs_backgroundColor : string;
  cs_color : string;
  cs_border : option string;
}.

Definition style (bg fg : string) (border : option string) : color_style :=
  {| cs_backgroundColor := bg; cs_color := fg; cs_border := border |}.

(** [String(statusText || '').trim().toLowerCase()] and the [switch]. *)
Definition getStatusColorStyle (statusText : json) : color_style :=
  let lowerCaseStatus :=
    js_lower (js_trim (if js_truthy statusText then js_to_string statusText else "")) in
  if ["done"; "completed"] ∋? lowerCaseStatus then style "#00c875" "#fff" None
  else if ["working on it"; "in progress"; "working"] ∋? lowerCaseStatus then style "#fdab3d" "#fff" None
  else if ["stuck"; "blocked"] ∋? lowerCaseStatus then style "#e2445c" "#fff" None
  else if ["not started"; "ready"] ∋? lowerCaseStatus then style "#a1a1a1" "#fff" None
  else if [""; "undefined"; "null"; "-"] ∋? lowerCaseStatus
  then style "#c4c4c4" "#323338" (Some "1px solid #b0b0b0")
  else style "#e0e0e0" "#323338" (Some "1px solid #d0d0d0").

(** ** [Object.entries] of a parsed value *)

Fixpoint all_digits (s : string) : bool :=
  match s with
  | EmptyString => true
  | String c s' => is_digit c && all_digits s'
  end.

(** An array index: the canonical decimal form of an integer below
    [2^32 - 1]. *)
Definition array_index (k : string) : option Z :=
  match k with
  | EmptyString => None
  | String c _ =>
      if all_digits k && (String.eqb k "0" || negb (Ascii.eqb c "0"%char))
      then let n := Z_of_digits_acc 0 k in if (n <? 4294967295)%Z then Some n else None
      else None
  end.

Definition is_index (kv : string * json) : bool :=
  match array_index (fst kv) with Some _ => true | None => false end.

(** The own properties [JSON.parse] creates from the members, in creation
    order: a repeated key overwrites the value in place. *)
Definition set_prop (acc : list (string * json)) (kv : string * json) : list (string * json) :=
  if existsb (fun p => String.eqb (fst p) (fst kv)) acc
  then map (fun p => if String.eqb (fst p) (fst kv) then kv else p) acc
  else acc ++ [kv].

Definition own_props (fs : list (string * json)) : list (string * json) :=
  fold_left set_prop fs [].

Definition index_compare (a b : string * json) : comparison :=
  match array_index (fst a), array_index (fst b) with
  | Some i, Some j => Z.compare i j
  | _, _ => Eq
  end.

Fixpoint indexed {A} (i : nat) (l : list A) : list (string * A) :=
  match l with
  | [] => []
  | x :: l' => (digits_of_N (N.of_nat i), x) :: indexed (S i) l'
  end.

(** [Object.entries(v)] for [v] truthy: the indices ascending, then the
    other keys in creation order; an array and a string give their
    elements, a number or a boolean nothing. *)
Definition object_entries (v : json) : list (string * json) :=
  match v with
  | JObj fs =>
      let ps := own_props fs in
      sort_by index_compare (List.filter is_index ps) ++ List.filter (fun kv => negb (is_index kv)) ps
  | JArr l => indexed 0 l
  | JStr s => indexed 0 (map (fun c => JStr (str1 c)) (String.list_ascii_of_string s))
  | _ => []
  end.

(** [v[k]] on a parsed value; [None] is [undefined]. *)
Definition js_member (v : json) (k : string) : option json :=
  match v with
  | JObj _ => jget v k
  | JArr l =>
      if String.eqb k "length" then Some (JNum (Z.of_nat (length l)) 0)
      else match array_index k with Some i => nth_error l (Z.to_nat i) | None => None end
  | JStr s =>
      if String.eqb k "length" then Some (JNum (Z.of_nat (String.length s)) 0)
      else match array_index k with
           | Some i => option_map (fun c => JStr (str1 c)) (String.get (Z.to_nat i) s)
           | None => None
           end
  | _ => None
  end.

(** ** [columnsForTable] (lines 260-300) *)

(** [settings.labels_colors ? (settings.labels_colors[key]?.color ||
    bg) : bg], [bg] the background of [getStatusColorStyle(value)]. *)
Definition label_color (settings : json) (key : string) (value : json) : json :=
  let bg := JStr (cs_backgroundColor (getStatusColorStyle value)) in
  match js_member settings "labels_colors" with
  | Some lc =>
      if js_truthy lc then
        match match js_member lc key with Some c => js_member c "color" | None => None end with
        | Some col => if js_truthy col then col else bg
        | None => bg
        end
      else bg
  | None => bg
  end.

Definition clear_option : status_option :=
  {| so_id := "clear"; so_label := JStr "No status"; so_value := JStr ""; so_color := JStr "#c4c4c4" |}.

(** The [try] of lines 280-297: [None] when [JSON.parse] throws or when
    [settings && settings.labels] is falsy. *)
Definition status_options_of (settings_str : string) : option (list status_option) :=
  match parse settings_str with
  | None => None
  | Some settings =>
      if js_truthy settings then
        match js_member settings "labels" with
        | Some labels =>
            if js_truthy labels then
              Some (map (fun '(key, value) =>
                     {| so_id := key; so_label := value; so_value := value;
                        so_color := label_color settings key value |}) (object_entries labels)
                    ++ [clear_option])
            else None
        | None => None
        end
      else None
  end.

Definition virtualColumns : list board_column :=
  [{| col_id := "item_name_column"; col_title := "Task Name"; col_type := "item_name";
      col_settings_str := None |};
   {| col_id := "board_name_column"; col_title := "Board"; col_type := "board_link";
      col_settings_str := None |}].

(** [virtualColumns.find(vc => vc.id === colId)], else
    [allBoardColumns.find(col => col.id === colId)]. *)
Definition column_meta (allcols : list board_column) (colId : string) : option board_column :=
  match find_column virtualColumns colId with
  | Some vc => Some vc
  | None => find_column allcols colId
  end.

Definition column_data (col : board_column) : table_column :=
  {| tc_id := col_id col; tc_title := col_title col; tc_type := col_type col;
     tc_statusOptions :=
       if String.eqb (col_type col) "status" then
         match col_settings_str col with
         | Some s => if str_truthy s then status_options_of s else None
         | None => None
         end
       else None |}.

(** The ids mapped to their metadata, [.filter(Boolean)] dropping those
    not found. *)
Definition columnsForTable (columnIds : list string) (allcols : list board_column)
    : list table_column :=
  map column_data (omap (column_meta allcols) columnIds).

(** ** [uniquePeopleInBoardItems] (lines 963-995) *)

(** A value of [peopleMap]: the cached user, or
    [{ id: p.id, name: 'Unknown User', photo_original: null }]. *)
Inductive person_row :=
| PCached (u : cached_user)
| PUnknown (id : json).

Abbreviation people_map := (list (json * person_row)).

(** [peopleMap.set(k, v)]: a key already present keeps its place. *)
Definition map_set (m : people_map) (k : json) (v : person_row) : people_map :=
  if existsb (fun kv => same_value_zero (fst kv) k) m
  then map (fun kv => if same_value_zero (fst kv) k then (fst kv, v) else kv) m
  else m ++ [(k, v)].

(** The key and value one person reference writes (lines 979-985): the
    cached user's [id] (an API user always has one; [undefined], which no
    parsed id equals, is written [JNull]) or the raw [p.id]. *)
Definition person_entry (cache : gmap string cached_user) (p : json) : option (json * person_row) :=
  match jget p "id" with
  | Some i =>
      if js_truthy i then
        match cache !! js_to_string i with
        | Some cu => Some (match user_id cu with Some k => k | None => JNull end, PCached cu)
        | None => Some (i, PUnknown i)
        end
      else None
  | None => None
  end.

Definition add_person (cache : gmap string cached_user) (m : people_map) (p : json) : people_map :=
  match person_entry cache p with
  | Some (k, v) => map_set m k v
  | None => m
  end.

(** The loops of lines 965-991 over the cells of person columns: a cell
    whose value does not parse is skipped ([cell_persons], shared with the
    effect that fetches users, lines 168-180). *)
Definition people_of_items (items : list item) (allcols : list board_column)
    (cache : gmap string cached_user) : people_map :=
  fold_left (fun m it =>
    fold_left (fun m cv => fold_left (add_person cache) (cell_persons allcols cv) m)
      (it_column_values it) m) items [].

Definition uniquePeopleInBoardItems (items : list item) (allcols : list board_column)
    (cache : gmap string cached_user) : list person_row :=
  map snd (people_of_items items allcols cache).

(** A key is in the [Map] when it or a key equal to it is. *)
Definition key_present (m : people_map) (k : json) : Prop :=
  exists k', k' ∈ map fst m /\ (k' = k \/ same_value_zero k' k = true).

Definition ex_status_board_column (settings : string) : board_column :=
  {| col_id := "status"; col_title := "Status"; col_type := "status"; col_settings_str := Some settings |}.

Definition ex_labels : json := JObj [("1", JStr "Done"); ("0", JStr "Working on it")].

Definition ex_settings_json : json :=
  JObj [("labels", ex_labels); ("labels_colors", JObj [("1", JObj [("color", JStr "#00c875")])])].

(** ** Lemmas *)

Lemma column_meta_id (allcols : list board_column) (id : string) (c : board_column) :
  column_meta allcols id = Some c -> col_id c = id.
Proof.
  unfold column_meta, find_column.
  destruct (List.find _ virtualColumns) as [vc|] eqn:E.
  - intros [= <-]. apply find_some in E as [_ E]. by apply String.eqb_eq.
  - intros H. apply find_some in H as [_ H]. by apply String.eqb_eq.
Qed.

Lemma parse_empty : parse "" = None.
Proof. reflexivity. Qed.

Lemma map_set_keys (m : people_map) (k : json) (v : person_row) :
  existsb (fun kv => same_value_zero (fst kv) k) m = true -> map fst (map_set m k v) = map fst m.
Proof.
  unfold map_set. intros ->. rewrite map_map. apply map_ext. intros [k' v']. cbn.
  by destruct (same_value_zero k' k).
Qed.

Lemma map_set_present (m : people_map) (k k0 : json) (v : person_row) :
  key_present m k0 -> key_present (map_set m k v) k0.
Proof.
  intros Hk. destruct (existsb (fun kv => same_value_zero (fst kv) k) m) eqn:E.
  - unfold key_present. by rewrite map_set_keys.
  - unfold map_set. rewrite E. destruct Hk as (k' & Hk' & Heq). exists k'.
    rewrite map_app, elem_of_app. auto.
Qed.

Lemma map_set_adds (m : people_map) (k : json) (v : person_row) : key_present (map_set m k v) k.
Proof.
  destruct (existsb (fun kv => same_value_zero (fst kv) k) m) eqn:E.
  - unfold key_present. rewrite map_set_keys by done.
    apply existsb_exists in E as ([k' v'] & Hin & Hs). exists k'.
    split; [apply list_elem_of_In, in_map_iff; by exists (k', v') | by right].
  - unfold map_set. rewrite E. exists k. rewrite map_app, elem_of_app. cbn. split; [|by left].
    right. by left.
Qed.

Lemma add_person_present (cache : gmap string cached_user) (m : people_map) (p : json) (k0 : json) :
  key_present m k0 -> key_present (add_person cache m p) k0.
Proof. unfold add_person. destruct (person_entry cache p) as [[k v]|]; [apply map_set_present | done]. Qed.

(** ** Theorems *)

(** The table's columns are the ids App passes, in that order, each
    found among the virtual columns or the board columns; an id found in
    neither is dropped. *)
Theorem columnsForTable_ids (columnIds : list string) (allcols : list board_column) :
  map tc_id (columnsForTable columnIds allcols) =
  List.filter (fun id => match column_meta allcols id with Some _ => true | None => false end) columnIds.
Proof.
  unfold columnsForTable. induction columnIds as [|id ids IH]; [done|]. cbn.
  destruct (column_meta allcols id) as [c|] eqn:E; cbn; [|done].
  rewrite <- IH. f_equal. by apply column_meta_id in E.
Qed.

(** The column [board_name_column] of the table is always the virtual
    [board_link] column: the column App passes under that id, of type
    [board_name], is never read. *)
Theorem columnsForTable_board_link (columnIds : list string) (allcols : list board_column)
    (c : table_column) :
  c ∈ columnsForTable columnIds allcols -> tc_id c = "board_name_column" -> tc_type c = "board_link".
Proof.
  unfold columnsForTable. intros (col & <- & Hcol)%list_elem_of_In%in_map_iff.
  apply list_elem_of_In, list_elem_of_omap in Hcol as (id & _ & Hm). cbn. intros Hid.
  pose proof (column_meta_id _ _ _ Hm) as Hcid. rewrite Hid in Hcid. subst id.
  cbn in Hm. by injection Hm as <-.
Qed.

(** a status column whose [settings_str] parses to settings with
    truthy [labels] gets one option per entry of [Object.entries(labels)],
    in that order, id the key and label and value the label, followed by
    the synthetic [clear] option. *)
Theorem column_data_status_options (col : board_column) (s : string) (settings labels : json) :
  col_type col = "status" -> col_settings_str col = Some s -> parse s = Some settings ->
  js_truthy settings = true -> js_member settings "labels" = Some labels -> js_truthy labels = true ->
  exists opts, tc_statusOptions (column_data col) = Some (opts ++ [clear_option]) /\
    map (fun o => (so_id o, so_label o)) opts = object_entries labels /\
    Forall (fun o => so_value o = so_label o) opts.
Proof.
  intros Hty Hs Hp Ht Hl Htl. unfold column_data. rewrite Hty, Hs. cbn.
  assert (str_truthy s = true) as -> by (destruct s; [by rewrite parse_empty in Hp | done]).
  unfold status_options_of. rewrite Hp, Ht, Hl, Htl. eexists. split; [reflexivity|].
  split.
  - rewrite map_map. rewrite <- (map_id (object_entries labels)) at 2. apply map_ext. by intros [k v].
  - apply Forall_forall. intros o (kv & <- & _)%list_elem_of_In%in_map_iff. by destruct kv.
Qed.

(** A status column whose [settings_str] does not parse keeps its
    place in the table without options: the exception is caught. *)
Theorem column_data_bad_settings (col : board_column) (s : string) :
  col_settings_str col = Some s -> parse s = None ->
  column_data col = {| tc_id := col_id col; tc_title := col_title col; tc_type := col_type col;
                       tc_statusOptions := None |}.
Proof.
  intros Hs Hp. unfold column_data. rewrite Hs.
  destruct (String.eqb (col_type col) "status"); [|done].
  destruct (str_truthy s); [|done]. unfold status_options_of. by rewrite Hp.
Qed.

(** A label whose trimmed text is empty, [-], [undefined] or [null]
    gets the grey of the synthetic [clear] option. *)
Theorem getStatusColorStyle_no_status (t : string) :
  ([""; "undefined"; "null"; "-"] ∋? js_trim t) = true ->
  cs_backgroundColor (getStatusColorStyle (JStr t)) = "#c4c4c4".
Proof.
  intros H. unfold getStatusColorStyle. cbn [js_truthy js_to_string].
  assert (E : js_lower (js_trim (if str_truthy t then t else "")) ∈ [""; "undefined"; "null"; "-"]).
  { destruct (str_truthy t); [|by left].
    apply arr_includes_spec in H. repeat (apply elem_of_cons in H as [H|H]; [rewrite H; set_solver|]).
    by apply not_elem_of_nil in H. }
  repeat (apply elem_of_cons in E as [E|E]; [by rewrite E|]). by apply not_elem_of_nil in E.
Qed.

(** every person with a truthy id in a parsable cell of a person
    column of an item is offered: its key, the cached user's id or the raw
    id, is in [peopleMap]. *)
Theorem uniquePeople_complete (items : list item) (allcols : list board_column)
    (cache : gmap string cached_user) (it : item) (cv : column_value) (p : json)
    (k : json) (v : person_row) :
  it ∈ items -> cv ∈ it_column_values it -> p ∈ cell_persons allcols cv ->
  person_entry cache p = Some (k, v) ->
  key_present (people_of_items items allcols cache) k.
Proof.
  intros Hit Hcv Hp He. unfold people_of_items.
  apply (fold_left_establish _ (fun m => key_present m k) _ _ it); [|done|].
  { intros m it' _. apply (fold_left_preserve _ (fun m => key_present m k)). intros m' cv' _.
    apply (fold_left_preserve _ (fun m => key_present m k)). intros m'' p' _. apply add_person_present. }
  intros m. apply (fold_left_establish _ (fun m => key_present m k) _ _ cv); [|done|].
  { intros m' cv' _. apply (fold_left_preserve _ (fun m => key_present m k)).
    intros m'' p' _. apply add_person_present. }
  intros m'. apply (fold_left_establish _ (fun m => key_present m k) _ _ p); [intros m'' p' _; apply add_person_present|done|].
  intros m''. unfold add_person. rewrite He. apply map_set_adds.
Qed.

(** [Object.entries] puts the integer keys of the labels first, in
    ascending order, before the other keys: the options of a status column
    whose labels are [{"5": "Done", "1": "Stuck", "a": "Later"}] are
    offered as [Stuck], [Done], [Later], then [No status]. *)
Example status_options_order :
  option_map (map so_id)
    (status_options_of (stringify (JObj [("labels",
       JObj [("5", JStr "Done"); ("1", JStr "Stuck"); ("a", JStr "Later")])]))) =
  Some ["1"; "5"; "a"; "clear"].
Proof. vm_compute. reflexivity. Qed.

(** ** Witnesses *)

Lemma columnsForTable_board_link_witness :
  let c := {| tc_id := "board_name_column"; tc_title := "Board"; tc_type := "board_link";
              tc_statusOptions := None |} in
  c ∈ columnsForTable ["item_name_column"; "board_name_column"] [] /\ tc_id c = "board_name_column" /\
  tc_type c = "board_link".
Proof.
  cbv zeta. assert (H : {| tc_id := "board_name_column"; tc_title := "Board"; tc_type := "board_link";
                          tc_statusOptions := None |} ∈ columnsForTable ["item_name_column"; "board_name_column"] [])
    by (vm_compute; right; left).
  split; [exact H | split; [reflexivity | exact (columnsForTable_board_link _ _ _ H eq_refl)]].
Defined.

Lemma column_data_status_options_witness :
  exists opts,
    tc_statusOptions (column_data (ex_status_board_column (stringify ex_settings_json))) =
      Some (opts ++ [clear_option]) /\
    map (fun o => (so_id o, so_label o)) opts = object_entries ex_labels /\
    Forall (fun o => so_value o = so_label o) opts.
Proof.
  apply (column_data_status_options _ (stringify ex_settings_json) ex_settings_json ex_labels);
    vm_compute; reflexivity.
Defined.

Lemma column_data_bad_settings_witness :
  let col := ex_status_board_column "{labels" in
  column_data col =
  {| tc_id := col_id col; tc_title := col_title col; tc_type := col_type col; tc_statusOptions := None |}.
Proof. cbv zeta. apply (column_data_bad_settings _ "{labels"); reflexivity. Defined.

Lemma getStatusColorStyle_no_status_witness :
  ([""; "undefined"; "null"; "-"] ∋? js_trim " - ") = true /\
  cs_backgroundColor (getStatusColorStyle (JStr " - ")) = "#c4c4c4".
Proof.
  assert (H : ([""; "undefined"; "null"; "-"] ∋? js_trim " - ") = true) by reflexivity.
  split; [exact H | exact (getStatusColorStyle_no_status _ H)].
Defined.

Lemma uniquePeople_complete_witness :
  let p := JObj [("id", JNum 7 0); ("kind", JStr "person")] in
  ex_assigned "a" 7 ∈ [ex_assigned "a" 7] /\
  key_present (people_of_items [ex_assigned "a" 7] [ex_person_col] ∅) (JNum 7 0).
Proof.
  cbv zeta. split; [by left|].
  apply (uniquePeople_complete _ _ _ (ex_assigned "a" 7)
           (hd {| cv_id := ""; cv_text := None; cv_value := None |} (it_column_values (ex_assigned "a" 7)))
           (JObj [("id", JNum 7 0); ("kind", JStr "person")]) (JNum 7 0) (PUnknown (JNum 7 0))).
  - by left.
  - by left.
  - vm_compute. by left.
  - reflexivity.
Defined.
