(* ===== verification/Sidebar.v ===== *)
(** * The board menu

    Two parts of the code that list the boards:
    - [Module Menu]: App.jsx's handlers of the settings menu
      ([src/unnamed/part_005]): [fetchBoardsForSidebarSelection] (lines
      293-313), [handleSelectAllBoards] (325-356), [handleDeselectAllBoards]
      (358-363), [handleSelectAllColumns] and [handleDeselectAllColumns]
      (389-402) and [toggleSidebar] (441-449).  They go through [retry]
      around [queryMonday] ([fetch_with_retry]) and report to
      [monday.toast] when the host has one.
    - [Module Panel]: components/Sidebar/Sidebar.jsx, which fetches the list
      of boards itself once it is mounted (lines 18-42), with a bare
      [monday.api] call, and renders the boards and the fields (lines
      62-121).
    The state of App a handler reads is the record [menu_state]; a handler
    is a computation of the executor's monad that returns the state after
    the writes it makes.  The call the menu makes inside the updater of
    [setIsSidebarOpen] is run after the toggle: nothing the toggle writes is
    read by it. *)

From S2P Require Import Prelude Json Queries Executor Aggregation Selection.

Local Open Scope exec_scope.

(** [`${error.message}`]: a missing message prints as [undefined]. *)
Definition message_of (e : js_error) : string :=
  match err_message e with Some m => m | None => "undefined" end.

(** [v.length] of a parsed value; [None] is [undefined]. *)
Definition js_length (v : json) : option nat :=
  match v with
  | JArr l => Some (length l)
  | JStr s => Some (String.length s)
  | _ => None
  end.

(** [v.length > 0]. *)
Definition length_positive (v : json) : bool :=
  match js_length v with Some (S _) => true | _ => false end.

(** [v.map(board => board.id)], [v] named [receiver] in the messages:
    the [TypeError] of a value without [map], or of a [null] board. *)
Definition ids_of (receiver : string) (v : json) : js_error + list string :=
  match v with
  | JArr l => match board_ids l with
              | Some ids => inr ids
              | None => inl (type_error "Cannot read properties of null (reading 'id')")
              end
  | _ => inl (type_error (receiver +:+ ".map is not a function"))
  end.

Module Menu.

Inductive toast_kind := ToastSuccess | ToastError | ToastInfo.

Record menu_state := {
  isSidebarOpen : bool;
  allAvailableBoardsForSidebar : json;
  isFetchingAllBoardsForSidebar : bool;
  allBoardsForSidebarFetchError : option string;
  selectedBoardIds : list string;
  selectedColumnIds : list string;
  isLoadingColumns : bool;
  can_toast : bool;
  toasts : list (toast_kind * string);
}.

Definition initial_menu (can : bool) : menu_state := {|
  isSidebarOpen := false; allAvailableBoardsForSidebar := JArr [];
  isFetchingAllBoardsForSidebar := false; allBoardsForSidebarFetchError := None;
  selectedBoardIds := []; selectedColumnIds := []; isLoadingColumns := false;
  can_toast := can; toasts := [] |}.

(** The setters of the state. *)
Definition set_open (s : menu_state) (b : bool) : menu_state :=
  {| isSidebarOpen := b; allAvailableBoardsForSidebar := allAvailableBoardsForSidebar s;
     isFetchingAllBoardsForSidebar := isFetchingAllBoardsForSidebar s;
     allBoardsForSidebarFetchError := allBoardsForSidebarFetchError s;
     selectedBoardIds := selectedBoardIds s; selectedColumnIds := selectedColumnIds s;
     isLoadingColumns := isLoadingColumns s; can_toast := can_toast s; toasts := toasts s |}.

Definition set_available (s : menu_state) (v : json) : menu_state :=
  {| isSidebarOpen := isSidebarOpen s; allAvailableBoardsForSidebar := v;
     isFetchingAllBoardsForSidebar := isFetchingAllBoardsForSidebar s;
     allBoardsForSidebarFetchError := allBoardsForSidebarFetchError s;
     selectedBoardIds := selectedBoardIds s; selectedColumnIds := selectedColumnIds s;
     isLoadingColumns := isLoadingColumns s; can_toast := can_toast s; toasts := toasts s |}.

Definition set_fetching (s : menu_state) (b : bool) : menu_state :=
  {| isSidebarOpen := isSidebarOpen s; allAvailableBoardsForSidebar := allAvailableBoardsForSidebar s;
     isFetchingAllBoardsForSidebar := b;
     allBoardsForSidebarFetchError := allBoardsForSidebarFetchError s;
     selectedBoardIds := selectedBoardIds s; selectedColumnIds := selectedColumnIds s;
     isLoadingColumns := isLoadingColumns s; can_toast := can_toast s; toasts := toasts s |}.

Definition set_fetch_error (s : menu_state) (e : option string) : menu_state :=
  {| isSidebarOpen := isSidebarOpen s; allAvailableBoardsForSidebar := allAvailableBoardsForSidebar s;
     isFetchingAllBoardsForSidebar := isFetchingAllBoardsForSidebar s;
     allBoardsForSidebarFetchError := e;
     selectedBoardIds := selectedBoardIds s; selectedColumnIds := selectedColumnIds s;
     isLoadingColumns := isLoadingColumns s; can_toast := can_toast s; toasts := toasts s |}.

Definition set_boards (s : menu_state) (ids : list string) : menu_state :=
  {| isSidebarOpen := isSidebarOpen s; allAvailableBoardsForSidebar := allAvailableBoardsForSidebar s;
     isFetchingAllBoardsForSidebar := isFetchingAllBoardsForSidebar s;
     allBoardsForSidebarFetchError := allBoardsForSidebarFetchError s;
     selectedBoardIds := ids; selectedColumnIds := selectedColumnIds s;
     isLoadingColumns := isLoadingColumns s; can_toast := can_toast s; toasts := toasts s |}.

Definition set_columns (s : menu_state) (ids : list string) : menu_state :=
  {| isSidebarOpen := isSidebarOpen s; allAvailableBoardsForSidebar := allAvailableBoardsForSidebar s;
     isFetchingAllBoardsForSidebar := isFetchingAllBoardsForSidebar s;
     allBoardsForSidebarFetchError := allBoardsForSidebarFetchError s;
     selectedBoardIds := selectedBoardIds s; selectedColumnIds := ids;
     isLoadingColumns := isLoadingColumns s; can_toast := can_toast s; toasts := toasts s |}.

Definition set_loading_columns (s : menu_state) (b : bool) : menu_state :=
  {| isSidebarOpen := isSidebarOpen s; allAvailableBoardsForSidebar := allAvailableBoardsForSidebar s;
     isFetchingAllBoardsForSidebar := isFetchingAllBoardsForSidebar s;
     allBoardsForSidebarFetchError := allBoardsForSidebarFetchError s;
     selectedBoardIds := selectedBoardIds s; selectedColumnIds := selectedColumnIds s;
     isLoadingColumns := b; can_toast := can_toast s; toasts := toasts s |}.

(** [if (monday.toast && typeof monday.toast.kind === 'function')
    monday.toast.kind(msg)]. *)
Definition toast (k : toast_kind) (msg : string) (s : menu_state) : menu_state :=
  if can_toast s then
    {| isSidebarOpen := isSidebarOpen s; allAvailableBoardsForSidebar := allAvailableBoardsForSidebar s;
       isFetchingAllBoardsForSidebar := isFetchingAllBoardsForSidebar s;
       allBoardsForSidebarFetchError := allBoardsForSidebarFetchError s;
       selectedBoardIds := selectedBoardIds s; selectedColumnIds := selectedColumnIds s;
       isLoadingColumns := isLoadingColumns s; can_toast := can_toast s;
       toasts := toasts s ++ [(k, msg)] |}
  else s.

Section Handlers.

Variable net : nat -> string -> result (api_response json).

(** [fetchBoardsForSidebarSelection] (lines 293-313). *)
Definition fetchBoardsForSidebarSelection (s : menu_state) : M menu_state :=
  if isFetchingAllBoardsForSidebar s then ret s
  else
    let s1 := set_fetch_error (set_fetching s true) None in
    r <- attempt (fetch_with_retry net GET_BOARDS_QUERY) ;;
    let s2 := match r with
              | Ok data =>
                  match truthy_member data "boards" with
                  | Some boards => set_available s1 boards
                  | None => s1
                  end
              | Thrown e =>
                  toast ToastError ("Error loading all boards for menu: " +:+ message_of e)
                    (set_fetch_error s1 (Some ("Error loading all boards: " +:+ message_of e)))
              end in
    ret (set_fetching s2 false).

(** The body of the [try] of [handleSelectAllBoards] (lines 338-346);
    [data.boards.map] on a value without [map] throws inside it. *)
Definition select_all_fetched (s1 : menu_state) : M menu_state :=
  data <- fetch_with_retry net GET_BOARDS_QUERY ;;
  match truthy_member data "boards" with
  | Some boards =>
      match ids_of "data.boards" boards with
      | inr allIds => ret (toast ToastSuccess "All available boards selected!"
                              (set_available (set_boards s1 allIds) boards))
      | inl e => throw e
      end
  | None => ret s1
  end.

(** [handleSelectAllBoards] (lines 325-356): the boards already listed, or
    a fetch of the list under [isLoadingColumns]. *)
Definition handleSelectAllBoards (s : menu_state) : M menu_state :=
  if length_positive (allAvailableBoardsForSidebar s) then
      match ids_of "allAvailableBoardsForSidebar" (allAvailableBoardsForSidebar s) with
      | inr allIds => ret (toast ToastSuccess "All available boards selected!" (set_boards s allIds))
      | inl e => throw e
      end
  else
      let s1 := set_fetch_error (set_loading_columns s true) None in
      r <- attempt (select_all_fetched s1) ;;
      let s2 := match r with
                | Ok s' => s'
                | Thrown e =>
                    toast ToastError ("Error selecting all boards: " +:+ message_of e)
                      (set_fetch_error s1 (Some ("Error selecting all boards: " +:+ message_of e)))
                end in
      ret (set_loading_columns s2 false).

End Handlers.

(** [handleDeselectAllBoards] (lines 358-363). *)
Definition handleDeselectAllBoards (s : menu_state) : menu_state :=
  toast ToastInfo "All boards deselected." (set_boards s []).

(** [handleSelectAllColumns] (lines 389-395), on the columns offered for
    the selected boards. *)
Definition handleSelectAllColumns (available : list json) (s : menu_state) : menu_state :=
  toast ToastSuccess "All available fields selected!"
    (set_columns s (all_column_ids available)).

(** [handleDeselectAllColumns] (lines 397-402). *)
Definition handleDeselectAllColumns (s : menu_state) : menu_state :=
  toast ToastInfo "All fields deselected." (set_columns s []).

(** [toggleSidebar] (lines 441-449): opening the menu while no board is
    listed and no fetch runs starts [fetchBoardsForSidebarSelection]. *)
Definition toggleSidebar (net : nat -> string -> result (api_response json)) (s : menu_state)
    : M menu_state :=
  let newSidebarState := negb (isSidebarOpen s) in
  let s1 := set_open s newSidebarState in
  if newSidebarState && bool_decide (js_length (allAvailableBoardsForSidebar s) = Some 0)
     && negb (isFetchingAllBoardsForSidebar s)
  then fetchBoardsForSidebarSelection net s1
  else ret s1.

End Menu.

Module Panel.

Record panel_state := {
  allAccessibleBoards : json;
  loadingBoards : bool;
  boardsError : option string;
}.

Definition initial_panel : panel_state :=
  {| allAccessibleBoards := JArr []; loadingBoards := true; boardsError := None |}.

(** The literal of line 27. *)
Definition SIDEBAR_BOARDS_QUERY : string := "query { boards { id name } }".

Definition boards_failed : string := "Failed to load the list of boards.".

(** [fetchBoards] (lines 23-40): one bare [monday.api] call; a response
    without [data.boards], errors included, lists no board. *)
Definition fetchBoards (net : nat -> string -> result (api_response json)) (s : panel_state)
    : M panel_state :=
  let s1 := {| allAccessibleBoards := allAccessibleBoards s; loadingBoards := true; boardsError := None |} in
  r <- attempt (call_api net SIDEBAR_BOARDS_QUERY) ;;
  let s2 := match r with
            | Ok response =>
                {| allAccessibleBoards :=
                     match truthy_member (r_data response) "boards" with
                     | Some boards => boards
                     | None => JArr []
                     end;
                   loadingBoards := loadingBoards s1; boardsError := boardsError s1 |}
            | Thrown _ =>
                {| allAccessibleBoards := allAccessibleBoards s1; loadingBoards := loadingBoards s1;
                   boardsError := Some boards_failed |}
            end in
  ret {| allAccessibleBoards := allAccessibleBoards s2; loadingBoards := false;
         boardsError := boardsError s2 |}.

(** A checkbox of the menu: [key], [label] and [checked]. *)
Record checkbox := {
  cb_key : string;
  cb_label : option json;
  cb_checked : bool;
}.

Inductive boards_view :=
| BoardsLoading
| BoardsError (msg : string)
| BoardsList (rows : list checkbox).

Inductive fields_view :=
| FieldsSelectBoards
| FieldsNone
| FieldsList (rows : list checkbox).

(** What the menu shows: the boards part, the note [Loading fields...]
    and the fields part. *)
Record sidebar_view := {
  sv_boards : boards_view;
  sv_loading_fields : bool;
  sv_fields : fields_view;
}.

(** The rendering of lines 62-121; [None] is the [TypeError] of [.map] on a
    board list that is not an array. *)
Definition render (s : panel_state) (selectedBoardIds : list string) (allBoardColumns : list json)
    (selectedColumnIds : list string) : option sidebar_view :=
  let boards :=
    if loadingBoards s then Some BoardsLoading
    else match boardsError s with
         | Some e => if str_truthy e then Some (BoardsError e) else None
         | None => None
         end in
  let boards :=
    match boards with
    | Some b => Some b
    | None =>
        match allAccessibleBoards s with
        | JArr l => Some (BoardsList (map (fun board =>
                      {| cb_key := column_key board; cb_label := jget board "name";
                         cb_checked := selectedBoardIds ∋? column_key board |}) l))
        | _ => None
        end
    end in
  match boards with
  | Some b =>
      Some {| sv_boards := b;
              sv_loading_fields := bool_decide (allBoardColumns = []) && bool_decide (selectedBoardIds <> []);
              sv_fields :=
                match selectedBoardIds, allBoardColumns with
                | [], _ => FieldsSelectBoards
                | _, [] => FieldsNone
                | _, _ => FieldsList (map (fun column =>
                            {| cb_key := column_key column; cb_label := jget column "title";
                               cb_checked := selectedColumnIds ∋? column_key column |}) allBoardColumns)
                end |}
  | None => None
  end.

End Panel.

(** ** Examples *)

Definition ex_boards_json : json :=
  JObj [("boards", JArr [JObj [("id", JStr "b1"); ("name", JStr "Roadmap")];
                         JObj [("id", JStr "b2"); ("name", JStr "Bugs")]])].

(** A network that lists two boards. *)
Definition ex_boards_net : nat -> string -> result (api_response json) :=
  fun _ _ => Ok {| r_errors := None; r_data := ex_boards_json |}.

(** A network that answers every call with an error no layer retries. *)
Definition ex_denied_net : nat -> string -> result (api_response json) :=
  fun _ _ => Ok {| r_errors := Some ["Permission denied"]; r_data := JNull |}.

(** A network whose every call is rejected with a rate limit. *)
Definition ex_rate_limited_net : nat -> string -> result (api_response json) :=
  fun _ _ => Thrown {| err_message := Some "Rate limit exceeded"; err_response := None |}.


(** ** Lemmas *)

(** What a toast leaves of the state: everything but the toasts. *)
Lemma toast_keeps (k : Menu.toast_kind) (msg : string) (s : Menu.menu_state) :
  Menu.isSidebarOpen (Menu.toast k msg s) = Menu.isSidebarOpen s /\
  Menu.isFetchingAllBoardsForSidebar (Menu.toast k msg s) = Menu.isFetchingAllBoardsForSidebar s /\
  Menu.selectedBoardIds (Menu.toast k msg s) = Menu.selectedBoardIds s /\
  Menu.selectedColumnIds (Menu.toast k msg s) = Menu.selectedColumnIds s /\
  Menu.isLoadingColumns (Menu.toast k msg s) = Menu.isLoadingColumns s.
Proof. unfold Menu.toast. by destruct (Menu.can_toast s). Qed.

(** [attempt] settles: it never rejects. *)
Lemma attempt_settles {A} (c : M A) (st : exec_state) : attempt c st = (Ok (fst (c st)), snd (c st)).
Proof. unfold attempt. by destruct (c st). Qed.

Lemma bind_attempt {A B} (c : M A) (k : result A -> M B) (st : exec_state) :
  bind (attempt c) k st = k (fst (c st)) (snd (c st)).
Proof. unfold bind. by rewrite attempt_settles. Qed.

(** ** Theorems of the menu *)

Section MenuFacts.

Variable net : nat -> string -> result (api_response json).

(** While a fetch of the board list runs, [fetchBoardsForSidebarSelection]
    returns at once: no call, no write. *)
Theorem fetchBoards_guard (s : Menu.menu_state) (st : exec_state) :
  Menu.isFetchingAllBoardsForSidebar s = true ->
  Menu.fetchBoardsForSidebarSelection net s st = (Ok s, st).
Proof. intros H. unfold Menu.fetchBoardsForSidebarSelection. by rewrite H. Qed.

(** C33: a fetch of the board list always settles and lowers its flag,
    whatever the network does; it writes only the board list, its error
    and the toasts. *)
Theorem fetchBoards_settles (s : Menu.menu_state) (st : exec_state) :
  Menu.isFetchingAllBoardsForSidebar s = false ->
  exists s' st', Menu.fetchBoardsForSidebarSelection net s st = (Ok s', st') /\
    Menu.isFetchingAllBoardsForSidebar s' = false /\ Menu.isSidebarOpen s' = Menu.isSidebarOpen s /\
    Menu.selectedBoardIds s' = Menu.selectedBoardIds s /\
    Menu.selectedColumnIds s' = Menu.selectedColumnIds s /\
    Menu.isLoadingColumns s' = Menu.isLoadingColumns s.
Proof.
  intros H. unfold Menu.fetchBoardsForSidebarSelection. rewrite H, bind_attempt.
  destruct (fetch_with_retry net GET_BOARDS_QUERY st) as [[data|e] st']; cbn [fst snd];
    eexists _, _; (split; [reflexivity|]); cbn.
  - by destruct (truthy_member data "boards").
  - pose proof (toast_keeps Menu.ToastError ("Error loading all boards for menu: " +:+ message_of e)
      (Menu.set_fetch_error (Menu.set_fetch_error (Menu.set_fetching s true) None)
         (Some ("Error loading all boards: " +:+ message_of e)))) as (-> & _ & -> & -> & ->).
    done.
Qed.

(** When the API lists boards, the fetch stores them, clears the
    error and lowers its flag after one call. *)
Theorem fetchBoards_success (s : Menu.menu_state) (st : exec_state) (data boards : json) :
  Menu.isFetchingAllBoardsForSidebar s = false ->
  net (calls st) GET_BOARDS_QUERY = Ok {| r_errors := None; r_data := data |} ->
  truthy_member data "boards" = Some boards ->
  Menu.fetchBoardsForSidebarSelection net s st =
  (Ok (Menu.set_fetching (Menu.set_available (Menu.set_fetch_error (Menu.set_fetching s true) None) boards)
         false),
   tick GET_BOARDS_QUERY st).
Proof.
  intros Hf Hq Hb. unfold Menu.fetchBoardsForSidebarSelection. rewrite Hf, bind_attempt.
  rewrite (fetch_with_retry_ok net GET_BOARDS_QUERY st data Hq). cbn [fst snd]. by rewrite Hb.
Qed.

(** An error no layer retries is shown in the menu as [Error loading all
    boards: ...] and as an error toast, after one call. *)
Theorem fetchBoards_failure (s : Menu.menu_state) (st : exec_state) (errs : list string) (x : json) :
  Menu.isFetchingAllBoardsForSidebar s = false ->
  net (calls st) GET_BOARDS_QUERY = Ok {| r_errors := Some errs; r_data := x |} ->
  existsb rate_limit_msg errs = false -> is_transient (query_error_of errs) = false ->
  Menu.fetchBoardsForSidebarSelection net s st =
  (Ok (Menu.set_fetching
         (Menu.toast Menu.ToastError ("Error loading all boards for menu: " +:+ js_join "; " errs)
            (Menu.set_fetch_error (Menu.set_fetch_error (Menu.set_fetching s true) None)
               (Some ("Error loading all boards: " +:+ js_join "; " errs)))) false),
   tick GET_BOARDS_QUERY st).
Proof.
  intros Hf Hq Hrl Ht. unfold Menu.fetchBoardsForSidebarSelection. rewrite Hf, bind_attempt.
  by rewrite (fetch_with_retry_fatal net GET_BOARDS_QUERY st errs x Hq Hrl Ht).
Qed.

(** With the boards already listed, [handleSelectAllBoards] selects
    their ids in list order without a call and without raising
    [isLoadingColumns]. *)
Theorem handleSelectAllBoards_cached (s : Menu.menu_state) (st : exec_state) (b : json) (bs : list json)
    (ids : list string) :
  Menu.allAvailableBoardsForSidebar s = JArr (b :: bs) -> board_ids (b :: bs) = Some ids ->
  Menu.handleSelectAllBoards net s st =
  (Ok (Menu.toast Menu.ToastSuccess "All available boards selected!" (Menu.set_boards s ids)), st).
Proof. intros H Hids. unfold Menu.handleSelectAllBoards. rewrite H. cbn [length_positive js_length ids_of].
  by rewrite Hids. Qed.

(** When the list has to be fetched, [handleSelectAllBoards] settles and
    lowers [isLoadingColumns] whatever the network does (the [finally]),
    and leaves the columns and the menu as they were. *)
Theorem handleSelectAllBoards_settles (s : Menu.menu_state) (st : exec_state) :
  length_positive (Menu.allAvailableBoardsForSidebar s) = false ->
  exists s' st', Menu.handleSelectAllBoards net s st = (Ok s', st') /\
    Menu.isLoadingColumns s' = false /\ Menu.isSidebarOpen s' = Menu.isSidebarOpen s /\
    Menu.selectedColumnIds s' = Menu.selectedColumnIds s.
Proof.
  intros Hl. unfold Menu.handleSelectAllBoards. rewrite Hl, bind_attempt.
  eexists _, _. split; [reflexivity|]. cbn. split; [done|].
  destruct (fst (Menu.select_all_fetched net _ st)) as [s'|e] eqn:E.
  - unfold Menu.select_all_fetched, bind in E.
    destruct (fetch_with_retry net GET_BOARDS_QUERY st) as [[data|e] st1]; [|done].
    destruct (truthy_member data "boards") as [boards|]; [|by injection E as <-].
    destruct (ids_of "data.boards" boards) as [e|ids]; [done|]. injection E as <-.
    pose proof (toast_keeps Menu.ToastSuccess "All available boards selected!"
      (Menu.set_available (Menu.set_boards (Menu.set_fetch_error (Menu.set_loading_columns s true) None) ids)
         boards)) as (-> & _ & _ & -> & _). done.
  - pose proof (toast_keeps Menu.ToastError ("Error selecting all boards: " +:+ message_of e)
      (Menu.set_fetch_error (Menu.set_fetch_error (Menu.set_loading_columns s true) None)
         (Some ("Error selecting all boards: " +:+ message_of e)))) as (-> & _ & _ & -> & _). done.
Qed.

(** C34: when the fetched list fails with an error no layer retries,
    [handleSelectAllBoards] keeps the selection, shows [Error selecting all
    boards: ...] and lowers [isLoadingColumns], after one call. *)
Theorem handleSelectAllBoards_failure (s : Menu.menu_state) (st : exec_state) (errs : list string) (x : json) :
  length_positive (Menu.allAvailableBoardsForSidebar s) = false ->
  net (calls st) GET_BOARDS_QUERY = Ok {| r_errors := Some errs; r_data := x |} ->
  existsb rate_limit_msg errs = false -> is_transient (query_error_of errs) = false ->
  Menu.handleSelectAllBoards net s st =
  (Ok (Menu.set_loading_columns
         (Menu.toast Menu.ToastError ("Error selecting all boards: " +:+ js_join "; " errs)
            (Menu.set_fetch_error (Menu.set_fetch_error (Menu.set_loading_columns s true) None)
               (Some ("Error selecting all boards: " +:+ js_join "; " errs)))) false),
   tick GET_BOARDS_QUERY st).
Proof.
  intros Hl Hq Hrl Ht. unfold Menu.handleSelectAllBoards. rewrite Hl, bind_attempt.
  unfold Menu.select_all_fetched, bind.
  by rewrite (fetch_with_retry_fatal net GET_BOARDS_QUERY st errs x Hq Hrl Ht).
Qed.

(** Opening the menu while no board is listed and no fetch runs makes
    one call for the list and stores it. *)
Theorem toggleSidebar_open_fetches (s : Menu.menu_state) (st : exec_state) (data boards : json) :
  Menu.isSidebarOpen s = false -> Menu.allAvailableBoardsForSidebar s = JArr [] ->
  Menu.isFetchingAllBoardsForSidebar s = false ->
  net (calls st) GET_BOARDS_QUERY = Ok {| r_errors := None; r_data := data |} ->
  truthy_member data "boards" = Some boards ->
  Menu.toggleSidebar net s st =
  (Ok (Menu.set_fetching (Menu.set_available
         (Menu.set_fetch_error (Menu.set_fetching (Menu.set_open s true) true) None) boards) false),
   tick GET_BOARDS_QUERY st).
Proof.
  intros Ho Ha Hf Hq Hb. unfold Menu.toggleSidebar. rewrite Ho, Ha, Hf. cbn [negb andb js_length length].
  rewrite bool_decide_eq_true_2 by done. cbn [andb].
  unfold Menu.fetchBoardsForSidebarSelection. cbn [Menu.isFetchingAllBoardsForSidebar Menu.set_open].
  rewrite Hf, bind_attempt, (fetch_with_retry_ok net GET_BOARDS_QUERY st data Hq). cbn [fst snd].
  by rewrite Hb.
Qed.

(** Closing the menu makes no call and changes nothing else. *)
Theorem toggleSidebar_close (s : Menu.menu_state) (st : exec_state) :
  Menu.isSidebarOpen s = true -> Menu.toggleSidebar net s st = (Ok (Menu.set_open s false), st).
Proof. intros Ho. unfold Menu.toggleSidebar. by rewrite Ho. Qed.

End MenuFacts.

(** ** Theorems of the panel *)

(** The panel's own fetch ignores [response.errors]: a response that
    reports errors and no board list shows an empty list and no error. *)
Theorem panel_fetch_ignores_errors (net : nat -> string -> result (api_response json))
    (s : Panel.panel_state) (st : exec_state) (errs : list string) (x : json) :
  net (calls st) Panel.SIDEBAR_BOARDS_QUERY = Ok {| r_errors := Some errs; r_data := x |} ->
  truthy_member x "boards" = None ->
  Panel.fetchBoards net s st =
  (Ok {| Panel.allAccessibleBoards := JArr []; Panel.loadingBoards := false; Panel.boardsError := None |},
   tick Panel.SIDEBAR_BOARDS_QUERY st).
Proof.
  intros Hq Hx. unfold Panel.fetchBoards. rewrite bind_attempt. unfold call_api.
  cbn [fst snd]. rewrite Hq. cbn [r_data]. by rewrite Hx.
Qed.

(** the panel's fetch is not retried: a rejected call, a rate limit
    included, leaves the message [Failed to load the list of boards.] after
    that one call. *)
Theorem panel_fetch_no_retry (net : nat -> string -> result (api_response json))
    (s : Panel.panel_state) (st : exec_state) (e : js_error) :
  net (calls st) Panel.SIDEBAR_BOARDS_QUERY = Thrown e ->
  Panel.fetchBoards net s st =
  (Ok {| Panel.allAccessibleBoards := Panel.allAccessibleBoards s; Panel.loadingBoards := false;
         Panel.boardsError := Some Panel.boards_failed |},
   tick Panel.SIDEBAR_BOARDS_QUERY st).
Proof.
  intros Hq. unfold Panel.fetchBoards. rewrite bind_attempt. unfold call_api.
  cbn [fst snd]. by rewrite Hq.
Qed.

(** With boards selected and no field offered yet, the menu shows both
    [Loading fields...] and [No fields to display in the selected boards.]. *)
Theorem panel_render_both_field_notes (s : Panel.panel_state) (sel : list string)
    (selectedColumnIds : list string) (v : Panel.sidebar_view) :
  sel <> [] -> Panel.render s sel [] selectedColumnIds = Some v ->
  Panel.sv_loading_fields v = true /\ Panel.sv_fields v = Panel.FieldsNone.
Proof.
  intros Hs Hr. unfold Panel.render in Hr.
  destruct (match _ with Some b => Some b | None => _ end) as [b|]; [|done].
  injection Hr as <-. cbn [Panel.sv_loading_fields Panel.sv_fields].
  split; [by apply bool_decide_eq_true_2 | by destruct sel].
Qed.

(** ** Witnesses *)

Lemma fetchBoards_settles_witness :
  exists s' st', Menu.fetchBoardsForSidebarSelection ex_denied_net (Menu.initial_menu true) ex_st0 = (Ok s', st') /\
    Menu.isFetchingAllBoardsForSidebar s' = false /\
    Menu.isSidebarOpen s' = Menu.isSidebarOpen (Menu.initial_menu true) /\
    Menu.selectedBoardIds s' = Menu.selectedBoardIds (Menu.initial_menu true) /\
    Menu.selectedColumnIds s' = Menu.selectedColumnIds (Menu.initial_menu true) /\
    Menu.isLoadingColumns s' = Menu.isLoadingColumns (Menu.initial_menu true).
Proof. apply fetchBoards_settles. reflexivity. Defined.

Lemma fetchBoards_failure_witness :
  Menu.fetchBoardsForSidebarSelection ex_denied_net (Menu.initial_menu true) ex_st0 =
  (Ok (Menu.set_fetching
         (Menu.toast Menu.ToastError ("Error loading all boards for menu: " +:+ js_join "; " ["Permission denied"])
            (Menu.set_fetch_error (Menu.set_fetch_error (Menu.set_fetching (Menu.initial_menu true) true) None)
               (Some ("Error loading all boards: " +:+ js_join "; " ["Permission denied"])))) false),
   tick GET_BOARDS_QUERY ex_st0).
Proof. apply (fetchBoards_failure _ _ _ _ JNull); vm_compute; reflexivity. Defined.

Lemma handleSelectAllBoards_settles_witness :
  exists s' st', Menu.handleSelectAllBoards ex_denied_net (Menu.initial_menu true) ex_st0 = (Ok s', st') /\
    Menu.isLoadingColumns s' = false /\ Menu.isSidebarOpen s' = Menu.isSidebarOpen (Menu.initial_menu true) /\
    Menu.selectedColumnIds s' = Menu.selectedColumnIds (Menu.initial_menu true).
Proof. apply handleSelectAllBoards_settles. reflexivity. Defined.

Lemma handleSelectAllBoards_failure_witness :
  Menu.handleSelectAllBoards ex_denied_net (Menu.initial_menu true) ex_st0 =
  (Ok (Menu.set_loading_columns
         (Menu.toast Menu.ToastError ("Error selecting all boards: " +:+ js_join "; " ["Permission denied"])
            (Menu.set_fetch_error (Menu.set_fetch_error (Menu.set_loading_columns (Menu.initial_menu true) true) None)
               (Some ("Error selecting all boards: " +:+ js_join "; " ["Permission denied"])))) false),
   tick GET_BOARDS_QUERY ex_st0).
Proof. apply (handleSelectAllBoards_failure _ _ _ _ JNull); vm_compute; reflexivity. Defined.

Lemma toggleSidebar_open_fetches_witness :
  Menu.toggleSidebar ex_boards_net (Menu.initial_menu true) ex_st0 =
  (Ok (Menu.set_fetching (Menu.set_available
         (Menu.set_fetch_error (Menu.set_fetching (Menu.set_open (Menu.initial_menu true) true) true) None)
         (JArr [JObj [("id", JStr "b1"); ("name", JStr "Roadmap")];
                JObj [("id", JStr "b2"); ("name", JStr "Bugs")]])) false),
   tick GET_BOARDS_QUERY ex_st0).
Proof. apply (toggleSidebar_open_fetches _ _ _ ex_boards_json); reflexivity. Defined.

Lemma panel_fetch_ignores_errors_witness :
  Panel.fetchBoards ex_denied_net Panel.initial_panel ex_st0 =
  (Ok {| Panel.allAccessibleBoards := JArr []; Panel.loadingBoards := false; Panel.boardsError := None |},
   tick Panel.SIDEBAR_BOARDS_QUERY ex_st0).
Proof. apply (panel_fetch_ignores_errors _ _ _ ["Permission denied"] JNull); reflexivity. Defined.

Lemma panel_fetch_no_retry_witness :
  Panel.fetchBoards ex_rate_limited_net Panel.initial_panel ex_st0 =
  (Ok {| Panel.allAccessibleBoards := Panel.allAccessibleBoards Panel.initial_panel; Panel.loadingBoards := false;
         Panel.boardsError := Some Panel.boards_failed |},
   tick Panel.SIDEBAR_BOARDS_QUERY ex_st0).
Proof. apply (panel_fetch_no_retry _ _ _ {| err_message := Some "Rate limit exceeded"; err_response := None |}). reflexivity. Defined.

Lemma panel_render_both_field_notes_witness :
  exists v, Panel.render {| Panel.allAccessibleBoards := JArr []; Panel.loadingBoards := false;
                           Panel.boardsError := None |} ["b1"] [] [] = Some v /\
    Panel.sv_loading_fields v = true /\ Panel.sv_fields v = Panel.FieldsNone.
Proof.
  eexists. assert (H : Panel.render {| Panel.allAccessibleBoards := JArr []; Panel.loadingBoards := false;
                           Panel.boardsError := None |} ["b1"] [] [] =
    Some {| Panel.sv_boards := Panel.BoardsList []; Panel.sv_loading_fields := true;
            Panel.sv_fields := Panel.FieldsNone |}) by reflexivity.
  split; [exact H | exact (panel_render_both_field_notes _ ["b1"] [] _ ltac:(done) H)].
Defined.
