(* ===== verification/AppView.v ===== *)
(** * What App renders

    The rendering of App.jsx ([src/unnamed/part_005], lines 459-534) as a
    function of its state: the settings spinner, the error panel, or the
    menu button and the main panel, which shows the loading note, the
    errors, a prompt, or the table.  [view_of_loop] reads that state from
    the loop of [AppLoop] and the columns of [Selection], and the table's
    column metadata is [columnsForTable] of [TableColumns] on the ids App
    passes: the theorems here compose those components. *)

From S2P Require Import Prelude Json Executor Aggregation Selection ViewReconciler TableColumns AppLoop.

(** The body of the main panel (lines 519-534). *)
Inductive main_body :=
| PromptBoards
| PromptColumns
| NoItems
| ShowTable (columnIds : list string) (allBoardColumns : list json) (items : list json).

Inductive main_view :=
| LoadingBoardData
| MainContent (errors : list string) (body : main_body).

Inductive app_view :=
| LoadingSettings
| ErrorPanel (msg : string)
| Main (menuLabel : string) (v : main_view).

(** [{x && <p>{x}</p>}] of an optional message. *)
Definition shown (e : option string) : list string :=
  match e with Some m => if str_truthy m then [m] else [] | None => [] end.

(** Lines 459-534. *)
Definition render_app (isAppLoading : bool) (appError : option string) (isSidebarOpen : bool)
    (isLoadingColumns isLoadingItems : bool) (columnsError itemsError : option string)
    (selectedBoardIds selectedColumnIds : list string) (boardItems : list json)
    (columnsToDisplayInTable : list json) : app_view :=
  if isAppLoading then LoadingSettings
  else match shown appError with
       | m :: _ => ErrorPanel m
       | [] =>
           Main (if isSidebarOpen then "Close Settings" else "Open Settings")
             (if isLoadingColumns || isLoadingItems then LoadingBoardData
              else MainContent (shown columnsError ++ shown itemsError)
                     match selectedBoardIds, selectedColumnIds, boardItems with
                     | [], _, _ => PromptBoards
                     | _, [], _ => PromptColumns
                     | _, _, [] => NoItems
                     | _, _, _ => ShowTable (map column_key columnsToDisplayInTable)
                                    columnsToDisplayInTable boardItems
                     end)
       end.

(** The render of a state of the loop; [None] is the [TypeError] the
    memo of the available columns throws on columns that are not an
    array. *)
Definition view_of_loop (s : loop_state) (appError : option string) (isSidebarOpen : bool)
    : option app_view :=
  match allAvailableColumnsForSelectedBoards (selectedBoardIds s) (allBoardsData (data s)) with
  | Some available =>
      Some (render_app (isAppLoading s) appError isSidebarOpen (isLoadingColumns s) (isLoadingItems s)
              (columnsError (data s)) (itemsError (data s)) (selectedBoardIds s) (selectedColumnIds s)
              (boardItems (data s)) (columnsToDisplayInTable available (selectedColumnIds s)))
  | None => None
  end.

(** ** Theorems *)

Lemma render_app_table_guard_gen (isAppLoading : bool) (appError : option string) (isSidebarOpen : bool)
    (isLoadingColumns isLoadingItems : bool) (columnsError itemsError : option string)
    (sel cols : list string) (boardItems available : list json)
    (label : string) (errs ids : list string) (tcols items : list json) :
  render_app isAppLoading appError isSidebarOpen isLoadingColumns isLoadingItems columnsError itemsError
    sel cols boardItems available = Main label (MainContent errs (ShowTable ids tcols items)) ->
  isAppLoading = false /\ shown appError = [] /\ isLoadingColumns = false /\ isLoadingItems = false /\
  sel <> [] /\ cols <> [] /\ items = boardItems /\ items <> [] /\ tcols = available /\
  ids = map column_key available.
Proof.
  unfold render_app. destruct isAppLoading; [done|]. destruct (shown appError); [|done].
  destruct isLoadingColumns, isLoadingItems; cbn; try done.
  destruct sel, cols, boardItems; try done. intros [= _ _ <- <- <-]. naive_solver.
Qed.

(** the table is rendered only when the settings are loaded, no error
    blocks the app, no foreground load runs, a board and a column are
    selected and there is an item; it gets the ids of the columns it is
    given. *)
Theorem render_app_table_guard (isAppLoading : bool) (appError : option string) (isSidebarOpen : bool)
    (isLoadingColumns isLoadingItems : bool) (columnsError itemsError : option string)
    (sel cols : list string) (boardItems available : list json)
    (label : string) (errs ids : list string) (tcols items : list json) :
  render_app isAppLoading appError isSidebarOpen isLoadingColumns isLoadingItems columnsError itemsError
    sel cols boardItems available = Main label (MainContent errs (ShowTable ids tcols items)) ->
  isAppLoading = false /\ shown appError = [] /\ isLoadingColumns = false /\ isLoadingItems = false /\
  sel <> [] /\ cols <> [] /\ items = boardItems /\ items <> [] /\ tcols = available /\
  ids = map column_key available.
Proof. apply render_app_table_guard_gen. Qed.

(** Whatever columns App offers and selects, the table's metadata
    starts with the virtual [Board] link column and the [Task Name]
    column, in that order: App's own two fixed columns are replaced. *)
Theorem table_columns_start (available : list json) (sel : list string) (allcols : list board_column) :
  exists rest,
    columnsForTable (map column_key (columnsToDisplayInTable available sel)) allcols =
    [column_data {| col_id := "board_name_column"; col_title := "Board"; col_type := "board_link";
                    col_settings_str := None |};
     column_data {| col_id := "item_name_column"; col_title := "Task Name"; col_type := "item_name";
                    col_settings_str := None |}] ++ rest.
Proof. eexists. reflexivity. Qed.

(** C32: the table can be shown while a foreground fetch is in flight: the
    first of two overlapping [loadContentData] runs lowers the loading
    flags the second raised, and the table shows the data of the first
    selection. *)
Example table_during_foreground :
  exists s, reachable s /\ has_foreground (pending s) /\
    exists label errs ids tcols items,
      view_of_loop s None false = Some (Main label (MainContent errs (ShowTable ids tcols items))).
Proof.
  exists (run_from_start [EvSettingsLoaded ["b1"] ["c1"]; EvSelect ["b1"; "b2"] ["c1"];
                          EvFetchDone 0 ex_net ex_st]).
  split; [apply run_from_start_reachable; vm_compute; reflexivity|].
  split; [vm_compute; eexists _, _; left|].
  vm_compute. do 5 eexists. reflexivity.
Qed.

(** ** Witnesses *)

Lemma render_app_table_guard_witness :
  let item := JObj [("id", JStr "i1")] in
  let col := JObj [("id", JStr "c1")] in
  render_app false None true false false None None ["b1"] ["c1"] [item] [col] =
    Main "Close Settings" (MainContent [] (ShowTable ["c1"] [col] [item])) /\
  (false = false /\ shown None = [] /\ false = false /\ false = false /\
   ["b1"] <> [] /\ ["c1"] <> [] /\ [item] = [item] /\ [item] <> [] /\ [col] = [col] /\
   ["c1"] = map column_key [col]).
Proof.
  cbv zeta.
  assert (H : render_app false None true false false None None ["b1"] ["c1"] [JObj [("id", JStr "i1")]]
                [JObj [("id", JStr "c1")]] =
              Main "Close Settings" (MainContent [] (ShowTable ["c1"] [JObj [("id", JStr "c1")]]
                [JObj [("id", JStr "i1")]]))) by reflexivity.
  split; [exact H | exact (render_app_table_guard _ _ _ _ _ _ _ _ _ _ _ _ _ _ _ _ H)].
Defined.
