(* ===== verification/TableCells.v ===== *)
(** * The rows of the table and the table's context

    What components/TaskTable/TaskTable.jsx ([src/unnamed/part_003]) shows
    in a row and how it reads the host context:
    - [RowRenderer] (lines 622-960): one cell per column of
      [columnsForTable], with its class name (lines 632-641) and its content:
      the board link (643-656), the item name, unwrapped from the
      [{"text"=>"..."}] form the API may return (657-699), the status label
      and its colours (700-772), the date (773-786) and the cells with a
      value: persons as avatars, numbers, links and text (787-938);
    - the editing handlers [handleDoubleClick] (196-199) and
      [handleKeyDown] (220-227);
    - the effects that read the context, [fetchContextAndUserId] (106-118)
      and [fetchMondayBaseUrl] (120-139), and [redirectToUserProfile]
      (305-310).
    A cell is a value of [cell_content]; the widgets and styles around it
    are not modelled, and the dialogs it opens are in [TableDialogs.v].  [toLocaleDateString] depends on the time
    zone of the browser and is the section variable [date_label]. *)

From S2P Require Import Prelude Json Executor Aggregation ViewReconciler TableActions TableColumns.
From Stdlib Require Import Ascii.

Local Open Scope exec_scope.

(** ** Cells *)

(** [cellClassName] (lines 632-641). *)
Definition cellClassName (columnId columnType : string) : string :=
  "monday-table-cell monday-cell-border" +:+
  (if String.eqb columnId "board_name_column" || String.eqb columnId "item_name_column"
   then " main-column-cell"
   else if String.eqb columnType "status" then " status-column-cell"
   else if is_person_type columnType then " person-column-cell"
   else if String.eqb columnType "date" then " date-column-cell"
   else "").

(** [/^{"text"=>"(.*?)"}$/]: the prefix and the suffix around the group. *)
Definition ruby_prefix : string := "{" +:+ str1 dq +:+ "text" +:+ str1 dq +:+ "=>" +:+ str1 dq.
Definition ruby_suffix : string := str1 dq +:+ "}".

(** The characters [.] does not match (the ASCII line terminators). *)
Definition is_line_terminator (c : ascii) : bool :=
  (nat_of_ascii c =? 10) || (nat_of_ascii c =? 13).

(** [match[1]] of the regular expression: anchored at both ends, the group
    is what lies between the prefix and the suffix, when it holds no line
    terminator. *)
Definition ruby_hash_text (s : string) : option string :=
  match strip_prefix ruby_prefix s with
  | Some rest =>
      let middle := String.substring 0 (String.length rest - 2) rest in
      if (2 <=? String.length rest) && String.eqb (middle +:+ ruby_suffix) rest
         && forallb (fun c => negb (is_line_terminator c)) (String.list_ascii_of_string middle)
      then Some middle else None
  | None => None
  end.

(** [currentItemName] (lines 658-664). *)
Definition displayed_item_name (name : string) : string :=
  let currentItemName := if str_truthy name then name else "Untitled" in
  match ruby_hash_text currentItemName with
  | Some m => if str_truthy m then m else currentItemName
  | None => currentItemName
  end.

(** What a status cell shows (lines 701-707 and 767). *)
Record status_cell := {
  sc_label : string;
  sc_background : json;
  sc_text_color : string;
}.

Definition json_is_str (v : json) (s : string) : bool :=
  match v with JStr t => String.eqb t s | _ => false end.

Definition status_cell_of (meta : table_column) (cv : option column_value) : status_cell :=
  let currentStatusText := status_text cv in
  let selected :=
    match tc_statusOptions meta with
    | Some opts => List.find (fun o => json_is_str (so_label o) currentStatusText
                                       || (String.eqb currentStatusText "" && String.eqb (so_id o) "clear")) opts
    | None => None
    end in
  let backgroundColor :=
    match selected with
    | Some o => if js_truthy (so_color o) then so_color o else JStr "#c4c4c4"
    | None => JStr "#c4c4c4"
    end in
  {| sc_label := if [""; "-"; "undefined"; "null"] ∋? currentStatusText then "" else currentStatusText;
     sc_background := backgroundColor;
     sc_text_color := if json_is_str backgroundColor "#c4c4c4" || json_is_str backgroundColor "#e0e0e0"
                      then "#323338" else "#fff" |}.

(** [toUpperCase] on ASCII letters. *)
Definition upper_char (c : ascii) : ascii :=
  let n := nat_of_ascii c in
  if (97 <=? n) && (n <=? 122) then ascii_of_nat (n - 32) else c.

Fixpoint js_upper (s : string) : string :=
  match s with
  | EmptyString => EmptyString
  | String c s' => String (upper_char c) (js_upper s')
  end.

(** An avatar of a person cell: its [key], [text] and [ariaLabel]. *)
Record avatar := {
  av_key : string;
  av_text : string;
  av_label : string;
}.

(** [cachedUsers[personData.id]]: the key is [String(personData.id)]. *)
Definition person_cache_key (personData : json) : string :=
  match jget personData "id" with Some i => js_to_string i | None => "undefined" end.

(** The avatar of one person (lines 806-823 and 861-869). *)
Definition avatar_of (cache : gmap string cached_user) (personData : json) : avatar :=
  let key := person_cache_key personData in
  let id_truthy := match jget personData "id" with Some i => js_truthy i | None => false end in
  match cache !! key with
  | Some u =>
      let userName := match user_name u with Some n => if str_truthy n then n else "Unknown" | None => "Unknown" end in
      (* [userName] is never [""]: the [cachedUser.id.substring] branch,
         which would throw on a numeric id, is never taken. *)
      let avatarText :=
        if String.eqb userName "" && js_truthy_opt (user_id u) then js_upper (String.substring 0 2 (user_id_text u))
        else if str_truthy userName then js_upper (String.substring 0 2 userName) else "NP" in
      {| av_key := key; av_text := avatarText;
         av_label := match user_name u with
                     | Some n => if str_truthy n then n
                                 else if js_truthy_opt (user_id u) then "User ID: " +:+ user_id_text u else "Unknown User"
                     | None => if js_truthy_opt (user_id u) then "User ID: " +:+ user_id_text u else "Unknown User"
                     end |}
  | None =>
      {| av_key := key; av_text := "?";
         av_label := if id_truthy then "User ID: " +:+ key else "Unknown User" |}
  end.

Inductive cell_content :=
| CEmpty
| CBoardLink (text href : string)
| CItemName (name : string) (editing : option string)
| CStatus (c : status_cell)
| CDate (formatted : string)
| CAvatars (group : bool) (avatars : list avatar)
| CNoUser (text : string)
| CText (text : string)
| CLink (text href : json).

Section Row.

Context `{JsEngine}.
Variable date_label : Z -> string.

(** The content of a cell with a value (lines 787-938); [None] is the
    [TypeError] of [.filter] on a person list with a [null] element, which
    no [try] catches. *)
Definition value_cell (cache : gmap string cached_user) (af : filters) (columnId columnType : string)
    (c : column_value) (v : string) : option cell_content :=
  let parsedValue := match parse v with Some pv => pv | None => JNull end in
  if is_person_type columnType then
    match persons_of_json parsedValue with
    | None => None
    | Some [] => Some (CNoUser (if default [] (af !! columnId) ∋? "No user" then "No user" else ""))
    | Some ps => Some (CAvatars (1 <? length ps) (map (avatar_of cache) ps))
    end
  else if String.eqb columnType "numbers" then
    let number_text := match jget parsedValue "number" with
                       | Some JNull | None => ""
                       | Some n => js_to_string n
                       end in
    Some (CText (match cv_text c with
                 | Some t => if str_truthy t then t else number_text
                 | None => number_text
                 end))
  else if String.eqb columnType "link" then
    match truthy_member parsedValue "url" with
    | Some url => Some (CLink (match jget parsedValue "text" with
                               | Some t => if js_truthy t then t else url
                               | None => url
                               end) url)
    | None => Some CEmpty
    end
  else Some (CText (text_or_empty (cv_text c))).

(** The content of the cell of [meta] in the row of [it] (lines 626-938). *)
Definition cell_of (mondayBaseUrl : string) (es : edit_state) (cache : gmap string cached_user)
    (af : filters) (it : item) (meta : table_column) : option cell_content :=
  let columnId := tc_id meta in
  let columnType := tc_type meta in
  let columnValue := find_cv (it_column_values it) columnId in
  if String.eqb columnId "board_name_column" then
    Some (CBoardLink (if str_truthy (it_boardName it) then it_boardName it else "Unknown Board")
            (mondayBaseUrl +:+ "/boards/" +:+ it_boardId it))
  else if String.eqb columnId "item_name_column" then
    Some (CItemName (displayed_item_name (it_name it))
            (match editingItemId es with
             | Some id => if String.eqb id (it_id it) then Some (editedItemName es) else None
             | None => None
             end))
  else if String.eqb columnType "status" then Some (CStatus (status_cell_of meta columnValue))
  else if String.eqb columnType "date" then
    Some (CDate (match columnValue with
                 | Some c => match cv_text c with
                             | Some t => if str_truthy t
                                         then match date_time t with Some ms => date_label ms | None => "" end
                                         else ""
                             | None => ""
                             end
                 | None => ""
                 end))
  else
    match columnValue with
    | Some c =>
        match cv_value c with
        | Some v => if negb (String.eqb (js_trim v) "") then value_cell cache af columnId columnType c v
                    else Some CEmpty
        | None => Some CEmpty
        end
    | None => Some CEmpty
    end.

(** A rendered cell: its [key], its [className] and its content. *)
Record table_cell := {
  tcell_key : string;
  tcell_class : string;
  tcell_content : cell_content;
}.

(** [RowRenderer(item)] (lines 622-960): the cells in column order;
    [None] when rendering a cell throws. *)
Fixpoint RowRenderer (mondayBaseUrl : string) (es : edit_state) (cache : gmap string cached_user)
    (af : filters) (cols : list table_column) (it : item) : option (list table_cell) :=
  match cols with
  | [] => Some []
  | meta :: cols' =>
      match cell_of mondayBaseUrl es cache af it meta, RowRenderer mondayBaseUrl es cache af cols' it with
      | Some c, Some cs =>
          Some ({| tcell_key := tc_id meta; tcell_class := cellClassName (tc_id meta) (tc_type meta);
                   tcell_content := c |} :: cs)
      | _, _ => None
      end
  end.

End Row.

(** ** Editing the name of an item *)

(** [handleDoubleClick(itemId, currentName)] (lines 196-199). *)
Definition handleDoubleClick (itemId currentName : string) : edit_state :=
  {| editingItemId := Some itemId; editedItemName := currentName |}.

(** [handleKeyDown(e, itemId, boardId, currentName)] (lines 220-227). *)
Definition handleKeyDown (net : nat -> string -> result (api_response json))
    (onItemUpdated : string -> string -> M unit) (es : edit_state) (boardItems : list item)
    (key itemId boardId currentName : string) : M (edit_state * list string) :=
  if String.eqb key "Enter" then handleSaveEdit net onItemUpdated es boardItems itemId boardId currentName
  else if String.eqb key "Escape" then ret ({| editingItemId := None; editedItemName := "" |}, [])
  else ret (es, []).

(** ** The host context *)

(** [context && context.data && context.data.userId] (lines 109-112): the
    id [setCurrentUserId] receives, read as [String(currentUserId)] by the
    filter. *)
Definition fetchContextAndUserId (context : result json) : option string :=
  match context with
  | Ok ctx =>
      match truthy_member ctx "data" with
      | Some data => option_map js_to_string (truthy_member data "userId")
      | None => None
      end
  | Thrown _ => None
  end.

Definition ACCOUNT_SLUG_QUERY : string := "query { account { slug } }".

(** [mondayBaseUrl]: a string, or [undefined] ([None]) once set from a
    missing [account.url]. *)
Definition base_url_text (b : option json) : string :=
  match b with Some v => js_to_string v | None => "undefined" end.

(** The [else] branch of lines 127-132: the account's slug, asked with a
    bare [monday.api] call. *)
Definition account_slug_url (net : nat -> string -> result (api_response json)) (base : option json)
    : M (option json) :=
  r <- attempt (call_api net ACCOUNT_SLUG_QUERY) ;;
  match r with
  | Ok response =>
      match truthy_member (r_data response) "account" with
      | Some acc =>
          match truthy_member acc "slug" with
          | Some slug => ret (Some (JStr ("https://" +:+ js_to_string slug +:+ ".monday.com")))
          | None => ret base
          end
      | None => ret base
      end
  | Thrown _ => ret base
  end.

(** [fetchMondayBaseUrl] (lines 121-137): the new [mondayBaseUrl].  The
    guard reads [context.data.accountUrl] and the write reads
    [context.data.account.url]; a missing [account] makes the read throw,
    and the [catch] keeps the old value. *)
Definition fetchMondayBaseUrl (net : nat -> string -> result (api_response json))
    (context : result json) (base : option json) : M (option json) :=
  match context with
  | Thrown _ => ret base
  | Ok ctx =>
      match truthy_member ctx "data" with
      | Some data =>
          match truthy_member data "accountUrl" with
          | Some _ =>
              match jget data "account" with
              | None | Some JNull => ret base
              | Some acc => ret (jget acc "url")
              end
          | None =>
              account_slug_url net base
          end
      | None =>
          account_slug_url net base
      end
  end.

(** [redirectToUserProfile(userId)] (lines 305-310): the address opened. *)
Definition redirectToUserProfile (base : option json) (userId : json) : option string :=
  if js_truthy userId then Some (base_url_text base +:+ "/users/" +:+ js_to_string userId) else None.

(** ** Examples *)

Definition ex_user_cache : gmap string cached_user :=
  {[ "7" := {| user_id := Some (JStr "7"); user_name := Some "ann"; user_email := None; user_photo := None |} ]}.

Definition ex_context_with_url : json :=
  JObj [("data", JObj [("userId", JNum 7 0); ("accountUrl", JStr "https://acme.monday.com")])].

Definition ex_context : json := JObj [("data", JObj [("userId", JNum 7 0)])].

Definition ex_slug_response : json := JObj [("account", JObj [("slug", JStr "acme")])].

(** A network that answers the slug query. *)
Definition ex_slug_net : nat -> string -> result (api_response json) :=
  fun _ _ => Ok {| r_errors := None; r_data := ex_slug_response |}.

(** ** Lemmas *)

Lemma strip_prefix_app (p s : string) : strip_prefix p (p +:+ s) = Some s.
Proof. induction p as [|c p IH]; [done|]. cbn [strip_prefix]. rewrite str_append_cons. cbv iota. by rewrite Ascii.eqb_refl. Qed.

Lemma substring_app_l (a b : string) : String.substring 0 (String.length a) (a +:+ b) = a.
Proof.
  induction a as [|c a IH]; [by destruct b|].
  rewrite str_append_cons. cbn [String.length String.substring]. by rewrite IH.
Qed.

Lemma str_truthy_app_l (a b : string) : str_truthy a = true -> str_truthy (a +:+ b) = true.
Proof. by destruct a. Qed.

Lemma cell_of_not_person (base : string) (es : edit_state) (cache : gmap string cached_user)
    (af : filters) (it : item) (meta : table_column) `{JsEngine} (date_label : Z -> string) :
  is_person_type (tc_type meta) = false -> exists c, cell_of date_label base es cache af it meta = Some c.
Proof.
  intros Hp. unfold cell_of.
  repeat match goal with |- context [if ?b then _ else _] => destruct b; [by eexists|] end.
  destruct (find_cv _ _) as [c|]; [|by eexists]. destruct (cv_value c) as [v|]; [|by eexists].
  destruct (negb _); [|by eexists]. unfold value_cell. rewrite Hp.
  repeat match goal with |- context [if ?b then _ else _] => destruct b end;
    try by eexists. destruct (truthy_member _ _); by eexists.
Qed.

(** ** Theorems *)

(** an item name the API returns as [{"text"=>"n"}] is displayed as
    [n], for any non-empty [n] on one line. *)
Theorem displayed_item_name_unwraps (n : string) :
  str_truthy n = true ->
  forallb (fun c => negb (is_line_terminator c)) (String.list_ascii_of_string n) = true ->
  displayed_item_name (ruby_prefix +:+ n +:+ ruby_suffix) = n.
Proof.
  intros Hn Hl. unfold displayed_item_name.
  rewrite (str_truthy_app_l ruby_prefix) by done.
  unfold ruby_hash_text. rewrite strip_prefix_app, str_length_append.
  assert (Hs : String.length ruby_suffix = 2) by reflexivity.
  replace (String.length n + String.length ruby_suffix - 2) with (String.length n) by lia.
  rewrite substring_app_l, String.eqb_refl, Hl.
  replace (2 <=? String.length n + String.length ruby_suffix) with true
    by (symmetry; apply Nat.leb_le; lia).
  cbn [andb]. by rewrite Hn.
Qed.

(** The text of a cached person's avatar always comes from the name,
    or from [Unknown] when the name is empty: the branches that use the
    user's id or ['NP'] are dead code. *)
Theorem avatar_text_from_name (cache : gmap string cached_user) (p : json) (u : cached_user) :
  cache !! person_cache_key p = Some u ->
  av_text (avatar_of cache p) =
  js_upper (String.substring 0 2
    (match user_name u with Some n => if str_truthy n then n else "Unknown" | None => "Unknown" end)).
Proof.
  intros Hu. unfold avatar_of. rewrite Hu. cbn [av_text].
  destruct (user_name u) as [n|]; [destruct (str_truthy n) eqn:E|]; cbn; try done.
  destruct n; [done|]. done.
Qed.

(** a row has one cell per column, in column order, keyed by the
    column id; rendering it fails only on a person column (a person list
    with a [null] element makes [.filter] throw during the render). *)
Theorem RowRenderer_cells `{JsEngine} (date_label : Z -> string) (base : string) (es : edit_state)
    (cache : gmap string cached_user) (af : filters) (cols : list table_column) (it : item) :
  match RowRenderer date_label base es cache af cols it with
  | Some cs => map tcell_key cs = map tc_id cols
  | None => exists meta, meta ∈ cols /\ is_person_type (tc_type meta) = true
  end.
Proof.
  induction cols as [|meta cols IH]; cbn; [done|].
  destruct (RowRenderer date_label base es cache af cols it) as [cs|];
    destruct (cell_of date_label base es cache af it meta) as [c|] eqn:E; cbn.
  - by f_equal.
  - destruct (is_person_type (tc_type meta)) eqn:Hp.
    + exists meta. split; [left | done].
    + destruct (cell_of_not_person base es cache af it meta date_label Hp) as [? E']. congruence.
  - destruct IH as (m & Hm & Hp). exists m. split; [by right | done].
  - destruct IH as (m & Hm & Hp). exists m. split; [by right | done].
Qed.

(** C35: when the context reports an [accountUrl] but no [account] object,
    [fetchMondayBaseUrl] keeps [https://monday.com] and asks nothing: the
    guard and the write read different fields, so the account's address is
    never used. *)
Theorem fetchMondayBaseUrl_accountUrl_ignored (net : nat -> string -> result (api_response json))
    (ctx data url : json) (base : option json) (st : exec_state) :
  truthy_member ctx "data" = Some data -> truthy_member data "accountUrl" = Some url ->
  jget data "account" = None ->
  fetchMondayBaseUrl net (Ok ctx) base st = (Ok base, st).
Proof. intros Hd Hu Ha. unfold fetchMondayBaseUrl. by rewrite Hd, Hu, Ha. Qed.

(** Without an [accountUrl] in the context, the base address is built
    from the account's slug, after one call. *)
Theorem fetchMondayBaseUrl_slug (net : nat -> string -> result (api_response json))
    (ctx data response acc slug : json) (base : option json) (st : exec_state) :
  truthy_member ctx "data" = Some data -> truthy_member data "accountUrl" = None ->
  net (calls st) ACCOUNT_SLUG_QUERY = Ok {| r_errors := None; r_data := response |} ->
  truthy_member response "account" = Some acc -> truthy_member acc "slug" = Some slug ->
  fetchMondayBaseUrl net (Ok ctx) base st =
  (Ok (Some (JStr ("https://" +:+ js_to_string slug +:+ ".monday.com"))), tick ACCOUNT_SLUG_QUERY st).
Proof.
  intros Hd Hu Hq Ha Hs. unfold fetchMondayBaseUrl. rewrite Hd, Hu.
  unfold account_slug_url, bind, attempt, call_api. rewrite Hq. cbn [r_data]. by rewrite Ha, Hs.
Qed.

(** [Escape] leaves the edit without a call. *)
Lemma handleKeyDown_escape (net : nat -> string -> result (api_response json))
    (onItemUpdated : string -> string -> M unit) (es : edit_state) (boardItems : list item)
    (itemId boardId currentName : string) (st : exec_state) :
  handleKeyDown net onItemUpdated es boardItems "Escape" itemId boardId currentName st =
  (Ok ({| editingItemId := None; editedItemName := "" |}, []), st).
Proof. reflexivity. Qed.

(** ** Witnesses *)

Lemma displayed_item_name_unwraps_witness :
  str_truthy "Fix login" = true /\
  forallb (fun c => negb (is_line_terminator c)) (String.list_ascii_of_string "Fix login") = true /\
  displayed_item_name (ruby_prefix +:+ "Fix login" +:+ ruby_suffix) = "Fix login".
Proof.
  assert (H1 : str_truthy "Fix login" = true) by reflexivity.
  assert (H2 : forallb (fun c => negb (is_line_terminator c)) (String.list_ascii_of_string "Fix login") = true)
    by reflexivity.
  split; [exact H1 | split; [exact H2 | exact (displayed_item_name_unwraps _ H1 H2)]].
Defined.

Lemma avatar_text_from_name_witness :
  ex_user_cache !! "7" = Some {| user_id := Some (JStr "7"); user_name := Some "ann"; user_email := None; user_photo := None |} /\
  av_text (avatar_of ex_user_cache (JObj [("id", JNum 7 0)])) = "AN".
Proof.
  split; [reflexivity|].
  rewrite (avatar_text_from_name ex_user_cache (JObj [("id", JNum 7 0)])
             {| user_id := Some (JStr "7"); user_name := Some "ann"; user_email := None; user_photo := None |}); reflexivity.
Defined.

Lemma fetchMondayBaseUrl_accountUrl_ignored_witness :
  fetchMondayBaseUrl ex_slug_net (Ok ex_context_with_url) (Some (JStr "https://monday.com")) ex_st0 =
  (Ok (Some (JStr "https://monday.com")), ex_st0).
Proof.
  apply (fetchMondayBaseUrl_accountUrl_ignored _ _
           (JObj [("userId", JNum 7 0); ("accountUrl", JStr "https://acme.monday.com")])
           (JStr "https://acme.monday.com")); reflexivity.
Defined.

Lemma fetchMondayBaseUrl_slug_witness :
  fetchMondayBaseUrl ex_slug_net (Ok ex_context) (Some (JStr "https://monday.com")) ex_st0 =
  (Ok (Some (JStr ("https://" +:+ js_to_string (JStr "acme") +:+ ".monday.com"))), tick ACCOUNT_SLUG_QUERY ex_st0).
Proof.
  apply (fetchMondayBaseUrl_slug _ _ (JObj [("userId", JNum 7 0)]) ex_slug_response
           (JObj [("slug", JStr "acme")])); reflexivity.
Defined.
