(* ===== verification/TableDialogs.v ===== *)
(** * The cell and avatar dialogs of the table

    The dialogs a cell of components/TaskTable/TaskTable.jsx
    ([src/unnamed/part_003]) opens:
    - [Cell]: the one state [cellDialogState] (lines 84-92) that the status
      dialog of a status cell and the user dialog of an avatar share, the
      reference [dialogHoverTimeoutRef] (line 98) and the timers it names,
      and every handler that changes them: [handleCellDialogClick]
      (354-364), [handleAvatarMouseEnter] (366-379), [handleAvatarMouseLeave]
      (381-385, also the [onClose] of the user dialog, lines 835 and 877, and
      the [onMouseLeave] of its content, line 403), the [onMouseEnter] of the
      content (402), the reset of [handleStatusChange] (313) and of the
      status dialog's [onClose] (744), and the timer's callback (383).  A
      dialog is open when the [open] condition of lines 743, 834 and 876
      holds.  [dialog_step] is one event; [run_dialog] a sequence of them.
    - [renderUserDetailsDialogContent] (388-451): what the user dialog shows.
    The pending timers are explicit: [setTimeout] returns a fresh id (from
    1, so every id is truthy), [clearTimeout] removes one, and a timer that
    fires runs its callback once. *)

From S2P Require Import Prelude Json ViewReconciler TableActions TableColumns TableCells.

Module Cell.

(** [event.currentTarget]: a DOM element, by an identity of its own. *)
Definition anchor := string.

(** The user an avatar passes to [handleAvatarMouseEnter] and to
    [renderUserDetailsDialogContent] (lines 837 and 850):
    [cachedUser || { id: personData.id, name: userName, photo_original: userPhoto }];
    without a cached user [userName] is ['Unknown'] and [userPhoto]
    undefined.  [None] is an undefined [id]. *)
Inductive dialog_user :=
| DUCached (u : cached_user)
| DUPlaceholder (id : option json).

Definition du_id (u : dialog_user) : option json :=
  match u with DUCached cu => user_id cu | DUPlaceholder i => i end.

Definition du_name (u : dialog_user) : option string :=
  match u with DUCached cu => user_name cu | DUPlaceholder _ => Some "Unknown" end.

Definition du_email (u : dialog_user) : option string :=
  match u with DUCached cu => user_email cu | DUPlaceholder _ => None end.

Definition du_photo (u : dialog_user) : option string :=
  match u with DUCached cu => user_photo cu | DUPlaceholder _ => None end.

(** The user of the avatar of [personData]. *)
Definition hover_user (cache : gmap string cached_user) (personData : json) : dialog_user :=
  match cache !! person_cache_key personData with
  | Some u => DUCached u
  | None => DUPlaceholder (jget personData "id")
  end.

(** [cellDialogState]. *)
Record cell_dialog_state := {
  isOpen : bool;
  dlg_item : option item;
  dlg_column : option table_column;
  dlg_user : option dialog_user;
  anchorEl : option anchor;
  isHeader : bool;
  isHover : bool;
}.

(** The initial state and the one every close writes. *)
Definition closed_dialog : cell_dialog_state :=
  {| isOpen := false; dlg_item := None; dlg_column := None; dlg_user := None;
     anchorEl := None; isHeader := false; isHover := false |}.

(** The dialog state with [dialogHoverTimeoutRef.current] ([None] is its
    initial [null]), the timers scheduled and neither run nor cleared, in
    the order they were set, and the id the next [setTimeout] returns. *)
Record dialog_world := {
  dialog : cell_dialog_state;
  hover_timeout : option nat;
  pending : list nat;
  next_timer : nat;
}.

Definition initial_world : dialog_world :=
  {| dialog := closed_dialog; hover_timeout := None; pending := []; next_timer := 1 |}.

Definition set_dialog (w : dialog_world) (s : cell_dialog_state) : dialog_world :=
  {| dialog := s; hover_timeout := hover_timeout w; pending := pending w; next_timer := next_timer w |}.

(** [clearTimeout(t)]; [clearTimeout(null)] does nothing. *)
Definition clearTimeout (t : option nat) (w : dialog_world) : dialog_world :=
  match t with
  | Some t => {| dialog := dialog w; hover_timeout := hover_timeout w;
                 pending := List.filter (fun t' => negb (t' =? t)) (pending w);
                 next_timer := next_timer w |}
  | None => w
  end.

(** [handleCellDialogClick(event, item, columnMeta)] (lines 354-364). *)
Definition handleCellDialogClick (a : anchor) (it : item) (columnMeta : table_column)
    (w : dialog_world) : dialog_world :=
  set_dialog w {| isOpen := true; dlg_item := Some it; dlg_column := Some columnMeta;
                  dlg_user := None; anchorEl := Some a; isHeader := false; isHover := false |}.

(** [handleAvatarMouseEnter(event, user)] (lines 366-379): the timer the
    reference names is cleared (the reference keeps its value). *)
Definition handleAvatarMouseEnter (a : anchor) (u : dialog_user) (w : dialog_world) : dialog_world :=
  set_dialog (clearTimeout (hover_timeout w) w)
    {| isOpen := true; dlg_item := None; dlg_column := None; dlg_user := Some u;
       anchorEl := Some a; isHeader := false; isHover := true |}.

(** [handleAvatarMouseLeave()] (lines 381-385): a new timer, whose id
    overwrites the reference; an earlier timer is not cleared. *)
Definition handleAvatarMouseLeave (w : dialog_world) : dialog_world :=
  {| dialog := dialog w; hover_timeout := Some (next_timer w);
     pending := pending w ++ [next_timer w]; next_timer := S (next_timer w) |}.

(** [onMouseEnter={() => clearTimeout(dialogHoverTimeoutRef.current)}]
    of the user dialog's content (line 402). *)
Definition contentMouseEnter (w : dialog_world) : dialog_world :=
  clearTimeout (hover_timeout w) w.

(** The reset of line 313 ([handleStatusChange]) and line 744 (the status
    dialog's [onClose]). *)
Definition closeCellDialog (w : dialog_world) : dialog_world := set_dialog w closed_dialog.

(** Timer [t] fires: if still pending, its callback (line 383) closes
    whatever dialog is open. *)
Definition timerFires (t : nat) (w : dialog_world) : dialog_world :=
  if existsb (Nat.eqb t) (pending w) then
    {| dialog := closed_dialog; hover_timeout := hover_timeout w;
       pending := List.filter (fun t' => negb (t' =? t)) (pending w); next_timer := next_timer w |}
  else w.

Inductive dialog_event :=
| EvCellClick (a : anchor) (it : item) (columnMeta : table_column)
| EvAvatarEnter (a : anchor) (u : dialog_user)
| EvAvatarLeave
| EvContentEnter
| EvCloseCell
| EvTimer (t : nat).

Definition dialog_step (w : dialog_world) (e : dialog_event) : dialog_world :=
  match e with
  | EvCellClick a it c => handleCellDialogClick a it c w
  | EvAvatarEnter a u => handleAvatarMouseEnter a u w
  | EvAvatarLeave => handleAvatarMouseLeave w
  | EvContentEnter => contentMouseEnter w
  | EvCloseCell => closeCellDialog w
  | EvTimer t => timerFires t w
  end.

Definition run_dialog (w : dialog_world) (evs : list dialog_event) : dialog_world :=
  fold_left dialog_step evs w.

(** [a === b] on the ids of the code (primitives of parsed JSON, where it
    is [SameValueZero]), [undefined] being [None]. *)
Definition strict_eq_opt (a b : option json) : bool :=
  match a, b with
  | Some x, Some y => same_value_zero x y
  | None, None => true
  | _, _ => false
  end.

(** The [open] of a status cell's dialog (line 743). *)
Definition status_dialog_open (s : cell_dialog_state) (it : item) (columnMeta : table_column) : bool :=
  isOpen s && negb (isHeader s) && negb (isHover s) &&
  match dlg_item s with Some i => String.eqb (it_id i) (it_id it) | None => false end &&
  match dlg_column s with Some c => String.eqb (tc_id c) (tc_id columnMeta) | None => false end.

(** The [open] of the user dialog of the avatar of [personData] (lines
    834 and 876): [cellDialogState.user?.id === personData.id]. *)
Definition avatar_dialog_open (s : cell_dialog_state) (personData : json) : bool :=
  isOpen s && isHover s &&
  strict_eq_opt (match dlg_user s with Some u => du_id u | None => None end) (jget personData "id").

(** At most one timer is pending, and it is the one the reference names:
    what the code relies on when [handleAvatarMouseEnter] clears only the
    timer of the reference. *)
Definition timers_ok (w : dialog_world) : Prop :=
  pending w = [] \/ exists t, pending w = [t] /\ hover_timeout w = Some t.

(** The events after which the pointer is still over an avatar or its
    dialog: timers firing and the pointer entering the content. *)
Definition hover_event (e : dialog_event) : bool :=
  match e with EvTimer _ | EvContentEnter => true | _ => false end.

(** ** What the user dialog shows *)

(** [renderUserDetailsDialogContent(user)] (lines 388-451): the loading
    note, or the avatar (its photo, if truthy, and its text), the name
    heading, the title line, the [mailto:] button of a truthy e-mail and the
    id "View Profile" passes to [redirectToUserProfile].  The argument is
    always an object, so [!user] never holds; no user object has a [title]
    ([GET_USER_DETAILS_QUERY] does not ask for it), so the title line is
    never shown. *)
Inductive user_details :=
| UDLoading
| UDDetails (avatar_photo : option string) (avatar_text : string) (heading : string)
    (title : option string) (email : option string) (profile_id : option json).

Definition opt_str_truthy (o : option string) : bool :=
  match o with Some s => str_truthy s | None => false end.

Definition renderUserDetailsDialogContent (u : dialog_user) : user_details :=
  if negb (opt_str_truthy (du_name u)) && negb (opt_str_truthy (du_email u)) &&
     negb (js_truthy_opt (du_id u))
  then UDLoading
  else UDDetails (if opt_str_truthy (du_photo u) then du_photo u else None)
         (match du_name u with
          | Some n => if str_truthy n then js_upper (String.substring 0 2 n) else "NP"
          | None => "NP"
          end)
         (match du_name u with
          | Some n => if str_truthy n then n else "Unknown User"
          | None => "Unknown User"
          end)
         None
         (if opt_str_truthy (du_email u) then du_email u else None)
         (du_id u).

(** The [content] of the dialog of an avatar (line 877): the cached user,
    or the object the cell builds for a person not in the cache. *)
Definition avatar_dialog_content (cache : gmap string cached_user) (personData : json) : user_details :=
  renderUserDetailsDialogContent (hover_user cache personData).

(** The [href] the e-mail button opens: [`mailto:${user.email}`]. *)
Definition mailto (email : string) : string := "mailto:" +:+ email.

(** ** Examples *)

(** The cache after [fetchAndCacheUser] stored the API's answer for the
    person [7]: the API gives the id as a string. *)
Definition ex_api_user : cached_user :=
  user_of_json (JObj [("id", JStr "7"); ("name", JStr "Ann"); ("email", JStr "ann@example.com")]).

Definition ex_cache : gmap string cached_user := {[ "7" := ex_api_user ]}.

(** A person reference of a person column: the id is a number. *)
Definition ex_person : json := JObj [("id", JNum 7 0); ("kind", JStr "person")].

Definition ex_status_col : table_column :=
  {| tc_id := "status"; tc_title := "Status"; tc_type := "status"; tc_statusOptions := None |}.

Definition ex_row : item :=
  {| it_id := "a"; it_name := "a"; it_boardId := "b1"; it_boardName := "B1"; it_column_values := [] |}.

(** ** Lemmas *)

Lemma clearTimeout_dialog (t : option nat) (w : dialog_world) : dialog (clearTimeout t w) = dialog w.
Proof. by destruct t. Qed.

(** Under [timers_ok], entering an avatar leaves no timer pending. *)
Lemma enter_clears (a : anchor) (u : dialog_user) (w : dialog_world) :
  timers_ok w -> pending (handleAvatarMouseEnter a u w) = [].
Proof.
  intros [Hp | (t & Hp & Hr)]; cbn; rewrite Hr || destruct (hover_timeout w); cbn; rewrite Hp; cbn;
    try done; by rewrite Nat.eqb_refl.
Qed.

(** With no timer pending, timers and the pointer entering the content
    change nothing. *)
Lemma hover_events_idle (w : dialog_world) (evs : list dialog_event) :
  pending w = [] -> Forall (fun e => hover_event e = true) evs -> run_dialog w evs = w.
Proof.
  revert w. induction evs as [|e evs IH]; intros w Hp Hevs; [done|].
  inversion Hevs as [|? ? He Hrest]; subst. unfold run_dialog. cbn [fold_left].
  assert (E : dialog_step w e = w).
  { destruct e; cbn in He; try discriminate; cbn.
    - unfold contentMouseEnter, clearTimeout. destruct (hover_timeout w) as [t|] eqn:Eh; [|done].
      rewrite Hp. destruct w as [d h p k]; cbn in *. by subst p h.
    - unfold timerFires. by rewrite Hp. }
  rewrite E. by apply IH.
Qed.

Lemma avatar_dialog_open_after_enter (cache : gmap string cached_user) (p : json) (m e : Z)
    (a : anchor) (w : dialog_world) :
  jget p "id" = Some (JNum m e) ->
  avatar_dialog_open (dialog (handleAvatarMouseEnter a (hover_user cache p) w)) p =
  match cache !! person_cache_key p with
  | Some u => strict_eq_opt (user_id u) (Some (JNum m e))
  | None => true
  end.
Proof.
  intros Hid. unfold avatar_dialog_open, hover_user. cbn. rewrite Hid.
  destruct (cache !! person_cache_key p); cbn; [done | apply same_value_zero_num_refl].
Qed.

(** ** Theorems *)

(** C15: the user dialog of an avatar never opens for a person whose
    cached entry came from the API: the API gives the user's [id] as a
    string, the person column's value as a number, and the [open]
    condition compares them with [===]. *)
Theorem avatar_dialog_cached_user_closed (cache : gmap string cached_user) (p : json)
    (m e : Z) (u : cached_user) (s : string) (a : anchor) (w : dialog_world) :
  jget p "id" = Some (JNum m e) -> cache !! person_cache_key p = Some u -> user_id u = Some (JStr s) ->
  avatar_dialog_open (dialog (handleAvatarMouseEnter a (hover_user cache p) w)) p = false.
Proof. intros Hid Hu Hs. rewrite (avatar_dialog_open_after_enter _ _ m e) by done. by rewrite Hu, Hs. Qed.

(** C16: while at most one timer is pending and it is the one the
    reference names, the user dialog an avatar opens stays open through
    timers firing and the pointer entering the dialog. *)
Theorem hover_dialog_stays_open (a : anchor) (u : dialog_user) (w : dialog_world)
    (evs : list dialog_event) :
  timers_ok w -> Forall (fun e => hover_event e = true) evs ->
  dialog (run_dialog (handleAvatarMouseEnter a u w) evs) = dialog (handleAvatarMouseEnter a u w).
Proof. intros Hok Hevs. by rewrite hover_events_idle by (done || by apply enter_clears). Qed.

(** C17: every handler keeps [timers_ok], except the pointer leaving
    while a timer is already pending: two timers are then pending and
    [handleAvatarMouseEnter] clears only the second. *)
Theorem timers_ok_step (w : dialog_world) (e : dialog_event) :
  timers_ok w -> (e = EvAvatarLeave -> pending w = []) -> timers_ok (dialog_step w e).
Proof.
  intros Hok Hleave. destruct e; cbn.
  - exact Hok.
  - left. by apply enter_clears.
  - unfold handleAvatarMouseLeave, timers_ok. cbn. rewrite (Hleave eq_refl). right. by eexists.
  - unfold contentMouseEnter, clearTimeout.
    destruct Hok as [Hp | (t & Hp & Hr)]; [destruct (hover_timeout w); left; cbn; by rewrite ?Hp|].
    rewrite Hr. left. cbn. rewrite Hp. cbn. by rewrite Nat.eqb_refl.
  - exact Hok.
  - unfold timerFires. destruct (existsb _ _) eqn:E; [|done].
    destruct Hok as [Hp | (t' & Hp & Hr)]; [by rewrite Hp in E|].
    rewrite Hp in E |- *. cbn in E |- *. rewrite orb_false_r in E.
    rewrite Nat.eqb_sym, E. by left.
Qed.

(** C18: the timer of a pointer that left an avatar is not cleared when a
    status cell is clicked: when it fires, it closes the status dialog the
    click opened. *)
Theorem hover_timer_closes_cell_dialog (t : nat) (a : anchor) (it : item) (c : table_column)
    (w : dialog_world) :
  t ∈ pending w -> dialog (timerFires t (handleCellDialogClick a it c w)) = closed_dialog.
Proof.
  intros Ht. unfold timerFires. cbn.
  replace (existsb (Nat.eqb t) (pending w)) with true; [done|].
  symmetry. apply existsb_exists. exists t. split; [by apply list_elem_of_In | apply Nat.eqb_refl].
Qed.

(** closing the user dialog with Escape (its [onClose]) and then
    moving the pointer off the avatar sets two timers; when the pointer
    comes back, the first one still fires and closes the dialog under it. *)
Example hover_dialog_closed_under_pointer :
  let u := hover_user ex_cache ex_person in
  isOpen (dialog (run_dialog initial_world
    [EvAvatarEnter "avatar" u; EvAvatarLeave; EvAvatarLeave; EvAvatarEnter "avatar" u])) = true /\
  isOpen (dialog (run_dialog initial_world
    [EvAvatarEnter "avatar" u; EvAvatarLeave; EvAvatarLeave; EvAvatarEnter "avatar" u; EvTimer 1])) = false.
Proof. split; reflexivity. Qed.

(** C39: for a person not in the cache, whose details the effect is still
    fetching, the avatar shows ['?'], and hovering it opens a dialog that
    shows the name ['Unknown'] with the initials ['UN'] and no e-mail,
    never the note "Loading user data...". *)
Theorem user_details_uncached (cache : gmap string cached_user) (p : json) (m e : Z)
    (a : anchor) (w : dialog_world) :
  jget p "id" = Some (JNum m e) -> cache !! person_cache_key p = None ->
  av_text (avatar_of cache p) = "?" /\
  avatar_dialog_open (dialog (handleAvatarMouseEnter a (hover_user cache p) w)) p = true /\
  avatar_dialog_content cache p = UDDetails None "UN" "Unknown" None None (Some (JNum m e)).
Proof.
  intros Hid Hc. split_and!.
  - unfold avatar_of. by rewrite Hc.
  - rewrite (avatar_dialog_open_after_enter _ _ m e) by done. by rewrite Hc.
  - unfold avatar_dialog_content, hover_user. by rewrite Hc, Hid.
Qed.

(** ** Witnesses *)

Lemma user_details_uncached_witness :
  jget ex_person "id" = Some (JNum 7 0) /\ (∅ : gmap string cached_user) !! person_cache_key ex_person = None /\
  av_text (avatar_of ∅ ex_person) = "?" /\
  avatar_dialog_open (dialog (handleAvatarMouseEnter "avatar" (hover_user ∅ ex_person) initial_world)) ex_person
    = true /\
  avatar_dialog_content ∅ ex_person = UDDetails None "UN" "Unknown" None None (Some (JNum 7 0)).
Proof.
  assert (H1 : jget ex_person "id" = Some (JNum 7 0)) by reflexivity.
  assert (H2 : (∅ : gmap string cached_user) !! person_cache_key ex_person = None) by reflexivity.
  split_and!; [exact H1 | exact H2 | ..]; apply (user_details_uncached ∅ ex_person 7 0 "avatar" initial_world H1 H2).
Defined.

Lemma avatar_dialog_cached_user_closed_witness :
  jget ex_person "id" = Some (JNum 7 0) /\ ex_cache !! person_cache_key ex_person = Some ex_api_user /\
  user_id ex_api_user = Some (JStr "7") /\
  avatar_dialog_open (dialog (handleAvatarMouseEnter "avatar" (hover_user ex_cache ex_person) initial_world))
    ex_person = false.
Proof.
  split_and!; [reflexivity | reflexivity | reflexivity |].
  apply (avatar_dialog_cached_user_closed ex_cache ex_person 7 0 ex_api_user "7"); reflexivity.
Defined.

Lemma hover_dialog_stays_open_witness :
  timers_ok initial_world /\
  Forall (fun e => hover_event e = true) [EvContentEnter; EvTimer 1] /\
  dialog (run_dialog (handleAvatarMouseEnter "avatar" (DUPlaceholder None) initial_world) [EvContentEnter; EvTimer 1]) =
  dialog (handleAvatarMouseEnter "avatar" (DUPlaceholder None) initial_world).
Proof.
  assert (Hok : timers_ok initial_world) by (left; reflexivity).
  assert (Hevs : Forall (fun e => hover_event e = true) [EvContentEnter; EvTimer 1]) by repeat constructor.
  split_and!; [exact Hok | exact Hevs | exact (hover_dialog_stays_open _ _ _ _ Hok Hevs)].
Defined.

Lemma timers_ok_step_witness :
  timers_ok initial_world /\ (EvAvatarLeave = EvAvatarLeave -> pending initial_world = []) /\
  timers_ok (dialog_step initial_world EvAvatarLeave).
Proof.
  assert (Hok : timers_ok initial_world) by (left; reflexivity).
  assert (Hl : EvAvatarLeave = EvAvatarLeave -> pending initial_world = []) by reflexivity.
  split_and!; [exact Hok | exact Hl | exact (timers_ok_step _ _ Hok Hl)].
Defined.

Lemma hover_timer_closes_cell_dialog_witness :
  let w := run_dialog initial_world [EvAvatarEnter "avatar" (hover_user ex_cache ex_person); EvAvatarLeave] in
  1 ∈ pending w /\
  dialog (timerFires 1 (handleCellDialogClick "cell" ex_row ex_status_col w)) = closed_dialog.
Proof.
  cbv zeta. assert (H : 1 ∈ pending (run_dialog initial_world
    [EvAvatarEnter "avatar" (hover_user ex_cache ex_person); EvAvatarLeave])) by (vm_compute; left).
  split; [exact H | exact (hover_timer_closes_cell_dialog _ _ _ _ _ H)].
Defined.

End Cell.
