(* ===== verification/TableView.v ===== *)
(** * The filter dialog, the header and the table of TaskTable

    The rest of components/TaskTable/TaskTable.jsx ([src/unnamed/part_003]):
    - [FilterDialog]: [renderFilterDialogContent] (lines 999-1141), the
      options of a column's filter with their checkboxes, and the handlers
      its rows, checkboxes and Clear Filter button call;
    - [Header]: [HeaderRenderer] (1144-1204), one header cell per column
      with its filter button, its highlight, its dialog and its sort state,
      and the handlers [handleFilterButtonClick] and
      [handleFilterDialogClose];
    - [Table]: what [TaskTable] returns (1206-1241), the My Tasks button
      and either the table (header and one [RowRenderer] row per item of
      [filteredAndSortedBoardItems]) or the [EmptyState]; and the sequence
      of hooks one render of [TaskTable] calls (lines 76-1151), which React
      requires to be the same on every render.
    A row of a filter dialog is its value, whether its checkbox is checked,
    its text and its decoration; what a row does is the handler it calls. *)

From S2P Require Import Prelude Json ViewReconciler TableActions TableColumns TableCells AppView.

Local Set Warnings "-clear-no-such-hyp".

Module FilterDialog.

(** The decoration of a row: the colour of a status option, the avatars of
    My Tasks, No user and of a person (its photo, if any, and its text). *)
Inductive row_kind :=
| StatusRow (color : json)
| MeRow
| NoUserRow
| PersonRow (photo : option string) (avatar_text : string).

Record filter_row := {
  fr_value : string;
  fr_checked : bool;
  fr_label : string;
  fr_kind : row_kind;
}.

(** The heading, the rows, the note shown instead of options, and
    whether the Clear Filter button is shown. *)
Record filter_dialog := {
  fd_heading : option string;
  fd_rows : list filter_row;
  fd_note : option string;
  fd_clear : bool;
}.

(** [option.label === '' ? 'No status' : option.label] (lines 1018 and
    1046); a label is a string in the platform's settings, and anything
    else is shown through [String()]. *)
Definition status_filter_value (label : json) : string :=
  match label with
  | JStr s => if String.eqb s "" then "No status" else s
  | v => js_to_string v
  end.

(** A status option's row (lines 1017-1051). *)
Definition status_spec (o : status_option) : string * string * row_kind :=
  (status_filter_value (so_label o), status_filter_value (so_label o), StatusRow (so_color o)).

(** A person of [uniquePeopleInBoardItems]: the cached user, or
    [{ id: p.id, name: 'Unknown User', photo_original: null }] (lines
    1088-1110). *)
Definition person_spec (r : person_row) : string * string * row_kind :=
  match r with
  | PCached cu =>
      let named := match user_name cu with Some n => str_truthy n | None => false end in
      let name := match user_name cu with Some n => n | None => "" end in
      (user_id_text cu, (if named then name else "Unknown User"),
       PersonRow (match user_photo cu with Some ph => if str_truthy ph then Some ph else None | None => None end)
                 (if named then js_upper (String.substring 0 2 name) else "NP"))
  | PUnknown i => (js_to_string i, "Unknown User", PersonRow None "UN")
  end.

(** The heading, the rows (value, text, decoration) and the note, by the
    column's type (the [switch] of lines 1010-1128).  [uid] is
    [String(currentUserId)] when [currentUserId] is truthy. *)
Definition row_specs (uid : option string) (people : list person_row) (columnMeta : table_column)
    : option string * list (string * string * row_kind) * option string :=
  if String.eqb (tc_type columnMeta) "status" then
    (Some "Filter by Status",
     match tc_statusOptions columnMeta with Some opts => map status_spec opts | None => [] end,
     None)
  else if is_person_type (tc_type columnMeta) then
    (Some "Filter by User",
     match uid with Some u => [(u, "My Tasks", MeRow)] | None => [] end ++
       [("No user", "No user", NoUserRow)] ++ map person_spec people,
     match people with [] => Some "No users found in this column." | _ => None end)
  else (None, [], Some "No filter options for this column type.").

(** A row is checked when the column's selected values include its
    value. *)
Definition mk_row (selected : list string) (spec : string * string * row_kind) : filter_row :=
  let '(v, l, k) := spec in
  {| fr_value := v; fr_checked := selected ∋? v; fr_label := l; fr_kind := k |}.

(** [renderFilterDialogContent(columnMeta)] (lines 999-1141). *)
Definition renderFilterDialogContent (af : filters) (uid : option string) (people : list person_row)
    (columnMeta : table_column) : filter_dialog :=
  let selected := default [] (af !! tc_id columnMeta) in
  let '(h, specs, note) := row_specs uid people columnMeta in
  {| fd_heading := h; fd_rows := map (mk_row selected) specs; fd_note := note;
     fd_clear := negb (bool_decide (selected = [])) |}.

(** The [onClick] of a row: [handleFilterChange(columnMeta.id, value, !isChecked)]. *)
Definition click_row (af : filters) (columnMeta : table_column) (r : filter_row) : filters :=
  handleFilterChange af (tc_id columnMeta) (fr_value r) (negb (fr_checked r)).

(** The [onChange] of a row's checkbox: [handleFilterChange(columnMeta.id, value, e.target.checked)]. *)
Definition change_checkbox (af : filters) (columnMeta : table_column) (r : filter_row) (checked : bool)
    : filters :=
  handleFilterChange af (tc_id columnMeta) (fr_value r) checked.

(** A click on the checkbox itself: its [onChange], with the new state of
    the box, then, as the click bubbles up, the row's [onClick], whose
    [isChecked] is still the one of the render. *)
Definition click_checkbox (af : filters) (columnMeta : table_column) (r : filter_row) : filters :=
  click_row (change_checkbox af columnMeta r (negb (fr_checked r))) columnMeta r.

(** The Clear Filter button: [handleClearFilter(columnMeta.id)]. *)
Definition click_clear (af : filters) (columnMeta : table_column) : filters :=
  handleClearFilter af (tc_id columnMeta).

Definition set_checked (b : bool) (r : filter_row) : filter_row :=
  {| fr_value := fr_value r; fr_checked := b; fr_label := fr_label r; fr_kind := fr_kind r |}.

End FilterDialog.

Module Header.
Import FilterDialog.

(** One header cell (lines 1157-1200): its key and title, whether it has a
    filter button, whether the button is highlighted ([filter-active]),
    the filter dialog (for a filterable column) and whether it is open, and
    the [sortState] the cell shows. *)
Record header_cell := {
  hc_key : string;
  hc_title : string;
  hc_filterable : bool;
  hc_active : bool;
  hc_dialog : option filter_dialog;
  hc_dialog_open : bool;
  hc_sort : option string;
}.

(** [hasActiveFilter] (lines 1159-1160). *)
Definition has_active_filter (af : filters) (id : string) : bool :=
  match af !! id with Some vs => negb (bool_decide (vs = [])) | None => false end ||
  (String.eqb id current_user_key && current_user_filter_on af).

(** [sorting[headerCell.id]]: [sorting] is [{}] or [{ [columnId]: sortState }]. *)
Definition sort_of (sorting : sort_state) (id : string) : option string :=
  match sorting with
  | Some (c, st) => if String.eqb c id then st else None
  | None => None
  end.

Definition header_cell_of (openFilterDialogId : option string) (af : filters) (sorting : sort_state)
    (uid : option string) (people : list person_row) (headerCell : table_column) : header_cell :=
  let filterable := ["status"; "person"; "people"] ∋? tc_type headerCell in
  {| hc_key := tc_id headerCell; hc_title := tc_title headerCell; hc_filterable := filterable;
     hc_active := has_active_filter af (tc_id headerCell);
     hc_dialog := if filterable then Some (renderFilterDialogContent af uid people headerCell) else None;
     hc_dialog_open := filterable && match openFilterDialogId with
                                     | Some o => String.eqb o (tc_id headerCell)
                                     | None => false
                                     end;
     hc_sort := sort_of sorting (tc_id headerCell) |}.

(** [HeaderRenderer(columns)] (lines 1144-1204), with the value of its
    state [openFilterDialogId]. *)
Definition HeaderRenderer (openFilterDialogId : option string) (af : filters) (sorting : sort_state)
    (uid : option string) (people : list person_row) (columns : list table_column) : list header_cell :=
  map (header_cell_of openFilterDialogId af sorting uid people) columns.

(** [handleFilterButtonClick(event, columnId)] (lines 1147-1149). *)
Definition handleFilterButtonClick (openFilterDialogId : option string) (columnId : string) : option string :=
  match openFilterDialogId with
  | Some o => if String.eqb o columnId then None else Some columnId
  | None => Some columnId
  end.

(** [handleFilterDialogClose()] (lines 1151-1153). *)
Definition handleFilterDialogClose (openFilterDialogId : option string) : option string := None.

(** [onSortClicked={sortState => onSort(headerCell.id, sortState)}] (line 1196). *)
Definition onSortClicked (headerCell : table_column) (st : option string) : sort_state :=
  onSort (tc_id headerCell) st.

End Header.

Module Table.
Import FilterDialog Header.

(** The My Tasks button (lines 1208-1224): [PRIMARY] when the current-user
    filter is on, and, when [currentUserId] is truthy, an avatar with the
    cached photo, if any, and text. *)
Record my_tasks_button := {
  mt_primary : bool;
  mt_avatar : option (option string * string);
}.

Definition my_tasks_button_of (af : filters) (cache : gmap string cached_user) (uid : option string)
    : my_tasks_button :=
  {| mt_primary := current_user_filter_on af;
     mt_avatar :=
       match uid with
       | Some u =>
           Some (match cache !! u with
                 | Some cu => match user_photo cu with
                              | Some ph => if str_truthy ph then Some ph else None
                              | None => None
                              end
                 | None => None
                 end,
                 match cache !! u with
                 | Some cu => match user_name cu with
                              | Some n => if str_truthy n then js_upper (String.substring 0 2 n) else "ME"
                              | None => "ME"
                              end
                 | None => "ME"
                 end)
       | None => None
       end |}.

(** Its [onClick]: [handleFilterChange('current_user_filter', 'true',
    !activeFilters['current_user_filter']?.includes('true'))]. *)
Definition handleMyTasksClick (af : filters) : filters :=
  handleFilterChange af current_user_key "true" (negb (current_user_filter_on af)).

(** The table (its header and one row per item shown) or the
    [EmptyState] (lines 1226-1238). *)
Inductive table_body :=
| EmptyState
| TableShown (header : list header_cell) (rows : list (option (list table_cell))).

Record task_table := {
  tt_my_tasks : my_tasks_button;
  tt_body : table_body;
}.

(** What one render of [TaskTable({ columnIds, allBoardColumns, boardItems })]
    returns, with the values of its state. *)
Definition TaskTable `{JsEngine} (date_label : Z -> string) (mondayBaseUrl : string) (es : edit_state)
    (cache : gmap string cached_user) (af : filters) (sorting : sort_state) (uid : option string)
    (openFilterDialogId : option string) (columnIds : list string) (allBoardColumns : list board_column)
    (boardItems : list item) : task_table :=
  let cols := columnsForTable columnIds allBoardColumns in
  {| tt_my_tasks := my_tasks_button_of af cache uid;
     tt_body :=
       match boardItems with
       | [] => EmptyState
       | _ :: _ =>
           TableShown
             (HeaderRenderer openFilterDialogId af sorting uid
                (uniquePeopleInBoardItems boardItems allBoardColumns cache) cols)
             (map (RowRenderer date_label mondayBaseUrl es cache af cols)
                (compute_view boardItems allBoardColumns cols af sorting cache uid))
       end |}.

(** The hooks a render calls, in order (lines 76-999 and, inside
    [HeaderRenderer], 1145-1151). *)
Inductive hook :=
| UseCustom (name : string)
| UseState
| UseRef
| UseEffect
| UseCallback
| UseMemo.

Definition task_table_hooks : list hook :=
  [UseCustom "useMondayAPI"] ++ repeat UseState 8 ++ [UseRef; UseRef] ++
  [UseEffect; UseEffect; UseEffect; UseCallback; UseEffect] ++ repeat UseCallback 6 ++ [UseMemo] ++
  repeat UseCallback 6 ++ [UseMemo; UseCallback; UseMemo; UseCallback; UseCallback].

(** [HeaderRenderer] is called like a function, not rendered as a
    component: its [useState] and [useCallback]s are hooks of [TaskTable],
    called only when the table is shown. *)
Definition header_hooks : list hook := [UseState; UseCallback; UseCallback].

Definition TaskTable_hooks (boardItems : list item) : list hook :=
  task_table_hooks ++ match boardItems with [] => [] | _ :: _ => header_hooks end.

End Table.


Module Examples.
Import FilterDialog.

Definition ex_status_meta : table_column :=
  {| tc_id := "status"; tc_title := "Status"; tc_type := "status";
     tc_statusOptions := Some [{| so_id := "1"; so_label := JStr "Done"; so_value := JStr "Done";
                                  so_color := JStr "#00c875" |}; clear_option] |}.

Definition ex_filters : filters := {[ "status" := ["Done"] ]}.

Definition ex_no_status_row : filter_row :=
  {| fr_value := "No status"; fr_checked := false; fr_label := "No status";
     fr_kind := StatusRow (JStr "#c4c4c4") |}.

Definition ex_item : item :=
  {| it_id := "a"; it_name := "a"; it_boardId := "b1"; it_boardName := "B1"; it_column_values := [] |}.

End Examples.

Module FilterDialogFacts.
Import FilterDialog Examples.

(** What a row's click does to the selected values of its column: the
    row's value flips, every other value stays. *)
Lemma click_selected (af : filters) (c v v' : string) :
  (default [] (handleFilterChange af c v (negb (default [] (af !! c) ∋? v)) !! c) ∋? v') =
  if String.eqb v' v then negb (default [] (af !! c) ∋? v) else default [] (af !! c) ∋? v'.
Proof.
  unfold handleFilterChange. destruct (default [] (af !! c) ∋? v) eqn:E; cbn [negb];
    rewrite lookup_insert_eq; cbn [default from_option id].
  - by rewrite arr_includes_remove.
  - rewrite arr_includes_app, arr_includes_singleton.
    destruct (String.eqb_spec v' v); [apply orb_true_r | apply orb_false_r].
Qed.

Lemma mk_row_value (sel : list string) (spec : string * string * row_kind) :
  fr_value (mk_row sel spec) = spec.1.1.
Proof. by destruct spec as [[v l] k]. Qed.

Lemma rows_checked (af : filters) (uid : option string) (people : list person_row)
    (columnMeta : table_column) (r : filter_row) :
  r ∈ fd_rows (renderFilterDialogContent af uid people columnMeta) ->
  fr_checked r = (default [] (af !! tc_id columnMeta) ∋? fr_value r).
Proof.
  unfold renderFilterDialogContent. destruct (row_specs uid people columnMeta) as [[h specs] note].
  cbn. intros ([[v l] k] & <- & _)%list_elem_of_In%in_map_iff. done.
Qed.

(** The dialog depends on the selected values as sets. *)
#[export] Instance renderFilterDialogContent_proper :
  Proper (filters_equiv ==> eq ==> eq ==> eq ==> eq) renderFilterDialogContent.
Proof.
  intros f g Hfg uid ? <- people ? <- col ? <-. unfold renderFilterDialogContent.
  destruct (row_specs uid people col) as [[h specs] note].
  rewrite (nil_same_members (default [] (f !! tc_id col)) (default [] (g !! tc_id col))) by apply Hfg.
  f_equal. apply map_ext. intros [[v l] k]. cbn. f_equal. by apply arr_includes_same_members.
Qed.

(** ** Theorems *)

(** C20: clicking a row of a filter dialog flips the checkbox of that row,
    and of every row with the same value (My Tasks and the current user's
    own row), and leaves the other rows as they were. *)
Theorem click_row_flips (af : filters) (uid : option string) (people : list person_row)
    (columnMeta : table_column) (r : filter_row) :
  r ∈ fd_rows (renderFilterDialogContent af uid people columnMeta) ->
  fd_rows (renderFilterDialogContent (click_row af columnMeta r) uid people columnMeta) =
  map (fun r' => if String.eqb (fr_value r') (fr_value r) then set_checked (negb (fr_checked r)) r' else r')
    (fd_rows (renderFilterDialogContent af uid people columnMeta)).
Proof.
  intros Hr. pose proof (rows_checked _ _ _ _ _ Hr) as Hc.
  unfold click_row. rewrite Hc. unfold renderFilterDialogContent.
  destruct (row_specs uid people columnMeta) as [[h specs] note]. cbn [fd_rows].
  rewrite map_map. apply map_ext. intros [[v l] k]. cbn.
  rewrite click_selected. by destruct (String.eqb v (fr_value r)).
Qed.

(** after Clear Filter no row of the column's dialog is checked and the
    button is gone. *)
Theorem click_clear_unchecks (af : filters) (uid : option string) (people : list person_row)
    (columnMeta : table_column) :
  let d := renderFilterDialogContent (click_clear af columnMeta) uid people columnMeta in
  Forall (fun r => fr_checked r = false) (fd_rows d) /\ fd_clear d = false.
Proof.
  unfold click_clear, handleClearFilter, renderFilterDialogContent. rewrite lookup_delete_eq.
  destruct (row_specs uid people columnMeta) as [[h specs] note]. cbn. split; [|done].
  apply Forall_forall. intros r ([[v l] k] & <- & _)%list_elem_of_In%in_map_iff. done.
Qed.

(** C40: a click on the checkbox of an unchecked row runs [handleFilterChange]
    twice, through the checkbox's [onChange] and the row's [onClick]: the
    value is appended to the column's filter twice. *)
Theorem click_checkbox_appends_twice (af : filters) (columnMeta : table_column) (r : filter_row) :
  fr_checked r = false ->
  default [] (click_checkbox af columnMeta r !! tc_id columnMeta) =
  default [] (af !! tc_id columnMeta) ++ [fr_value r; fr_value r].
Proof.
  intros Hc. unfold click_checkbox, click_row, change_checkbox. rewrite Hc. cbn [negb].
  unfold handleFilterChange. rewrite !lookup_insert_eq. cbn. by rewrite <- app_assoc.
Qed.

(** ** Witnesses *)

Lemma click_row_flips_witness :
  ex_no_status_row ∈ fd_rows (renderFilterDialogContent ex_filters None [] ex_status_meta) /\
  fd_rows (renderFilterDialogContent (click_row ex_filters ex_status_meta ex_no_status_row) None [] ex_status_meta) =
  map (fun r' => if String.eqb (fr_value r') (fr_value ex_no_status_row)
                 then set_checked (negb (fr_checked ex_no_status_row)) r' else r')
    (fd_rows (renderFilterDialogContent ex_filters None [] ex_status_meta)).
Proof.
  assert (H : ex_no_status_row ∈ fd_rows (renderFilterDialogContent ex_filters None [] ex_status_meta))
    by (vm_compute; right; left).
  split; [exact H | exact (click_row_flips _ _ _ _ _ H)].
Defined.

Lemma click_checkbox_appends_twice_witness :
  fr_checked ex_no_status_row = false /\
  default [] (click_checkbox ex_filters ex_status_meta ex_no_status_row !! tc_id ex_status_meta) =
  default [] (ex_filters !! tc_id ex_status_meta) ++ [fr_value ex_no_status_row; fr_value ex_no_status_row].
Proof.
  assert (H : fr_checked ex_no_status_row = false) by reflexivity.
  split; [exact H | exact (click_checkbox_appends_twice _ _ _ H)].
Defined.

End FilterDialogFacts.

Module ViewFacts.
Import FilterDialog FilterDialogFacts Header Table Examples.

Lemma current_user_filter_on_spec (af : filters) :
  current_user_filter_on af = true <-> "true" ∈ default [] (af !! current_user_key).
Proof. rewrite current_user_filter_on_members. apply arr_includes_spec. Qed.

(** Case analysis on the key and the value a My Tasks click touches. *)
Local Ltac cu_cases :=
  match goal with
  | |- context [?v ∈ default [] (_ !! ?k)] =>
      destruct (decide (k = current_user_key)) as [->|]; destruct (decide (v = "true")) as [->|]
  end; naive_solver.

Lemma my_tasks_on (af : filters) :
  "true" ∈ default [] (af !! current_user_key) ->
  handleMyTasksClick af = handleFilterChange af current_user_key "true" false.
Proof. intros H. unfold handleMyTasksClick. by rewrite (proj2 (current_user_filter_on_spec af) H). Qed.

Lemma my_tasks_off (af : filters) :
  "true" ∉ default [] (af !! current_user_key) ->
  handleMyTasksClick af = handleFilterChange af current_user_key "true" true.
Proof.
  intros H. unfold handleMyTasksClick.
  destruct (current_user_filter_on af) eqn:E; [|done]. by apply current_user_filter_on_spec in E.
Qed.

(** ** Theorems *)

(** the filter button of a column is highlighted exactly when its
    dialog offers Clear Filter: when the column's filter selects a value. *)
Theorem header_active_is_clear (openFilterDialogId : option string) (af : filters) (sorting : sort_state)
    (uid : option string) (people : list person_row) (headerCell : table_column) :
  tc_id headerCell <> current_user_key ->
  hc_active (header_cell_of openFilterDialogId af sorting uid people headerCell) =
  fd_clear (renderFilterDialogContent af uid people headerCell).
Proof.
  intros Hne. cbn. unfold has_active_filter, renderFilterDialogContent.
  rewrite (proj2 (String.eqb_neq _ _) Hne), orb_false_r.
  destruct (row_specs uid people headerCell) as [[h specs] note]. cbn.
  by destruct (af !! tc_id headerCell).
Qed.

(** at most one column shows a sort state: after a header reports a
    sort state, that column shows it and every other column shows none
    (a new sort replaces the previous one). *)
Theorem header_single_sort (openFilterDialogId : option string) (af : filters) (uid : option string)
    (people : list person_row) (columns : list table_column) (headerCell : table_column) (st : option string) :
  map hc_sort (HeaderRenderer openFilterDialogId af (onSortClicked headerCell st) uid people columns) =
  map (fun c => if String.eqb (tc_id headerCell) (tc_id c) then st else None) columns.
Proof. unfold HeaderRenderer. rewrite map_map. apply map_ext. intros c. reflexivity. Qed.

(** the My Tasks button turns the current-user filter on when it is
    off and off when it is on, and its kind follows. *)
Theorem my_tasks_toggles (af : filters) (cache : gmap string cached_user) (uid : option string) :
  current_user_filter_on (handleMyTasksClick af) = negb (current_user_filter_on af) /\
  mt_primary (my_tasks_button_of (handleMyTasksClick af) cache uid) = negb (current_user_filter_on af).
Proof.
  enough (E : current_user_filter_on (handleMyTasksClick af) = negb (current_user_filter_on af)) by done.
  unfold handleMyTasksClick. destruct (current_user_filter_on af) eqn:E; cbn [negb].
  - apply not_true_iff_false. rewrite current_user_filter_on_spec, handleFilterChange_uncheck_members.
    naive_solver.
  - apply current_user_filter_on_spec, handleFilterChange_check_members. by right.
Qed.

(** C21: pressing My Tasks twice gives back the table of before. *)
Theorem my_tasks_twice `{JsEngine} (items : list item) (allcols : list board_column)
    (cols : list table_column) (af : filters) (sorting : sort_state) (cache : gmap string cached_user)
    (uid : option string) :
  compute_view items allcols cols (handleMyTasksClick (handleMyTasksClick af)) sorting cache uid =
  compute_view items allcols cols af sorting cache uid.
Proof.
  apply compute_view_proper; [|done..]. intros k v.
  destruct (decide ("true" ∈ default [] (af !! current_user_key))) as [Hin|Hnin].
  - rewrite (my_tasks_on af) by done. rewrite (my_tasks_off (handleFilterChange _ _ _ _)).
    + rewrite handleFilterChange_check_members, handleFilterChange_uncheck_members. cu_cases.
    + rewrite handleFilterChange_uncheck_members. naive_solver.
  - rewrite (my_tasks_off af) by done. rewrite (my_tasks_on (handleFilterChange _ _ _ _)).
    + rewrite handleFilterChange_uncheck_members, handleFilterChange_check_members. cu_cases.
    + apply handleFilterChange_check_members. by right.
Qed.

(** C19: every render of a mounted [TaskTable] calls the same hooks: App
    mounts it only with a non-empty [boardItems] (the array it receives),
    so the hooks [HeaderRenderer] calls under a condition are always
    called, and the table's own [EmptyState] is never shown. *)
Theorem mounted_task_table_hooks `{JsEngine} (isAppLoading : bool) (appError : option string)
    (isSidebarOpen isLoadingColumns isLoadingItems : bool) (columnsError itemsError : option string)
    (sel colsel : list string) (boardItems available : list json) (label : string)
    (errs ids : list string) (tcols jitems : list json)
    (date_label : Z -> string) (base : string) (es : edit_state) (cache : gmap string cached_user)
    (af : filters) (sorting : sort_state) (uid openId : option string) (allcols : list board_column)
    (items : list item) :
  render_app isAppLoading appError isSidebarOpen isLoadingColumns isLoadingItems columnsError itemsError
    sel colsel boardItems available = Main label (MainContent errs (ShowTable ids tcols jitems)) ->
  length items = length jitems ->
  TaskTable_hooks items = task_table_hooks ++ header_hooks /\
  tt_body (TaskTable date_label base es cache af sorting uid openId ids allcols items) <> EmptyState.
Proof.
  intros Hr Hlen. apply render_app_table_guard_gen in Hr as (_ & _ & _ & _ & _ & _ & _ & Hne & _).
  destruct items as [|it items]; [destruct jitems; [done | discriminate] |]. done.
Qed.

(** ** Witnesses *)

Lemma header_active_is_clear_witness :
  tc_id ex_status_meta <> current_user_key /\
  hc_active (header_cell_of None ex_filters None None [] ex_status_meta) =
  fd_clear (renderFilterDialogContent ex_filters None [] ex_status_meta).
Proof.
  assert (H : tc_id ex_status_meta <> current_user_key) by discriminate.
  split; [exact H | exact (header_active_is_clear _ _ _ _ _ _ H)].
Defined.

Lemma mounted_task_table_hooks_witness :
  render_app false None false false false None None ["b1"] ["c1"] [JObj []] [] =
    Main "Open Settings" (MainContent [] (ShowTable [] [] [JObj []])) /\
  length [ex_item] = length [JObj []] /\
  TaskTable_hooks [ex_item] = task_table_hooks ++ header_hooks /\
  tt_body (TaskTable (fun _ => "") "https://monday.com" {| editingItemId := None; editedItemName := "" |}
             ∅ ∅ None None None [] [] [ex_item]) <> EmptyState.
Proof.
  assert (Hr : render_app false None false false false None None ["b1"] ["c1"] [JObj []] [] =
    Main "Open Settings" (MainContent [] (ShowTable [] [] [JObj []]))) by reflexivity.
  assert (Hl : length [ex_item] = length [JObj []]) by reflexivity.
  split; [exact Hr|]. split; [exact Hl|].
  exact (mounted_task_table_hooks false None false false false None None ["b1"] ["c1"] [JObj []] []
           "Open Settings" [] [] [] [JObj []] (fun _ => "") "https://monday.com"
           {| editingItemId := None; editedItemName := "" |} ∅ ∅ None None None [] [ex_item] Hr Hl).
Defined.

End ViewFacts.
