(* ===== verification/AppShell.v ===== *)
(** * The shell of App: the sidebar panel and the page body

    What App.jsx ([src/unnamed/part_005]) renders around the table and
    does to the page:
    - the panel that slides in from the right (lines 542-555) and the
      [Sidebar] element inside it, with the props App passes (556-569): the
      selection, the columns offered for the selected boards, and the
      handlers [handleBoardToggle] and [handleColumnToggle] as
      [onBoardToggle] and [onColumnToggle];
    - the effect on [document.body.style.overflow] (lines 451-458), run
      when [isSidebarOpen] changes, with its cleanup.
    The clicks of a checkbox of the sidebar go through App's handlers and
    back into the props of the next render: [field_click] and
    [board_click] compose [Sidebar.Panel.render], the handlers of
    [Selection] and the column list of [Aggregation].  [sidebar_dispatch]
    sends each callback the Sidebar calls to App's handler of
    [Sidebar.Menu]; the Sidebar has no control for [onSelectAllBoards] or
    [onDeselectAllBoards], which App passes as well (lines 568-569). *)

From S2P Require Import Prelude Json Aggregation Selection Sidebar.

Local Set Warnings "-clear-no-such-hyp".

Module Shell.
Import Panel.

(** The [right] of the panel's style: on screen or pushed out (line 546). *)
Definition panel_right (isSidebarOpen : bool) : string := if isSidebarOpen then "0" else "-100%".

(** The props of [<Sidebar ... />] that the panel renders with (lines
    556-569): the selected boards, the columns offered, the selected
    columns.  [allAvailableBoards], [isFetchingAllBoards] and
    [allBoardsFetchError] are passed too, and ignored by the component. *)
Definition sidebar_of_app (panel : panel_state) (selectedBoardIds : list string)
    (available : list json) (selectedColumnIds : list string) : option sidebar_view :=
  render panel selectedBoardIds available selectedColumnIds.

(** A click on the checkbox of field [columnId]: [onChange={() =>
    onColumnToggle(column.id)}] (Sidebar.jsx line 112), bound by App to
    [handleColumnToggle] (line 563), which updates [selectedColumnIds]. *)
Definition field_click (selectedColumnIds : list string) (columnId : string) : list string :=
  handleColumnToggle selectedColumnIds columnId.

(** A click on the checkbox of board [boardId] (Sidebar.jsx line 72, App
    line 560). *)
Definition board_click (selectedBoardIds : list string) (boardId : string) : list string :=
  handleBoardToggle selectedBoardIds boardId.

(** The effect of lines 451-458 on [document.body.style.overflow], and
    its cleanup. *)
Definition overflow_effect (isSidebarOpen : bool) (overflow : string) : string :=
  if isSidebarOpen then "hidden" else "".

Definition overflow_cleanup (overflow : string) : string := "".

(** The overflow after the renders with the values [opens] of
    [isSidebarOpen]: the effect runs on mount and whenever the value
    changes, after the cleanup of its previous run.  [prev] is the value of
    the last run. *)
Fixpoint body_overflow (prev : option bool) (opens : list bool) (overflow : string) : string :=
  match opens with
  | [] => overflow
  | b :: rest =>
      if bool_decide (prev = Some b) then body_overflow prev rest overflow
      else body_overflow (Some b) rest
             (overflow_effect b (match prev with Some _ => overflow_cleanup overflow | None => overflow end))
  end.

(** The callbacks Sidebar.jsx calls: [onBoardToggle] (line 72),
    [onSelectAllColumns] and [onDeselectAllColumns] (lines 86 and 93),
    [onColumnToggle] (line 112). *)
Inductive sidebar_action :=
| OnBoardToggle (boardId : string)
| OnColumnToggle (columnId : string)
| OnSelectAllColumns
| OnDeselectAllColumns.

(** The handler App binds to each callback (lines 560-571):
    [handleBoardToggle] and [handleColumnToggle] update the selection
    through [setSelectedBoardIds(prev => ...)] and
    [setSelectedColumnIds(prev => ...)] (lines 316-322 and 381-387);
    the buttons of the fields call [handleSelectAllColumns] and
    [handleDeselectAllColumns] on the columns [available] for the
    selected boards. *)
Definition sidebar_dispatch (available : list json) (s : Menu.menu_state) (a : sidebar_action)
    : Menu.menu_state :=
  match a with
  | OnBoardToggle b => Menu.set_boards s (board_click (Menu.selectedBoardIds s) b)
  | OnColumnToggle c => Menu.set_columns s (field_click (Menu.selectedColumnIds s) c)
  | OnSelectAllColumns => Menu.handleSelectAllColumns available s
  | OnDeselectAllColumns => Menu.handleDeselectAllColumns s
  end.

(** A sequence of clicks in the sidebar, while the columns offered stay
    [available]. *)
Definition run_sidebar (available : list json) (s : Menu.menu_state) (acts : list sidebar_action)
    : Menu.menu_state :=
  fold_left (sidebar_dispatch available) acts s.

Definition flip_checkbox (key : string) (c : checkbox) : checkbox :=
  if String.eqb (cb_key c) key then
    {| cb_key := cb_key c; cb_label := cb_label c; cb_checked := negb (cb_checked c) |}
  else c.

(** ** Examples *)

Definition ex_panel : panel_state :=
  {| allAccessibleBoards := JArr [JObj [("id", JStr "b1"); ("name", JStr "B1")]];
     loadingBoards := false; boardsError := None |}.

Definition ex_field : json := JObj [("id", JStr "c1"); ("title", JStr "Status")].

Definition ex_field_box : checkbox := {| cb_key := "c1"; cb_label := Some (JStr "Status"); cb_checked := true |}.

Definition ex_view : sidebar_view :=
  {| sv_boards := BoardsList [{| cb_key := "b1"; cb_label := Some (JStr "B1"); cb_checked := true |}];
     sv_loading_fields := false; sv_fields := FieldsList [ex_field_box] |}.

Definition ex_menu : Menu.menu_state := Menu.set_boards (Menu.initial_menu true) ["b1"].

End Shell.

Module ShellFacts.
Import Panel Shell.

Lemma toggle_id_includes (l : list string) (x y : string) :
  (toggle_id l x ∋? y) = if String.eqb y x then negb (l ∋? x) else l ∋? y.
Proof.
  unfold toggle_id. destruct (l ∋? x) eqn:E.
  - by rewrite arr_includes_remove.
  - rewrite arr_includes_app, arr_includes_singleton.
    destruct (String.eqb_spec y x); [apply orb_true_r | apply orb_false_r].
Qed.

(** ** Theorems *)

(** C38: a click on a field of the sidebar, through [onColumnToggle] and
    App's [handleColumnToggle], flips the checkbox of that field in the
    next render of the sidebar and leaves the others as they were. *)
Theorem field_click_flips (panel : panel_state) (sel : list string) (available : list json)
    (colsel : list string) (v : sidebar_view) (cbs : list checkbox) (c : checkbox) :
  sidebar_of_app panel sel available colsel = Some v -> sv_fields v = FieldsList cbs -> c ∈ cbs ->
  exists v', sidebar_of_app panel sel available (field_click colsel (cb_key c)) = Some v' /\
    sv_boards v' = sv_boards v /\ sv_fields v' = FieldsList (map (flip_checkbox (cb_key c)) cbs).
Proof.
  unfold sidebar_of_app, render, field_click, handleColumnToggle. intros Hv Hf _.
  repeat case_match; simplify_eq/=; eexists; (split; [reflexivity|]); split; try done.
  all: cbn [sv_fields]; rewrite map_map; cbn [map]; do 2 f_equal; [|apply map_ext; intros col];
    unfold flip_checkbox; cbn; rewrite toggle_id_includes;
    match goal with |- context [String.eqb ?a ?b] => by destruct (String.eqb_spec a b) as [<-|] end.
Qed.

(** after the renders with the values [b :: bs] of [isSidebarOpen],
    the page body scrolls exactly when the last value is closed. *)
Theorem body_overflow_last (b : bool) (bs : list bool) (overflow : string) :
  body_overflow None (b :: bs) overflow = if List.last (b :: bs) false then "hidden" else "".
Proof.
  assert (Hgen : forall (b0 : bool) (bs : list bool) (o : string), o = (if b0 then "hidden" else "") ->
            body_overflow (Some b0) bs o = if List.last (b0 :: bs) false then "hidden" else "").
  { intros b0 bs'. revert b0. induction bs' as [|b1 bs' IH]; intros b0 o Ho; [done|].
    cbn [body_overflow]. destruct (bool_decide (Some b0 = Some b1)) eqn:E.
    - apply bool_decide_eq_true in E. injection E as ->. rewrite IH by done. done.
    - rewrite IH by done. done. }
  cbn [body_overflow]. rewrite bool_decide_false by done. by apply Hgen.
Qed.

(** The fields of the menu that no callback of the Sidebar writes: the
    open flag and the whole state of the board list of the menu. *)
Definition menu_boards_part (s : Menu.menu_state) : bool * json * bool * option string * bool :=
  (Menu.isSidebarOpen s, Menu.allAvailableBoardsForSidebar s, Menu.isFetchingAllBoardsForSidebar s,
   Menu.allBoardsForSidebarFetchError s, Menu.isLoadingColumns s).

Lemma sidebar_dispatch_boards_part (available : list json) (s : Menu.menu_state) (a : sidebar_action) :
  menu_boards_part (sidebar_dispatch available s a) = menu_boards_part s.
Proof.
  destruct a; unfold sidebar_dispatch, Menu.handleSelectAllColumns, Menu.handleDeselectAllColumns,
    Menu.toast; repeat case_match; reflexivity.
Qed.

Lemma render_fields_list (panel : panel_state) (sel : list string) (cols : list json)
    (colsel : list string) (v : sidebar_view) (cbs : list checkbox) :
  render panel sel cols colsel = Some v -> sv_fields v = FieldsList cbs ->
  cbs = map (fun column => {| cb_key := column_key column; cb_label := jget column "title";
                              cb_checked := colsel ∋? column_key column |}) cols.
Proof.
  unfold render. intros Hv Hf. repeat case_match; simplify_eq; cbn [sv_fields] in Hf; by simplify_eq.
Qed.

(** No sequence of clicks in the sidebar opens or closes the menu, fetches
    the list of boards or changes it: the Sidebar offers no control that
    reaches [handleSelectAllBoards], whose fetch is the only writer of
    [allAvailableBoardsForSidebar] besides [toggleSidebar]. *)
Theorem run_sidebar_no_fetch (available : list json) (s : Menu.menu_state) (acts : list sidebar_action) :
  menu_boards_part (run_sidebar available s acts) = menu_boards_part s.
Proof.
  unfold run_sidebar. revert s. induction acts as [|a acts IH]; intros s; [done|].
  cbn [fold_left]. by rewrite IH, sidebar_dispatch_boards_part.
Qed.

(** C31: after a click on [Select All Fields], through
    [onSelectAllColumns] and App's [handleSelectAllColumns], the next render
    of the sidebar checks every field it lists. *)
Theorem select_all_fields_checked (panel : panel_state) (available : list json)
    (s : Menu.menu_state) (v : sidebar_view) (cbs : list checkbox) :
  sidebar_of_app panel (Menu.selectedBoardIds s) available
    (Menu.selectedColumnIds (sidebar_dispatch available s OnSelectAllColumns)) = Some v ->
  sv_fields v = FieldsList cbs -> Forall (fun c => cb_checked c = true) cbs.
Proof.
  assert (Hcols : Menu.selectedColumnIds (sidebar_dispatch available s OnSelectAllColumns)
                  = all_column_ids available).
  { cbn [sidebar_dispatch]. unfold Menu.handleSelectAllColumns, Menu.toast.
    by case_match. }
  rewrite Hcols. unfold sidebar_of_app. intros Hv Hf. rewrite (render_fields_list _ _ _ _ _ _ Hv Hf).
  apply Forall_map, Forall_forall. intros col Hcol.
  apply arr_includes_spec, list_elem_of_In, in_map. by apply list_elem_of_In.
Qed.

(** After [Deselect All Fields], the next render checks none. *)
Theorem deselect_all_fields_unchecked (panel : panel_state) (available : list json)
    (s : Menu.menu_state) (v : sidebar_view) (cbs : list checkbox) :
  sidebar_of_app panel (Menu.selectedBoardIds s) available
    (Menu.selectedColumnIds (sidebar_dispatch available s OnDeselectAllColumns)) = Some v ->
  sv_fields v = FieldsList cbs -> Forall (fun c => cb_checked c = false) cbs.
Proof.
  assert (Hcols : Menu.selectedColumnIds (sidebar_dispatch available s OnDeselectAllColumns) = []).
  { cbn [sidebar_dispatch]. unfold Menu.handleDeselectAllColumns, Menu.toast.
    by case_match. }
  rewrite Hcols. unfold sidebar_of_app. intros Hv Hf. rewrite (render_fields_list _ _ _ _ _ _ Hv Hf).
  by apply Forall_map, Forall_true.
Qed.

(** ** Witnesses *)

Lemma field_click_flips_witness :
  sidebar_of_app ex_panel ["b1"] [ex_field] ["c1"] = Some ex_view /\
  sv_fields ex_view = FieldsList [ex_field_box] /\ ex_field_box ∈ [ex_field_box] /\
  exists v', sidebar_of_app ex_panel ["b1"] [ex_field] (field_click ["c1"] (cb_key ex_field_box)) = Some v' /\
    sv_boards v' = sv_boards ex_view /\
    sv_fields v' = FieldsList (map (flip_checkbox (cb_key ex_field_box)) [ex_field_box]).
Proof.
  assert (H1 : sidebar_of_app ex_panel ["b1"] [ex_field] ["c1"] = Some ex_view) by reflexivity.
  assert (H2 : sv_fields ex_view = FieldsList [ex_field_box]) by reflexivity.
  assert (H3 : ex_field_box ∈ [ex_field_box]) by left.
  split_and!; [exact H1 | exact H2 | exact H3 | exact (field_click_flips _ _ _ _ _ _ _ H1 H2 H3)].
Defined.

Lemma select_all_fields_checked_witness :
  sidebar_of_app ex_panel (Menu.selectedBoardIds ex_menu) [ex_field]
    (Menu.selectedColumnIds (sidebar_dispatch [ex_field] ex_menu OnSelectAllColumns)) = Some ex_view /\
  sv_fields ex_view = FieldsList [ex_field_box] /\ Forall (fun c => cb_checked c = true) [ex_field_box].
Proof.
  assert (H1 : sidebar_of_app ex_panel (Menu.selectedBoardIds ex_menu) [ex_field]
    (Menu.selectedColumnIds (sidebar_dispatch [ex_field] ex_menu OnSelectAllColumns)) = Some ex_view)
    by reflexivity.
  assert (H2 : sv_fields ex_view = FieldsList [ex_field_box]) by reflexivity.
  split_and!; [exact H1 | exact H2 | exact (select_all_fields_checked _ _ _ _ _ H1 H2)].
Defined.

End ShellFacts.
